(* ===== verification/_CoqProject ===== *)
-Q . S2P
Prelude.v
DateTime.v
Schedule.v
Hardware.v
State.v
Window.v
Occurrence.v
NextEvent.v
Alarm.v
Wake.v
ScheduleSet.v
ScheduleMap.v
Policy.v
Observe.v
TimeZone.v
DayNames.v
Persist.v
Api.v
ApiMap.v
Report.v
Guards.v
Temperature.v
FloatText.v
Logging.v
Logged.v
Queries.v
GuardedApi.v
Journal.v
HotWater.v
HotWaterRun.v
Basic.v
Uptime.v
Tasks.v
UnitTests.v
