(* ===== verification/Prelude.v ===== *)
(** * DS3231Controller: a verification development

    The program is an ESP32 library, [src/src/DS3231Controller.cpp] with its
    header (the class [DS3231Controller]), that layers a scheduling and
    time-policy engine over a DS3231 real-time clock read through Adafruit's
    RTClib, its logging macros ([DS3231ControllerLogging.h]), two example
    sketches that use it, and a program of unit tests.  The library keeps up to
    ten daily time windows ("schedules") with a day-of-week mask, a vacation
    range that suppresses them, a monthly pump exercise, programs the
    clock's alarm 1 for the next window start, and saves and restores all of
    this in a byte buffer.  The sketch [hot_water_timer.ino] drives a relay
    from it.

    ** Files, in dependency order

    - [Prelude] (this file): machine integers as [Z] with their wrap-around
      ([wrap], [u8], [u16], [u32]), bit masks, the error values of the
      facade ([Error], [Status]), the [check ... orelse ... ;; ...] notation
      for the early returns of the C++ methods (scope [ctl_scope]), the
      running minimum of the two search loops ([min_step], [min_of]), the
      tactics [zdiv], [bprop], [zcases] and [by_compute], the lemma
      [forall_below] for proofs by enumeration, and the hint databases
      [rtc] ([auto]) and [rtc_rw] ([autorewrite]).
    - [DateTime]: RTClib's [DateTime] and [TimeSpan], which the repository
      only calls.  The record has RTClib's six fields; [date2days],
      [unixtime], [DateTime_of_epoch] (the constructor from seconds, with its
      year and month loops), [dayOfTheWeek], [isValid] and the comparison
      operators follow the library.  Theorems: the epoch round trip, field
      ranges of valid timestamps, agreement of the field-wise order with the
      epoch order, and the weekday of a date so many days later.
    - [Schedule]: the structs [Schedule] (with [isDayEnabled] and [setDay]),
      [PumpExercise] and [VacationMode] of the header, and the theory of the
      day mask.
    - [Hardware]: what the controller needs of its two collaborators, as
      interfaces: the class [RtcDevice] (the calls made on [RTC_DS3231]:
      [begin], [lostPower], [adjust], [now] and the two alarms) with its
      laws, a simulated clock [SimRtc] that implements it, and the
      recursive mutex behind [RecursiveMutexGuard], seen from a task.
    - [State]: the fields of [DS3231Controller] as the record [Controller],
      the constructor, [begin], [setTime], [now], [isRunning], and the
      well-formedness invariant [wf].
    - [Window]: [isTimeInRange], [isWithinSchedule], [isWithinAnySchedule],
      [getCurrentActiveSchedule]; their behaviour on every branch, the
      midnight-span and empty-window properties, the vacation override.
    - [Occurrence]: [calculateNextOccurrence] (the eight-day search),
      [getNextScheduledStart], and the definitions of
      [getNextScheduledEnd] and [getSecondsUntilNextEvent]; the search
      finds the earliest start strictly after [from] within eight days
      whenever a weekday is enabled.
    - [NextEvent]: the theory of [getNextScheduledEnd] and
      [getSecondsUntilNextEvent]: the minimum over the active schedules,
      and the relation of the end computed to the moment the window
      closes.
    - [Alarm]: [setAlarm1], [setAlarm2], [clearAlarm], [isAlarmFired],
      [acknowledgeAlarm], [setAlarmForNextSchedule].
    - [Wake]: the planned alarm on the simulated chip as its clock runs
      through a sequence of times ([tick], [ticks]): the alarm has fired
      once the clock has passed the planned start, it is silent in the day
      before, and, the mode being [DS3231_A1_Hour], it fires daily at the
      start's time of day; alarm 2, which [setAlarm2] programs in the mode
      [DS3231_A2_Minute], fires every hour at the minute it was given.
    - [ScheduleSet]: [getNextFreeScheduleId], [addSchedule],
      [updateSchedule], [removeSchedule], [getSchedule],
      [clearAllSchedules]; capacity, id allocation, the effect of each
      operation on the set, that each re-plans alarm 1, and that the
      loop of [getNextFreeScheduleId] ends within as many turns as there
      are schedules.
    - [ScheduleMap]: what the schedule set promises, as a finite map from
      ids to schedules with the transition relation [abs_step], and the
      refinement: each operation of [ScheduleSet], and each run of them,
      is a step, or a run, of the map ([represents]).
    - [Policy]: [setVacationMode], [isVacationMode], [setPumpExercise],
      [isPumpExerciseTime], [markPumpExerciseComplete]; what vacation
      suppresses, and the once-per-month rule of the exercise.
    - [Observe]: the equivalence [same_view] of controllers that agree on
      what the queries read, with the queries as morphisms; the alarm
      operations do not leave an equivalence class, so they change no
      answer.
    - [TimeZone]: [setTimeFromUTC] and [nowUTC] with their 32-bit epoch
      arithmetic; the round trip and the accepted range.
    - [DayNames]: [dayOfWeekStr], [dayOfWeekFromStr], [formatDayMask].
    - [Persist]: [getScheduleDataSize], [serializeSchedules],
      [deserializeSchedules] on buffers that are lists of bytes; the
      image written, its bounds, the round trip, the header checks and the
      reads outside the buffer.  The sizes of [Schedule] and [String] are
      the parameters of the class [Layout].
    - [Api]: the methods that change the object as the type [Action],
      one constructor per declaration of the header, dispatched by
      [perform]; the states reachable by calls and by the chip moving on
      ([api_step], [api_reachable]).  For every method at once: the
      object stays well formed and the lock free between calls, a call
      that fails changes nothing, [_initialized] is never reset, and the
      chip is written only under the lock and only after [begin].
    - [ApiMap]: the refinement of [ScheduleMap] extended to the whole
      interface: a program of any calls but [deserializeSchedules]
      refines the run of its set operations on the abstract map.
    - [Report]: [getFormattedTime], [getFormattedDate],
      [getScheduleStatus], [isBatteryBackupEnabled], [syncSystemTime],
      over a model of [printf]'s [%d] with zero padding.
    - [Guards]: the methods that nest guards once more with their
      [RecursiveMutexGuard] written out: a method is a function that
      passes the object along ([Locking]), [guard] takes the lock, runs
      the block on the object with the lock taken and gives the lock
      back, and a nested call meets the mutex as its caller holds it, up
      to three guards deep.  The mutex is the interface [Lock], with the
      recursive mutex of the library and a mutex that is not recursive
      as its implementations.  With the recursive mutex every method
      returns what its model returns and leaves the mutex as it was;
      with the other one [isWithinAnySchedule] always answers false.
    - [Temperature]: [getTemperature], [getTemperatureCelsius] and the
      four methods that answer with a constant, over IEEE 754 numbers;
      the class [Thermometer] for the chip's sensor; the Fahrenheit value
      is correctly rounded for every reading.
    - [FloatText]: [printf]'s [%.1f] and [%.2f] and Arduino's
      [Print::printFloat] on doubles; both print every reading of the
      chip exactly, and [%.2f] prints the exact Fahrenheit conversion.
    - [Logging]: the macros of [DS3231ControllerLogging.h] for the four
      builds ([DS3231_DEBUG], [USE_CUSTOM_LOGGER]), and
      [printDiagnostics] as the list of lines it logs.
    - [Logged]: a method that logs, as a value of a writer monad: the
      result with the calls of the logging macros in order ([Logged],
      [tell]); what a release and a debug build write of them
      ([written]).
    - [Queries]: the methods that answer without changing the object as
      the type [Query], dispatched by [ask]; a query reads the chip only
      under the lock and, [isRunning] apart, only after [begin].
    - [GuardedApi]: the rest of the interface with its guards (the
      alarms, the temperature, the formatted clock, [syncSystemTime],
      [printDiagnostics], and the methods that take no lock themselves
      and call a guarded one), and the dispatchers [perform_locking] and
      [ask_locking].  With the recursive mutex every call and every
      query is the one of [Api] and [Queries], so is every program of
      calls, and no sequence of calls leaves the lock taken.
    - [Journal]: every method of the library once more with its log
      statements, 77 in all, with their texts and [printf] conversions
      ([begin_logged], ...), dispatched by [perform_logged] and
      [ask_logged]; the log of a program ([journal]).  Erasing the log
      gives the models of the other files; no call returns [false]
      without an error or a warning as its last line, and the text of
      that line is the one of the error the model returns; the three
      [void]
      methods that can fail say so in the log only; a successful
      [addSchedule] can end on the error of its planning call.
    - [HotWater]: the sketch [hot_water_timer.ino]: its globals and pins
      as the record [App], [setup], [loop] with its phases, the heater
      switch and the serial commands; the theory of one iteration.
    - [HotWaterRun]: the running sketch as a transition system ([step],
      [reachable], [run]), its invariant, and what the schedules written
      in [setupSchedules] mean on a Saturday.
    - [Basic]: the sketch [basic.ino]: [setup], [loop] with its periodic
      report and its two commands, as a transition system; in every
      reachable state the answer of [isWithinAnySchedule] is the test of
      the clock against 09:00 to 17:00.
    - [Uptime]: the counter [millis()] of the sketches, an
      [unsigned long] that wraps around after 49.7 days, against the
      uptime that really passed ([Tick], [stamp], [last_report]): the
      periodic report of both sketches is the one a clock without
      wrap-around would make, and is never overdue by more than the
      interval and the longest pause between two iterations.
    - [Tasks]: several tasks on one controller, preempted between the
      statements of [markPumpExerciseComplete] (guarded), of
      [addSchedule] and of [setVacationMode] (not guarded), as a
      transition system with a program counter per task; mutual
      exclusion inside the guard, what two concurrent calls of
      [addSchedule] can do to the set, what a reader sees between the
      assignments of [setVacationMode], and progress: every call returns
      within its own steps, and a schedule that gives every task its
      steps leaves the lock free.
    - [UnitTests]: the test program (Unity): its assertion macros, its 25
      tests and [runAllTests] with Unity's two counters; run on the
      model, every test passes, whatever the uninitialised locals hold.

    ** How the model corresponds to the code

    Integers are [Z]; a value stored in a [uint8_t], [uint16_t] or
    [uint32_t] is wrapped where the C++ stores it, and the invariants say
    which fields are in range.  A C++ method that reads or changes the
    object is a function from [Controller] (and the calling task) to its
    result, paired with the new [Controller] when it changes anything.  A
    [const] method that takes the lock leaves the object as it found it (the
    guard releases what it took, [Hardware.Mutex.give_take]), so it is a
    function to its result only, and its lock acquisition is the test
    [Mutex.lockable].  That this loses nothing is proved in [Guards]
    and, for the whole interface, in [GuardedApi], where the guards take
    and give the mutex and nest as in the code
    ([GuardedApi.perform_locking_transparent],
    [GuardedApi.ask_locking_transparent]).
    Every guard and early return of a method is a [check]
    of its definition, in the order of the code.  A method that returns
    [bool] returns a [Status] here: [OK] for [true], and [Failed e] for
    [false], where [e] names the early return that was taken (the C++ only
    logs the difference, and [Journal.failure_is_explained] checks each
    [e] against the message logged); [succeeded] gives back the [bool].

    The clock does not advance inside one method call: the several
    [_rtc.now()] reads of one call see one time.  Time passes between calls;
    in the sketch it passes during [delay], by a function of the chip that
    the theorems leave arbitrary.  The two readings of [millis()] in an
    iteration of a sketch are inputs of the iteration ([LoopInput]);
    [Uptime] takes them from an uptime in milliseconds that is not
    bounded, reduced to 32 bits.

    A [float] or [double] is a [spec_float] of the standard library, with
    the operations at the format's precision (24 bits and 53 bits).  A
    [float] passed to [printf] or to [Serial.print] is promoted to
    [double] first ([to_double]), as in C.

    A log is the list of the lines written.  The log of a method is kept
    apart from its effect on the object: the models of the components
    return the result and the object, the same methods in [Journal]
    return the result, the object and the macro calls made, and
    [Journal.calls_logged_erasure] relates the two.  Which of the calls
    reach the log depends on the build ([Logged.written]).  The custom
    logger that a build may route the macros to is not code of the
    repository: it is a variable of the section in [Logging], and each
    theorem states what it assumes of it.  A unit test is the list of the outcomes of its
    assertions, in order, and a local that the test leaves uninitialised
    is an argument of the test.

    The public interface is modelled twice: method by method, in the file
    of its component, and as a whole in [Api] and [Queries], where a call
    is a value ([Action], [Query]) and a program is a list of calls.  The
    chip changing between two calls (time passing, an alarm flag set) is
    the action [Chip].

    Strings are [string]; a buffer is a list of bytes, and a read that
    leaves it is the outcome [None] of [deserializeSchedules].  What the
    sketch prints and writes to the relay pin is a trace in its state.

    ** Bounds and fuel

    The loops of the code are bounded and are structural recursions here:
    [search_days] runs the eight days of [calculateNextOccurrence];
    [free_id_loop] has fuel 254, one step for each id from 1 to 254, after
    which the code's [do-while] stops as well; [decimal] prints ten digits,
    which covers every 32-bit value ([Report.number_decimal]); the loops
    over the schedules are folds over the list.  Theorems on timestamps
    assume the years 2000 to 2099 that [isValid] accepts, and those that
    add days stay a week or two below the end of 2099 ([searchable],
    [endable]).  The theorems on the temperature and on its printing
    enumerate the 1024 values the two register bytes can encode, and
    those on concurrent callers hold for any number of tasks and any
    schedule of them.  [ScheduleSet.getNextFreeScheduleId_terminates]
    shows that the fuel of [free_id_loop] is never what ends the loop;
    [Tasks.call_returns] bounds the steps of a call by the statements it
    has left, four at most.  The theorems of [Uptime] hold for runs of any
    length and any uptime; they ask that two iterations of [loop] are
    less than 2^31 ms apart less half the interval, so that the time
    since the last report stays below one turn of the counter.  The
    longest pause the sketch makes is the pump exercise, [delay] of at
    most 65 535 000 ms.

    ** What is not modelled

    The two prose files of the repository, the change log and the notes
    for contributors, hold no code.  The destructor of the class deletes
    the mutex, after which there is no object to speak of, and a
    constructor whose [xSemaphoreCreateRecursiveMutex] returns no mutex
    leaves an object whose behaviour depends on what [RecursiveMutexGuard]
    does with a null handle; that class and FreeRTOS are not code of the
    repository, so the mutex of a [Controller] always exists.  For the
    same reason the components [TimeSource] and [Lock] stay interfaces
    with laws and a simulated implementation: RTClib, the chip and the
    semaphore are called by the repository and not part of it, and what
    is taken of them is what their documentation says.  The traces
    of the sketches hold what the sketch prints, not the log of the
    library, which is in [Journal].  [setup] and [loop] of the test
    program only call [runAllTests] after a delay.  The I2C bus itself is
    behind [RtcDevice] and [Thermometer].

    [checkScheduleTransitions] and [checkAlarms] are declared in the
    header and defined nowhere, and nothing calls the schedule callback:
    there is no code of them to model.

    Outside [Tasks], which cuts three methods into their statements, tasks
    do not interleave inside a method: a task either gets the lock for
    the whole call or fails at once.  [updateSchedule] and
    [removeSchedule] walk and change the vector without a lock; two
    tasks inside them at once is a data race on a [std::vector], whose
    outcome C++ does not define, so they are not cut into statements.  The wait of a guard for the lock
    has no duration: a task that finds the lock held is either not
    scheduled or gives up. *)

From Stdlib Require Export ZArith Lia List Bool.
From stdpp Require Export base tactics decidable option list.

#[global] Open Scope Z_scope.

(** ** Early returns

    [check b orelse r ;; k] is the C++ [if (!b) return r; k]. *)

Declare Scope ctl_scope.
Delimit Scope ctl_scope with ctl.

Notation "'check' b 'orelse' r ;; k" := (if b then k else r)
  (at level 10, b at level 99, r at level 99, k at level 200,
   only parsing) : ctl_scope.

#[global] Open Scope ctl_scope.

(** ** Errors of the facade

    The methods of the controller return [bool].  Each [return false] of the
    code is one of these causes. *)

Inductive Error : Type :=
  | NotInitialized
  | LockUnavailable
  | InvalidArgument
  | CapacityExceeded
  | NotFound
  | NoUpcomingEvent
  | BadMagic
  | UnsupportedVersion
  | TooManySchedules
  | InvalidEpoch
  | InvalidConversion
  | HardwareFailure.

Inductive Status : Type :=
  | OK
  | Failed (e : Error).

Definition succeeded (s : Status) : bool :=
  match s with OK => true | Failed _ => false end.

#[export] Instance Error_eq_dec : EqDecision Error.
Proof. solve_decision. Defined.

#[export] Instance Status_eq_dec : EqDecision Status.
Proof. solve_decision. Defined.

(** ** Machine integers *)

Definition wrap (w z : Z) : Z := z mod 2 ^ w.

Definition u8 (z : Z) : Z := wrap 8 z.
Definition u16 (z : Z) : Z := wrap 16 z.
Definition u32 (z : Z) : Z := wrap 32 z.

Definition fits (w z : Z) : Prop := 0 <= z < 2 ^ w.

#[export] Instance fits_dec w z : Decision (fits w z).
Proof. unfold fits. apply _. Defined.

(** The bit [1 << i] of a mask. *)
Definition bit (i : Z) : Z := Z.shiftl 1 i.

(** ** Tactics *)

(** Goals with [/] and [mod] by constants. *)
Ltac zdiv := Z.to_euclidean_division_equations; lia.

(** Boolean tests of the code to the propositions they decide. *)
Ltac bprop :=
  repeat match goal with
  | H : _ && _ = true |- _ => apply andb_true_iff in H; destruct H
  | H : _ || _ = false |- _ => apply orb_false_iff in H; destruct H
  | H : negb _ = true |- _ => apply negb_true_iff in H
  | H : negb _ = false |- _ => apply negb_false_iff in H
  | H : (_ <? _) = true |- _ => apply Z.ltb_lt in H
  | H : (_ <? _) = false |- _ => apply Z.ltb_ge in H
  | H : (_ <=? _) = true |- _ => apply Z.leb_le in H
  | H : (_ <=? _) = false |- _ => apply Z.leb_gt in H
  | H : (_ =? _) = true |- _ => apply Z.eqb_eq in H
  | H : (_ =? _) = false |- _ => apply Z.eqb_neq in H
  | H : (_ >=? _) = true |- _ => rewrite Z.geb_leb in H
  | H : (_ >=? _) = false |- _ => rewrite Z.geb_leb in H
  | H : (_ >? _) = true |- _ => rewrite Z.gtb_ltb in H
  | H : (_ >? _) = false |- _ => rewrite Z.gtb_ltb in H
  end.

(** Case analysis on every boolean comparison of the goal. *)
Ltac zcases :=
  repeat match goal with
  | |- context [?a <? ?b] => destruct (Z.ltb_spec a b)
  | |- context [?a <=? ?b] => destruct (Z.leb_spec a b)
  | |- context [?a =? ?b] => destruct (Z.eqb_spec a b)
  end.

(** A decidable proposition about concrete data is proved by running its
    decision procedure. *)
Ltac by_compute :=
  match goal with |- ?P => apply (@bool_decide_unpack P _); vm_compute; exact I end.

Create HintDb rtc discriminated.
Create Rewrite HintDb rtc_rw.

(** ** Lemmas on wrap-around *)

Lemma wrap_range w z : 0 <= w -> fits w (wrap w z).
Proof.
  intros Hw. unfold fits, wrap. apply Z.mod_pos_bound.
  apply Z.pow_pos_nonneg; lia.
Qed.

Lemma wrap_small w z : fits w z -> wrap w z = z.
Proof. unfold fits, wrap. intros H. apply Z.mod_small. exact H. Qed.

Lemma wrap_wrap w z : wrap w (wrap w z) = wrap w z.
Proof. unfold wrap. apply Zmod_mod. Qed.

Lemma wrap_add_l w a b : wrap w (wrap w a + b) = wrap w (a + b).
Proof. unfold wrap. apply Zplus_mod_idemp_l. Qed.

Lemma wrap_sub_l w a b : wrap w (wrap w a - b) = wrap w (a - b).
Proof. unfold wrap. apply Zminus_mod_idemp_l. Qed.

Lemma u8_range z : 0 <= u8 z < 256.
Proof. apply (wrap_range 8 z). lia. Qed.

Lemma u16_range z : 0 <= u16 z < 65536.
Proof. apply (wrap_range 16 z). lia. Qed.

Lemma u32_range z : 0 <= u32 z < 4294967296.
Proof. apply (wrap_range 32 z). lia. Qed.

Lemma u8_small z : 0 <= z < 256 -> u8 z = z.
Proof. apply (wrap_small 8 z). Qed.

Lemma u16_small z : 0 <= z < 65536 -> u16 z = z.
Proof. apply (wrap_small 16 z). Qed.

Lemma u32_small z : 0 <= z < 4294967296 -> u32 z = z.
Proof. apply (wrap_small 32 z). Qed.

Lemma u8_u8 z : u8 (u8 z) = u8 z.
Proof. apply wrap_wrap. Qed.

Lemma u16_u16 z : u16 (u16 z) = u16 z.
Proof. apply wrap_wrap. Qed.

Lemma u32_u32 z : u32 (u32 z) = u32 z.
Proof. apply wrap_wrap. Qed.

Lemma u32_add_l a b : u32 (u32 a + b) = u32 (a + b).
Proof. apply wrap_add_l. Qed.

Lemma u32_sub_l a b : u32 (u32 a - b) = u32 (a - b).
Proof. apply wrap_sub_l. Qed.

Lemma u32_sub_r a b : u32 (a - u32 b) = u32 (a - b).
Proof. unfold u32, wrap. apply Zminus_mod_idemp_r. Qed.

(** The difference of two readings of a 32-bit counter is the time
    between them, when that is less than one turn of the counter: the
    wrap-around of the subtraction undoes the wrap-around of the counter. *)
Lemma u32_elapsed t0 t : 0 <= t - t0 < 4294967296 -> u32 (u32 t - u32 t0) = t - t0.
Proof. intros Hd. rewrite u32_sub_l, u32_sub_r. apply u32_small, Hd. Qed.

(** Adding an offset and taking it away again, both in 32 bits, gives the
    value back: the two wrap-arounds cancel. *)
Lemma u32_add_sub a b : u32 (u32 (a + b) - b) = u32 a.
Proof. rewrite u32_sub_l. f_equal. lia. Qed.

#[export] Hint Rewrite wrap_wrap u8_u8 u16_u16 u32_u32 : rtc_rw.
#[export] Hint Rewrite u8_small u16_small u32_small using lia : rtc_rw.
#[export] Hint Resolve u8_range u16_range u32_range : rtc.

(** ** Lemmas on bit masks *)

Lemma bit_pow2 i : 0 <= i -> bit i = 2 ^ i.
Proof. intros H. unfold bit. rewrite Z.shiftl_mul_pow2 by lia. lia. Qed.

Lemma testbit_bit i j : 0 <= i -> Z.testbit (bit i) j = (i =? j).
Proof. intros H. rewrite bit_pow2 by lia. apply Z.pow2_bits_eqb. exact H. Qed.

(** [(mask & (1 << i)) != 0] reads bit [i] of the mask. *)
Lemma land_bit_testbit m i :
  0 <= i -> negb (Z.land m (bit i) =? 0) = Z.testbit m i.
Proof.
  intros Hi. destruct (Z.testbit m i) eqn:Hb.
  - apply negb_true_iff, Z.eqb_neq. intros H0.
    apply (f_equal (fun z => Z.testbit z i)) in H0.
    rewrite Z.land_spec, Hb, testbit_bit, Z.eqb_refl, Z.bits_0 in H0 by lia.
    discriminate.
  - apply negb_false_iff, Z.eqb_eq, Z.bits_inj'. intros j Hj.
    rewrite Z.land_spec, testbit_bit, Z.bits_0 by lia.
    destruct (Z.eqb_spec i j) as [->|]; [rewrite Hb|]; auto using andb_false_r.
Qed.

(** A mask with no bit below [n] set has none of the first [n] tests true,
    and conversely. *)
Lemma land_ones_0_testbit m n :
  0 <= n -> (Z.land m (Z.ones n) = 0 <-> forall i, 0 <= i < n -> Z.testbit m i = false).
Proof.
  intros Hn. split.
  - intros H i Hi. apply (f_equal (fun z => Z.testbit z i)) in H.
    rewrite Z.land_spec, Z.ones_spec_low, Z.bits_0, andb_true_r in H by lia. exact H.
  - intros H. apply Z.bits_inj'. intros i Hi. rewrite Z.land_spec, Z.bits_0.
    destruct (Z.lt_ge_cases i n).
    + rewrite H by lia. reflexivity.
    + rewrite Z.ones_spec_high by lia. apply andb_false_r.
Qed.

(** ** Lemmas on lists *)

Lemma find_app {A} (p : A -> bool) l1 l2 :
  find p (l1 ++ l2) = match find p l1 with Some x => Some x | None => find p l2 end.
Proof. induction l1 as [|a l1 IH]; simpl; [reflexivity|]. destruct (p a); auto. Qed.

Lemma find_none_iff {A} (p : A -> bool) l :
  find p l = None <-> forall x, In x l -> p x = false.
Proof.
  split; [apply find_none|]. induction l as [|a l IH]; simpl; intros H; [reflexivity|].
  rewrite (H a) by auto. apply IH. intros x Hx. apply H. auto.
Qed.

Lemma existsb_false_iff {A} (p : A -> bool) l :
  existsb p l = false <-> forall x, In x l -> p x = false.
Proof.
  induction l as [|a l IH]; simpl.
  - split; [intros _ x []|reflexivity].
  - rewrite orb_false_iff, IH. split.
    + intros [Ha H] x [<-|Hx]; auto.
    + intros H. split; [|intros x Hx]; apply H; auto.
Qed.

Lemma fold_left_map {A B C} (f : A -> C -> A) (g : B -> C) l a :
  fold_left f (map g l) a = fold_left (fun acc x => f acc (g x)) l a.
Proof. revert a. induction l as [|x l IH]; intros a; simpl; auto. Qed.

Lemma fold_left_ext_in {A B} (f g : A -> B -> A) l a :
  (forall acc x, In x l -> f acc x = g acc x) -> fold_left f l a = fold_left g l a.
Proof.
  revert a. induction l as [|x l IH]; intros a Hfg; simpl; [reflexivity|].
  rewrite Hfg by (left; reflexivity). apply IH. intros acc y Hy. apply Hfg. right. exact Hy.
Qed.

(** ** A running minimum with a found flag

    The loops that look for the soonest event keep a candidate and a flag
    [found]; an item replaces the candidate when nothing was found yet or
    when it is less.  Items the loop skips are [None]. *)

Definition min_step {A} (ltb : A -> A -> bool) (acc : A * bool) (v : option A) : A * bool :=
  match v with
  | Some x => if negb (snd acc) || ltb x (fst acc) then (x, true) else acc
  | None => acc
  end.

Section RunningMin.

Context {A : Type} (key : A -> Z) (ltb : A -> A -> bool) (P : A -> Prop).

Hypothesis ltb_key : forall x y, P x -> P y -> ltb x y = (key x <? key y).

(** The accumulator is a minimum of the items [seen] so far. *)
Definition min_of (seen : list (option A)) (acc : A * bool) : Prop :=
  if snd acc
  then P (fst acc) /\ In (Some (fst acc)) seen
       /\ forall x, In (Some x) seen -> key (fst acc) <= key x
  else forall x, ~ In (Some x) seen.

Lemma min_step_min_of seen acc v :
  (forall x, v = Some x -> P x) -> min_of seen acc ->
  min_of (seen ++ [v]) (min_step ltb acc v).
Proof.
  unfold min_of, min_step. intros HP Hacc. destruct v as [x|].
  - specialize (HP x eq_refl). destruct (snd acc) eqn:Hf; simpl.
    + destruct Hacc as (Hp & Hin & Hmin). rewrite ltb_key by assumption.
      destruct (Z.ltb_spec (key x) (key (fst acc))); simpl; [|rewrite Hf].
      * split; [exact HP|]. split; [apply in_or_app; right; left; reflexivity|].
        intros y [Hy | [[= <-] | []]]%in_app_or; [specialize (Hmin y Hy)|]; lia.
      * split; [exact Hp|]. split; [apply in_or_app; left; exact Hin|].
        intros y [Hy | [[= <-] | []]]%in_app_or; [apply Hmin; exact Hy | lia].
    + split; [exact HP|]. split; [apply in_or_app; right; left; reflexivity|].
      intros y [Hy | [[= <-] | []]]%in_app_or; [destruct (Hacc y Hy) | lia].
  - destruct (snd acc).
    + destruct Hacc as (Hp & Hin & Hmin). split; [exact Hp|].
      split; [apply in_or_app; left; exact Hin|].
      intros y [Hy | [[=] | []]]%in_app_or. apply Hmin. exact Hy.
    + intros y [Hy | [[=] | []]]%in_app_or. apply (Hacc y Hy).
Qed.

Lemma fold_min_step_min_of l : forall seen acc,
  (forall x, In (Some x) l -> P x) -> min_of seen acc ->
  min_of (seen ++ l) (fold_left (min_step ltb) l acc).
Proof.
  induction l as [|v l IH]; intros seen acc HP Hacc; simpl.
  - rewrite app_nil_r. exact Hacc.
  - replace (seen ++ v :: l) with ((seen ++ [v]) ++ l) by (rewrite <- app_assoc; reflexivity).
    apply IH; [intros x Hx; apply HP; right; exact Hx|].
    apply min_step_min_of; [intros x ->; apply HP; left; reflexivity | exact Hacc].
Qed.

(** The loop from nothing found: its result is a least item, if there is
    any item, and the initial candidate otherwise. *)
Lemma fold_min_step_spec l dflt :
  (forall x, In (Some x) l -> P x) ->
  let r := fold_left (min_step ltb) l (dflt, false) in
  min_of l r /\ (snd r = false -> fst r = dflt).
Proof.
  intros HP r. split.
  - apply (fold_min_step_min_of l [] (dflt, false) HP). intros x [].
  - subst r. clear HP. assert (G : forall acc, snd (fold_left (min_step ltb) l acc) = false ->
        fold_left (min_step ltb) l acc = acc).
    { induction l as [|v l IH]; intros acc Hs; simpl in *; [reflexivity|].
      rewrite (IH _ Hs) in Hs |- *. unfold min_step in *. destruct v as [x|]; [|reflexivity].
      destruct (negb (snd acc) || ltb x (fst acc)); [discriminate | reflexivity]. }
    intros Hs. rewrite (G _ Hs). reflexivity.
Qed.

End RunningMin.

(** ** Enumeration *)

(** A property of all numbers below a bound, by enumeration. *)
Lemma forall_below (P : Z -> Prop) (k : nat) :
  Forall P (map Z.of_nat (seq 0 k)) -> forall n, 0 <= n < Z.of_nat k -> P n.
Proof.
  intros Hall n Hn. rewrite Forall_forall in Hall. apply Hall, list_elem_of_In.
  apply in_map_iff. exists (Z.to_nat n). split; [lia | apply in_seq; lia].
Qed.
