(* ===== verification/DateTime.v ===== *)
(** * RTClib's [DateTime] and [TimeSpan]

    The controller stores and compares timestamps through Adafruit RTClib,
    which the repository calls and does not contain.  This file models the
    part of the library the controller uses, after the library's own
    arithmetic: six one-byte fields, days counted from 2000-01-01 in sixteen
    bits, seconds in thirty-two bits, leap years every fourth year (which is
    right from 2000 to 2099, the range in which [isValid] holds).

    The theorems are the timestamp contract the engine relies on: the epoch
    round trip, the ranges of the fields of a valid timestamp, that the
    field-wise comparison operators agree with the order of epoch seconds,
    and the weekday of a timestamp. *)

From S2P Require Import Prelude.

(** ** Data *)

Record DateTime : Type := mkDT {
  dt_yOff : Z;    (* year - 2000, uint8_t *)
  dt_month : Z;   (* 1..12 *)
  dt_day : Z;     (* 1..31 *)
  dt_hour : Z;    (* 0..23 *)
  dt_minute : Z;  (* 0..59 *)
  dt_second : Z   (* 0..59 *)
}.

#[export] Instance DateTime_eq_dec : EqDecision DateTime.
Proof. solve_decision. Defined.

Definition year (dt : DateTime) : Z := 2000 + dt_yOff dt.

Definition SECONDS_FROM_1970_TO_2000 : Z := 946684800.

Definition SECONDS_PER_DAY : Z := 86400.

(** Lengths of January to November in a common year. *)
Definition daysInMonth : list Z := [31; 28; 31; 30; 31; 30; 31; 31; 30; 31; 30].

(** ** Days and seconds since 2000-01-01 *)

(** 1 in a leap year ([y % 4 == 0]), else 0. *)
Definition leap (y : Z) : Z := if y mod 4 =? 0 then 1 else 0.

(** The days of the months before month [m] of a common year. *)
Definition days_before_month (m : Z) : Z :=
  fold_right Z.add 0 (firstn (Z.to_nat (m - 1)) daysInMonth).

(** The days before 1 January of year [2000 + y]. *)
Definition days_before_year (y : Z) : Z := 365 * y + (y + 3) / 4.

(** The day number of a date, before it is cut to sixteen bits. *)
Definition date2days_int (y m d : Z) : Z :=
  let y := if 2000 <=? y then y - 2000 else y in
  let days := d + days_before_month m in
  let days := if (2 <? m) && (y mod 4 =? 0) then days + 1 else days in
  days + 365 * y + (y + 3) / 4 - 1.

Definition date2days (y m d : Z) : Z := u16 (date2days_int y m d).

Definition time2ulong (days h m s : Z) : Z :=
  u32 (((days * 24 + h) * 60 + m) * 60 + s).

Definition unixtime (dt : DateTime) : Z :=
  u32 (time2ulong (date2days (dt_yOff dt) (dt_month dt) (dt_day dt))
                  (dt_hour dt) (dt_minute dt) (dt_second dt)
       + SECONDS_FROM_1970_TO_2000).

Definition dayOfTheWeek (dt : DateTime) : Z :=
  (date2days (dt_yOff dt) (dt_month dt) (dt_day dt) + 6) mod 7.

(** ** The constructor from epoch seconds *)

(** [for (yOff = 0;; ++yOff) { leap = ...; if (days < 365U + leap) break;
    days -= 365 + leap; }].  Sixteen-bit [days] run out within 180 years,
    so that much fuel is never exhausted ([year_loop_spec]). *)
Fixpoint year_loop (fuel : nat) (yOff days : Z) : Z * Z :=
  if days <? 365 + leap yOff then (yOff, days)
  else match fuel with
       | O => (yOff, days)
       | S fuel' => year_loop fuel' (yOff + 1) (days - (365 + leap yOff))
       end.

(** [for (m = 1; m < 12; ++m) { daysPerMonth = daysInMonth[m - 1]; if (leap
    && m == 2) ++daysPerMonth; if (days < daysPerMonth) break; days -=
    daysPerMonth; }], by recursion on the table from index [m - 1] on. *)
Fixpoint month_loop (tbl : list Z) (lp m days : Z) : Z * Z :=
  match tbl with
  | [] => (m, days)
  | dpm :: tbl' =>
      let daysPerMonth := if (lp =? 1) && (m =? 2) then dpm + 1 else dpm in
      if days <? daysPerMonth then (m, days)
      else month_loop tbl' lp (m + 1) (days - daysPerMonth)
  end.

Definition DateTime_of_epoch (t : Z) : DateTime :=
  let t := u32 (u32 t - SECONDS_FROM_1970_TO_2000) in
  let ss := t mod 60 in
  let t := t / 60 in
  let mm := t mod 60 in
  let t := t / 60 in
  let hh := t mod 24 in
  let days := u16 (t / 24) in
  let '(yOff, days) := year_loop 180 0 days in
  let '(m, days) := month_loop daysInMonth (leap yOff) 1 days in
  mkDT (u8 yOff) m (u8 (days + 1)) hh mm ss.

(** [DateTime(year, month, day, hour, min, sec)]. *)
Definition DateTime_of_fields (yr mo dy h mi s : Z) : DateTime :=
  mkDT (u8 (if 2000 <=? yr then yr - 2000 else yr)) mo dy h mi s.

(** [DateTime()]: the default argument is [SECONDS_FROM_1970_TO_2000]. *)
Definition DateTime_default : DateTime :=
  DateTime_of_epoch SECONDS_FROM_1970_TO_2000.

(** ** Validity and comparison *)

Definition dt_eqb (a b : DateTime) : bool :=
  (year b =? year a) && (dt_month b =? dt_month a) && (dt_day b =? dt_day a)
  && (dt_hour b =? dt_hour a) && (dt_minute b =? dt_minute a)
  && (dt_second b =? dt_second a).

Definition isValid (dt : DateTime) : bool :=
  check negb (100 <=? dt_yOff dt) orelse false ;;
  let other := DateTime_of_epoch (unixtime dt) in
  (dt_yOff dt =? dt_yOff other) && (dt_month dt =? dt_month other)
  && (dt_day dt =? dt_day other) && (dt_hour dt =? dt_hour other)
  && (dt_minute dt =? dt_minute other) && (dt_second dt =? dt_second other).

(** [operator<]: field by field, the year first. *)
Definition dt_ltb (a b : DateTime) : bool :=
  (year a <? year b)
  || ((year a =? year b)
      && ((dt_month a <? dt_month b)
          || ((dt_month a =? dt_month b)
              && ((dt_day a <? dt_day b)
                  || ((dt_day a =? dt_day b)
                      && ((dt_hour a <? dt_hour b)
                          || ((dt_hour a =? dt_hour b)
                              && ((dt_minute a <? dt_minute b)
                                  || ((dt_minute a =? dt_minute b)
                                      && (dt_second a <? dt_second b)))))))))).

Definition dt_gtb (a b : DateTime) : bool := dt_ltb b a.
Definition dt_leb (a b : DateTime) : bool := negb (dt_gtb a b).
Definition dt_geb (a b : DateTime) : bool := negb (dt_ltb a b).

(** ** [TimeSpan] and [operator+] *)

(** [TimeSpan(days, hours, minutes, seconds)], as its total of seconds. *)
Definition TimeSpan (days hours minutes seconds : Z) : Z :=
  days * 86400 + hours * 3600 + minutes * 60 + seconds.

(** [dt + span]: through the epoch and back. *)
Definition dt_add (dt : DateTime) (span : Z) : DateTime :=
  DateTime_of_epoch (unixtime dt + span).

Arguments DateTime_of_epoch : simpl never.
Arguments unixtime : simpl never.
Arguments isValid : simpl never.
Arguments DateTime_default : simpl never.

(** ** The calendar behind the fields

    The definitions below are the specification side: the day number and
    the seconds since 2000 of a timestamp as plain integers, and the shape
    of a calendar date.  The theorems relate RTClib's sixteen- and
    thirty-two-bit routines to them. *)

(** The length of month [m]; [lp] is 1 in a leap year. *)
Definition days_in_month (lp m : Z) : Z :=
  nth (Z.to_nat (m - 1)) daysInMonth 31 + (if m =? 2 then lp else 0).

(** The leap day, once February is over. *)
Definition leap_adjust (lp m : Z) : Z := if (2 <? m) && (lp =? 1) then 1 else 0.

(** Seconds since 2000-01-01 of an epoch value, as the constructor computes
    them in thirty-two bits. *)
Definition since2000 (t : Z) : Z := u32 (u32 t - SECONDS_FROM_1970_TO_2000).

(** Days since 2000-01-01. *)
Definition day_number (dt : DateTime) : Z :=
  days_before_year (dt_yOff dt) + days_before_month (dt_month dt)
  + leap_adjust (leap (dt_yOff dt)) (dt_month dt) + dt_day dt - 1.

(** Seconds since 2000-01-01. *)
Definition epoch2000 (dt : DateTime) : Z :=
  ((day_number dt * 24 + dt_hour dt) * 60 + dt_minute dt) * 60 + dt_second dt.

(** Seconds since midnight. *)
Definition time_of_day (dt : DateTime) : Z :=
  dt_hour dt * 3600 + dt_minute dt * 60 + dt_second dt.

(** The fields name a day of the calendar and a time of that day. *)
Definition calendar_ok (dt : DateTime) : Prop :=
  0 <= dt_yOff dt /\ 1 <= dt_month dt <= 12
  /\ 1 <= dt_day dt <= days_in_month (leap (dt_yOff dt)) (dt_month dt)
  /\ 0 <= dt_hour dt < 24 /\ 0 <= dt_minute dt < 60 /\ 0 <= dt_second dt < 60.

(** A calendar date of the years 2000 to 2099: what [isValid] accepts
    ([isValid_iff]). *)
Definition wf_date (dt : DateTime) : Prop := calendar_ok dt /\ dt_yOff dt < 100.

(** The seconds of the years 2000 to 2099. *)
Definition VALID_SECONDS : Z := 3155760000.

#[export] Instance calendar_ok_dec dt : Decision (calendar_ok dt).
Proof. unfold calendar_ok. apply _. Defined.

#[export] Instance wf_date_dec dt : Decision (wf_date dt).
Proof. unfold wf_date. apply _. Defined.

(** ** Examples *)

Example unixtime_2024_01_15 :
  unixtime (DateTime_of_fields 2024 1 15 6 30 0) = 1705300200.
Proof. reflexivity. Qed.

Example of_epoch_2024_01_15 :
  DateTime_of_epoch 1705300200 = DateTime_of_fields 2024 1 15 6 30 0.
Proof. reflexivity. Qed.

Example monday_2024_01_15 :
  dayOfTheWeek (DateTime_of_fields 2024 1 15 6 30 0) = 1.
Proof. reflexivity. Qed.

Example leap_day_2024 :
  dt_add (DateTime_of_fields 2024 2 28 23 59 30) (TimeSpan 0 0 1 0)
  = DateTime_of_fields 2024 2 29 0 0 30.
Proof. reflexivity. Qed.

Example feb_30_invalid : isValid (DateTime_of_fields 2023 2 30 0 0 0) = false.
Proof. reflexivity. Qed.

Example year_2100_invalid : isValid (DateTime_of_fields 2100 1 1 0 0 0) = false.
Proof. reflexivity. Qed.

(** The default-constructed timestamp is 2000-01-01 00:00:00, and valid. *)
Lemma isValid_default : isValid DateTime_default = true.
Proof. vm_compute. reflexivity. Qed.

Lemma unixtime_default : unixtime DateTime_default = SECONDS_FROM_1970_TO_2000.
Proof. vm_compute. reflexivity. Qed.

Lemma DateTime_default_fields : DateTime_default = mkDT 0 1 1 0 0 0.
Proof. vm_compute. reflexivity. Qed.

(** ** Theory *)

Lemma leap_01 y : leap y = 0 \/ leap y = 1.
Proof. unfold leap. destruct (_ =? _); auto. Qed.

Lemma days_before_year_succ y :
  days_before_year (y + 1) = days_before_year y + 365 + leap y.
Proof. unfold days_before_year, leap. zcases; zdiv. Qed.

Lemma days_before_year_mono y y' :
  y <= y' -> days_before_year y <= days_before_year y'.
Proof. unfold days_before_year. intros. zdiv. Qed.

Lemma year_loop_spec fuel : forall y days,
  0 <= days < 365 * Z.of_nat fuel + 365 ->
  let '(y', r) := year_loop fuel y days in
  y <= y' <= y + Z.of_nat fuel /\ 0 <= r < 365 + leap y'
  /\ days_before_year y' + r = days_before_year y + days.
Proof.
  induction fuel as [|fuel IH]; intros y days Hd; simpl year_loop;
    pose proof (leap_01 y); destruct (Z.ltb_spec days (365 + leap y)); try lia.
  specialize (IH (y + 1) (days - (365 + leap y))).
  destruct (year_loop fuel (y + 1) (days - (365 + leap y))) as [y' r].
  rewrite days_before_year_succ in IH. lia.
Qed.

Lemma month_cases m : 1 <= m <= 12 ->
  m = 1 \/ m = 2 \/ m = 3 \/ m = 4 \/ m = 5 \/ m = 6 \/ m = 7 \/ m = 8 \/ m = 9
  \/ m = 10 \/ m = 11 \/ m = 12.
Proof. lia. Qed.

Ltac by_month H :=
  let E := fresh "Hmonth" in
  pose proof (month_cases _ H) as E;
  repeat (destruct E as [E | E]; [try rewrite E in * |]); try rewrite E in *.

Ltac calendar_eval :=
  repeat match goal with
  | |- context [days_in_month ?a ?b] =>
      let v := eval vm_compute in (days_in_month a b) in
      change (days_in_month a b) with v
  | |- context [days_before_month ?b] =>
      let v := eval vm_compute in (days_before_month b) in
      change (days_before_month b) with v
  | |- context [leap_adjust ?a ?b] =>
      let v := eval vm_compute in (leap_adjust a b) in
      change (leap_adjust a b) with v
  end.

Lemma month_loop_spec lp days :
  lp = 0 \/ lp = 1 -> 0 <= days < 365 + lp ->
  let '(m, r) := month_loop daysInMonth lp 1 days in
  1 <= m <= 12 /\ 0 <= r < days_in_month lp m
  /\ days_before_month m + leap_adjust lp m + r = days.
Proof.
  intros Hlp Hd. unfold daysInMonth, month_loop.
  destruct Hlp as [-> | ->]; simpl;
  repeat match goal with
  | |- context [?a <? ?b] => destruct (Z.ltb_spec a b)
  end; calendar_eval; lia.
Qed.

Lemma since2000_days t : 0 <= since2000 t / 86400 < 49711.
Proof. unfold since2000. pose proof (u32_range (u32 t - SECONDS_FROM_1970_TO_2000)). zdiv. Qed.

Lemma of_epoch_spec t :
  let dt := DateTime_of_epoch t in
  let s := since2000 t in
  0 <= dt_yOff dt < 180 /\ 1 <= dt_month dt <= 12
  /\ 1 <= dt_day dt <= days_in_month (leap (dt_yOff dt)) (dt_month dt)
  /\ dt_hour dt = s / 3600 mod 24 /\ dt_minute dt = s / 60 mod 60
  /\ dt_second dt = s mod 60
  /\ days_before_year (dt_yOff dt) + days_before_month (dt_month dt)
     + leap_adjust (leap (dt_yOff dt)) (dt_month dt) + dt_day dt - 1 = s / 86400.
Proof.
  cbv zeta. unfold DateTime_of_epoch. fold (since2000 t).
  pose proof (since2000_days t) as HD. set (s := since2000 t) in *.
  replace (s / 60 / 60 / 24) with (s / 86400) by zdiv.
  replace (s / 60 / 60) with (s / 3600) by zdiv.
  rewrite (u16_small (s / 86400)) by lia.
  pose proof (year_loop_spec 180 0 (s / 86400)) as Hy.
  destruct (year_loop 180 0 (s / 86400)) as [y r].
  destruct Hy as (Hy1 & Hr & Hy2); [lia|].
  pose proof (month_loop_spec (leap y) r (leap_01 y) Hr) as Hm.
  destruct (month_loop daysInMonth (leap y) 1 r) as [m r'].
  destruct Hm as (Hm1 & Hr' & Hm2). cbn [dt_yOff dt_month dt_day dt_hour dt_minute dt_second].
  assert (y < 180).
  { pose proof (days_before_year_mono 180 y). unfold days_before_year in *. zdiv. }
  assert (days_in_month (leap y) m <= 31).
  { destruct (leap_01 y) as [-> | ->]; by_month Hm1; vm_compute; discriminate. }
  rewrite (u8_small y), (u8_small (r' + 1)) by lia.
  change (days_before_year 0) with 0 in Hy2. repeat split; try lia.
Qed.

Lemma of_epoch_calendar_ok t : calendar_ok (DateTime_of_epoch t).
Proof.
  unfold calendar_ok.
  destruct (of_epoch_spec t) as (? & ? & ? & -> & -> & -> & _).
  repeat split; try lia; zdiv.
Qed.

Lemma of_epoch_epoch2000 t : epoch2000 (DateTime_of_epoch t) = since2000 t.
Proof.
  destruct (of_epoch_spec t) as (_ & _ & _ & Hh & Hm & Hs & HD).
  unfold epoch2000, day_number. rewrite HD, Hh, Hm, Hs. zdiv.
Qed.

Lemma month_start_mono lp m m' :
  lp = 0 \/ lp = 1 -> 1 <= m <= 12 -> 1 <= m' <= 12 -> m < m' ->
  days_before_month m + leap_adjust lp m + days_in_month lp m
  <= days_before_month m' + leap_adjust lp m'.
Proof.
  intros [-> | ->] Hm Hm' Hlt; by_month Hm; by_month Hm'; try lia; vm_compute; discriminate.
Qed.

Lemma day_number_bounds dt :
  calendar_ok dt ->
  days_before_year (dt_yOff dt) <= day_number dt < days_before_year (dt_yOff dt + 1).
Proof.
  intros (Hy & Hm & Hd & _). unfold day_number. rewrite days_before_year_succ.
  revert Hd. destruct (leap_01 (dt_yOff dt)) as [-> | ->]; by_month Hm;
    calendar_eval; lia.
Qed.

Lemma day_number_inj a b :
  calendar_ok a -> calendar_ok b -> day_number a = day_number b ->
  dt_yOff a = dt_yOff b /\ dt_month a = dt_month b /\ dt_day a = dt_day b.
Proof.
  intros Ha Hb E. pose proof (day_number_bounds a Ha). pose proof (day_number_bounds b Hb).
  assert (Hy : dt_yOff a = dt_yOff b).
  { destruct (Z.lt_trichotomy (dt_yOff a) (dt_yOff b)) as [Hlt | [? | Hlt]]; [|assumption|];
    [ pose proof (days_before_year_mono (dt_yOff a + 1) (dt_yOff b))
    | pose proof (days_before_year_mono (dt_yOff b + 1) (dt_yOff a)) ]; lia. }
  destruct Ha as (_ & Hma & Hda & _), Hb as (_ & Hmb & Hdb & _).
  unfold day_number in E. rewrite Hy in *.
  assert (Hm : dt_month a = dt_month b).
  { destruct (Z.lt_trichotomy (dt_month a) (dt_month b)) as [Hlt | [? | Hlt]]; [|assumption|];
    [ pose proof (month_start_mono _ _ _ (leap_01 (dt_yOff b)) Hma Hmb Hlt)
    | pose proof (month_start_mono _ _ _ (leap_01 (dt_yOff b)) Hmb Hma Hlt) ]; lia. }
  rewrite Hm in *. lia.
Qed.

Lemma day_number_compare a b :
  calendar_ok a -> calendar_ok b ->
  (dt_yOff a < dt_yOff b -> day_number a < day_number b)
  /\ (dt_yOff a = dt_yOff b -> dt_month a < dt_month b -> day_number a < day_number b)
  /\ (dt_yOff a = dt_yOff b -> dt_month a = dt_month b ->
      day_number a - day_number b = dt_day a - dt_day b).
Proof.
  intros Ha Hb. pose proof (day_number_bounds a Ha). pose proof (day_number_bounds b Hb).
  destruct Ha as (_ & Hma & Hda & _), Hb as (_ & Hmb & Hdb & _).
  split; [|split].
  - intros Hlt. pose proof (days_before_year_mono (dt_yOff a + 1) (dt_yOff b)). lia.
  - intros Hy Hlt. unfold day_number. rewrite Hy in *.
    pose proof (month_start_mono _ _ _ (leap_01 (dt_yOff b)) Hma Hmb Hlt). lia.
  - intros Hy Hm. unfold day_number. rewrite Hy, Hm. lia.
Qed.

Lemma epoch2000_inj a b :
  calendar_ok a -> calendar_ok b -> epoch2000 a = epoch2000 b -> a = b.
Proof.
  intros Ha Hb E. unfold epoch2000 in E.
  assert (HD : day_number a = day_number b /\ dt_hour a = dt_hour b
               /\ dt_minute a = dt_minute b /\ dt_second a = dt_second b).
  { destruct Ha as (_ & _ & _ & ? & ? & ?), Hb as (_ & _ & _ & ? & ? & ?). lia. }
  destruct HD as (HD & ? & ? & ?).
  destruct (day_number_inj a b Ha Hb HD) as (? & ? & ?).
  destruct a, b; simpl in *; congruence.
Qed.

Lemma dt_ltb_epoch2000 a b :
  calendar_ok a -> calendar_ok b -> dt_ltb a b = (epoch2000 a <? epoch2000 b).
Proof.
  intros Ha Hb. pose proof (day_number_compare a b Ha Hb) as (L1 & L2 & L3).
  pose proof (day_number_compare b a Hb Ha) as (R1 & R2 & R3).
  destruct Ha as (_ & _ & _ & ? & ? & ?), Hb as (_ & _ & _ & ? & ? & ?).
  apply eq_true_iff_eq. unfold dt_ltb, year, epoch2000.
  rewrite !orb_true_iff, !andb_true_iff, !orb_true_iff, !andb_true_iff,
    !Z.ltb_lt, !Z.eqb_eq. lia.
Qed.

Lemma calendar_day_le dt : calendar_ok dt -> dt_day dt <= 31.
Proof.
  intros (_ & Hm & Hd & _). enough (days_in_month (leap (dt_yOff dt)) (dt_month dt) <= 31) by lia.
  destruct (leap_01 (dt_yOff dt)) as [-> | ->]; by_month Hm; vm_compute; discriminate.
Qed.

Lemma wf_epoch2000_range dt : wf_date dt -> 0 <= epoch2000 dt < VALID_SECONDS.
Proof.
  intros [Hc Hy]. pose proof (day_number_bounds dt Hc).
  pose proof (days_before_year_mono 0 (dt_yOff dt)).
  pose proof (days_before_year_mono (dt_yOff dt + 1) 100).
  change (days_before_year 0) with 0 in *. change (days_before_year 100) with 36525 in *.
  destruct Hc as (? & _ & _ & ? & ? & ?). unfold epoch2000, VALID_SECONDS. lia.
Qed.

Lemma date2days_day_number dt :
  calendar_ok dt -> day_number dt < 65536 ->
  date2days (dt_yOff dt) (dt_month dt) (dt_day dt) = day_number dt.
Proof.
  intros Hc Hlt. pose proof (day_number_bounds dt Hc) as HB.
  pose proof (days_before_year_mono 0 (dt_yOff dt)).
  assert (dt_yOff dt < 2000).
  { destruct (Z.lt_ge_cases (dt_yOff dt) 2000); [assumption|].
    pose proof (days_before_year_mono 2000 (dt_yOff dt)). 
    change (days_before_year 2000) with 730500 in *. lia. }
  destruct Hc as (? & ? & ? & _).
  change (days_before_year 0) with 0 in *.
  assert (E : date2days_int (dt_yOff dt) (dt_month dt) (dt_day dt) = day_number dt).
  { unfold date2days_int, day_number, days_before_year, leap_adjust, leap.
    destruct (Z.leb_spec 2000 (dt_yOff dt)); [lia|].
    destruct (2 <? dt_month dt), (Z.eqb_spec (dt_yOff dt mod 4) 0); simpl; lia. }
  unfold date2days. rewrite E. apply u16_small. lia.
Qed.

Lemma unixtime_epoch2000 dt :
  calendar_ok dt -> epoch2000 dt < 4294967296 ->
  unixtime dt = u32 (epoch2000 dt + SECONDS_FROM_1970_TO_2000).
Proof.
  intros Hc Hlt. pose proof (day_number_bounds dt Hc).
  pose proof (days_before_year_mono 0 (dt_yOff dt)). change (days_before_year 0) with 0 in *.
  assert (day_number dt < 65536).
  { destruct Hc as (? & _ & _ & ? & ? & ?). unfold epoch2000 in Hlt. lia. }
  unfold unixtime, time2ulong. rewrite date2days_day_number by assumption.
  fold (epoch2000 dt). rewrite (u32_small (epoch2000 dt)); [reflexivity|].
  destruct Hc as (? & _ & _ & ? & ? & ?). unfold epoch2000 in *. lia.
Qed.

Lemma since2000_small s :
  0 <= s < 4294967296 -> since2000 (u32 (s + SECONDS_FROM_1970_TO_2000)) = s.
Proof.
  intros Hs. unfold since2000. rewrite u32_u32, u32_sub_l.
  replace (s + SECONDS_FROM_1970_TO_2000 - SECONDS_FROM_1970_TO_2000) with s by lia.
  apply u32_small. exact Hs.
Qed.

Theorem unixtime_of_epoch t : unixtime (DateTime_of_epoch t) = u32 t.
Proof.
  pose proof (u32_range (u32 t - SECONDS_FROM_1970_TO_2000)) as Hr. fold (since2000 t) in Hr.
  rewrite unixtime_epoch2000, of_epoch_epoch2000
    by (apply of_epoch_calendar_ok || (rewrite of_epoch_epoch2000; lia)).
  unfold since2000. rewrite u32_add_l.
  replace (u32 t - SECONDS_FROM_1970_TO_2000 + SECONDS_FROM_1970_TO_2000) with (u32 t) by lia.
  apply u32_u32.
Qed.

Theorem of_epoch_unixtime dt :
  calendar_ok dt -> epoch2000 dt < 4294967296 -> DateTime_of_epoch (unixtime dt) = dt.
Proof.
  intros Hc Hlt. apply epoch2000_inj; [apply of_epoch_calendar_ok|assumption|].
  rewrite of_epoch_epoch2000, unixtime_epoch2000 by assumption.
  apply since2000_small. pose proof (day_number_bounds dt Hc).
  pose proof (days_before_year_mono 0 (dt_yOff dt)). change (days_before_year 0) with 0 in *.
  destruct Hc as (? & _ & _ & ? & ? & ?). unfold epoch2000 in *. lia.
Qed.

Lemma dt_fields_eqb a b :
  (dt_yOff a =? dt_yOff b) && (dt_month a =? dt_month b)
  && (dt_day a =? dt_day b) && (dt_hour a =? dt_hour b)
  && (dt_minute a =? dt_minute b) && (dt_second a =? dt_second b) = true <-> a = b.
Proof.
  rewrite !andb_true_iff, !Z.eqb_eq. split.
  - intros (((((? & ?) & ?) & ?) & ?) & ?). destruct a, b; simpl in *; congruence.
  - intros ->. auto 10.
Qed.

Theorem isValid_iff dt : isValid dt = true <-> wf_date dt.
Proof.
  unfold isValid. destruct (Z.leb_spec 100 (dt_yOff dt)) as [Hy | Hy]; cbn [negb].
  - split; [discriminate | intros [_ ?]; lia].
  - rewrite dt_fields_eqb. split.
    + intros E. split; [rewrite E; apply of_epoch_calendar_ok | exact Hy].
    + intros Hwf. pose proof (wf_epoch2000_range dt Hwf). destruct Hwf as [Hc _].
      symmetry. apply of_epoch_unixtime; [assumption|unfold VALID_SECONDS in *; lia].
Qed.

Lemma epoch2000_split dt : epoch2000 dt = day_number dt * 86400 + time_of_day dt.
Proof. unfold epoch2000, time_of_day. lia. Qed.

Lemma time_of_day_range dt : calendar_ok dt -> 0 <= time_of_day dt < 86400.
Proof. intros (_ & _ & _ & ? & ? & ?). unfold time_of_day. lia. Qed.

Lemma day_number_div dt : calendar_ok dt -> day_number dt = epoch2000 dt / 86400.
Proof.
  intros Hc. pose proof (time_of_day_range dt Hc). rewrite epoch2000_split. zdiv.
Qed.

Lemma time_of_day_mod dt : calendar_ok dt -> time_of_day dt = epoch2000 dt mod 86400.
Proof.
  intros Hc. pose proof (time_of_day_range dt Hc). rewrite epoch2000_split. zdiv.
Qed.

Lemma day_number_nonneg dt : calendar_ok dt -> 0 <= day_number dt.
Proof.
  intros Hc. pose proof (day_number_bounds dt Hc).
  pose proof (days_before_year_mono 0 (dt_yOff dt)).
  change (days_before_year 0) with 0 in *. destruct Hc. lia.
Qed.

Lemma yOff_lt_100 dt : calendar_ok dt -> day_number dt < 36525 -> dt_yOff dt < 100.
Proof.
  intros Hc Hlt. pose proof (day_number_bounds dt Hc).
  destruct (Z.lt_ge_cases (dt_yOff dt) 100); [assumption|].
  pose proof (days_before_year_mono 100 (dt_yOff dt)).
  change (days_before_year 100) with 36525 in *. lia.
Qed.

Lemma unixtime_wf dt :
  wf_date dt -> unixtime dt = epoch2000 dt + SECONDS_FROM_1970_TO_2000.
Proof.
  intros Hwf. pose proof (wf_epoch2000_range dt Hwf). destruct Hwf as [Hc _].
  unfold VALID_SECONDS in *. rewrite unixtime_epoch2000 by (assumption || lia).
  apply u32_small. unfold SECONDS_FROM_1970_TO_2000. lia.
Qed.

Lemma of_epoch_wf t :
  SECONDS_FROM_1970_TO_2000 <= t < SECONDS_FROM_1970_TO_2000 + VALID_SECONDS ->
  wf_date (DateTime_of_epoch t)
  /\ epoch2000 (DateTime_of_epoch t) = t - SECONDS_FROM_1970_TO_2000.
Proof.
  unfold SECONDS_FROM_1970_TO_2000, VALID_SECONDS. intros Ht.
  assert (E : epoch2000 (DateTime_of_epoch t) = t - 946684800).
  { rewrite of_epoch_epoch2000. unfold since2000, SECONDS_FROM_1970_TO_2000.
    rewrite (u32_small t) by lia. apply u32_small. lia. }
  split; [|exact E]. split; [apply of_epoch_calendar_ok|].
  apply yOff_lt_100; [apply of_epoch_calendar_ok|].
  rewrite day_number_div, E by apply of_epoch_calendar_ok. zdiv.
Qed.

Lemma dt_add_wf dt span :
  wf_date dt -> 0 <= epoch2000 dt + span < VALID_SECONDS ->
  wf_date (dt_add dt span) /\ epoch2000 (dt_add dt span) = epoch2000 dt + span.
Proof.
  intros Hwf Hr. unfold dt_add. rewrite unixtime_wf by assumption.
  destruct (of_epoch_wf (epoch2000 dt + SECONDS_FROM_1970_TO_2000 + span)) as [H1 H2];
    [lia|]. split; [exact H1 | rewrite H2; lia].
Qed.

Lemma dt_ltb_unixtime a b :
  wf_date a -> wf_date b -> dt_ltb a b = (unixtime a <? unixtime b).
Proof.
  intros Ha Hb. rewrite !unixtime_wf by assumption.
  rewrite dt_ltb_epoch2000 by (apply Ha || apply Hb).
  apply eq_true_iff_eq. rewrite !Z.ltb_lt. lia.
Qed.

Lemma dt_ltb_lt a b :
  calendar_ok a -> calendar_ok b -> dt_ltb a b = true <-> epoch2000 a < epoch2000 b.
Proof. intros Ha Hb. rewrite dt_ltb_epoch2000, Z.ltb_lt by assumption. reflexivity. Qed.

Lemma dt_gtb_gt a b :
  calendar_ok a -> calendar_ok b -> dt_gtb a b = true <-> epoch2000 b < epoch2000 a.
Proof. intros Ha Hb. unfold dt_gtb. apply dt_ltb_lt; assumption. Qed.

Lemma dt_geb_ge a b :
  calendar_ok a -> calendar_ok b -> dt_geb a b = true <-> epoch2000 b <= epoch2000 a.
Proof.
  intros Ha Hb. unfold dt_geb. rewrite negb_true_iff, dt_ltb_epoch2000, Z.ltb_ge by assumption.
  reflexivity.
Qed.

Lemma dt_leb_le a b :
  calendar_ok a -> calendar_ok b -> dt_leb a b = true <-> epoch2000 a <= epoch2000 b.
Proof.
  intros Ha Hb. unfold dt_leb, dt_gtb.
  rewrite negb_true_iff, dt_ltb_epoch2000, Z.ltb_ge by assumption. reflexivity.
Qed.

Lemma dt_eqb_eq a b : dt_eqb a b = true <-> a = b.
Proof.
  unfold dt_eqb, year. rewrite !andb_true_iff, !Z.eqb_eq. split.
  - intros (((((? & ?) & ?) & ?) & ?) & ?). destruct a, b; simpl in *; f_equal; lia.
  - intros ->. auto 10.
Qed.

Lemma dayOfTheWeek_day_number dt :
  wf_date dt -> dayOfTheWeek dt = (day_number dt + 6) mod 7.
Proof.
  intros Hwf. pose proof (wf_epoch2000_range dt Hwf) as Hr. destruct Hwf as [Hc _].
  unfold dayOfTheWeek. rewrite date2days_day_number; [reflexivity|assumption|].
  rewrite day_number_div by assumption. unfold VALID_SECONDS in *. zdiv.
Qed.

Lemma dayOfTheWeek_range dt : 0 <= dayOfTheWeek dt < 7.
Proof. unfold dayOfTheWeek. apply Z.mod_pos_bound. lia. Qed.

(** The date of [dt] at another time: [DateTime(dt.year(), dt.month(),
    dt.day(), h, mi, s)]. *)
Lemma of_fields_same_day dt h mi s :
  wf_date dt -> 0 <= h < 24 -> 0 <= mi < 60 -> 0 <= s < 60 ->
  let dt' := DateTime_of_fields (year dt) (dt_month dt) (dt_day dt) h mi s in
  wf_date dt' /\ day_number dt' = day_number dt
  /\ time_of_day dt' = h * 3600 + mi * 60 + s.
Proof.
  intros [(Hy & Hm & Hd & _) Hy'] Hh Hmi Hs. unfold DateTime_of_fields, year.
  destruct (Z.leb_spec 2000 (2000 + dt_yOff dt)); [|lia].
  replace (2000 + dt_yOff dt - 2000) with (dt_yOff dt) by lia.
  rewrite u8_small by lia. cbv zeta.
  unfold wf_date, calendar_ok, day_number, time_of_day; simpl. auto 12.
Qed.
