(* ===== verification/Schedule.v ===== *)
(** * The data of the controller

    The structs of [DS3231Controller.h]: [Schedule] with its two methods
    [isDayEnabled] and [setDay], [PumpExercise] and [VacationMode].  Field
    names carry the struct's name as a prefix ([sched_], [pump_], [vac_]),
    since several structs share [enabled], [hour] and [minute].

    The theorems are the theory of the day mask: [isDayEnabled] reads one
    bit, [setDay] writes one bit and leaves the others, and the mask stays a
    byte. *)

From stdpp Require Import strings.
From S2P Require Import Prelude DateTime.

(** ** Structs *)

Record Schedule : Type := mkSchedule {
  sched_id : Z;           (* uint8_t id *)
  sched_dayMask : Z;      (* uint8_t dayMask: bit 0 = Sunday, bit 6 = Saturday *)
  sched_startHour : Z;    (* uint8_t, 0-23 *)
  sched_startMinute : Z;  (* uint8_t, 0-59 *)
  sched_endHour : Z;      (* uint8_t, 0-23 *)
  sched_endMinute : Z;    (* uint8_t, 0-59 *)
  sched_enabled : bool;
  sched_name : string
}.

Record PumpExercise : Type := mkPumpExercise {
  pump_enabled : bool;
  pump_dayOfMonth : Z;       (* uint8_t, 1-31 *)
  pump_hour : Z;             (* uint8_t, 0-23 *)
  pump_minute : Z;           (* uint8_t, 0-59 *)
  pump_durationSeconds : Z;  (* uint16_t *)
  pump_lastRun : DateTime
}.

Record VacationMode : Type := mkVacationMode {
  vac_enabled : bool;
  vac_startDate : DateTime;
  vac_endDate : DateTime;
  vac_runPumpExercise : bool
}.

#[export] Instance Schedule_eq_dec : EqDecision Schedule.
Proof. solve_decision. Defined.

#[export] Instance PumpExercise_eq_dec : EqDecision PumpExercise.
Proof. solve_decision. Defined.

#[export] Instance VacationMode_eq_dec : EqDecision VacationMode.
Proof. solve_decision. Defined.

(** ** Methods of [Schedule] *)

(** [return (dayMask & (1 << dayOfWeek)) != 0;] *)
Definition isDayEnabled (s : Schedule) (dayOfWeek : Z) : bool :=
  negb (Z.land (sched_dayMask s) (bit dayOfWeek) =? 0).

Definition set_dayMask (s : Schedule) (mask : Z) : Schedule :=
  mkSchedule (sched_id s) mask (sched_startHour s) (sched_startMinute s)
             (sched_endHour s) (sched_endMinute s) (sched_enabled s) (sched_name s).

(** [if (enable) dayMask |= (1 << dayOfWeek); else dayMask &= ~(1 <<
    dayOfWeek);] with the result stored in the [uint8_t] field. *)
Definition setDay (s : Schedule) (dayOfWeek : Z) (enable : bool) : Schedule :=
  if enable
  then set_dayMask s (u8 (Z.lor (sched_dayMask s) (bit dayOfWeek)))
  else set_dayMask s (u8 (Z.land (sched_dayMask s) (Z.lnot (bit dayOfWeek)))).

Definition set_id (s : Schedule) (i : Z) : Schedule :=
  mkSchedule i (sched_dayMask s) (sched_startHour s) (sched_startMinute s)
             (sched_endHour s) (sched_endMinute s) (sched_enabled s) (sched_name s).

(** ** Invariants *)

(** Every numeric field holds a byte. *)
Definition schedule_bytes (s : Schedule) : Prop :=
  fits 8 (sched_id s) /\ fits 8 (sched_dayMask s)
  /\ fits 8 (sched_startHour s) /\ fits 8 (sched_startMinute s)
  /\ fits 8 (sched_endHour s) /\ fits 8 (sched_endMinute s).

(** The ranges the header's comments ask of the caller. *)
Definition schedule_in_range (s : Schedule) : Prop :=
  0 <= sched_startHour s < 24 /\ 0 <= sched_startMinute s < 60
  /\ 0 <= sched_endHour s < 24 /\ 0 <= sched_endMinute s < 60.

#[export] Instance schedule_bytes_dec s : Decision (schedule_bytes s).
Proof. unfold schedule_bytes. apply _. Defined.

#[export] Instance schedule_in_range_dec s : Decision (schedule_in_range s).
Proof. unfold schedule_in_range. apply _. Defined.

(** Some day of the week, Sunday to Saturday, is enabled. *)
Definition some_day_enabled (s : Schedule) : Prop :=
  exists d, 0 <= d < 7 /\ isDayEnabled s d = true.

(** ** Examples: the masks of the unit tests *)

Definition blank_schedule : Schedule := mkSchedule 0 0 0 0 0 0 false "".

(** Two schedules used as running examples: Monday to Friday, 06:00 to
    08:00, and every day from 23:00 across midnight to 01:00. *)
Definition weekday_morning : Schedule := mkSchedule 1 62 6 0 8 0 true "morning".

Definition night_owl : Schedule := mkSchedule 2 127 23 0 1 0 true "night".

Example mask_sun_fri_sat :
  map (isDayEnabled (set_dayMask blank_schedule 97)) [0; 1; 2; 3; 4; 5; 6]
  = [true; false; false; false; false; true; true].
Proof. reflexivity. Qed.

Example setDay_mon_wed_then_clear_mon :
  sched_dayMask (setDay (setDay (setDay blank_schedule 1 true) 3 true) 1 false) = 8.
Proof. reflexivity. Qed.

Example setDay_weekdays :
  sched_dayMask (fold_left (fun s d => setDay s d true) [1; 2; 3; 4; 5] blank_schedule) = 62.
Proof. reflexivity. Qed.

(** ** Theory of the day mask *)

Lemma isDayEnabled_testbit s d :
  0 <= d -> isDayEnabled s d = Z.testbit (sched_dayMask s) d.
Proof. intros Hd. unfold isDayEnabled. apply land_bit_testbit. exact Hd. Qed.

Lemma testbit_u8 z i : 0 <= i < 8 -> Z.testbit (u8 z) i = Z.testbit z i.
Proof.
  intros Hi. unfold u8, wrap. rewrite <- Z.land_ones by lia.
  rewrite Z.land_spec, Z.ones_spec_low by lia. apply andb_true_r.
Qed.

(** After [setDay(d, enable)] the day [d] is enabled exactly when
    [enable] is true, for every bit of the byte. *)
Lemma setDay_same s d enable :
  0 <= d < 8 -> isDayEnabled (setDay s d enable) d = enable.
Proof.
  intros Hd. rewrite isDayEnabled_testbit by lia.
  destruct enable; simpl; rewrite testbit_u8 by lia.
  - rewrite Z.lor_spec, testbit_bit, Z.eqb_refl by lia. apply orb_true_r.
  - rewrite Z.land_spec, Z.lnot_spec, testbit_bit, Z.eqb_refl by lia. apply andb_false_r.
Qed.

(** [setDay(d, enable)] leaves every other day of the byte as it was. *)
Lemma setDay_other s d d' enable :
  0 <= d -> 0 <= d' < 8 -> d <> d' ->
  isDayEnabled (setDay s d enable) d' = isDayEnabled s d'.
Proof.
  intros Hd Hd' Hne. rewrite !isDayEnabled_testbit by lia.
  assert (E : (d =? d') = false) by (apply Z.eqb_neq; exact Hne).
  destruct enable; simpl; rewrite testbit_u8 by lia.
  - rewrite Z.lor_spec, testbit_bit, E by lia. apply orb_false_r.
  - rewrite Z.land_spec, Z.lnot_spec, testbit_bit, E by lia. apply andb_true_r.
Qed.

(** [setDay(d, enable)] followed by [isDayEnabled(d')]: the day set is
    enabled exactly when [enable] is true, and every other day of the byte
    is as it was. *)
Theorem setDay_spec s d d' enable :
  0 <= d < 8 -> 0 <= d' < 8 ->
  isDayEnabled (setDay s d enable) d' = if d =? d' then enable else isDayEnabled s d'.
Proof.
  intros Hd Hd'. destruct (Z.eqb_spec d d') as [<- | Hne].
  - apply setDay_same, Hd.
  - apply setDay_other; [lia | exact Hd' | exact Hne].
Qed.

Lemma setDay_spec_witness :
  isDayEnabled (setDay weekday_morning 6 true) 6 = true
  /\ isDayEnabled (setDay weekday_morning 6 true) 0 = isDayEnabled weekday_morning 0.
Proof.
  split; [apply (setDay_spec weekday_morning 6 6 true) |
          apply (setDay_spec weekday_morning 6 0 true)]; lia.
Defined.

Lemma setDay_bytes s d enable : schedule_bytes s -> schedule_bytes (setDay s d enable).
Proof.
  unfold schedule_bytes, fits. intros (? & ? & ? & ? & ? & ?).
  destruct enable; simpl; repeat split; try lia; apply u8_range.
Qed.

Lemma setDay_fields s d enable :
  let s' := setDay s d enable in
  sched_id s' = sched_id s /\ sched_startHour s' = sched_startHour s
  /\ sched_startMinute s' = sched_startMinute s /\ sched_endHour s' = sched_endHour s
  /\ sched_endMinute s' = sched_endMinute s /\ sched_enabled s' = sched_enabled s
  /\ sched_name s' = sched_name s.
Proof. destruct enable; simpl; auto 10. Qed.

(** An empty mask enables no day. *)
Lemma isDayEnabled_mask_0 s d : sched_dayMask s = 0 -> isDayEnabled s d = false.
Proof. intros H. unfold isDayEnabled. rewrite H, Z.land_0_l. reflexivity. Qed.

(** Some weekday is enabled exactly when the low seven bits are not all
    clear. *)
Lemma some_day_enabled_iff s :
  some_day_enabled s <-> Z.land (sched_dayMask s) 127 <> 0.
Proof.
  change 127 with (Z.ones 7). rewrite land_ones_0_testbit by lia. split.
  - intros (d & Hd & He) H. rewrite isDayEnabled_testbit, H in He by lia. discriminate.
  - intros H. unfold some_day_enabled.
    destruct (decide (Exists (fun d => isDayEnabled s d = true) [0; 1; 2; 3; 4; 5; 6]))
      as [He | Hn].
    + apply Exists_exists in He as (d & Hin & He). exists d. split; [|exact He].
      apply list_elem_of_In in Hin. simpl in Hin. lia.
    + exfalso. apply H. intros i Hi. rewrite <- isDayEnabled_testbit by lia.
      apply not_true_is_false. intros He. apply Hn, Exists_exists. exists i.
      split; [apply list_elem_of_In; simpl; lia | exact He].
Qed.

#[export] Instance some_day_enabled_dec s : Decision (some_day_enabled s).
Proof.
  refine (cast_if (decide (Z.land (sched_dayMask s) 127 <> 0)));
    abstract (rewrite some_day_enabled_iff; assumption).
Defined.
