(* ===== verification/Hardware.v ===== *)
(** * The collaborators of the controller

    The controller owns an [RTC_DS3231] (RTClib's driver of the clock chip)
    and a FreeRTOS recursive mutex taken through [RecursiveMutexGuard].
    Neither is code of the repository.  This file states what the controller
    needs of them:

    - [RtcDevice]: the calls the controller makes on [_rtc], with the laws
      its theorems use (a clock set to a time reads that time; alarm
      operations leave the time alone; a cleared alarm has not fired).  The
      controller and its theorems are stated over any device of the class.
    - [SimRtc]: a simulated DS3231 that implements the class, with the
      chip's alarm matching, used to run the controller on concrete inputs.
    - [Mutex]: the recursive mutex as a holder and a depth, [take] and
      [give], and the test [lockable] that a guard's [hasLock()] reports. *)

From S2P Require Import Prelude DateTime.

(** ** Alarm modes *)

(** The two modes of alarm 1 the controller uses. *)
Inductive Alarm1Mode : Type :=
  | DS3231_A1_Hour    (* hours, minutes and seconds match *)
  | DS3231_A1_Date.   (* date, hours, minutes and seconds match *)

(** The one mode of alarm 2 the controller uses. *)
Inductive Alarm2Mode : Type :=
  | DS3231_A2_Minute. (* minutes match *)

#[export] Instance Alarm1Mode_eq_dec : EqDecision Alarm1Mode.
Proof. solve_decision. Defined.

#[export] Instance Alarm2Mode_eq_dec : EqDecision Alarm2Mode.
Proof. solve_decision. Defined.

(** ** The clock as the controller sees it *)

Class RtcDevice (D : Type) : Type := {
  (* the calls *)
  rtc_begin : D -> bool;                               (* begin(wire) *)
  rtc_lostPower : D -> bool;                           (* lostPower() *)
  rtc_adjust : D -> DateTime -> D;                     (* adjust(dt) *)
  rtc_now : D -> DateTime;                             (* now() *)
  rtc_setAlarm1 : D -> DateTime -> Alarm1Mode -> D;    (* setAlarm1(dt, mode) *)
  rtc_setAlarm2 : D -> DateTime -> Alarm2Mode -> D;    (* setAlarm2(dt, mode) *)
  rtc_clearAlarm : D -> Z -> D;                        (* clearAlarm(n) *)
  rtc_alarmFired : D -> Z -> bool;                     (* alarmFired(n) *)
  (* what is programmed, for the statements of the theorems *)
  rtc_alarm1 : D -> option (DateTime * Alarm1Mode);
  rtc_alarm2 : D -> option (DateTime * Alarm2Mode);
  (* the laws *)
  rtc_now_adjust : forall d dt, rtc_now (rtc_adjust d dt) = dt;
  rtc_lostPower_adjust : forall d dt, rtc_lostPower (rtc_adjust d dt) = false;
  rtc_now_setAlarm1 : forall d dt m, rtc_now (rtc_setAlarm1 d dt m) = rtc_now d;
  rtc_now_setAlarm2 : forall d dt m, rtc_now (rtc_setAlarm2 d dt m) = rtc_now d;
  rtc_now_clearAlarm : forall d n, rtc_now (rtc_clearAlarm d n) = rtc_now d;
  rtc_alarm1_setAlarm1 : forall d dt m, rtc_alarm1 (rtc_setAlarm1 d dt m) = Some (dt, m);
  rtc_alarm2_setAlarm1 : forall d dt m, rtc_alarm2 (rtc_setAlarm1 d dt m) = rtc_alarm2 d;
  rtc_alarm2_setAlarm2 : forall d dt m, rtc_alarm2 (rtc_setAlarm2 d dt m) = Some (dt, m);
  rtc_alarm1_setAlarm2 : forall d dt m, rtc_alarm1 (rtc_setAlarm2 d dt m) = rtc_alarm1 d;
  rtc_alarm1_clearAlarm : forall d n, rtc_alarm1 (rtc_clearAlarm d n) = rtc_alarm1 d;
  rtc_alarm2_clearAlarm : forall d n, rtc_alarm2 (rtc_clearAlarm d n) = rtc_alarm2 d;
  rtc_alarm1_adjust : forall d dt, rtc_alarm1 (rtc_adjust d dt) = rtc_alarm1 d;
  rtc_alarm2_adjust : forall d dt, rtc_alarm2 (rtc_adjust d dt) = rtc_alarm2 d;
  rtc_fired_clearAlarm : forall d n,
    n = 1 \/ n = 2 -> rtc_alarmFired (rtc_clearAlarm d n) n = false;
  rtc_fired_clearAlarm_other : forall d n m,
    n <> m -> rtc_alarmFired (rtc_clearAlarm d n) m = rtc_alarmFired d m
}.

#[export] Hint Rewrite @rtc_now_adjust @rtc_lostPower_adjust @rtc_now_setAlarm1
  @rtc_now_setAlarm2 @rtc_now_clearAlarm @rtc_alarm1_setAlarm1 @rtc_alarm2_setAlarm1
  @rtc_alarm2_setAlarm2 @rtc_alarm1_setAlarm2 @rtc_alarm1_clearAlarm
  @rtc_alarm2_clearAlarm @rtc_alarm1_adjust @rtc_alarm2_adjust : rtc_rw.

(** ** A simulated DS3231 *)

Record SimRtc : Type := mkSimRtc {
  sim_present : bool;     (* the chip answers on the bus *)
  sim_time : DateTime;    (* the time registers *)
  sim_osf : bool;         (* oscillator-stop flag: power was lost *)
  sim_alarm1 : option (DateTime * Alarm1Mode);
  sim_alarm2 : option (DateTime * Alarm2Mode);
  sim_a1f : bool;         (* alarm 1 flag of the status register *)
  sim_a2f : bool          (* alarm 2 flag *)
}.

Definition sim_adjust (d : SimRtc) (dt : DateTime) : SimRtc :=
  mkSimRtc (sim_present d) dt false (sim_alarm1 d) (sim_alarm2 d) (sim_a1f d) (sim_a2f d).

Definition sim_setAlarm1 (d : SimRtc) (dt : DateTime) (m : Alarm1Mode) : SimRtc :=
  mkSimRtc (sim_present d) (sim_time d) (sim_osf d) (Some (dt, m)) (sim_alarm2 d)
           (sim_a1f d) (sim_a2f d).

Definition sim_setAlarm2 (d : SimRtc) (dt : DateTime) (m : Alarm2Mode) : SimRtc :=
  mkSimRtc (sim_present d) (sim_time d) (sim_osf d) (sim_alarm1 d) (Some (dt, m))
           (sim_a1f d) (sim_a2f d).

(** [clearAlarm(n)] clears bit [n - 1] of the status register. *)
Definition sim_clearAlarm (d : SimRtc) (n : Z) : SimRtc :=
  mkSimRtc (sim_present d) (sim_time d) (sim_osf d) (sim_alarm1 d) (sim_alarm2 d)
           (if n =? 1 then false else sim_a1f d) (if n =? 2 then false else sim_a2f d).

(** [alarmFired(n)] reads bit [n - 1] of the status register. *)
Definition sim_alarmFired (d : SimRtc) (n : Z) : bool :=
  if n =? 1 then sim_a1f d else if n =? 2 then sim_a2f d else false.

(** The registers of alarm 1 match the time. *)
Definition alarm1_matches (a : DateTime * Alarm1Mode) (t : DateTime) : bool :=
  let '(dt, m) := a in
  (dt_hour dt =? dt_hour t) && (dt_minute dt =? dt_minute t)
  && (dt_second dt =? dt_second t)
  && match m with
     | DS3231_A1_Hour => true
     | DS3231_A1_Date => dt_day dt =? dt_day t
     end.

(** The registers of alarm 2 match the time, at second 0 of the minute. *)
Definition alarm2_matches (a : DateTime * Alarm2Mode) (t : DateTime) : bool :=
  let '(dt, _) := a in
  (dt_minute dt =? dt_minute t) && (dt_second t =? 0).

(** The clock reaches time [t]: the flags of the matching alarms are set. *)
Definition sim_tick (d : SimRtc) (t : DateTime) : SimRtc :=
  mkSimRtc (sim_present d) t (sim_osf d) (sim_alarm1 d) (sim_alarm2 d)
           (sim_a1f d || match sim_alarm1 d with
                         | Some a => alarm1_matches a t
                         | None => false
                         end)
           (sim_a2f d || match sim_alarm2 d with
                         | Some a => alarm2_matches a t
                         | None => false
                         end).

#[export, refine] Instance SimRtc_device : RtcDevice SimRtc := {
  rtc_begin := sim_present;
  rtc_lostPower := sim_osf;
  rtc_adjust := sim_adjust;
  rtc_now := sim_time;
  rtc_setAlarm1 := sim_setAlarm1;
  rtc_setAlarm2 := sim_setAlarm2;
  rtc_clearAlarm := sim_clearAlarm;
  rtc_alarmFired := sim_alarmFired;
  rtc_alarm1 := sim_alarm1;
  rtc_alarm2 := sim_alarm2
}.
Proof.
  all: try reflexivity.
  - intros d n [-> | ->]; reflexivity.
  - intros d n m Hne. unfold sim_alarmFired, sim_clearAlarm; simpl.
    destruct (Z.eqb_spec m 1), (Z.eqb_spec n 1), (Z.eqb_spec m 2), (Z.eqb_spec n 2);
      try reflexivity; lia.
Defined.

(** ** The recursive mutex *)

Module Mutex.

Definition TaskId : Type := nat.

Record t : Type := mk {
  holder : option TaskId;
  depth : nat
}.

(** A mutex nobody holds. *)
Definition free : t := mk None 0.

(** Held means a positive depth. *)
Definition ok (mx : t) : Prop :=
  match holder mx with
  | None => depth mx = 0%nat
  | Some _ => (0 < depth mx)%nat
  end.

(** [xSemaphoreTakeRecursive] by task [me], within the guard's bounded wait:
    it succeeds on a free mutex and on one [me] already holds. *)
Definition take (me : TaskId) (mx : t) : option t :=
  match holder mx with
  | None => Some (mk (Some me) 1)
  | Some h => if decide (h = me) then Some (mk (Some me) (S (depth mx))) else None
  end.

(** [xSemaphoreGiveRecursive] by the holder. *)
Definition give (mx : t) : t :=
  match depth mx with
  | S (S n) => mk (holder mx) (S n)
  | _ => free
  end.

(** What [RecursiveMutexGuard::hasLock()] reports to task [me]. *)
Definition lockable (me : TaskId) (mx : t) : bool :=
  match take me mx with Some _ => true | None => false end.

(** The guard gives back what it took: the mutex is as before. *)
Lemma give_take me mx mx' : ok mx -> take me mx = Some mx' -> give mx' = mx.
Proof.
  unfold ok, take, give. destruct mx as [[h|] d]; simpl.
  - destruct (decide (h = me)) as [->|]; [|discriminate].
    intros Hd [= <-]. simpl. destruct d; [lia|reflexivity].
  - intros -> [= <-]. reflexivity.
Qed.

Lemma take_ok me mx mx' : ok mx -> take me mx = Some mx' -> ok mx'.
Proof.
  unfold ok, take. destruct mx as [[h|] d]; simpl.
  - destruct (decide (h = me)); [|discriminate]. intros _ [= <-]. simpl. lia.
  - intros _ [= <-]. simpl. lia.
Qed.

(** Re-entrancy: a task that holds the mutex can take it again. *)
Lemma take_reentrant me mx mx' : take me mx = Some mx' -> lockable me mx' = true.
Proof.
  unfold lockable, take. destruct mx as [[h|] d]; simpl.
  - destruct (decide (h = me)); [|discriminate]. intros [= <-]. simpl.
    destruct (decide (me = me)); [reflexivity|contradiction].
  - intros [= <-]. simpl. destruct (decide (me = me)); [reflexivity|contradiction].
Qed.

(** Exclusion: a mutex held by one task is not lockable by another. *)
Lemma lockable_exclusive me other mx mx' :
  take me mx = Some mx' -> other <> me -> lockable other mx' = false.
Proof.
  unfold lockable, take. destruct mx as [[h|] d]; simpl.
  - destruct (decide (h = me)); [|discriminate]. intros [= <-] Hne. simpl.
    destruct (decide (me = other)); [congruence|reflexivity].
  - intros [= <-] Hne. simpl. destruct (decide (me = other)); [congruence|reflexivity].
Qed.

Lemma lockable_free me : lockable me free = true.
Proof. reflexivity. Qed.

End Mutex.
