(* ===== verification/State.v ===== *)
(** * The controller object

    The private fields of [DS3231Controller] as the record [Controller], the
    constructor, and the methods that initialise the object and set or read
    the clock: [begin], [isRunning], [setTime], [now], and the registration
    of the three callbacks.

    A callback is modelled by whether one is registered; invoking it appends
    an [Event] to the ghost field [ctl_events], so that theorems can say
    which callbacks ran and with what argument.

    The invariant [wf] says the object holds at most [MAX_SCHEDULES]
    schedules, all of bytes, and a mutex in a consistent state. *)

From S2P Require Import Prelude DateTime Schedule Hardware.

(** ** Constants of the class *)

Definition MAX_SCHEDULES : Z := 10.
Definition ALARM_1 : Z := 1.
Definition ALARM_2 : Z := 2.

(** ** Callback invocations *)

Inductive Event : Type :=
  | TimeChanged (dt : DateTime)        (* _timeChangeCallback(dt) *)
  | AlarmAcknowledged (alarmNumber : Z) (* _alarmCallback(alarmNumber) *).

#[export] Instance Event_eq_dec : EqDecision Event.
Proof. solve_decision. Defined.

Section Controller.

Context {D : Type} `{RtcDevice D}.

(** ** Fields *)

Record Controller : Type := mkController {
  ctl_rtc : D;                         (* _rtc *)
  ctl_schedules : list Schedule;       (* _schedules, in insertion order *)
  ctl_vacationMode : VacationMode;     (* _vacationMode *)
  ctl_pumpExercise : PumpExercise;     (* _pumpExercise *)
  ctl_lastCheck : DateTime;            (* _lastCheck *)
  ctl_activeScheduleId : Z;            (* _activeScheduleId *)
  ctl_initialized : bool;              (* _initialized *)
  ctl_mutex : Mutex.t;                 (* _mutex *)
  ctl_timeChangeCallback : bool;       (* _timeChangeCallback is set *)
  ctl_alarmCallback : bool;            (* _alarmCallback is set *)
  ctl_scheduleCallback : bool;         (* _scheduleCallback is set *)
  ctl_events : list Event              (* ghost: callbacks invoked, oldest first *)
}.

Definition set_rtc (c : Controller) (r : D) : Controller :=
  mkController r (ctl_schedules c) (ctl_vacationMode c) (ctl_pumpExercise c)
    (ctl_lastCheck c) (ctl_activeScheduleId c) (ctl_initialized c) (ctl_mutex c)
    (ctl_timeChangeCallback c) (ctl_alarmCallback c) (ctl_scheduleCallback c)
    (ctl_events c).

Definition set_schedules (c : Controller) (l : list Schedule) : Controller :=
  mkController (ctl_rtc c) l (ctl_vacationMode c) (ctl_pumpExercise c)
    (ctl_lastCheck c) (ctl_activeScheduleId c) (ctl_initialized c) (ctl_mutex c)
    (ctl_timeChangeCallback c) (ctl_alarmCallback c) (ctl_scheduleCallback c)
    (ctl_events c).

Definition set_vacationMode (c : Controller) (v : VacationMode) : Controller :=
  mkController (ctl_rtc c) (ctl_schedules c) v (ctl_pumpExercise c)
    (ctl_lastCheck c) (ctl_activeScheduleId c) (ctl_initialized c) (ctl_mutex c)
    (ctl_timeChangeCallback c) (ctl_alarmCallback c) (ctl_scheduleCallback c)
    (ctl_events c).

Definition set_pumpExercise (c : Controller) (p : PumpExercise) : Controller :=
  mkController (ctl_rtc c) (ctl_schedules c) (ctl_vacationMode c) p
    (ctl_lastCheck c) (ctl_activeScheduleId c) (ctl_initialized c) (ctl_mutex c)
    (ctl_timeChangeCallback c) (ctl_alarmCallback c) (ctl_scheduleCallback c)
    (ctl_events c).

Definition set_begun (c : Controller) (lastCheck : DateTime) : Controller :=
  mkController (ctl_rtc c) (ctl_schedules c) (ctl_vacationMode c) (ctl_pumpExercise c)
    lastCheck (ctl_activeScheduleId c) true (ctl_mutex c)
    (ctl_timeChangeCallback c) (ctl_alarmCallback c) (ctl_scheduleCallback c)
    (ctl_events c).

Definition set_mutex (c : Controller) (mx : Mutex.t) : Controller :=
  mkController (ctl_rtc c) (ctl_schedules c) (ctl_vacationMode c) (ctl_pumpExercise c)
    (ctl_lastCheck c) (ctl_activeScheduleId c) (ctl_initialized c) mx
    (ctl_timeChangeCallback c) (ctl_alarmCallback c) (ctl_scheduleCallback c)
    (ctl_events c).

(** A callback runs: its invocation is recorded. *)
Definition emit (c : Controller) (e : Event) : Controller :=
  mkController (ctl_rtc c) (ctl_schedules c) (ctl_vacationMode c) (ctl_pumpExercise c)
    (ctl_lastCheck c) (ctl_activeScheduleId c) (ctl_initialized c) (ctl_mutex c)
    (ctl_timeChangeCallback c) (ctl_alarmCallback c) (ctl_scheduleCallback c)
    (ctl_events c ++ [e]).

(** [onTimeChange], [onAlarm], [onScheduleEvent]: the last registration
    wins; what matters here is that one is registered. *)
Definition onTimeChange (c : Controller) : Controller :=
  mkController (ctl_rtc c) (ctl_schedules c) (ctl_vacationMode c) (ctl_pumpExercise c)
    (ctl_lastCheck c) (ctl_activeScheduleId c) (ctl_initialized c) (ctl_mutex c)
    true (ctl_alarmCallback c) (ctl_scheduleCallback c) (ctl_events c).

Definition onAlarm (c : Controller) : Controller :=
  mkController (ctl_rtc c) (ctl_schedules c) (ctl_vacationMode c) (ctl_pumpExercise c)
    (ctl_lastCheck c) (ctl_activeScheduleId c) (ctl_initialized c) (ctl_mutex c)
    (ctl_timeChangeCallback c) true (ctl_scheduleCallback c) (ctl_events c).

Definition onScheduleEvent (c : Controller) : Controller :=
  mkController (ctl_rtc c) (ctl_schedules c) (ctl_vacationMode c) (ctl_pumpExercise c)
    (ctl_lastCheck c) (ctl_activeScheduleId c) (ctl_initialized c) (ctl_mutex c)
    (ctl_timeChangeCallback c) (ctl_alarmCallback c) true (ctl_events c).

(** ** Construction *)

(** [DS3231Controller()].  The constructor sets [_vacationMode.enabled] and
    five fields of [_pumpExercise]; the timestamps are default-constructed;
    [_vacationMode.runPumpExercise] is left as the memory holds it
    ([uninit]). *)
Definition new_controller (rtc : D) (uninit : bool) : Controller :=
  mkController rtc []
    (mkVacationMode false DateTime_default DateTime_default uninit)
    (mkPumpExercise false 1 3 0 300 DateTime_default)
    DateTime_default 0 false Mutex.free false false false [].

(** ** The lock, as a guard sees it *)

(** [RecursiveMutexGuard lock(_mutex); lock.hasLock()] for task [me]. *)
Definition hasLock (me : Mutex.TaskId) (c : Controller) : bool :=
  Mutex.lockable me (ctl_mutex c).

(** ** Initialisation and the clock *)

(** [begin(wire)].  [compileTime] is [DateTime(F(__DATE__), F(__TIME__))]. *)
Definition begin (compileTime : DateTime) (me : Mutex.TaskId) (c : Controller)
  : Status * Controller :=
  check negb (ctl_initialized c) orelse (OK, c) ;;
  check hasLock me c orelse (Failed LockUnavailable, c) ;;
  check rtc_begin (ctl_rtc c) orelse (Failed HardwareFailure, c) ;;
  let r := if rtc_lostPower (ctl_rtc c)
           then rtc_adjust (ctl_rtc c) compileTime
           else ctl_rtc c in
  let r := rtc_clearAlarm (rtc_clearAlarm r 1) 2 in
  (OK, set_begun (set_rtc c r) (rtc_now r)).

(** [isRunning()]: takes the lock, and does not look at [_initialized]. *)
Definition isRunning (me : Mutex.TaskId) (c : Controller) : bool :=
  check hasLock me c orelse false ;;
  isValid (rtc_now (ctl_rtc c)).

(** [setTime(dt)]. *)
Definition setTime (me : Mutex.TaskId) (c : Controller) (dt : DateTime)
  : Status * Controller :=
  check ctl_initialized c orelse (Failed NotInitialized, c) ;;
  check isValid dt orelse (Failed InvalidArgument, c) ;;
  check hasLock me c orelse (Failed LockUnavailable, c) ;;
  let c := set_rtc c (rtc_adjust (ctl_rtc c) dt) in
  let c := if ctl_timeChangeCallback c then emit c (TimeChanged dt) else c in
  (OK, c).

(** [now()]. *)
Definition now (me : Mutex.TaskId) (c : Controller) : DateTime :=
  check ctl_initialized c orelse DateTime_default ;;
  check hasLock me c orelse DateTime_default ;;
  rtc_now (ctl_rtc c).

(** The object can serve task [me]: it is initialised and the lock is
    free or already [me]'s. *)
Definition ready (me : Mutex.TaskId) (c : Controller) : Prop :=
  ctl_initialized c = true /\ hasLock me c = true.

(** ** Invariant *)

Definition wf (c : Controller) : Prop :=
  Z.of_nat (length (ctl_schedules c)) <= MAX_SCHEDULES
  /\ Forall schedule_bytes (ctl_schedules c)
  /\ Mutex.ok (ctl_mutex c).

(** ** Theorems *)

Lemma wf_new_controller rtc uninit : wf (new_controller rtc uninit).
Proof. unfold wf, MAX_SCHEDULES. simpl. repeat split; [lia | constructor]. Qed.

(** What a method leaves alone when it only touches the clock. *)
Definition same_policy (c c' : Controller) : Prop :=
  ctl_schedules c' = ctl_schedules c /\ ctl_vacationMode c' = ctl_vacationMode c
  /\ ctl_pumpExercise c' = ctl_pumpExercise c /\ ctl_mutex c' = ctl_mutex c.

Lemma same_policy_wf c c' : same_policy c c' -> wf c -> wf c'.
Proof. unfold same_policy, wf. intros (-> & _ & _ & ->). auto. Qed.

Lemma same_policy_refl c : same_policy c c.
Proof. unfold same_policy. auto. Qed.

(** [begin] fails fast without touching the object when another task
    holds the lock or the chip does not answer, is a no-op returning
    success when already initialised, and otherwise leaves the object
    initialised with both alarm flags cleared, the clock set to the compile
    time exactly when power was lost, and [_lastCheck] the clock's time. *)
Theorem begin_spec compileTime me c :
  let '(st, c') := begin compileTime me c in
  same_policy c c' /\
  if ctl_initialized c then st = OK /\ c' = c
  else if negb (hasLock me c) then st = Failed LockUnavailable /\ c' = c
  else if negb (rtc_begin (ctl_rtc c)) then st = Failed HardwareFailure /\ c' = c
  else st = OK /\ ctl_initialized c' = true
       /\ rtc_alarmFired (ctl_rtc c') 1 = false /\ rtc_alarmFired (ctl_rtc c') 2 = false
       /\ rtc_now (ctl_rtc c') =
            (if rtc_lostPower (ctl_rtc c) then compileTime else rtc_now (ctl_rtc c))
       /\ ctl_lastCheck c' = rtc_now (ctl_rtc c').
Proof.
  unfold begin. destruct (ctl_initialized c) eqn:Hi; simpl.
  { split; [apply same_policy_refl | auto]. }
  destruct (hasLock me c); simpl; [|split; [apply same_policy_refl | auto]].
  destruct (rtc_begin (ctl_rtc c)); simpl; [|split; [apply same_policy_refl | auto]].
  split; [unfold same_policy; simpl; auto|]. repeat split.
  - rewrite rtc_fired_clearAlarm_other by lia. apply rtc_fired_clearAlarm. auto.
  - apply rtc_fired_clearAlarm. auto.
  - rewrite !rtc_now_clearAlarm. destruct (rtc_lostPower (ctl_rtc c)); [|reflexivity].
    apply rtc_now_adjust.
Qed.

(** C10: [setTime] refuses an uninitialised object, an invalid timestamp and
    a lock held elsewhere, in that order and without any effect; otherwise
    the clock reads the new time and the time-change callback, if one is
    registered, has run once with that time. *)
Theorem setTime_spec me c dt :
  let '(st, c') := setTime me c dt in
  same_policy c c' /\
  if negb (ctl_initialized c) then st = Failed NotInitialized /\ c' = c
  else if negb (isValid dt) then st = Failed InvalidArgument /\ c' = c
  else if negb (hasLock me c) then st = Failed LockUnavailable /\ c' = c
  else st = OK /\ rtc_now (ctl_rtc c') = dt
       /\ ctl_events c' =
            ctl_events c ++ (if ctl_timeChangeCallback c then [TimeChanged dt] else []).
Proof.
  unfold setTime. destruct (ctl_initialized c); simpl;
    [|split; [apply same_policy_refl | auto]].
  destruct (isValid dt); simpl; [|split; [apply same_policy_refl | auto]].
  destruct (hasLock me c); simpl; [|split; [apply same_policy_refl | auto]].
  destruct (ctl_timeChangeCallback c); simpl;
    (split; [unfold same_policy; simpl; auto|]);
    rewrite rtc_now_adjust, ?app_nil_r; auto.
Qed.

(** After a successful [setTime], [now] returns the time that was
    set. *)
Theorem now_setTime me c dt c' : setTime me c dt = (OK, c') -> now me c' = dt.
Proof.
  unfold setTime, now. destruct (ctl_initialized c) eqn:Hi; [|discriminate].
  destruct (isValid dt); [|discriminate].
  unfold hasLock. destruct (Mutex.lockable me (ctl_mutex c)) eqn:Hl; [|discriminate].
  simpl. destruct (ctl_timeChangeCallback c); intros [= <-]; simpl;
    rewrite Hi, Hl; apply rtc_now_adjust.
Qed.

End Controller.

Arguments Controller D : clear implicits.

#[export] Hint Resolve same_policy_refl same_policy_wf : rtc.

(** ** A sample system *)

(** A clock that answers and reads Wednesday 2024-01-17 07:00:00. *)
Definition sample_rtc : SimRtc :=
  mkSimRtc true (DateTime_of_fields 2024 1 17 7 0 0) false None None false false.

(** The object after [begin] on that clock, holding the given schedules;
    task 0 is the caller. *)
Definition sample (l : list Schedule) : Controller SimRtc :=
  set_schedules (snd (begin DateTime_default 0%nat (new_controller sample_rtc false))) l.

Lemma sample_ready l : ready 0%nat (sample l).
Proof. split; reflexivity. Qed.

Lemma sample_schedules l : ctl_schedules (sample l) = l.
Proof. reflexivity. Qed.

Lemma sample_wf l :
  Z.of_nat (length l) <= MAX_SCHEDULES -> Forall schedule_bytes l -> wf (sample l).
Proof. intros Hlen Hall. unfold wf. simpl. repeat split; [exact Hlen | exact Hall]. Qed.

Lemma now_setTime_witness :
  now 0%nat (snd (setTime 0%nat (sample []) (DateTime_of_fields 2024 6 1 12 0 0)))
  = DateTime_of_fields 2024 6 1 12 0 0.
Proof. apply (now_setTime 0%nat (sample [])). vm_compute. reflexivity. Defined.
