(* ===== verification/Window.v ===== *)
(** * Window evaluation

    Whether the current time lies in a schedule's window:
    [isTimeInRange] (minutes of the day, with windows that span midnight),
    [isWithinSchedule] (by id, with the enabled flag and the day mask),
    [isWithinAnySchedule] (with the vacation override) and
    [getCurrentActiveSchedule].

    [schedule_active] and [in_window] are the specification: what it means
    for a schedule to be active at a time.  The theorems show that the
    methods compute it, on every branch of their guards. *)

From stdpp Require Import strings.
From S2P Require Import Prelude DateTime Schedule Hardware State.

(** ** The time-range test *)

(** [isTimeInRange(current, startHour, startMinute, endHour, endMinute)];
    the three minute counts are [uint16_t]. *)
Definition isTimeInRange (current : DateTime)
  (startHour startMinute endHour endMinute : Z) : bool :=
  let currentMinutes := u16 (dt_hour current * 60 + dt_minute current) in
  let startMinutes := u16 (startHour * 60 + startMinute) in
  let endMinutes := u16 (endHour * 60 + endMinute) in
  if startMinutes <=? endMinutes
  then (startMinutes <=? currentMinutes) && (currentMinutes <? endMinutes)
  else (startMinutes <=? currentMinutes) || (currentMinutes <? endMinutes).

(** [now >= _vacationMode.startDate && now <= _vacationMode.endDate]. *)
Definition in_vacation_range (v : VacationMode) (t : DateTime) : bool :=
  dt_geb t (vac_startDate v) && dt_leb t (vac_endDate v).

(** ** Specification *)

(** Minute [cur] of the day lies in the window from [start] to [stop]:
    [start, stop) on one day, or from [start] through midnight to [stop]. *)
Definition in_window (start stop cur : Z) : Prop :=
  if decide (start <= stop) then start <= cur < stop else start <= cur \/ cur < stop.

Definition minute_of_day (t : DateTime) : Z := dt_hour t * 60 + dt_minute t.

Definition start_minute (s : Schedule) : Z := sched_startHour s * 60 + sched_startMinute s.

Definition end_minute (s : Schedule) : Z := sched_endHour s * 60 + sched_endMinute s.

(** The schedule is active at time [t], vacation aside. *)
Definition schedule_active (s : Schedule) (t : DateTime) : bool :=
  sched_enabled s && isDayEnabled s (dayOfTheWeek t)
  && isTimeInRange t (sched_startHour s) (sched_startMinute s)
                     (sched_endHour s) (sched_endMinute s).

#[export] Instance in_window_dec start stop cur : Decision (in_window start stop cur).
Proof. unfold in_window. destruct (decide (start <= stop)); apply _. Defined.

Section Window.

Context {D : Type} `{RtcDevice D}.

(** ** The queries *)

(** [isWithinSchedule(scheduleId)]: the first schedule with that id. *)
Definition isWithinSchedule (me : Mutex.TaskId) (c : Controller D) (scheduleId : Z) : bool :=
  check ctl_initialized c orelse false ;;
  check hasLock me c orelse false ;;
  match find (fun s => sched_id s =? scheduleId) (ctl_schedules c) with
  | None => false
  | Some schedule =>
      check sched_enabled schedule orelse false ;;
      let current := rtc_now (ctl_rtc c) in
      check isDayEnabled schedule (dayOfTheWeek current) orelse false ;;
      isTimeInRange current (sched_startHour schedule) (sched_startMinute schedule)
                            (sched_endHour schedule) (sched_endMinute schedule)
  end.

(** [isWithinAnySchedule()]. *)
Definition isWithinAnySchedule (me : Mutex.TaskId) (c : Controller D) : bool :=
  check ctl_initialized c orelse false ;;
  check hasLock me c orelse false ;;
  check negb (vac_enabled (ctl_vacationMode c)
              && in_vacation_range (ctl_vacationMode c) (rtc_now (ctl_rtc c)))
    orelse false ;;
  existsb (fun s => isWithinSchedule me c (sched_id s)) (ctl_schedules c).

(** [getCurrentActiveSchedule()]: the first schedule whose id passes
    [isWithinSchedule]; [None] is the null pointer. *)
Definition getCurrentActiveSchedule (me : Mutex.TaskId) (c : Controller D)
  : option Schedule :=
  find (fun s => isWithinSchedule me c (sched_id s)) (ctl_schedules c).

End Window.

(** ** Examples: the 23:00 to 01:00 window *)

Example night_owl_2330 :
  schedule_active night_owl (DateTime_of_fields 2024 1 15 23 30 0) = true.
Proof. reflexivity. Qed.

Example night_owl_0030 :
  schedule_active night_owl (DateTime_of_fields 2024 1 15 0 30 0) = true.
Proof. reflexivity. Qed.

Example night_owl_noon :
  schedule_active night_owl (DateTime_of_fields 2024 1 15 12 0 0) = false.
Proof. reflexivity. Qed.

(** ** Theory of the time range *)

Lemma minutes_u16 h m : 0 <= h < 256 -> 0 <= m < 256 -> u16 (h * 60 + m) = h * 60 + m.
Proof. intros Hh Hm. apply u16_small. lia. Qed.

Lemma minute_of_day_range t : calendar_ok t -> 0 <= minute_of_day t < 1440.
Proof. intros (_ & _ & _ & ? & ? & _). unfold minute_of_day. lia. Qed.

(** For byte arguments the three minute counts do not wrap, and the test
    is the decision of [in_window]. *)
Lemma isTimeInRange_decide t sh sm eh em :
  0 <= dt_hour t < 256 -> 0 <= dt_minute t < 256 ->
  fits 8 sh -> fits 8 sm -> fits 8 eh -> fits 8 em ->
  isTimeInRange t sh sm eh em
  = bool_decide (in_window (sh * 60 + sm) (eh * 60 + em) (minute_of_day t)).
Proof.
  unfold fits. intros. apply eq_true_iff_eq. rewrite bool_decide_eq_true.
  unfold isTimeInRange, in_window, minute_of_day. rewrite !minutes_u16 by lia.
  destruct (decide (sh * 60 + sm <= eh * 60 + em)) as [Hle | Hgt].
  - rewrite (proj2 (Z.leb_le _ _) Hle), andb_true_iff, Z.leb_le, Z.ltb_lt. reflexivity.
  - rewrite (proj2 (Z.leb_gt _ _)) by lia. rewrite orb_true_iff, Z.leb_le, Z.ltb_lt.
    reflexivity.
Qed.

(** C5: [isTimeInRange] decides membership of the current minute in the
    window, same-day or spanning midnight, for byte arguments (no
    wrap-around is reachable). *)
Theorem isTimeInRange_spec t sh sm eh em :
  0 <= dt_hour t < 256 -> 0 <= dt_minute t < 256 ->
  fits 8 sh -> fits 8 sm -> fits 8 eh -> fits 8 em ->
  isTimeInRange t sh sm eh em = true
  <-> in_window (sh * 60 + sm) (eh * 60 + em) (minute_of_day t).
Proof. intros. rewrite isTimeInRange_decide by assumption. apply bool_decide_eq_true. Qed.

Lemma isTimeInRange_spec_witness :
  isTimeInRange (DateTime_of_fields 2024 1 15 0 30 0) 23 0 1 0 = true
  <-> in_window (23 * 60 + 0) (1 * 60 + 0) (minute_of_day (DateTime_of_fields 2024 1 15 0 30 0)).
Proof.
  apply (isTimeInRange_spec (DateTime_of_fields 2024 1 15 0 30 0) 23 0 1 0);
    vm_compute; split; congruence.
Defined.

(** A window whose start and end coincide is never active, whatever the
    time and whatever the arguments. *)
Lemma isTimeInRange_empty t sh sm eh em :
  u16 (sh * 60 + sm) = u16 (eh * 60 + em) -> isTimeInRange t sh sm eh em = false.
Proof.
  unfold isTimeInRange. intros ->. rewrite Z.leb_refl.
  apply andb_false_iff. destruct (Z.leb_spec (u16 (eh * 60 + em))
    (u16 (dt_hour t * 60 + dt_minute t))); [right; apply Z.ltb_ge; lia | left; reflexivity].
Qed.

(** Two windows with the bounds exchanged split the day: at every time
    exactly one of them is active, unless the bounds coincide. *)
Theorem isTimeInRange_complement t sh sm eh em :
  u16 (sh * 60 + sm) <> u16 (eh * 60 + em) ->
  isTimeInRange t eh em sh sm = negb (isTimeInRange t sh sm eh em).
Proof.
  unfold isTimeInRange. intros Hne.
  set (s := u16 (sh * 60 + sm)) in *. set (e := u16 (eh * 60 + em)) in *.
  set (cur := u16 (dt_hour t * 60 + dt_minute t)).
  destruct (Z.leb_spec s e), (Z.leb_spec e s); try lia;
    destruct (Z.leb_spec s cur), (Z.leb_spec e cur), (Z.ltb_spec cur s), (Z.ltb_spec cur e);
    simpl; try reflexivity; lia.
Qed.

Lemma isTimeInRange_complement_witness :
  isTimeInRange (DateTime_of_fields 2024 1 15 12 0 0) 1 0 23 0
  = negb (isTimeInRange (DateTime_of_fields 2024 1 15 12 0 0) 23 0 1 0).
Proof.
  apply (isTimeInRange_complement (DateTime_of_fields 2024 1 15 12 0 0) 23 0 1 0).
  vm_compute. congruence.
Defined.

Lemma schedule_active_spec s t :
  schedule_bytes s -> calendar_ok t ->
  schedule_active s t = true
  <-> sched_enabled s = true /\ isDayEnabled s (dayOfTheWeek t) = true
      /\ in_window (start_minute s) (end_minute s) (minute_of_day t).
Proof.
  intros (_ & _ & ? & ? & ? & ?) (_ & _ & _ & ? & ? & _).
  unfold schedule_active, start_minute, end_minute.
  rewrite !andb_true_iff, isTimeInRange_decide, bool_decide_eq_true
    by (assumption || lia). tauto.
Qed.

(** A disabled schedule, or one with an empty mask, is never active. *)
Lemma schedule_active_disabled s t : sched_enabled s = false -> schedule_active s t = false.
Proof. unfold schedule_active. intros ->. reflexivity. Qed.

Lemma schedule_active_mask_0 s t : sched_dayMask s = 0 -> schedule_active s t = false.
Proof.
  intros Hm. unfold schedule_active. rewrite isDayEnabled_mask_0 by exact Hm.
  rewrite andb_false_r. reflexivity.
Qed.

Section WindowTheory.

Context {D : Type} `{RtcDevice D}.

Implicit Types (c : Controller D) (me : Mutex.TaskId).

(** ** Theory of the queries *)

(** [isWithinSchedule] is false on an uninitialised object, when the lock
    is held elsewhere and for an unknown id; otherwise it is the activity,
    at the clock's time, of the first schedule with that id. *)
Lemma isWithinSchedule_spec me c scheduleId :
  isWithinSchedule me c scheduleId =
  if negb (ctl_initialized c) then false
  else if negb (hasLock me c) then false
  else match find (fun s => sched_id s =? scheduleId) (ctl_schedules c) with
       | None => false
       | Some s => schedule_active s (rtc_now (ctl_rtc c))
       end.
Proof.
  unfold isWithinSchedule, schedule_active.
  destruct (ctl_initialized c), (hasLock me c); simpl; try reflexivity.
  destruct (find _ _) as [s|]; [|reflexivity].
  destruct (sched_enabled s), (isDayEnabled s _); reflexivity.
Qed.

Lemma isWithinSchedule_ready me c scheduleId :
  isWithinSchedule me c scheduleId = true -> ready me c.
Proof.
  rewrite isWithinSchedule_spec. unfold ready.
  destruct (ctl_initialized c), (hasLock me c); simpl; try discriminate. auto.
Qed.

(** The ids of the set are pairwise different. *)
Definition unique_ids (l : list Schedule) : Prop := List.NoDup (map sched_id l).

Lemma find_id_unique (l : list Schedule) s :
  unique_ids l -> In s l -> find (fun x => sched_id x =? sched_id s) l = Some s.
Proof.
  unfold unique_ids. induction l as [|a l IH]; simpl; [intros _ []|].
  intros Hnd Hin. apply NoDup_cons_iff in Hnd as [Hna Hnd].
  destruct (Z.eqb_spec (sched_id a) (sched_id s)) as [E | Hne].
  - destruct Hin as [-> | Hin]; [reflexivity|]. exfalso. apply Hna. rewrite E.
    apply in_map. exact Hin.
  - destruct Hin as [-> | Hin]; [contradiction|]. apply IH; assumption.
Qed.

(** With unique ids, asking by a member's id asks about that member. *)
Lemma isWithinSchedule_member me c s :
  unique_ids (ctl_schedules c) -> In s (ctl_schedules c) -> ready me c ->
  isWithinSchedule me c (sched_id s) = schedule_active s (rtc_now (ctl_rtc c)).
Proof.
  intros Hu Hin [Hi Hl]. rewrite isWithinSchedule_spec, Hi, Hl. simpl.
  rewrite find_id_unique by assumption. reflexivity.
Qed.

(** Vacation override.  While vacation is enabled and the clock's time is
    within its range, no schedule is reported active, whatever the
    schedules say. *)
Lemma isWithinAnySchedule_vacation me c :
  vac_enabled (ctl_vacationMode c) = true ->
  in_vacation_range (ctl_vacationMode c) (rtc_now (ctl_rtc c)) = true ->
  isWithinAnySchedule me c = false.
Proof.
  intros He Hr. unfold isWithinAnySchedule. rewrite He, Hr.
  destruct (ctl_initialized c), (hasLock me c); reflexivity.
Qed.

(** Whatever the ids, a positive answer of [isWithinAnySchedule] is due
    to a stored schedule that is active at the clock's time. *)
Lemma isWithinAnySchedule_active me c :
  isWithinAnySchedule me c = true ->
  exists s, In s (ctl_schedules c) /\ schedule_active s (rtc_now (ctl_rtc c)) = true.
Proof.
  unfold isWithinAnySchedule. intros Hw.
  repeat match type of Hw with
         | (if ?b then _ else _) = true => destruct b; [|discriminate Hw]
         end.
  apply existsb_exists in Hw as (s0 & _ & Hs). rewrite isWithinSchedule_spec in Hs.
  destruct (negb _); [discriminate|]. destruct (negb _); [discriminate|].
  destruct (find _ _) as [s|] eqn:Hf; [|discriminate].
  exists s. split; [apply (find_some _ _ Hf) | exact Hs].
Qed.

(** C6: with unique ids, [isWithinAnySchedule] is true exactly when the
    object is ready, vacation does not cover the clock's time, and some
    schedule of the set is active at that time. *)
Theorem isWithinAnySchedule_spec me c :
  unique_ids (ctl_schedules c) ->
  isWithinAnySchedule me c = true
  <-> ready me c
      /\ (vac_enabled (ctl_vacationMode c)
          && in_vacation_range (ctl_vacationMode c) (rtc_now (ctl_rtc c))) = false
      /\ exists s, In s (ctl_schedules c) /\ schedule_active s (rtc_now (ctl_rtc c)) = true.
Proof.
  intros Hu. unfold isWithinAnySchedule, ready.
  destruct (ctl_initialized c) eqn:Hi; [|intuition discriminate].
  destruct (hasLock me c) eqn:Hl; [|intuition discriminate].
  destruct (vac_enabled _ && in_vacation_range _ _); simpl; [intuition discriminate|].
  rewrite existsb_exists. split.
  - intros (s & Hin & Ha). repeat split. exists s. split; [exact Hin|].
    rewrite <- (isWithinSchedule_member me) by (unfold ready; auto). exact Ha.
  - intros (_ & _ & s & Hin & Ha). exists s. split; [exact Hin|].
    rewrite isWithinSchedule_member by (unfold ready; auto). exact Ha.
Qed.

(** With unique ids on a ready object, [getCurrentActiveSchedule]
    returns the first schedule, in insertion order, that is active at the
    clock's time, and the null pointer when none is. *)
Theorem getCurrentActiveSchedule_spec me c :
  unique_ids (ctl_schedules c) -> ready me c ->
  getCurrentActiveSchedule me c
  = find (fun s => schedule_active s (rtc_now (ctl_rtc c))) (ctl_schedules c).
Proof.
  intros Hu Hr. unfold getCurrentActiveSchedule.
  assert (Hext : forall s, In s (ctl_schedules c) ->
            isWithinSchedule me c (sched_id s) = schedule_active s (rtc_now (ctl_rtc c))).
  { intros s Hin. apply isWithinSchedule_member; assumption. }
  induction (ctl_schedules c) as [|a l IH] in Hext |- *; simpl; [reflexivity|].
  rewrite Hext by (left; reflexivity). destruct (schedule_active a _); [reflexivity|].
  apply IH. intros s Hin. apply Hext. right. exact Hin.
Qed.

Lemma getCurrentActiveSchedule_not_ready me c :
  ~ ready me c -> getCurrentActiveSchedule me c = None.
Proof.
  intros Hn. unfold getCurrentActiveSchedule. apply find_none_iff. intros s _.
  destruct (isWithinSchedule me c (sched_id s)) eqn:E; [|reflexivity].
  exfalso. apply Hn. eapply isWithinSchedule_ready. exact E.
Qed.

End WindowTheory.

(** ** The queries on the sample system

    Wednesday 2024-01-17 07:00:00: the weekday window is active, the night
    window is not. *)

Ltac distinct_ids := unfold unique_ids; simpl; repeat constructor; simpl; intuition lia.

Lemma isWithinAnySchedule_spec_witness :
  isWithinAnySchedule 0%nat (sample [night_owl; weekday_morning]) = true.
Proof.
  apply (isWithinAnySchedule_spec 0%nat (sample [night_owl; weekday_morning]));
    [distinct_ids|].
  split; [apply sample_ready|]. split; [vm_compute; reflexivity|].
  exists weekday_morning. split; [simpl; auto | vm_compute; reflexivity].
Defined.

Lemma getCurrentActiveSchedule_spec_witness :
  getCurrentActiveSchedule 0%nat (sample [night_owl; weekday_morning]) = Some weekday_morning.
Proof.
  rewrite (getCurrentActiveSchedule_spec 0%nat (sample [night_owl; weekday_morning]));
    [vm_compute; reflexivity | distinct_ids | apply sample_ready].
Defined.

(** Ids that are not unique.  With two schedules of the same id, the
    second active and the first not, [getCurrentActiveSchedule] returns
    nothing although [schedule_active] holds of a member; asking by the
    second schedule's id asks about the first. *)
Theorem getCurrentActiveSchedule_duplicate_ids :
  let twin := set_id weekday_morning (sched_id night_owl) in
  let c := sample [night_owl; twin] in
  schedule_active twin (rtc_now (ctl_rtc c)) = true
  /\ isWithinSchedule 0%nat c (sched_id twin) = false
  /\ getCurrentActiveSchedule 0%nat c = None
  /\ isWithinAnySchedule 0%nat c = false.
Proof. vm_compute. auto. Qed.
