(* ===== verification/Occurrence.v ===== *)
(** * Next occurrences

    When the next window starts and when the current one ends:
    [calculateNextOccurrence] (a search over at most eight days),
    [getNextScheduledStart] and [getNextScheduledEnd] (minima over the
    schedule set) and [getSecondsUntilNextEvent].

    [is_start_of] is the specification of an occurrence: a valid timestamp
    on an enabled weekday at the schedule's start time.  The main theorems
    say that the eight-day search finds an occurrence strictly after [from]
    whenever a weekday is enabled ([calculateNextOccurrence_found]) and that
    no occurrence lies between [from] and the one found
    ([calculateNextOccurrence_earliest]). *)

From stdpp Require Import strings.
From S2P Require Import Prelude DateTime Schedule Hardware State Window.

(** ** The search *)

(** [DateTime candidate(next.year(), next.month(), next.day(),
    schedule.startHour, schedule.startMinute, 0)]. *)
Definition candidate (schedule : Schedule) (next : DateTime) : DateTime :=
  DateTime_of_fields (year next) (dt_month next) (dt_day next)
                     (sched_startHour schedule) (sched_startMinute schedule) 0.

(** The loop [for (int days = 0; days < 8; days++)] with [days] iterations
    left to run. *)
Fixpoint search_days (days : nat) (schedule : Schedule) (from next : DateTime)
  : DateTime :=
  match days with
  | O => DateTime_default
  | S days' =>
      if isDayEnabled schedule (dayOfTheWeek next)
         && dt_gtb (candidate schedule next) from
      then candidate schedule next
      else search_days days' schedule from (dt_add next (TimeSpan 1 0 0 0))
  end.

(** [calculateNextOccurrence(schedule, from)]. *)
Definition calculateNextOccurrence (schedule : Schedule) (from : DateTime) : DateTime :=
  check negb (negb (sched_enabled schedule) || (sched_dayMask schedule =? 0))
    orelse DateTime_default ;;
  search_days 8 schedule from (dt_add from (TimeSpan 0 0 1 0)).

(** ** Specification *)

(** Seconds from midnight to the start of the window. *)
Definition start_second (s : Schedule) : Z :=
  sched_startHour s * 3600 + sched_startMinute s * 60.

(** [x] is a start of the window of [s]: on an enabled weekday, at the
    start time, second 0. *)
Definition is_start_of (s : Schedule) (x : DateTime) : Prop :=
  wf_date x /\ isDayEnabled s (dayOfTheWeek x) = true
  /\ dt_hour x = sched_startHour s /\ dt_minute x = sched_startMinute s
  /\ dt_second x = 0.

(** Timestamps from which the search stays within the valid years: nine
    days before the end of 2099. *)
Definition searchable (from : DateTime) : Prop :=
  wf_date from /\ epoch2000 from + 9 * 86400 < VALID_SECONDS.

#[export] Instance searchable_dec from : Decision (searchable from).
Proof. unfold searchable. apply _. Defined.

(** The reference search, on day numbers: day [dn] is a hit when its
    weekday is enabled and the start on that day is after second [e]. *)
Definition day_hit (s : Schedule) (e dn : Z) : bool :=
  isDayEnabled s ((dn + 6) mod 7) && (e <? dn * 86400 + start_second s).

Fixpoint first_hit (days : nat) (s : Schedule) (e dn : Z) : option Z :=
  match days with
  | O => None
  | S days' => if day_hit s e dn then Some dn else first_hit days' s e (dn + 1)
  end.

(** The start of the window on day [dn]. *)
Definition start_on (s : Schedule) (dn : Z) : DateTime :=
  DateTime_of_epoch (SECONDS_FROM_1970_TO_2000 + dn * 86400 + start_second s).

(** What a schedule contributes to the minimum of [getNextScheduledStart]. *)
Definition start_option (now : DateTime) (s : Schedule) : option DateTime :=
  if sched_enabled s && isValid (calculateNextOccurrence s now)
  then Some (calculateNextOccurrence s now) else None.

(** [x] is a start, strictly after [now], of an enabled schedule of [l]. *)
Definition upcoming_start (l : list Schedule) (now x : DateTime) : Prop :=
  exists s, In s l /\ sched_enabled s = true /\ is_start_of s x
            /\ epoch2000 now < epoch2000 x.

(** The schedule can be planned: its times are in range and a weekday is
    enabled. *)
Definition plannable (s : Schedule) : Prop :=
  schedule_in_range s /\ some_day_enabled s.

#[export] Instance plannable_dec s : Decision (plannable s).
Proof. unfold plannable. apply _. Defined.

Section Occurrence.

Context {D : Type} `{RtcDevice D}.

(** ** Minima over the schedule set *)

(** One iteration of the loop of [getNextScheduledStart]: the running
    minimum [nextStart] and the flag [found]. *)
Definition next_start_step (now : DateTime) (acc : DateTime * bool) (schedule : Schedule)
  : DateTime * bool :=
  let '(nextStart, found) := acc in
  check sched_enabled schedule orelse acc ;;
  let scheduleNext := calculateNextOccurrence schedule now in
  if isValid scheduleNext && (negb found || dt_ltb scheduleNext nextStart)
  then (scheduleNext, true)
  else acc.

(** [getNextScheduledStart()]. *)
Definition getNextScheduledStart (me : Mutex.TaskId) (c : Controller D) : DateTime :=
  check ctl_initialized c orelse DateTime_default ;;
  check hasLock me c orelse DateTime_default ;;
  let now := rtc_now (ctl_rtc c) in
  fst (fold_left (next_start_step now) (ctl_schedules c) (DateTime_default, false)).

(** The window of the schedule spans midnight, as [getNextScheduledEnd]
    tests it. *)
Definition spans_midnight (schedule : Schedule) : bool :=
  (sched_endHour schedule <? sched_startHour schedule)
  || ((sched_endHour schedule =? sched_startHour schedule)
      && (sched_endMinute schedule <? sched_startMinute schedule)).

(** One iteration of the loop of [getNextScheduledEnd]. *)
Definition next_end_step (me : Mutex.TaskId) (c : Controller D) (now : DateTime)
  (acc : DateTime * bool) (schedule : Schedule) : DateTime * bool :=
  let '(nextEnd, found) := acc in
  check sched_enabled schedule orelse acc ;;
  check isWithinSchedule me c (sched_id schedule) orelse acc ;;
  let endToday := DateTime_of_fields (year now) (dt_month now) (dt_day now)
                    (sched_endHour schedule) (sched_endMinute schedule) 0 in
  let endToday := if spans_midnight schedule
                  then dt_add endToday (TimeSpan 1 0 0 0)
                  else endToday in
  if negb found || dt_ltb endToday nextEnd then (endToday, true) else acc.

(** [getNextScheduledEnd()]. *)
Definition getNextScheduledEnd (me : Mutex.TaskId) (c : Controller D) : DateTime :=
  check ctl_initialized c orelse DateTime_default ;;
  check hasLock me c orelse DateTime_default ;;
  let now := rtc_now (ctl_rtc c) in
  fst (fold_left (next_end_step me c now) (ctl_schedules c) (DateTime_default, false)).

Definition NO_EVENT : Z := 4294967295.

(** [getSecondsUntilNextEvent()]. *)
Definition getSecondsUntilNextEvent (me : Mutex.TaskId) (c : Controller D) : Z :=
  check ctl_initialized c orelse NO_EVENT ;;
  check hasLock me c orelse NO_EVENT ;;
  let now := rtc_now (ctl_rtc c) in
  let nextStart := getNextScheduledStart me c in
  let nextEnd := getNextScheduledEnd me c in
  let secondsToStart :=
    if isValid nextStart && dt_gtb nextStart now
    then u32 (unixtime nextStart - unixtime now) else NO_EVENT in
  let secondsToEnd :=
    if isValid nextEnd && dt_gtb nextEnd now
    then u32 (unixtime nextEnd - unixtime now) else NO_EVENT in
  if secondsToStart <? secondsToEnd then secondsToStart else secondsToEnd.

End Occurrence.

(** ** Examples: a weekday morning window *)


(** Wednesday 2024-01-17 07:00: inside the window; the next start is
    Thursday 06:00. *)
Example wednesday_active :
  schedule_active weekday_morning (DateTime_of_fields 2024 1 17 7 0 0) = true.
Proof. reflexivity. Qed.

Example wednesday_next_is_thursday :
  calculateNextOccurrence weekday_morning (DateTime_of_fields 2024 1 17 7 0 0)
  = DateTime_of_fields 2024 1 18 6 0 0.
Proof. reflexivity. Qed.

(** Friday 2024-01-19 06:00:00 exactly: the start is not after [from], so
    the next one is Monday. *)
Example friday_start_next_is_monday :
  calculateNextOccurrence weekday_morning (DateTime_of_fields 2024 1 19 6 0 0)
  = DateTime_of_fields 2024 1 22 6 0 0.
Proof. reflexivity. Qed.

(** One second before: today's start is still ahead. *)
Example friday_before_start :
  calculateNextOccurrence weekday_morning (DateTime_of_fields 2024 1 19 5 59 59)
  = DateTime_of_fields 2024 1 19 6 0 0.
Proof. reflexivity. Qed.

(** ** Theory of the search *)

Lemma start_second_range s : schedule_in_range s -> 0 <= start_second s <= 86340.
Proof. unfold schedule_in_range, start_second. lia. Qed.

Lemma start_on_spec s dn :
  schedule_in_range s -> 0 <= dn -> dn * 86400 + 86400 <= VALID_SECONDS ->
  let x := start_on s dn in
  wf_date x /\ day_number x = dn /\ epoch2000 x = dn * 86400 + start_second s
  /\ dt_hour x = sched_startHour s /\ dt_minute x = sched_startMinute s
  /\ dt_second x = 0.
Proof.
  intros Hr Hdn Hv. pose proof (start_second_range s Hr) as Hs. cbv zeta.
  unfold start_on. set (t := SECONDS_FROM_1970_TO_2000 + dn * 86400 + start_second s).
  destruct (of_epoch_wf t) as [Hwf He]; [unfold t; lia|].
  assert (Ht' : t - SECONDS_FROM_1970_TO_2000 = dn * 86400 + start_second s)
    by (unfold t; lia).
  rewrite Ht' in He. clear Ht'. clearbody t.
  revert Hwf He. generalize (DateTime_of_epoch t). intros x Hwf He.
  split; [exact Hwf|]. split; [rewrite day_number_div, He by apply Hwf; zdiv|].
  split; [exact He|].
  pose proof (time_of_day_mod _ (proj1 Hwf)) as Ht. rewrite He in Ht.
  replace ((dn * 86400 + start_second s) mod 86400) with (start_second s) in Ht by zdiv.
  destruct Hwf as [(_ & _ & _ & ? & ? & ?) _], Hr as (? & ? & _).
  unfold time_of_day, start_second in Ht. lia.
Qed.

Lemma candidate_start_on s next :
  schedule_in_range s -> wf_date next ->
  candidate s next = start_on s (day_number next).
Proof.
  intros Hr Hwf. pose proof (wf_epoch2000_range _ Hwf) as He.
  pose proof (day_number_nonneg _ (proj1 Hwf)) as Hd.
  pose proof (time_of_day_range _ (proj1 Hwf)). rewrite epoch2000_split in He.
  destruct (of_fields_same_day next (sched_startHour s) (sched_startMinute s) 0 Hwf)
    as (Hc & Hdn & Ht); try (destruct Hr as (? & ? & _); lia).
  fold (candidate s next) in Hc, Hdn, Ht.
  destruct (start_on_spec s (day_number next) Hr) as (Hx & _ & Hxe & _);
    [lia | unfold VALID_SECONDS in *; lia |].
  apply epoch2000_inj; [apply Hc | apply Hx |].
  rewrite Hxe, epoch2000_split, Hdn, Ht. unfold start_second. lia.
Qed.

Lemma hit_day_hit s from next :
  schedule_in_range s -> wf_date from -> wf_date next ->
  isDayEnabled s (dayOfTheWeek next) && dt_gtb (candidate s next) from
  = day_hit s (epoch2000 from) (day_number next).
Proof.
  intros Hr Hf Hn. unfold day_hit. rewrite dayOfTheWeek_day_number by assumption. f_equal.
  pose proof (wf_epoch2000_range _ Hn) as He. rewrite epoch2000_split in He.
  pose proof (day_number_nonneg _ (proj1 Hn)). pose proof (time_of_day_range _ (proj1 Hn)).
  rewrite candidate_start_on by assumption.
  destruct (start_on_spec s (day_number next) Hr) as (Hx & _ & Hxe & _);
    [lia | unfold VALID_SECONDS in *; lia |].
  unfold dt_gtb. rewrite dt_ltb_epoch2000, Hxe by (apply Hf || apply Hx). reflexivity.
Qed.

Lemma next_day_wf next :
  wf_date next -> epoch2000 next + 86400 < VALID_SECONDS ->
  let next' := dt_add next (TimeSpan 1 0 0 0) in
  wf_date next' /\ day_number next' = day_number next + 1
  /\ epoch2000 next' = epoch2000 next + 86400.
Proof.
  intros Hwf Hv. pose proof (wf_epoch2000_range _ Hwf). cbv zeta.
  destruct (dt_add_wf next (TimeSpan 1 0 0 0) Hwf) as [Hwf' He];
    [unfold TimeSpan; lia|]. unfold TimeSpan in He at 2. simpl in He.
  split; [exact Hwf'|]. split; [|lia].
  rewrite !day_number_div, He by (apply Hwf || apply Hwf'). zdiv.
Qed.

(** The search over timestamps is the reference search over day numbers. *)
Theorem search_days_first_hit days s from : forall next,
  schedule_in_range s -> wf_date from -> wf_date next ->
  epoch2000 next + Z.of_nat days * 86400 < VALID_SECONDS + 86400 ->
  search_days days s from next
  = match first_hit days s (epoch2000 from) (day_number next) with
    | Some dn => start_on s dn
    | None => DateTime_default
    end.
Proof.
  induction days as [|days IH]; intros next Hr Hf Hn Hv; simpl; [reflexivity|].
  rewrite hit_day_hit by assumption.
  destruct (day_hit s (epoch2000 from) (day_number next)).
  - apply candidate_start_on; assumption.
  - destruct days as [|days']; [reflexivity|].
    destruct (next_day_wf next Hn) as (Hn' & Hd & He); [lia|].
    rewrite IH, Hd by (assumption || lia). reflexivity.
Qed.

Lemma first_hit_some days s e : forall dn d,
  first_hit days s e dn = Some d ->
  dn <= d < dn + Z.of_nat days /\ day_hit s e d = true
  /\ forall j, dn <= j < d -> day_hit s e j = false.
Proof.
  induction days as [|days IH]; intros dn d; simpl; [discriminate|].
  destruct (day_hit s e dn) eqn:Hh.
  - intros [= <-]. repeat split; [lia | lia | exact Hh | intros j Hj; lia].
  - intros Hf. destruct (IH _ _ Hf) as (Hr & Hd & Hj). repeat split; [lia | lia | exact Hd |].
    intros j Hjr. destruct (Z.eq_dec j dn) as [-> | Hne]; [exact Hh | apply Hj; lia].
Qed.

Lemma first_hit_none days s e : forall dn,
  first_hit days s e dn = None ->
  forall j, dn <= j < dn + Z.of_nat days -> day_hit s e j = false.
Proof.
  induction days as [|days IH]; intros dn; simpl; [intros _ j Hj; lia|].
  destruct (day_hit s e dn) eqn:Hh; [discriminate|]. intros Hf j Hj.
  destruct (Z.eq_dec j dn) as [-> | Hne]; [exact Hh | apply (IH _ Hf); lia].
Qed.

(** Among seven consecutive days every weekday occurs. *)
Lemma weekday_within_week dn d0 :
  0 <= d0 < 7 -> exists j, dn + 1 <= j <= dn + 7 /\ (j + 6) mod 7 = d0.
Proof.
  intros Hd. exists (dn + 1 + (d0 - dn) mod 7). split; zdiv.
Qed.

Lemma day_hit_within_week s e dn :
  some_day_enabled s -> 0 <= start_second s -> e < (dn + 1) * 86400 ->
  exists j, dn + 1 <= j <= dn + 7 /\ day_hit s e j = true.
Proof.
  intros (d0 & Hd0 & He) Hs Hlt. destruct (weekday_within_week dn d0 Hd0) as (j & Hj & Hm).
  exists j. split; [exact Hj|]. unfold day_hit. rewrite Hm, He. apply Z.ltb_lt. lia.
Qed.

Lemma first_hit_8_some s e dn :
  some_day_enabled s -> 0 <= start_second s -> e < (dn + 1) * 86400 ->
  exists d, first_hit 8 s e dn = Some d.
Proof.
  intros Hs Hss He. destruct (first_hit 8 s e dn) as [d|] eqn:Hf; [eauto|]. exfalso.
  destruct (day_hit_within_week s e dn Hs Hss He) as (j & Hj & Hh).
  rewrite (first_hit_none _ _ _ _ Hf j) in Hh by lia. discriminate.
Qed.

(** The first day the search looks at: the day of [from] plus one minute. *)
Lemma search_start from :
  searchable from ->
  let next := dt_add from (TimeSpan 0 0 1 0) in
  wf_date next /\ epoch2000 next = epoch2000 from + 60
  /\ day_number next = (epoch2000 from + 60) / 86400.
Proof.
  intros [Hwf Hv]. pose proof (wf_epoch2000_range _ Hwf). cbv zeta.
  destruct (dt_add_wf from (TimeSpan 0 0 1 0) Hwf) as [Hwf' He];
    [unfold TimeSpan; lia|]. unfold TimeSpan in He at 2. simpl in He.
  split; [exact Hwf'|]. split; [exact He|]. rewrite day_number_div, He by apply Hwf'.
  reflexivity.
Qed.

Lemma some_day_enabled_mask s : some_day_enabled s -> sched_dayMask s <> 0.
Proof. intros (d & _ & He) Hm. rewrite isDayEnabled_mask_0 in He by exact Hm. discriminate. Qed.

(** For an enabled schedule with a mask that is not empty,
    [calculateNextOccurrence] is the reference search from the day of
    [from] plus one minute. *)
Lemma calculateNextOccurrence_first_hit s from :
  schedule_in_range s -> searchable from ->
  sched_enabled s = true -> sched_dayMask s <> 0 ->
  calculateNextOccurrence s from
  = match first_hit 8 s (epoch2000 from) ((epoch2000 from + 60) / 86400) with
    | Some dn => start_on s dn
    | None => DateTime_default
    end.
Proof.
  intros Hr Hs He Hm. destruct (search_start from Hs) as (Hn & Hne & Hnd).
  unfold calculateNextOccurrence. rewrite He. apply Z.eqb_neq in Hm. rewrite Hm. simpl negb.
  cbv iota. rewrite search_days_first_hit, Hnd; try assumption; [reflexivity | apply Hs |].
  destruct Hs as [_ Hv]. rewrite Hne. simpl Z.of_nat. lia.
Qed.

Lemma calculateNextOccurrence_found s from :
  schedule_in_range s -> searchable from ->
  sched_enabled s = true -> some_day_enabled s ->
  let r := calculateNextOccurrence s from in
  is_start_of s r /\ epoch2000 from < epoch2000 r <= epoch2000 from + 8 * 86400.
Proof.
  intros Hr Hs He Hd. cbv zeta.
  rewrite calculateNextOccurrence_first_hit by auto using some_day_enabled_mask.
  pose proof (start_second_range s Hr) as Hss.
  pose proof (wf_epoch2000_range _ (proj1 Hs)) as Hf. destruct Hs as [Hwf Hv].
  set (e := epoch2000 from) in *. set (d0 := (e + 60) / 86400).
  destruct (first_hit_8_some s e d0 Hd) as (d & Hfh); [lia | unfold d0; zdiv |].
  rewrite Hfh. destruct (first_hit_some _ _ _ _ _ Hfh) as (Hdr & Hh & _).
  destruct (start_on_spec s d Hr) as (Hx & Hxd & Hxe & Hxh & Hxm & Hxs);
    [unfold d0 in *; zdiv | unfold d0, VALID_SECONDS in *; zdiv |].
  unfold day_hit in Hh. apply andb_true_iff in Hh as [Hen Hlt]. apply Z.ltb_lt in Hlt.
  split; [|rewrite Hxe; unfold d0 in *; zdiv].
  unfold is_start_of. rewrite dayOfTheWeek_day_number, Hxd by exact Hx. auto.
Qed.

Lemma calculateNextOccurrence_earliest s from x :
  schedule_in_range s -> searchable from ->
  sched_enabled s = true -> some_day_enabled s ->
  is_start_of s x -> epoch2000 from < epoch2000 x ->
  epoch2000 (calculateNextOccurrence s from) <= epoch2000 x.
Proof.
  intros Hr Hs He Hd (Hx & Hxen & Hxh & Hxm & Hxs) Hlt.
  rewrite calculateNextOccurrence_first_hit by auto using some_day_enabled_mask.
  pose proof (start_second_range s Hr) as Hss.
  pose proof (wf_epoch2000_range _ (proj1 Hs)) as Hf. destruct Hs as [Hwf Hv].
  pose proof (wf_epoch2000_range _ Hx) as Hxr.
  pose proof (day_number_nonneg _ (proj1 Hx)) as Hxd.
  assert (Hxe : epoch2000 x = day_number x * 86400 + start_second s).
  { rewrite epoch2000_split. unfold time_of_day, start_second. rewrite Hxh, Hxm, Hxs. lia. }
  assert (Hxhit : day_hit s (epoch2000 from) (day_number x) = true).
  { unfold day_hit. rewrite <- dayOfTheWeek_day_number, Hxen by exact Hx.
    apply Z.ltb_lt. lia. }
  set (e := epoch2000 from) in *. set (d0 := (e + 60) / 86400).
  destruct (first_hit_8_some s e d0 Hd) as (d & Hfh); [lia | unfold d0; zdiv |].
  rewrite Hfh. destruct (first_hit_some _ _ _ _ _ Hfh) as (Hdr & _ & Hfirst).
  destruct (start_on_spec s d Hr) as (_ & _ & -> & _);
    [unfold d0 in *; zdiv | unfold d0, VALID_SECONDS in *; zdiv |].
  destruct (Z.le_gt_cases d (day_number x)) as [Hle | Hgt]; [lia|]. exfalso.
  destruct (Z.le_gt_cases d0 (day_number x)) as [Hge | Hbefore].
  - rewrite Hfirst in Hxhit by lia. discriminate.
  - unfold d0 in Hbefore. zdiv.
Qed.

(** [calculateNextOccurrence] returns the default timestamp for a disabled
    schedule and for an empty mask. *)
Lemma calculateNextOccurrence_none s from :
  sched_enabled s = false \/ sched_dayMask s = 0 ->
  calculateNextOccurrence s from = DateTime_default.
Proof.
  unfold calculateNextOccurrence. intros [-> | ->]; [reflexivity|].
  rewrite Z.eqb_refl, orb_true_r. reflexivity.
Qed.

(** C2: the eight-day search against its reference.  On every branch,
    [calculateNextOccurrence] is the default timestamp for a disabled
    schedule or an empty mask, and otherwise the start of the window on
    the first day, among the eight from the day of [from] plus one minute,
    whose weekday is enabled and whose start is after [from]. *)
Theorem calculateNextOccurrence_reference s from :
  schedule_in_range s -> searchable from ->
  calculateNextOccurrence s from
  = if sched_enabled s && negb (sched_dayMask s =? 0)
    then match first_hit 8 s (epoch2000 from) ((epoch2000 from + 60) / 86400) with
         | Some dn => start_on s dn
         | None => DateTime_default
         end
    else DateTime_default.
Proof.
  intros Hr Hs. destruct (sched_enabled s) eqn:He;
    [|apply calculateNextOccurrence_none; auto].
  destruct (Z.eqb_spec (sched_dayMask s) 0) as [Hm | Hm];
    [apply calculateNextOccurrence_none; auto|].
  apply calculateNextOccurrence_first_hit; assumption.
Qed.

Lemma calculateNextOccurrence_reference_witness :
  calculateNextOccurrence weekday_morning (DateTime_of_fields 2024 1 19 6 0 0)
  = start_on weekday_morning 8787.
Proof.
  rewrite (calculateNextOccurrence_reference weekday_morning
             (DateTime_of_fields 2024 1 19 6 0 0)); [reflexivity | by_compute | by_compute].
Defined.

(** C1: for an enabled schedule with times in range and some weekday
    enabled, [calculateNextOccurrence] returns a valid timestamp that is a
    start of the window (enabled weekday, start hour and minute, second 0),
    strictly after [from] and at most eight days later, and no start of the
    window lies strictly between [from] and it. *)
Theorem calculateNextOccurrence_correct s from :
  schedule_in_range s -> searchable from ->
  sched_enabled s = true -> some_day_enabled s ->
  let r := calculateNextOccurrence s from in
  is_start_of s r /\ epoch2000 from < epoch2000 r <= epoch2000 from + 8 * 86400
  /\ forall x, is_start_of s x -> epoch2000 from < epoch2000 x ->
                epoch2000 r <= epoch2000 x.
Proof.
  intros Hr Hs He Hd. cbv zeta.
  destruct (calculateNextOccurrence_found s from Hr Hs He Hd) as [Hst Hb].
  repeat split; try apply Hst; try apply Hb.
  intros x Hx Hlt. apply calculateNextOccurrence_earliest; assumption.
Qed.

Lemma calculateNextOccurrence_correct_witness :
  is_start_of weekday_morning
    (calculateNextOccurrence weekday_morning (DateTime_of_fields 2024 1 19 6 0 0)).
Proof.
  apply (calculateNextOccurrence_correct weekday_morning
           (DateTime_of_fields 2024 1 19 6 0 0)); by_compute || reflexivity.
Defined.

(** A mask with only bit 7 set is not empty, yet no weekday is enabled:
    the search runs its eight days and falls through to the default
    timestamp. *)
Theorem calculateNextOccurrence_no_weekday s from :
  schedule_in_range s -> searchable from -> ~ some_day_enabled s ->
  calculateNextOccurrence s from = DateTime_default.
Proof.
  intros Hr Hs Hn.
  destruct (sched_enabled s) eqn:He; [|apply calculateNextOccurrence_none; auto].
  destruct (Z.eq_dec (sched_dayMask s) 0) as [Hm | Hm];
    [apply calculateNextOccurrence_none; auto|].
  rewrite calculateNextOccurrence_first_hit by assumption.
  destruct (first_hit _ _ _ _) as [d|] eqn:Hf; [|reflexivity]. exfalso.
  destruct (first_hit_some _ _ _ _ _ Hf) as (_ & Hh & _). apply Hn.
  unfold day_hit in Hh. apply andb_true_iff in Hh as [Hen _].
  exists ((d + 6) mod 7). split; [zdiv | exact Hen].
Qed.

Lemma calculateNextOccurrence_no_weekday_witness :
  calculateNextOccurrence (set_dayMask weekday_morning 128)
    (DateTime_of_fields 2024 1 19 6 0 0) = DateTime_default.
Proof. apply calculateNextOccurrence_no_weekday; by_compute. Defined.

Lemma next_start_step_min_step now acc s :
  next_start_step now acc s = min_step dt_ltb acc (start_option now s).
Proof.
  unfold next_start_step, start_option, min_step. destruct acc as [nextStart found].
  destruct (sched_enabled s); simpl; [|reflexivity].
  destruct (isValid (calculateNextOccurrence s now)); reflexivity.
Qed.

(** ** Theory of the next start *)

Section NextStart.
Context {D : Type} `{RtcDevice D}.
Implicit Types (c : Controller D) (me : Mutex.TaskId).

Lemma getNextScheduledStart_fold me c :
  ready me c ->
  getNextScheduledStart me c
  = fst (fold_left (min_step dt_ltb)
           (map (start_option (rtc_now (ctl_rtc c))) (ctl_schedules c))
           (DateTime_default, false)).
Proof.
  intros [Hi Hl]. unfold getNextScheduledStart. rewrite Hi, Hl. f_equal.
  rewrite fold_left_map. apply fold_left_ext_in. intros acc s _.
  apply next_start_step_min_step.
Qed.

Lemma start_option_wf now s x : start_option now s = Some x -> wf_date x.
Proof.
  unfold start_option. destruct (sched_enabled s); [|discriminate]. simpl.
  destruct (isValid _) eqn:Hv; [|discriminate]. intros [= <-]. apply isValid_iff. exact Hv.
Qed.

Lemma in_start_options now l x :
  In (Some x) (map (start_option now) l)
  <-> exists s, In s l /\ sched_enabled s = true
                /\ isValid (calculateNextOccurrence s now) = true
                /\ x = calculateNextOccurrence s now.
Proof.
  rewrite in_map_iff. unfold start_option. split.
  - intros (s & Hs & Hin). exists s. destruct (sched_enabled s); [|discriminate].
    destruct (isValid _); [|discriminate]. simpl in Hs. injection Hs as <-. auto.
  - intros (s & Hin & He & Hv & ->). exists s. rewrite He, Hv. auto.
Qed.

Lemma start_minimum me c :
  ready me c ->
  min_of epoch2000 wf_date (map (start_option (rtc_now (ctl_rtc c))) (ctl_schedules c))
    (fold_left (min_step dt_ltb)
       (map (start_option (rtc_now (ctl_rtc c))) (ctl_schedules c))
       (DateTime_default, false)).
Proof.
  intros Hr. apply (fold_min_step_spec epoch2000 dt_ltb wf_date).
  - intros x y Hx Hy. apply dt_ltb_epoch2000; [apply Hx | apply Hy].
  - intros x (s & Hs & _)%in_map_iff. eapply start_option_wf. exact Hs.
Qed.

(** No enabled schedule: nothing is found. *)
Lemma getNextScheduledStart_none me c :
  Forall (fun s => sched_enabled s = false) (ctl_schedules c) ->
  getNextScheduledStart me c = DateTime_default.
Proof.
  intros Hall. unfold getNextScheduledStart.
  destruct (ctl_initialized c), (hasLock me c); try reflexivity. simpl.
  induction Hall as [|s l Hs _ IH]; [reflexivity|]. simpl. rewrite Hs. exact IH.
Qed.

Lemma getNextScheduledStart_earliest me c :
  ready me c -> searchable (rtc_now (ctl_rtc c)) ->
  Forall (fun s => sched_enabled s = true -> plannable s) (ctl_schedules c) ->
  Exists (fun s => sched_enabled s = true) (ctl_schedules c) ->
  let now := rtc_now (ctl_rtc c) in
  let r := getNextScheduledStart me c in
  upcoming_start (ctl_schedules c) now r
  /\ forall x, upcoming_start (ctl_schedules c) now x -> epoch2000 r <= epoch2000 x.
Proof.
  intros Hr Hs Hplan Hex. cbv zeta. rewrite getNextScheduledStart_fold by exact Hr.
  pose proof (start_minimum me c Hr) as Hmin. rewrite Forall_forall in Hplan.
  set (now := rtc_now (ctl_rtc c)) in *.
  assert (Hcand : forall s, In s (ctl_schedules c) -> sched_enabled s = true ->
            In (Some (calculateNextOccurrence s now))
               (map (start_option now) (ctl_schedules c))
            /\ is_start_of s (calculateNextOccurrence s now)
            /\ epoch2000 now < epoch2000 (calculateNextOccurrence s now)).
  { intros s Hin He. destruct (Hplan s (proj2 (list_elem_of_In _ _) Hin) He) as [Hrange Hday].
    destruct (calculateNextOccurrence_found s now Hrange Hs He Hday) as (Hst & Hlt & _).
    repeat split; try assumption; try apply Hst. apply in_start_options. exists s.
    repeat split; try assumption. apply isValid_iff, Hst. }
  destruct (fold_left _ _ _) as [r found]. unfold min_of in Hmin. simpl in *.
  destruct found.
  - destruct Hmin as (Hwf & Hin & Hle). apply in_start_options in Hin as (s & Hin & He & _ & ->).
    split.
    + exists s. destruct (Hcand s Hin He) as (_ & Hst & Hlt). auto.
    + intros x (s' & Hin' & He' & Hst' & Hlt').
      destruct (Hplan s' (proj2 (list_elem_of_In _ _) Hin') He') as [Hrange Hday].
      etransitivity; [apply Hle, (Hcand s' Hin' He')|].
      apply calculateNextOccurrence_earliest; assumption.
  - exfalso. apply Exists_exists in Hex as (s & Hin & He).
    apply list_elem_of_In in Hin. apply (Hmin _ (proj1 (Hcand s Hin He))).
Qed.

(** C3: [getNextScheduledStart] on a ready object whose enabled schedules
    can all be planned: with some schedule enabled, the result is a start,
    strictly after the clock's time, of an enabled schedule, and no such
    start is earlier; with none enabled it is the default timestamp. *)
Theorem getNextScheduledStart_spec me c :
  ready me c -> searchable (rtc_now (ctl_rtc c)) ->
  Forall (fun s => sched_enabled s = true -> plannable s) (ctl_schedules c) ->
  let now := rtc_now (ctl_rtc c) in
  let r := getNextScheduledStart me c in
  if existsb sched_enabled (ctl_schedules c)
  then upcoming_start (ctl_schedules c) now r
       /\ forall x, upcoming_start (ctl_schedules c) now x -> epoch2000 r <= epoch2000 x
  else r = DateTime_default.
Proof.
  intros Hr Hs Hplan. cbv zeta. destruct (existsb _ _) eqn:Hex.
  - apply getNextScheduledStart_earliest; try assumption.
    apply existsb_exists in Hex as (s & Hin & He). apply Exists_exists. exists s.
    split; [apply list_elem_of_In, Hin | exact He].
  - apply getNextScheduledStart_none, Forall_forall. intros s Hin%list_elem_of_In.
    apply (proj1 (existsb_false_iff _ _) Hex s Hin).
Qed.

(** An enabled schedule with an empty day mask contributes the default
    timestamp, 2000-01-01 00:00:00, which is valid and earlier than every
    real start: it becomes the result, whatever the other schedules. *)
Theorem getNextScheduledStart_empty_mask me c s :
  ready me c -> In s (ctl_schedules c) ->
  sched_enabled s = true -> sched_dayMask s = 0 ->
  getNextScheduledStart me c = DateTime_default.
Proof.
  intros Hr Hin He Hm. rewrite getNextScheduledStart_fold by exact Hr.
  pose proof (start_minimum me c Hr) as Hmin.
  assert (Hd : In (Some DateTime_default)
                 (map (start_option (rtc_now (ctl_rtc c))) (ctl_schedules c))).
  { apply in_start_options. exists s.
    rewrite calculateNextOccurrence_none by (right; exact Hm). auto. }
  destruct (fold_left _ _ _) as [r found]. unfold min_of in Hmin. simpl in *.
  destruct found; [|destruct (Hmin _ Hd)].
  destruct Hmin as (Hwf & _ & Hle). specialize (Hle _ Hd).
  pose proof (wf_epoch2000_range r Hwf).
  apply epoch2000_inj; [apply Hwf | apply isValid_iff, isValid_default |].
  change (epoch2000 DateTime_default) with 0 in *. lia.
Qed.

(** The timestamp [getNextScheduledStart] returns always passes [isValid]:
    it is the default timestamp or an occurrence that passed the test. *)
Lemma getNextScheduledStart_valid me c : isValid (getNextScheduledStart me c) = true.
Proof.
  unfold getNextScheduledStart.
  destruct (ctl_initialized c); [|apply isValid_default].
  destruct (hasLock me c); [|apply isValid_default].
  set (now := rtc_now (ctl_rtc c)).
  assert (G : forall l acc, isValid (fst acc) = true ->
            isValid (fst (fold_left (next_start_step now) l acc)) = true).
  { induction l as [|s l IH]; intros acc Hacc; simpl; [exact Hacc|]. apply IH.
    unfold next_start_step. destruct acc as [a found]. destruct (sched_enabled s); [|exact Hacc].
    destruct (isValid (calculateNextOccurrence s now)) eqn:Hv; [|exact Hacc].
    simpl. destruct (negb found || dt_ltb _ a); [exact Hv | exact Hacc]. }
  apply G. apply isValid_default.
Qed.

End NextStart.

Lemma getNextScheduledStart_spec_witness :
  upcoming_start (ctl_schedules (sample [night_owl; weekday_morning]))
    (rtc_now (ctl_rtc (sample [night_owl; weekday_morning])))
    (getNextScheduledStart 0%nat (sample [night_owl; weekday_morning])).
Proof.
  pose proof (getNextScheduledStart_spec 0%nat (sample [night_owl; weekday_morning])) as P.
  cbv zeta in P. change (existsb _ _) with true in P. cbv iota in P.
  apply P; [apply sample_ready | by_compute | repeat constructor; by_compute].
Defined.

Lemma getNextScheduledStart_empty_mask_witness :
  getNextScheduledStart 0%nat (sample [weekday_morning; set_dayMask night_owl 0])
  = DateTime_default.
Proof.
  apply (getNextScheduledStart_empty_mask 0%nat _ (set_dayMask night_owl 0));
    [apply sample_ready | simpl; auto | reflexivity | reflexivity].
Defined.
