(* ===== verification/NextEvent.v ===== *)
(** * The end of the current window and the time to the next event

    Theory of [getNextScheduledEnd] and [getSecondsUntilNextEvent], which
    are defined with the other queries in the file on occurrences.

    [end_time] is the end the loop computes for one schedule and
    [window_closes] the moment the window that is open now really closes.
    The theorems: the result of [getNextScheduledEnd] is the least
    [end_time] over the active schedules; [end_time] is [window_closes]
    except in the part after midnight of a window that spans midnight,
    where it is exactly one day late; and [getSecondsUntilNextEvent] is the
    smaller of the distances to the next start and to that end. *)

From stdpp Require Import strings.
From S2P Require Import Prelude DateTime Schedule Hardware State Window Occurrence.

(** ** Specification *)

(** Seconds from midnight to the end of the window. *)
Definition end_second (s : Schedule) : Z :=
  sched_endHour s * 3600 + sched_endMinute s * 60.

(** The end the loop of [getNextScheduledEnd] computes for a schedule:
    today at the end time, and a day later when the window spans
    midnight. *)
Definition end_time (now : DateTime) (s : Schedule) : DateTime :=
  let endToday := DateTime_of_fields (year now) (dt_month now) (dt_day now)
                    (sched_endHour s) (sched_endMinute s) 0 in
  if spans_midnight s then dt_add endToday (TimeSpan 1 0 0 0) else endToday.

(** The second, counted from 2000-01-01, at which the window of [s] that
    is open at [now] closes: today when the end is still ahead, tomorrow
    otherwise. *)
Definition window_closes (now : DateTime) (s : Schedule) : Z :=
  day_number now * 86400 + end_second s
  + (if minute_of_day now <? end_minute s then 0 else 86400).

(** Timestamps far enough from the end of 2099 for an end on the next
    day. *)
Definition endable (now : DateTime) : Prop :=
  wf_date now /\ epoch2000 now + 2 * 86400 < VALID_SECONDS.

#[export] Instance endable_dec now : Decision (endable now).
Proof. unfold endable. apply _. Defined.

Section NextEnd.

Context {D : Type} `{RtcDevice D}.

Implicit Types (c : Controller D) (me : Mutex.TaskId).

(** What a schedule contributes to the minimum of [getNextScheduledEnd]. *)
Definition end_option me c (now : DateTime) (s : Schedule) : option DateTime :=
  if sched_enabled s && isWithinSchedule me c (sched_id s)
  then Some (end_time now s) else None.

End NextEnd.

(** ** Examples: the window from 23:00 to 01:00 *)

(** At 23:30 the window closes at 01:00 of the next day, and that is the
    end reported. *)
Example night_owl_end_before_midnight :
  getNextScheduledEnd 0%nat
    (set_rtc (sample [night_owl]) (sim_adjust sample_rtc (DateTime_of_fields 2024 1 15 23 30 0)))
  = DateTime_of_fields 2024 1 16 1 0 0.
Proof. vm_compute. reflexivity. Qed.

(** At 00:30 the window closes at 01:00 of the same day; the end reported
    is 01:00 of the next day. *)
Example night_owl_end_after_midnight :
  getNextScheduledEnd 0%nat
    (set_rtc (sample [night_owl]) (sim_adjust sample_rtc (DateTime_of_fields 2024 1 15 0 30 0)))
  = DateTime_of_fields 2024 1 16 1 0 0.
Proof. vm_compute. reflexivity. Qed.

(** ** Theory of the end of a window *)

Lemma end_second_range s : schedule_in_range s -> 0 <= end_second s <= 86340.
Proof. unfold schedule_in_range, end_second. lia. Qed.

Lemma spans_midnight_iff s :
  schedule_in_range s -> spans_midnight s = true <-> end_minute s < start_minute s.
Proof.
  unfold schedule_in_range, spans_midnight, end_minute, start_minute.
  intros (? & ? & ? & ?). rewrite orb_true_iff, andb_true_iff, !Z.ltb_lt, Z.eqb_eq. lia.
Qed.

Lemma end_time_spec now s :
  endable now -> schedule_in_range s ->
  wf_date (end_time now s)
  /\ epoch2000 (end_time now s)
     = day_number now * 86400 + end_second s + (if spans_midnight s then 86400 else 0).
Proof.
  intros [Hwf Hv] (_ & _ & Hh & Hm). pose proof (wf_epoch2000_range _ Hwf) as Hr.
  destruct (of_fields_same_day now (sched_endHour s) (sched_endMinute s) 0 Hwf Hh Hm)
    as (Hwf' & Hd & Ht); [lia|].
  pose proof (epoch2000_split now) as Hsplit.
  pose proof (time_of_day_range now (proj1 Hwf)) as Htr.
  unfold end_time, end_second.
  set (e := DateTime_of_fields _ _ _ _ _ _) in *.
  assert (He : epoch2000 e = day_number now * 86400
                             + (sched_endHour s * 3600 + sched_endMinute s * 60)).
  { rewrite epoch2000_split, Hd, Ht. lia. }
  destruct (spans_midnight s).
  - destruct (dt_add_wf e (TimeSpan 1 0 0 0) Hwf') as [Hw Hq];
      [unfold TimeSpan; lia|]. split; [exact Hw|]. rewrite Hq, He. unfold TimeSpan. lia.
  - split; [exact Hwf' | rewrite He; lia].
Qed.

(** C36: the end of an active window.  For a schedule that is active now,
    the end [getNextScheduledEnd] computes for it is the moment its window
    closes, except when the window spans midnight and midnight has
    passed: then it is exactly one day after the window closes. *)
Theorem end_time_window_closes now s :
  endable now -> schedule_bytes s -> schedule_in_range s ->
  schedule_active s now = true ->
  epoch2000 (end_time now s)
  = window_closes now s
    + (if spans_midnight s && (minute_of_day now <? end_minute s) then 86400 else 0)
  /\ epoch2000 now < window_closes now s.
Proof.
  intros He Hb Hr Ha. destruct (end_time_spec now s He Hr) as [_ ->].
  destruct He as [Hwf _]. pose proof (spans_midnight_iff s Hr) as Hsp.
  apply (schedule_active_spec s now Hb (proj1 Hwf)) in Ha as (_ & _ & Hw).
  pose proof (epoch2000_split now) as Hsplit. destruct Hwf as [(_ & _ & _ & Hh & Hm & Hs) _].
  destruct Hr as (_ & _ & ? & ?).
  unfold window_closes, in_window, time_of_day, minute_of_day, end_second, end_minute,
    start_minute in *.
  destruct (spans_midnight s);
    [pose proof (proj1 Hsp eq_refl) | assert (~ sched_endHour s * 60 + sched_endMinute s
       < sched_startHour s * 60 + sched_startMinute s) by (intros G; apply Hsp in G; discriminate)];
    clear Hsp; destruct (decide _) in Hw;
    destruct (Z.ltb_spec (dt_hour now * 60 + dt_minute now)
                (sched_endHour s * 60 + sched_endMinute s)); simpl; lia.
Qed.

Lemma end_time_window_closes_witness :
  epoch2000 (end_time (DateTime_of_fields 2024 1 15 0 30 0) night_owl)
  = window_closes (DateTime_of_fields 2024 1 15 0 30 0) night_owl + 86400.
Proof.
  refine (proj1 (end_time_window_closes (DateTime_of_fields 2024 1 15 0 30 0) night_owl
                   _ _ _ _)); by_compute || reflexivity.
Defined.

Section NextEndTheory.

Context {D : Type} `{RtcDevice D}.

Implicit Types (c : Controller D) (me : Mutex.TaskId).

Lemma next_end_step_min_step me c now acc s :
  next_end_step me c now acc s = min_step dt_ltb acc (end_option me c now s).
Proof.
  unfold next_end_step, end_option, end_time, min_step. destruct acc as [nextEnd found].
  destruct (sched_enabled s); [|reflexivity]. simpl.
  destruct (isWithinSchedule me c (sched_id s)); reflexivity.
Qed.

Lemma getNextScheduledEnd_fold me c :
  ready me c ->
  getNextScheduledEnd me c
  = fst (fold_left (min_step dt_ltb)
           (map (end_option me c (rtc_now (ctl_rtc c))) (ctl_schedules c))
           (DateTime_default, false)).
Proof.
  intros [Hi Hl]. unfold getNextScheduledEnd. rewrite Hi, Hl. f_equal.
  rewrite fold_left_map. apply fold_left_ext_in. intros acc s _.
  apply next_end_step_min_step.
Qed.

(** With unique ids, the schedules that contribute are the active ones. *)
Lemma in_end_options me c x :
  ready me c -> unique_ids (ctl_schedules c) ->
  In (Some x) (map (end_option me c (rtc_now (ctl_rtc c))) (ctl_schedules c))
  <-> exists s, In s (ctl_schedules c)
                /\ schedule_active s (rtc_now (ctl_rtc c)) = true
                /\ x = end_time (rtc_now (ctl_rtc c)) s.
Proof.
  intros Hr Hu. rewrite in_map_iff. unfold end_option. split.
  - intros (s & Hs & Hin). exists s. rewrite isWithinSchedule_member in Hs by assumption.
    destruct (sched_enabled s); [|discriminate]. simpl in Hs.
    destruct (schedule_active s _); [|discriminate]. injection Hs as <-. auto.
  - intros (s & Hin & Ha & ->). exists s. rewrite isWithinSchedule_member by assumption.
    split; [|exact Hin]. rewrite Ha. unfold schedule_active in Ha.
    destruct (sched_enabled s); [reflexivity | discriminate].
Qed.

Lemma end_minimum me c :
  ready me c -> endable (rtc_now (ctl_rtc c)) ->
  Forall schedule_in_range (ctl_schedules c) ->
  let ends := map (end_option me c (rtc_now (ctl_rtc c))) (ctl_schedules c) in
  let r := fold_left (min_step dt_ltb) ends (DateTime_default, false) in
  min_of epoch2000 wf_date ends r /\ (snd r = false -> fst r = DateTime_default).
Proof.
  intros Hr He Hall. apply (fold_min_step_spec epoch2000 dt_ltb wf_date).
  - intros x y Hx Hy. apply dt_ltb_epoch2000; [apply Hx | apply Hy].
  - intros x (s & Hs & Hin)%in_map_iff. unfold end_option in Hs.
    destruct (_ && _); [|discriminate]. injection Hs as <-.
    rewrite Forall_forall in Hall. apply end_time_spec; [exact He|].
    apply Hall, list_elem_of_In, Hin.
Qed.

(** [getNextScheduledEnd] on a ready object with unique ids and times
    in range: when some schedule is active now the result is the end
    computed for an active schedule, and the earliest of those; when none
    is active it is the default timestamp. *)
Theorem getNextScheduledEnd_spec me c :
  ready me c -> unique_ids (ctl_schedules c) -> endable (rtc_now (ctl_rtc c)) ->
  Forall schedule_in_range (ctl_schedules c) ->
  let now := rtc_now (ctl_rtc c) in
  let r := getNextScheduledEnd me c in
  if existsb (fun s => schedule_active s now) (ctl_schedules c)
  then (exists s, In s (ctl_schedules c) /\ schedule_active s now = true
                  /\ r = end_time now s)
       /\ forall s, In s (ctl_schedules c) -> schedule_active s now = true ->
                    epoch2000 r <= epoch2000 (end_time now s)
  else r = DateTime_default.
Proof.
  intros Hr Hu He Hall. cbv zeta. rewrite getNextScheduledEnd_fold by exact Hr.
  destruct (end_minimum me c Hr He Hall) as [Hmin Hdflt]. cbv zeta in Hmin, Hdflt.
  destruct (fold_left _ _ _) as [r found]. unfold min_of in Hmin. simpl in *.
  destruct (existsb _ _) eqn:Hex.
  - apply existsb_exists in Hex as (s0 & Hin0 & Ha0). destruct found.
    + destruct Hmin as (_ & Hin & Hle). split; [apply (in_end_options me c r Hr Hu), Hin|].
      intros s Hin' Ha'. apply Hle, (in_end_options me c _ Hr Hu). eauto.
    + exfalso. apply (Hmin (end_time (rtc_now (ctl_rtc c)) s0)).
      apply (in_end_options me c _ Hr Hu). eauto.
  - destruct found; [|auto]. exfalso. destruct Hmin as (_ & Hin & _).
    apply (in_end_options me c r Hr Hu) in Hin as (s & Hin & Ha & _).
    rewrite (proj1 (existsb_false_iff _ _) Hex s Hin) in Ha. discriminate.
Qed.

(** The end reported is a valid timestamp. *)
Lemma getNextScheduledEnd_wf me c :
  ready me c -> endable (rtc_now (ctl_rtc c)) ->
  Forall schedule_in_range (ctl_schedules c) ->
  wf_date (getNextScheduledEnd me c).
Proof.
  intros Hr He Hall. rewrite getNextScheduledEnd_fold by exact Hr.
  destruct (end_minimum me c Hr He Hall) as [Hmin Hdflt]. cbv zeta in Hmin, Hdflt.
  destruct (fold_left _ _ _) as [r found]. unfold min_of in Hmin. simpl in *.
  destruct found; [apply Hmin|]. rewrite Hdflt by reflexivity.
  apply isValid_iff, isValid_default.
Qed.

(** ** Theory of the time to the next event *)

Lemma ltb_min a b : (if a <? b then a else b) = Z.min a b.
Proof. destruct (Z.ltb_spec a b); lia. Qed.

(** The distance in seconds to a later valid timestamp, as computed in
    32 bits. *)
Lemma seconds_between a b :
  wf_date a -> wf_date b ->
  (if isValid a && dt_gtb a b then u32 (unixtime a - unixtime b) else NO_EVENT)
  = if epoch2000 b <? epoch2000 a then epoch2000 a - epoch2000 b else NO_EVENT.
Proof.
  intros Ha Hb. rewrite (proj2 (isValid_iff a) Ha). simpl andb.
  unfold dt_gtb. rewrite dt_ltb_epoch2000 by (apply Ha || apply Hb).
  destruct (Z.ltb_spec (epoch2000 b) (epoch2000 a)); [|reflexivity].
  rewrite !unixtime_wf by assumption.
  pose proof (wf_epoch2000_range a Ha). pose proof (wf_epoch2000_range b Hb).
  replace (_ - _) with (epoch2000 a - epoch2000 b) by lia.
  apply u32_small. unfold VALID_SECONDS in *. lia.
Qed.

(** [getSecondsUntilNextEvent] on a ready object is the smaller of
    the seconds to the next start and the seconds to the end reported,
    each counted only when it lies after the clock's time, and the
    sentinel [0xFFFFFFFF] when neither does; on an object that is not
    ready it is the sentinel. *)
Theorem getSecondsUntilNextEvent_spec me c :
  endable (rtc_now (ctl_rtc c)) -> Forall schedule_in_range (ctl_schedules c) ->
  let now := epoch2000 (rtc_now (ctl_rtc c)) in
  let start := epoch2000 (getNextScheduledStart me c) in
  let end_ := epoch2000 (getNextScheduledEnd me c) in
  getSecondsUntilNextEvent me c
  = if ctl_initialized c && hasLock me c
    then Z.min (if now <? start then start - now else NO_EVENT)
               (if now <? end_ then end_ - now else NO_EVENT)
    else NO_EVENT.
Proof.
  intros He Hall. cbv zeta. unfold getSecondsUntilNextEvent.
  destruct (ctl_initialized c) eqn:Hi; [|reflexivity].
  destruct (hasLock me c) eqn:Hl; [|reflexivity]. simpl andb. cbv iota.
  assert (Hr : ready me c) by (split; assumption).
  cbv zeta. rewrite ltb_min.
  rewrite !seconds_between;
    [reflexivity | apply getNextScheduledEnd_wf; assumption | apply He
     | apply isValid_iff, getNextScheduledStart_valid | apply He].
Qed.

End NextEndTheory.

(** ** The queries on the sample system *)

(** Wednesday 2024-01-17 07:00:00 with the weekday window 06:00 to 08:00:
    the window closes in an hour, the next start is in 23 hours. *)
Example sample_seconds_until_next_event :
  getSecondsUntilNextEvent 0%nat (sample [weekday_morning]) = 3600.
Proof. vm_compute. reflexivity. Qed.

Lemma getNextScheduledEnd_spec_witness :
  getNextScheduledEnd 0%nat (sample [night_owl; weekday_morning])
  = end_time (rtc_now (ctl_rtc (sample [night_owl; weekday_morning]))) weekday_morning.
Proof.
  pose proof (getNextScheduledEnd_spec 0%nat (sample [night_owl; weekday_morning])
                (sample_ready _)) as P.
  cbv zeta in P. change (existsb _ _) with true in P. cbv iota in P.
  destruct P as [(s & Hin & Ha & ->) _];
    [distinct_ids | by_compute | repeat constructor; by_compute |].
  destruct Hin as [<- | [<- | []]]; [discriminate Ha | reflexivity].
Defined.

Lemma getSecondsUntilNextEvent_spec_witness :
  getSecondsUntilNextEvent 0%nat (sample [weekday_morning]) <= 3600.
Proof.
  rewrite (getSecondsUntilNextEvent_spec 0%nat (sample [weekday_morning]));
    [vm_compute; discriminate | by_compute | repeat constructor; by_compute].
Defined.
