(* ===== verification/Alarm.v ===== *)
(** * Alarms

    The two alarms of the clock as the controller drives them: [setAlarm1],
    [setAlarm2], [clearAlarm], [isAlarmFired], [acknowledgeAlarm], and
    [setAlarmForNextSchedule], which programs alarm 1 for the next window
    start and never touches alarm 2.

    The theorems give each method's behaviour on every branch of its
    guards, the separation of the two slots, and what alarm 1 holds after
    planning: the earliest upcoming start of an enabled schedule. *)

From S2P Require Import Prelude DateTime Schedule Hardware State Window Occurrence.

Section Alarm.

Context {D : Type} `{RtcDevice D}.

Implicit Types (c : Controller D) (me : Mutex.TaskId).

(** ** The methods *)

(** [setAlarm1(dt, matchSeconds)]. *)
Definition setAlarm1 me c (dt : DateTime) (matchSeconds : bool)
  : Status * Controller D :=
  check ctl_initialized c orelse (Failed NotInitialized, c) ;;
  check isValid dt orelse (Failed InvalidArgument, c) ;;
  check hasLock me c orelse (Failed LockUnavailable, c) ;;
  let mode := if matchSeconds then DS3231_A1_Date else DS3231_A1_Hour in
  (OK, set_rtc c (rtc_setAlarm1 (ctl_rtc c) dt mode)).

(** [setAlarm2(dt)]: no validity test on [dt]. *)
Definition setAlarm2 me c (dt : DateTime) : Status * Controller D :=
  check ctl_initialized c orelse (Failed NotInitialized, c) ;;
  check hasLock me c orelse (Failed LockUnavailable, c) ;;
  (OK, set_rtc c (rtc_setAlarm2 (ctl_rtc c) dt DS3231_A2_Minute)).

(** [clearAlarm(alarmNumber)]. *)
Definition clearAlarm me c (alarmNumber : Z) : Controller D :=
  check ctl_initialized c orelse c ;;
  check hasLock me c orelse c ;;
  set_rtc c (rtc_clearAlarm (ctl_rtc c) alarmNumber).

(** [isAlarmFired(alarmNumber)]. *)
Definition isAlarmFired me c (alarmNumber : Z) : bool :=
  check ctl_initialized c orelse false ;;
  check hasLock me c orelse false ;;
  rtc_alarmFired (ctl_rtc c) alarmNumber.

(** [acknowledgeAlarm(alarmNumber)]. *)
Definition acknowledgeAlarm me c (alarmNumber : Z) : Controller D :=
  check ctl_initialized c orelse c ;;
  check hasLock me c orelse c ;;
  let c := set_rtc c (rtc_clearAlarm (ctl_rtc c) alarmNumber) in
  if ctl_alarmCallback c then emit c (AlarmAcknowledged alarmNumber) else c.

(** [setAlarmForNextSchedule()]. *)
Definition setAlarmForNextSchedule me c : Status * Controller D :=
  let next := getNextScheduledStart me c in
  check isValid next orelse (Failed NoUpcomingEvent, c) ;;
  setAlarm1 me c next false.

(** ** Theorems *)

(** [setAlarm1] refuses an uninitialised object, an invalid timestamp
    and a lock held elsewhere, in that order and without effect; otherwise
    alarm 1 holds the timestamp, in date mode when [matchSeconds] is true
    and in hour mode otherwise, and nothing else changes. *)
Theorem setAlarm1_spec me c dt matchSeconds :
  let '(st, c') := setAlarm1 me c dt matchSeconds in
  same_policy c c' /\ rtc_alarm2 (ctl_rtc c') = rtc_alarm2 (ctl_rtc c)
  /\ rtc_now (ctl_rtc c') = rtc_now (ctl_rtc c) /\
  if negb (ctl_initialized c) then st = Failed NotInitialized /\ c' = c
  else if negb (isValid dt) then st = Failed InvalidArgument /\ c' = c
  else if negb (hasLock me c) then st = Failed LockUnavailable /\ c' = c
  else st = OK
       /\ rtc_alarm1 (ctl_rtc c')
          = Some (dt, if matchSeconds then DS3231_A1_Date else DS3231_A1_Hour).
Proof.
  unfold setAlarm1.
  destruct (ctl_initialized c); simpl; [|auto 6 with rtc].
  destruct (isValid dt); simpl; [|auto 6 with rtc].
  destruct (hasLock me c); simpl; [|auto 6 with rtc].
  autorewrite with rtc_rw. unfold same_policy. simpl. auto 10.
Qed.

(** [setAlarm2] programs alarm 2 in minute mode and leaves alarm 1
    alone; it fails without effect on an uninitialised object or a lock
    held elsewhere. *)
Theorem setAlarm2_spec me c dt :
  let '(st, c') := setAlarm2 me c dt in
  same_policy c c' /\ rtc_alarm1 (ctl_rtc c') = rtc_alarm1 (ctl_rtc c) /\
  if negb (ctl_initialized c) then st = Failed NotInitialized /\ c' = c
  else if negb (hasLock me c) then st = Failed LockUnavailable /\ c' = c
  else st = OK /\ rtc_alarm2 (ctl_rtc c') = Some (dt, DS3231_A2_Minute).
Proof.
  unfold setAlarm2.
  destruct (ctl_initialized c); simpl; [|auto 6 with rtc].
  destruct (hasLock me c); simpl; [|auto 6 with rtc].
  autorewrite with rtc_rw. unfold same_policy. simpl. auto 10.
Qed.

(** After [acknowledgeAlarm(n)] on a ready object the alarm's flag is
    clear, the other alarm's flag is as before, the alarm callback, if
    registered, ran once with [n], and what was programmed stays. *)
Theorem acknowledgeAlarm_spec me c n :
  ready me c -> n = 1 \/ n = 2 ->
  let c' := acknowledgeAlarm me c n in
  isAlarmFired me c' n = false
  /\ isAlarmFired me c' (3 - n) = isAlarmFired me c (3 - n)
  /\ ctl_events c' = ctl_events c ++ (if ctl_alarmCallback c then [AlarmAcknowledged n] else [])
  /\ rtc_alarm1 (ctl_rtc c') = rtc_alarm1 (ctl_rtc c)
  /\ rtc_alarm2 (ctl_rtc c') = rtc_alarm2 (ctl_rtc c)
  /\ same_policy c c'.
Proof.
  intros [Hi Hl] Hn. cbv zeta. unfold acknowledgeAlarm, isAlarmFired, hasLock in *.
  rewrite Hi, Hl. simpl. destruct (ctl_alarmCallback c); simpl; rewrite Hi, Hl;
    autorewrite with rtc_rw; rewrite ?app_nil_r;
    (repeat split; [apply rtc_fired_clearAlarm; exact Hn
                   | apply rtc_fired_clearAlarm_other; lia]).
Qed.

Lemma acknowledgeAlarm_not_ready me c n : ~ ready me c -> acknowledgeAlarm me c n = c.
Proof.
  unfold ready, acknowledgeAlarm. destruct (ctl_initialized c), (hasLock me c); tauto.
Qed.

Lemma clearAlarm_spec me c n :
  ready me c -> n = 1 \/ n = 2 ->
  isAlarmFired me (clearAlarm me c n) n = false /\ same_policy c (clearAlarm me c n).
Proof.
  intros [Hi Hl] Hn. unfold clearAlarm, isAlarmFired, hasLock in *. rewrite Hi, Hl. simpl.
  rewrite Hi, Hl. split; [apply rtc_fired_clearAlarm; exact Hn | unfold same_policy; auto].
Qed.

(** [setAlarmForNextSchedule] is [setAlarm1] of the next scheduled start
    in hour mode: its test for "no upcoming schedule" never fails, because
    the value returned for "none" is a valid timestamp. *)
Lemma setAlarmForNextSchedule_eq me c :
  setAlarmForNextSchedule me c = setAlarm1 me c (getNextScheduledStart me c) false.
Proof. unfold setAlarmForNextSchedule. rewrite getNextScheduledStart_valid. reflexivity. Qed.

(** Slot separation.  Planning never touches alarm 2, the schedules, the
    vacation or pump settings, or the clock's time. *)
Lemma setAlarmForNextSchedule_frame me c :
  let c' := snd (setAlarmForNextSchedule me c) in
  same_policy c c' /\ rtc_alarm2 (ctl_rtc c') = rtc_alarm2 (ctl_rtc c)
  /\ rtc_now (ctl_rtc c') = rtc_now (ctl_rtc c)
  /\ ctl_initialized c' = ctl_initialized c /\ ctl_events c' = ctl_events c.
Proof.
  cbv zeta. rewrite setAlarmForNextSchedule_eq. unfold setAlarm1, same_policy.
  rewrite getNextScheduledStart_valid.
  destruct (ctl_initialized c) eqn:Hi, (hasLock me c); simpl;
    autorewrite with rtc_rw; auto 10.
Qed.

(** C4: planning on a ready object whose enabled schedules can all be
    planned, with at least one enabled: alarm 1 is programmed, in hour
    mode, for the earliest start of an enabled schedule strictly after the
    clock's time. *)
Theorem setAlarmForNextSchedule_plans me c :
  ready me c -> searchable (rtc_now (ctl_rtc c)) ->
  Forall (fun s => sched_enabled s = true -> plannable s) (ctl_schedules c) ->
  Exists (fun s => sched_enabled s = true) (ctl_schedules c) ->
  let '(st, c') := setAlarmForNextSchedule me c in
  exists r, st = OK /\ rtc_alarm1 (ctl_rtc c') = Some (r, DS3231_A1_Hour)
    /\ upcoming_start (ctl_schedules c) (rtc_now (ctl_rtc c)) r
    /\ forall x, upcoming_start (ctl_schedules c) (rtc_now (ctl_rtc c)) x ->
                 epoch2000 r <= epoch2000 x.
Proof.
  intros Hr Hs Hplan Hex. rewrite setAlarmForNextSchedule_eq.
  destruct (getNextScheduledStart_earliest me c Hr Hs Hplan Hex) as [Hup Hmin].
  destruct Hr as [Hi Hl]. unfold setAlarm1.
  rewrite Hi, Hl, getNextScheduledStart_valid. simpl. autorewrite with rtc_rw. eauto.
Qed.

(** Planning with no enabled schedule does not fail: it programs
    alarm 1 for the default timestamp, 2000-01-01 00:00:00, in hour mode. *)
Theorem setAlarmForNextSchedule_nothing_enabled me c :
  ready me c -> Forall (fun s => sched_enabled s = false) (ctl_schedules c) ->
  let '(st, c') := setAlarmForNextSchedule me c in
  st = OK /\ rtc_alarm1 (ctl_rtc c') = Some (DateTime_default, DS3231_A1_Hour).
Proof.
  intros [Hi Hl] Hall. rewrite setAlarmForNextSchedule_eq.
  rewrite getNextScheduledStart_none by exact Hall.
  unfold setAlarm1. rewrite Hi, Hl, isValid_default. simpl.
  autorewrite with rtc_rw. auto.
Qed.

End Alarm.

(** ** Planning on the sample system *)

Lemma acknowledgeAlarm_spec_witness :
  isAlarmFired 0%nat (acknowledgeAlarm 0%nat (sample []) 1) 1 = false.
Proof.
  pose proof (acknowledgeAlarm_spec 0%nat (sample []) 1 (sample_ready [])) as P.
  cbv zeta in P. apply P. left. reflexivity.
Defined.

Lemma setAlarmForNextSchedule_plans_witness :
  fst (setAlarmForNextSchedule 0%nat (sample [night_owl; weekday_morning])) = OK.
Proof.
  pose proof (setAlarmForNextSchedule_plans 0%nat (sample [night_owl; weekday_morning])
                (sample_ready _)) as P.
  destruct (setAlarmForNextSchedule _ _) as [st c'].
  destruct P as (r & -> & _);
    [by_compute | repeat constructor; by_compute | left; reflexivity | reflexivity].
Defined.

Lemma setAlarmForNextSchedule_nothing_enabled_witness :
  fst (setAlarmForNextSchedule 0%nat (sample [])) = OK.
Proof.
  pose proof (setAlarmForNextSchedule_nothing_enabled 0%nat (sample [])
                (sample_ready _)) as P.
  destruct (setAlarmForNextSchedule _ _) as [st c'].
  destruct P as [-> _]; [constructor | reflexivity].
Defined.
