(* ===== verification/Wake.v ===== *)
(** * The planned alarm on the simulated chip

    [setAlarmForNextSchedule] programs alarm 1 with the next window start
    and [matchSeconds = false], which [setAlarm1] turns into the mode
    [DS3231_A1_Hour]: the chip compares hours, minutes and seconds, and
    not the date.  This file runs the simulated chip of [Hardware]
    forward through a sequence of times and shows what the program sees
    through [isAlarmFired]:

    - when the clock reaches the planned start the alarm has fired, and
      it stays fired until [acknowledgeAlarm] or [clearAlarm];
    - in the day before the planned start it does not fire early;
    - a start more than a day away is announced every day until then, at
      the time of day of the start, on days the schedule is not enabled
      for;
    - alarm 2, which [setAlarm2] programs in the mode [DS3231_A2_Minute],
      fires every hour at the minute it was given. *)

From stdpp Require Import strings.
From S2P Require Import Prelude DateTime Schedule Hardware State Window Occurrence Alarm.

(** ** The clock moves *)

Implicit Types (c : Controller SimRtc) (me : Mutex.TaskId) (t next : DateTime).

(** The chip of the controller reaches time [t]. *)
Definition tick c t : Controller SimRtc := set_rtc c (sim_tick (ctl_rtc c) t).

(** The chip passes through the times [ts], in order. *)
Definition ticks c (ts : list DateTime) : Controller SimRtc := fold_left tick ts c.

(** Alarm 1 holds [next] in the mode [setAlarmForNextSchedule] uses, and
    task [me] can ask for its flag. *)
Definition armed me c next : Prop :=
  ready me c /\ sim_alarm1 (ctl_rtc c) = Some (next, DS3231_A1_Hour).

(** ** Examples *)

(** A schedule for Mondays at six. *)
Definition monday_morning : Schedule := mkSchedule 1 2 6 0 8 0 true "monday".

(** Planned on Wednesday 2024-01-17 07:00, the next start is Monday the
    22nd; the alarm fires on Thursday the 18th at six, when no schedule is
    active, and is silent a second earlier. *)
Example alarm_fires_on_a_disabled_day :
  let c := snd (setAlarmForNextSchedule 0%nat (sample [monday_morning])) in
  let thursday := DateTime_of_fields 2024 1 18 6 0 0 in
  (getNextScheduledStart 0%nat (sample [monday_morning]),
   isAlarmFired 0%nat (tick c (DateTime_of_fields 2024 1 18 5 59 59)) 1,
   isAlarmFired 0%nat (tick c thursday) 1,
   isWithinAnySchedule 0%nat (tick c thursday))
  = (DateTime_of_fields 2024 1 22 6 0 0, false, true, false).
Proof. vm_compute. reflexivity. Qed.

(** ** Theory *)

Lemma tick_ready me c t : ready me c -> ready me (tick c t).
Proof. intros Hr. exact Hr. Qed.

Lemma tick_armed me c next t : armed me c next -> armed me (tick c t) next.
Proof. intros [Hr Ha]. split; [exact Hr | exact Ha]. Qed.

Lemma ticks_armed me next ts : forall c, armed me c next -> armed me (ticks c ts) next.
Proof.
  induction ts as [|t ts IH]; intros c Ha; [exact Ha|].
  apply (IH (tick c t)), tick_armed, Ha.
Qed.

Lemma ticks_through c before t after :
  ticks c (before ++ t :: after) = ticks (tick (ticks c before) t) after.
Proof. unfold ticks. rewrite fold_left_app. reflexivity. Qed.

(** The flag as a ready task reads it. *)
Lemma isAlarmFired_ready me c : ready me c -> isAlarmFired me c 1 = sim_a1f (ctl_rtc c).
Proof. intros [Hi Hl]. unfold isAlarmFired. rewrite Hi, Hl. reflexivity. Qed.

(** What a tick does to the flag of an armed alarm. *)
Lemma isAlarmFired_tick me c next t :
  armed me c next ->
  isAlarmFired me (tick c t) 1
  = isAlarmFired me c 1 || alarm1_matches (next, DS3231_A1_Hour) t.
Proof.
  intros [Hr Ha]. rewrite (isAlarmFired_ready me (tick c t)), (isAlarmFired_ready me c) by exact Hr.
  unfold tick. cbn [ctl_rtc set_rtc sim_tick sim_a1f]. rewrite Ha. reflexivity.
Qed.

(** The flag is set by the chip only: it stays. *)
Lemma fired_stays me c next ts :
  armed me c next -> isAlarmFired me c 1 = true -> isAlarmFired me (ticks c ts) 1 = true.
Proof.
  revert c. induction ts as [|t ts IH]; intros c Ha Hf; [exact Hf|].
  apply (IH (tick c t)); [apply tick_armed, Ha|].
  rewrite (isAlarmFired_tick me c next t Ha), Hf. reflexivity.
Qed.

(** Hour mode compares the time of day. *)
Lemma hour_mode_matches next t :
  alarm1_matches (next, DS3231_A1_Hour) t = true -> time_of_day next = time_of_day t.
Proof.
  unfold alarm1_matches, time_of_day. rewrite andb_true_r. intros Hm.
  apply andb_true_iff in Hm as [Hm Hs]. apply andb_true_iff in Hm as [Hh Hm].
  apply Z.eqb_eq in Hh, Hm, Hs. congruence.
Qed.

Lemma hour_mode_self next : alarm1_matches (next, DS3231_A1_Hour) next = true.
Proof. unfold alarm1_matches. rewrite !Z.eqb_refl. reflexivity. Qed.

(** Two times that match are a whole number of days apart. *)
Lemma hour_mode_days next t :
  alarm1_matches (next, DS3231_A1_Hour) t = true ->
  epoch2000 next - epoch2000 t = 86400 * (day_number next - day_number t).
Proof. intros Hm%hour_mode_matches. unfold epoch2000, time_of_day in *. lia. Qed.

(** Planning arms the alarm with the next start. *)
Lemma planned_armed me c :
  ready me c ->
  armed me (snd (setAlarmForNextSchedule me c)) (getNextScheduledStart me c).
Proof.
  intros Hr. pose proof Hr as [Hi Hl]. rewrite setAlarmForNextSchedule_eq. unfold setAlarm1.
  rewrite Hi, getNextScheduledStart_valid, Hl. split; [exact Hr | reflexivity].
Qed.

(** C28: the planned alarm wakes the program.  After
    [setAlarmForNextSchedule] on a ready object, once the clock has passed
    through the start that [getNextScheduledStart] gave, [isAlarmFired(1)]
    is true, and stays true however long the clock runs on. *)
Theorem planned_alarm_fires me c before after :
  ready me c ->
  let next := getNextScheduledStart me c in
  let c' := snd (setAlarmForNextSchedule me c) in
  isAlarmFired me (ticks c' (before ++ next :: after)) 1 = true.
Proof.
  intros Hr next c'. rewrite ticks_through.
  assert (Ha : armed me (ticks c' before) next) by apply ticks_armed, planned_armed, Hr.
  apply (fired_stays me _ next after); [apply tick_armed, Ha|].
  rewrite (isAlarmFired_tick me _ next next Ha), hour_mode_self. apply orb_true_r.
Qed.

(** The planned alarm does not fire early within the last day.
    With the flag clear when the alarm is armed, the clock running
    through times of the 24 hours before the start leaves it clear. *)
Theorem planned_alarm_silent me c next ts :
  armed me c next -> isAlarmFired me c 1 = false ->
  Forall (fun t => epoch2000 next - 86400 < epoch2000 t < epoch2000 next) ts ->
  isAlarmFired me (ticks c ts) 1 = false.
Proof.
  revert c. induction ts as [|t ts IH]; intros c Ha Hf Hts; [exact Hf|].
  apply (IH (tick c t)); [apply tick_armed, Ha | | apply (Forall_inv_tail Hts)].
  rewrite (isAlarmFired_tick me c next t Ha), Hf. cbn [orb].
  destruct (alarm1_matches _ t) eqn:Hm; [|reflexivity].
  pose proof (hour_mode_days next t Hm). pose proof (Forall_inv Hts) as Ht. cbv beta in Ht. lia.
Qed.


(** *** Alarm 2 *)

(** The flag of alarm 2 after [setAlarm2] and a tick, as a ready task
    reads it. *)
Lemma isAlarmFired_setAlarm2_tick me c dt t :
  ready me c ->
  isAlarmFired me (tick (snd (setAlarm2 me c dt)) t) 2
  = sim_a2f (ctl_rtc c) || ((dt_minute dt =? dt_minute t) && (dt_second t =? 0)).
Proof.
  intros [Hi Hl]. unfold setAlarm2, isAlarmFired, tick, hasLock in *. rewrite Hi, Hl.
  cbn [snd ctl_initialized ctl_mutex ctl_rtc set_rtc]. rewrite Hi, Hl. reflexivity.
Qed.

(** C30: alarm 2 rings every hour.  [setAlarm2(dt)] programs the mode
    [DS3231_A2_Minute]: on a ready object, whenever the clock then shows
    the minute of [dt] at second zero, whatever the hour and the date,
    [isAlarmFired(2)] is true; the hour that the log line of [setAlarm2]
    prints is not compared. *)
Theorem alarm2_rings_hourly me c dt t :
  ready me c -> dt_minute t = dt_minute dt -> dt_second t = 0 ->
  isAlarmFired me (tick (snd (setAlarm2 me c dt)) t) 2 = true.
Proof.
  intros Hr Hm Hs. rewrite (isAlarmFired_setAlarm2_tick _ _ _ _ Hr), Hm, Hs, Z.eqb_refl.
  apply orb_true_r.
Qed.

(** At the other minutes it leaves the flag as it was. *)
Theorem alarm2_silent_between me c dt t :
  ready me c -> dt_minute t <> dt_minute dt ->
  isAlarmFired me (tick (snd (setAlarm2 me c dt)) t) 2 = isAlarmFired me c 2.
Proof.
  intros Hr Hm. rewrite (isAlarmFired_setAlarm2_tick _ _ _ _ Hr).
  destruct Hr as [Hi Hl]. unfold isAlarmFired. rewrite Hi, Hl.
  destruct (Z.eqb_spec (dt_minute dt) (dt_minute t)) as [E|_]; [congruence|].
  apply orb_false_r.
Qed.

(** ** The theorems at work *)

Lemma planned_alarm_fires_witness :
  isAlarmFired 0%nat
    (ticks (snd (setAlarmForNextSchedule 0%nat (sample [weekday_morning])))
       ([DateTime_of_fields 2024 1 17 12 0 0]
        ++ getNextScheduledStart 0%nat (sample [weekday_morning])
        :: [DateTime_of_fields 2024 1 18 6 0 1])) 1 = true.
Proof. apply (planned_alarm_fires 0%nat (sample [weekday_morning])). apply sample_ready. Defined.

Lemma planned_alarm_silent_witness :
  isAlarmFired 0%nat
    (ticks (snd (setAlarmForNextSchedule 0%nat (sample [weekday_morning])))
       [DateTime_of_fields 2024 1 17 12 0 0; DateTime_of_fields 2024 1 18 5 59 59]) 1 = false.
Proof.
  apply (planned_alarm_silent 0%nat _ (getNextScheduledStart 0%nat (sample [weekday_morning])));
    [apply planned_armed, sample_ready | reflexivity | by_compute].
Defined.


(** Programmed for 08:30, alarm 2 has fired at 11:30. *)
Lemma alarm2_rings_hourly_witness :
  isAlarmFired 0%nat
    (tick (snd (setAlarm2 0%nat (sample []) (DateTime_of_fields 2024 1 17 8 30 0)))
       (DateTime_of_fields 2024 1 17 11 30 0)) 2 = true.
Proof.
  apply (alarm2_rings_hourly 0%nat (sample []) (DateTime_of_fields 2024 1 17 8 30 0)
           (DateTime_of_fields 2024 1 17 11 30 0)); [apply sample_ready | reflexivity..].
Defined.
