(* ===== verification/ScheduleSet.v ===== *)
(** * The schedule set

    The operations on [_schedules]: [getNextFreeScheduleId], [addSchedule],
    [updateSchedule], [removeSchedule], [getSchedule] and
    [clearAllSchedules].  Each of the three that change the set ends by
    calling [setAlarmForNextSchedule] and discarding its result.

    None of them looks at [_initialized] or takes the lock themselves; the
    planning call at their end does, and may fail without undoing the
    change.

    The theorems: the capacity bound, the effect of each operation on the
    list, id allocation (the least unused id from 1), uniqueness of ids
    under automatic allocation, preservation of the invariant [wf], and
    what alarm 1 holds afterwards. *)

From stdpp Require Import strings.
From S2P Require Import Prelude DateTime Schedule Hardware State Window Occurrence Alarm.

(** ** Helpers on the list *)

(** The inner [for] of [getNextFreeScheduleId]: some schedule has this id. *)
Definition id_in_use (l : list Schedule) (id : Z) : bool :=
  existsb (fun s => sched_id s =? id) l.

(** The [do ... while (found && id < 255)] loop, entered with candidate
    [id].  The candidate grows by one per turn from 1 and the loop stops
    at 255, so 254 turns of fuel are never used up ([free_id_loop_fuel]). *)
Fixpoint free_id_loop (fuel : nat) (l : list Schedule) (id : Z) : Z :=
  if id_in_use l id
  then let id := u8 (id + 1) in
       if id <? 255
       then match fuel with
            | S fuel' => free_id_loop fuel' l id
            | O => id
            end
       else id
  else id.

(** The loop of [updateSchedule]: the first schedule with the id is
    replaced, its id kept; [None] when no schedule has the id. *)
Fixpoint replace_first (scheduleId : Z) (schedule : Schedule) (l : list Schedule)
  : option (list Schedule) :=
  match l with
  | [] => None
  | sched :: l' =>
      if sched_id sched =? scheduleId
      then Some (set_id schedule scheduleId :: l')
      else option_map (cons sched) (replace_first scheduleId schedule l')
  end.

(** [std::remove_if] by id: what stays, in order. *)
Definition remove_id (scheduleId : Z) (l : list Schedule) : list Schedule :=
  List.filter (fun s => negb (sched_id s =? scheduleId)) l.

Section ScheduleSet.

Context {D : Type} `{RtcDevice D}.

Implicit Types (c : Controller D) (me : Mutex.TaskId).

(** ** The operations *)

(** [getNextFreeScheduleId()]. *)
Definition getNextFreeScheduleId c : Z := free_id_loop 254 (ctl_schedules c) 1.

(** [Schedule newSchedule = schedule; if (newSchedule.id == 0)
    newSchedule.id = getNextFreeScheduleId();]: what [addSchedule] stores. *)
Definition stored c (schedule : Schedule) : Schedule :=
  if sched_id schedule =? 0 then set_id schedule (getNextFreeScheduleId c) else schedule.

(** [addSchedule(schedule)]. *)
Definition addSchedule me c (schedule : Schedule) : Status * Controller D :=
  check Z.of_nat (length (ctl_schedules c)) <? MAX_SCHEDULES
    orelse (Failed CapacityExceeded, c) ;;
  let newSchedule := stored c schedule in
  let c := set_schedules c (ctl_schedules c ++ [newSchedule]) in
  (OK, snd (setAlarmForNextSchedule me c)).

(** [updateSchedule(scheduleId, schedule)]. *)
Definition updateSchedule me c (scheduleId : Z) (schedule : Schedule)
  : Status * Controller D :=
  match replace_first scheduleId schedule (ctl_schedules c) with
  | Some l => (OK, snd (setAlarmForNextSchedule me (set_schedules c l)))
  | None => (Failed NotFound, c)
  end.

(** [removeSchedule(scheduleId)]. *)
Definition removeSchedule me c (scheduleId : Z) : Status * Controller D :=
  let kept := remove_id scheduleId (ctl_schedules c) in
  check (length kept <? length (ctl_schedules c))%nat orelse (Failed NotFound, c) ;;
  (OK, snd (setAlarmForNextSchedule me (set_schedules c kept))).

(** [getSchedule(scheduleId)]; [None] is the null pointer. *)
Definition getSchedule c (scheduleId : Z) : option Schedule :=
  find (fun s => sched_id s =? scheduleId) (ctl_schedules c).

(** [getAllSchedules()]: the vector itself, by reference. *)
Definition getAllSchedules c : list Schedule := ctl_schedules c.

(** [clearAllSchedules()]. *)
Definition clearAllSchedules c : Controller D := set_schedules c [].

End ScheduleSet.

(** ** Theory of id allocation *)

Lemma id_in_use_In l id : id_in_use l id = true <-> In id (map sched_id l).
Proof.
  unfold id_in_use. rewrite existsb_exists, in_map_iff.
  split; intros (s & H1 & H2); exists s.
  - apply Z.eqb_eq in H2. auto.
  - split; [exact H2 | apply Z.eqb_eq, H1].
Qed.

Lemma id_in_use_app l1 l2 id : id_in_use (l1 ++ l2) id = id_in_use l1 id || id_in_use l2 id.
Proof. unfold id_in_use. apply existsb_app. Qed.

(** The loop returns the least unused id from its start, or 255 if every
    id below 255 is in use. *)
Lemma free_id_loop_spec fuel l : forall id,
  1 <= id < 255 -> 254 - id <= Z.of_nat fuel ->
  let r := free_id_loop fuel l id in
  id <= r <= 255 /\ (forall j, id <= j < r -> id_in_use l j = true)
  /\ (r < 255 -> id_in_use l r = false).
Proof.
  induction fuel as [|fuel IH]; intros id Hid Hf; simpl;
    destruct (id_in_use l id) eqn:Hu;
    try (repeat split; [lia | lia | intros j Hj; lia | auto]);
    rewrite u8_small by lia; destruct (Z.ltb_spec (id + 1) 255); try lia;
    try (repeat split; [lia | lia | intros j Hj | lia];
         replace j with id by lia; exact Hu).
  destruct (IH (id + 1)) as (Hr & Hused & Hfree); [lia | lia |].
  repeat split; [lia | lia | | exact Hfree]. intros j Hj.
  destruct (Z.eq_dec j id) as [-> | Hne]; [exact Hu | apply Hused; lia].
Qed.

(** More fuel changes nothing: the loop never runs out. *)
Lemma free_id_loop_fuel fuel l : forall id,
  1 <= id < 255 -> 254 - id <= Z.of_nat fuel ->
  free_id_loop (S fuel) l id = free_id_loop fuel l id.
Proof.
  induction fuel as [|fuel IH]; intros id Hid Hf; simpl;
    destruct (id_in_use l id); try reflexivity; rewrite u8_small by lia;
    destruct (Z.ltb_spec (id + 1) 255); try reflexivity; try lia.
  rewrite <- (IH (id + 1)) by lia. reflexivity.
Qed.

(** Fuel beyond the bound changes nothing. *)
Lemma free_id_loop_stable fuel l id :
  1 <= id < 255 -> (254 <= fuel)%nat -> free_id_loop fuel l id = free_id_loop 254 l id.
Proof.
  intros Hid Hf. induction Hf as [|fuel Hf IH]; [reflexivity|].
  rewrite free_id_loop_fuel by lia. exact IH.
Qed.

(** The loop takes as many turns as ids it steps over: fuel for the
    distance from the start to the result is enough. *)
Lemma free_id_loop_enough fuel l : forall big id,
  1 <= id < 255 -> 254 - id <= Z.of_nat big ->
  free_id_loop big l id - id <= Z.of_nat fuel ->
  free_id_loop fuel l id = free_id_loop big l id.
Proof.
  induction fuel as [|fuel IH]; intros big id Hid Hbig; destruct big as [|big];
    cbn [free_id_loop]; destruct (id_in_use l id); try reflexivity; rewrite u8_small by lia;
    destruct (Z.ltb_spec (id + 1) 255); try reflexivity; try lia.
  - pose proof (free_id_loop_spec big l (id + 1) ltac:(lia) ltac:(lia)) as Hs.
    cbv zeta in Hs. lia.
  - intros Hd. apply IH; lia.
Qed.

(** Pigeonhole: if every id from 1 to [k] is in use, the set has at least
    [k] schedules. *)
Lemma ids_in_use_length l k :
  0 <= k -> (forall j, 1 <= j <= k -> id_in_use l j = true) -> k <= Z.of_nat (length l).
Proof.
  intros Hk Hall. rewrite <- (length_map sched_id l).
  assert (Hincl : incl (map Z.of_nat (seq 1 (Z.to_nat k))) (map sched_id l)).
  { intros j (n & <- & Hn%in_seq)%in_map_iff. apply id_in_use_In, Hall. lia. }
  apply NoDup_incl_length in Hincl.
  - rewrite length_map, length_seq in Hincl. lia.
  - apply NoDup_map_NoDup_ForallPairs; [intros x y _ _; lia | apply seq_NoDup].
Qed.

Lemma unique_ids_snoc l s :
  unique_ids l -> id_in_use l (sched_id s) = false -> unique_ids (l ++ [s]).
Proof.
  unfold unique_ids. intros Hu Hf. rewrite map_app. simpl.
  apply NoDup_ListNoDup, NoDup_app.
  repeat split; [apply NoDup_ListNoDup, Hu | | apply NoDup_singleton].
  intros x Hx%list_elem_of_In ->%list_elem_of_singleton.
  apply id_in_use_In in Hx. congruence.
Qed.

Section ScheduleSetTheory.

Context {D : Type} `{RtcDevice D}.

Implicit Types (c : Controller D) (me : Mutex.TaskId) (s : Schedule).

Lemma next_free_id_least c :
  let r := getNextFreeScheduleId c in
  1 <= r <= 255
  /\ (forall j, 1 <= j < r -> id_in_use (ctl_schedules c) j = true)
  /\ (r < 255 -> id_in_use (ctl_schedules c) r = false).
Proof. apply (free_id_loop_spec 254 (ctl_schedules c) 1); simpl; lia. Qed.

Lemma next_free_id_fresh c :
  Z.of_nat (length (ctl_schedules c)) <= MAX_SCHEDULES ->
  id_in_use (ctl_schedules c) (getNextFreeScheduleId c) = false
  /\ getNextFreeScheduleId c <= Z.of_nat (length (ctl_schedules c)) + 1.
Proof.
  unfold MAX_SCHEDULES. intros Hcap.
  destruct (next_free_id_least c) as (Hr & Hused & Hfree).
  pose proof (ids_in_use_length (ctl_schedules c) (getNextFreeScheduleId c - 1)) as Hp.
  assert (getNextFreeScheduleId c - 1 <= Z.of_nat (length (ctl_schedules c))).
  { apply Hp; [lia | intros j Hj; apply Hused; lia]. }
  split; [apply Hfree; lia | lia].
Qed.

(** C27: the loop of [getNextFreeScheduleId] terminates, and within a
    number of turns that the size of the set bounds: run with any bound of
    at least as many turns as there are schedules, and run with any bound
    of 254 turns or more, it returns what [getNextFreeScheduleId]
    returns.  The bound of the model is never what ends the loop. *)
Theorem getNextFreeScheduleId_terminates c fuel :
  (length (ctl_schedules c) <= fuel)%nat \/ (254 <= fuel)%nat ->
  free_id_loop fuel (ctl_schedules c) 1 = getNextFreeScheduleId c.
Proof.
  intros [Hlen|Hbig]; [|apply free_id_loop_stable; [lia | exact Hbig]].
  apply free_id_loop_enough; [lia | simpl; lia |].
  destruct (next_free_id_least c) as (Hr & Hused & _).
  pose proof (ids_in_use_length (ctl_schedules c) (getNextFreeScheduleId c - 1)) as Hp.
  unfold getNextFreeScheduleId in *.
  assert (free_id_loop 254 (ctl_schedules c) 1 - 1 <= Z.of_nat (length (ctl_schedules c)))
    by (apply Hp; [lia | intros j Hj; apply Hused; lia]).
  lia.
Qed.

(** C8: [getNextFreeScheduleId] returns a byte from 1 to 255, the least id
    from 1 that no schedule of the set has: every smaller id is in use;
    within the capacity of the set the result itself is not in use and is
    at most one more than the number of schedules. *)
Theorem getNextFreeScheduleId_spec c :
  let r := getNextFreeScheduleId c in
  1 <= r <= 255
  /\ (forall j, 1 <= j < r -> id_in_use (ctl_schedules c) j = true)
  /\ (Z.of_nat (length (ctl_schedules c)) <= MAX_SCHEDULES ->
      id_in_use (ctl_schedules c) r = false
      /\ r <= Z.of_nat (length (ctl_schedules c)) + 1).
Proof.
  cbv zeta. destruct (next_free_id_least c) as (Hr & Hused & _).
  split; [exact Hr|]. split; [exact Hused | apply next_free_id_fresh].
Qed.

(** ** Theory of the operations *)

Lemma planned_schedules me c : ctl_schedules (snd (setAlarmForNextSchedule me c)) = ctl_schedules c.
Proof. apply (setAlarmForNextSchedule_frame me c). Qed.

Lemma planned_wf me c : wf c -> wf (snd (setAlarmForNextSchedule me c)).
Proof. apply same_policy_wf, (setAlarmForNextSchedule_frame me c). Qed.

(** C7: [addSchedule] at capacity fails with [CapacityExceeded] and changes
    nothing; below capacity it succeeds, whatever the state of the lock
    and of initialisation, and appends the schedule at the end of the set
    with its id, or with a freshly allocated id when its id is 0. *)
Theorem addSchedule_spec me c s :
  let '(st, c') := addSchedule me c s in
  if Z.of_nat (length (ctl_schedules c)) <? MAX_SCHEDULES
  then st = OK /\ ctl_schedules c' = ctl_schedules c ++ [stored c s]
  else st = Failed CapacityExceeded /\ c' = c.
Proof.
  unfold addSchedule. destruct (_ <? MAX_SCHEDULES); [|auto].
  rewrite planned_schedules. auto.
Qed.

(** [addSchedule] re-plans: alarm 1 and the rest of the object are what
    [setAlarmForNextSchedule] makes of the object with the new set. *)
Lemma addSchedule_replans me c s :
  Z.of_nat (length (ctl_schedules c)) < MAX_SCHEDULES ->
  snd (addSchedule me c s)
  = snd (setAlarmForNextSchedule me (set_schedules c (ctl_schedules c ++ [stored c s]))).
Proof.
  intros Hlt. unfold addSchedule. apply Z.ltb_lt in Hlt. rewrite Hlt. reflexivity.
Qed.

Lemma addSchedule_schedules me c s :
  Z.of_nat (length (ctl_schedules c)) < MAX_SCHEDULES ->
  ctl_schedules (snd (addSchedule me c s)) = ctl_schedules c ++ [stored c s].
Proof. intros Hlt. rewrite addSchedule_replans by exact Hlt. apply planned_schedules. Qed.

Lemma addSchedule_full me c s :
  MAX_SCHEDULES <= Z.of_nat (length (ctl_schedules c)) ->
  addSchedule me c s = (Failed CapacityExceeded, c).
Proof.
  intros Hge. unfold addSchedule. rewrite (proj2 (Z.ltb_ge _ _)) by exact Hge. reflexivity.
Qed.

Lemma stored_bytes c s : schedule_bytes s -> schedule_bytes (stored c s).
Proof.
  unfold stored. destruct (sched_id s =? 0); [|auto].
  destruct (next_free_id_least c) as (Hr & _).
  unfold schedule_bytes, fits. simpl. intuition lia.
Qed.

(** [addSchedule] keeps the invariant: at most [MAX_SCHEDULES] schedules,
    every field a byte. *)
Lemma addSchedule_wf me c s :
  wf c -> schedule_bytes s -> wf (snd (addSchedule me c s)).
Proof.
  intros Hwf Hs. unfold addSchedule.
  destruct (Z.ltb_spec (Z.of_nat (length (ctl_schedules c))) MAX_SCHEDULES); [|exact Hwf].
  apply planned_wf. destruct Hwf as (Hlen & Hall & Hmx). unfold wf. simpl.
  rewrite length_app, Forall_app. simpl. repeat split; [lia | exact Hall | | exact Hmx].
  constructor; [apply (stored_bytes c s Hs) | constructor].
Qed.

(** C9: ids stay unique when the id is allocated ([id == 0]) or is not yet
    in use. *)
Theorem addSchedule_unique_ids me c s :
  wf c -> unique_ids (ctl_schedules c) ->
  sched_id s = 0 \/ id_in_use (ctl_schedules c) (sched_id s) = false ->
  unique_ids (ctl_schedules (snd (addSchedule me c s))).
Proof.
  intros (Hlen & _) Hu Hid.
  destruct (Z.lt_ge_cases (Z.of_nat (length (ctl_schedules c))) MAX_SCHEDULES) as [Hlt | Hge];
    [|rewrite addSchedule_full by exact Hge; exact Hu].
  rewrite addSchedule_schedules by exact Hlt.
  apply unique_ids_snoc; [exact Hu|]. unfold stored.
  destruct (Z.eqb_spec (sched_id s) 0) as [E | Hne].
  - apply (next_free_id_fresh c Hlen).
  - destruct Hid as [? | Hf]; [contradiction | exact Hf].
Qed.

(** An id that is given and already in use is not refused: the
    schedule is stored under it a second time, and the ids of the set are
    no longer unique. *)
Theorem addSchedule_duplicate me c s :
  Z.of_nat (length (ctl_schedules c)) < MAX_SCHEDULES ->
  sched_id s <> 0 -> id_in_use (ctl_schedules c) (sched_id s) = true ->
  fst (addSchedule me c s) = OK
  /\ ~ unique_ids (ctl_schedules (snd (addSchedule me c s))).
Proof.
  intros Hlt Hne Hu. split.
  - unfold addSchedule. rewrite (proj2 (Z.ltb_lt _ _) Hlt). reflexivity.
  - rewrite addSchedule_schedules by exact Hlt. unfold unique_ids, stored.
    apply Z.eqb_neq in Hne. rewrite Hne, map_app. simpl. intros Hnd.
    apply NoDup_remove_2 in Hnd. apply Hnd. rewrite app_nil_r.
    apply id_in_use_In. exact Hu.
Qed.

Lemma replace_first_spec scheduleId s l :
  match replace_first scheduleId s l with
  | Some l' => id_in_use l scheduleId = true
               /\ map sched_id l' = map sched_id l /\ length l' = length l
               /\ find (fun x => sched_id x =? scheduleId) l' = Some (set_id s scheduleId)
               /\ forall i, i <> scheduleId ->
                    find (fun x => sched_id x =? i) l' = find (fun x => sched_id x =? i) l
  | None => id_in_use l scheduleId = false
  end.
Proof.
  induction l as [|a l IH]; simpl; [reflexivity|].
  destruct (Z.eqb_spec (sched_id a) scheduleId) as [E | Hne]; simpl.
  - rewrite Z.eqb_refl, E. repeat split. intros i Hi.
    destruct (Z.eqb_spec scheduleId i); [congruence | reflexivity].
  - destruct (replace_first scheduleId s l) as [l'|]; simpl; [|exact IH].
    destruct IH as (Hu & Hm & Hlen & Hf & Ho). apply Z.eqb_neq in Hne. rewrite Hne.
    repeat split; [exact Hu | congruence | congruence | exact Hf |].
    intros i Hi. rewrite (Ho i Hi). reflexivity.
Qed.

(** [updateSchedule] fails with [NotFound], changing nothing, when no
    schedule has the id; otherwise the first schedule with the id is
    replaced by the argument with the id preserved, and the ids, order and
    number of the schedules, and every other lookup, are as before. *)
Theorem updateSchedule_spec me c scheduleId s :
  let '(st, c') := updateSchedule me c scheduleId s in
  if id_in_use (ctl_schedules c) scheduleId
  then st = OK
       /\ getSchedule c' scheduleId = Some (set_id s scheduleId)
       /\ map sched_id (ctl_schedules c') = map sched_id (ctl_schedules c)
       /\ forall i, i <> scheduleId -> getSchedule c' i = getSchedule c i
  else st = Failed NotFound /\ c' = c.
Proof.
  unfold updateSchedule, getSchedule.
  pose proof (replace_first_spec scheduleId s (ctl_schedules c)) as Hr.
  destruct (replace_first _ _ _) as [l'|].
  - destruct Hr as (-> & Hm & _ & Hf & Ho). rewrite planned_schedules. simpl. auto.
  - rewrite Hr. auto.
Qed.

Lemma remove_id_spec scheduleId l :
  id_in_use (remove_id scheduleId l) scheduleId = false
  /\ (forall i, i <> scheduleId ->
        find (fun x => sched_id x =? i) (remove_id scheduleId l)
        = find (fun x => sched_id x =? i) l)
  /\ (length (remove_id scheduleId l) <= length l)%nat
  /\ ((length (remove_id scheduleId l) < length l)%nat <-> id_in_use l scheduleId = true).
Proof.
  unfold remove_id, id_in_use. induction l as [|a l (IH1 & IH2 & IH3 & IH4)]; simpl.
  - repeat split; auto; try lia; discriminate.
  - destruct (Z.eqb_spec (sched_id a) scheduleId) as [E | Hne]; simpl.
    + split; [exact IH1|]. split; [|split; [lia | split; [auto | lia]]].
      intros i Hi. rewrite E. destruct (Z.eqb_spec scheduleId i); [congruence | auto].
    + apply Z.eqb_neq in Hne. rewrite Hne. simpl.
      split; [exact IH1|]. split; [|split; [lia | split]].
      * intros i Hi. rewrite (IH2 i Hi). reflexivity.
      * intros Hlt. apply IH4. lia.
      * intros Hu. apply IH4 in Hu. lia.
Qed.

(** [removeSchedule] fails with [NotFound], changing nothing, when no
    schedule has the id; otherwise every schedule with the id is gone, the
    others are kept in their order, and lookups of other ids are as
    before. *)
Theorem removeSchedule_spec me c scheduleId :
  let '(st, c') := removeSchedule me c scheduleId in
  if id_in_use (ctl_schedules c) scheduleId
  then st = OK /\ ctl_schedules c' = remove_id scheduleId (ctl_schedules c)
       /\ getSchedule c' scheduleId = None
       /\ forall i, i <> scheduleId -> getSchedule c' i = getSchedule c i
  else st = Failed NotFound /\ c' = c.
Proof.
  unfold removeSchedule, getSchedule.
  destruct (remove_id_spec scheduleId (ctl_schedules c)) as (Hgone & Hother & _ & Hlt).
  destruct (Nat.ltb_spec (length (remove_id scheduleId (ctl_schedules c)))
                         (length (ctl_schedules c))) as [Hl | Hl].
  - rewrite (proj1 Hlt Hl), planned_schedules. simpl. repeat split; [|exact Hother].
    apply find_none_iff. apply existsb_false_iff. exact Hgone.
  - destruct (id_in_use (ctl_schedules c) scheduleId); [|auto].
    exfalso. assert (Hc := proj2 Hlt eq_refl). lia.
Qed.

Lemma remove_id_unique scheduleId l : unique_ids l -> unique_ids (remove_id scheduleId l).
Proof.
  unfold unique_ids, remove_id. induction l as [|a l IH]; simpl; [auto|].
  intros [Hn Hnd]%NoDup_cons_iff. destruct (sched_id a =? scheduleId); simpl; [auto|].
  constructor; [|auto]. intros (x & Hx & Hin%filter_In)%in_map_iff. apply Hn.
  rewrite <- Hx. apply in_map. apply Hin.
Qed.

Lemma replace_first_bytes scheduleId s l l' :
  schedule_bytes s -> fits 8 scheduleId -> Forall schedule_bytes l ->
  replace_first scheduleId s l = Some l' -> Forall schedule_bytes l'.
Proof.
  intros Hs Hid. revert l'. induction l as [|a l IH]; simpl; intros l' Hall Hr; [discriminate|].
  apply Forall_cons in Hall as [Ha Hall]. destruct (sched_id a =? scheduleId).
  - injection Hr as <-. constructor; [|exact Hall].
    unfold schedule_bytes in *. simpl. tauto.
  - destruct (replace_first scheduleId s l) as [l0|]; [|discriminate].
    injection Hr as <-. constructor; auto.
Qed.

Lemma remove_id_bytes scheduleId l :
  Forall schedule_bytes l -> Forall schedule_bytes (remove_id scheduleId l).
Proof.
  rewrite !Forall_forall. intros Hall x Hx%list_elem_of_In%filter_In.
  apply Hall, list_elem_of_In, Hx.
Qed.

(** [updateSchedule] keeps the invariant and the uniqueness of ids. *)
Lemma updateSchedule_wf me c scheduleId s :
  wf c -> schedule_bytes s -> fits 8 scheduleId ->
  wf (snd (updateSchedule me c scheduleId s))
  /\ (unique_ids (ctl_schedules c) ->
      unique_ids (ctl_schedules (snd (updateSchedule me c scheduleId s)))).
Proof.
  intros Hwf Hs Hid. unfold updateSchedule.
  pose proof (replace_first_spec scheduleId s (ctl_schedules c)) as Hrf.
  pose proof (replace_first_bytes scheduleId s (ctl_schedules c)) as Hb.
  destruct (replace_first _ _ _) as [l'|]; [|auto]. simpl.
  destruct Hrf as (_ & Hm & Hl & _). destruct Hwf as (Hlen & Hall & Hmx). split.
  - apply planned_wf. unfold wf. simpl. rewrite Hl. auto.
  - rewrite planned_schedules. unfold unique_ids. simpl. rewrite Hm. auto.
Qed.

(** [removeSchedule] keeps the invariant and the uniqueness of ids. *)
Lemma removeSchedule_wf me c scheduleId :
  wf c ->
  wf (snd (removeSchedule me c scheduleId))
  /\ (unique_ids (ctl_schedules c) ->
      unique_ids (ctl_schedules (snd (removeSchedule me c scheduleId)))).
Proof.
  intros Hwf. unfold removeSchedule.
  destruct (remove_id_spec scheduleId (ctl_schedules c)) as (_ & _ & Hle & _).
  destruct (_ <? _)%nat; [|auto]. simpl. destruct Hwf as (Hlen & Hall & Hmx). split.
  - apply planned_wf. unfold wf. simpl.
    repeat split; [lia | apply remove_id_bytes, Hall | exact Hmx].
  - rewrite planned_schedules. simpl. apply remove_id_unique.
Qed.

(** [getSchedule] after [addSchedule] of an id not in use finds the
    stored schedule, and other lookups are unchanged. *)
Theorem getSchedule_addSchedule me c s :
  Z.of_nat (length (ctl_schedules c)) < MAX_SCHEDULES ->
  id_in_use (ctl_schedules c) (sched_id (stored c s)) = false ->
  let c' := snd (addSchedule me c s) in
  getSchedule c' (sched_id (stored c s)) = Some (stored c s)
  /\ forall i, i <> sched_id (stored c s) -> getSchedule c' i = getSchedule c i.
Proof.
  intros Hlt Hfree. cbv zeta. unfold getSchedule.
  rewrite addSchedule_schedules by exact Hlt. split.
  - rewrite find_app. rewrite (proj2 (find_none_iff _ _)).
    + simpl. rewrite Z.eqb_refl. reflexivity.
    + apply existsb_false_iff. exact Hfree.
  - intros i Hi. rewrite find_app. destruct (find _ (ctl_schedules c)); [reflexivity|].
    simpl. destruct (Z.eqb_spec (sched_id (stored c s)) i); [congruence | reflexivity].
Qed.

Lemma clearAllSchedules_spec c :
  ctl_schedules (clearAllSchedules c) = [] /\ (wf c -> wf (clearAllSchedules c)).
Proof.
  split; [reflexivity|]. intros (_ & _ & Hmx). unfold wf, MAX_SCHEDULES. simpl.
  repeat split; [lia | constructor | exact Hmx].
Qed.

End ScheduleSetTheory.

(** ** The operations on the sample system *)

Lemma addSchedule_unique_ids_witness :
  unique_ids (ctl_schedules (snd (addSchedule 0%nat (sample [night_owl; weekday_morning])
                                    blank_schedule))).
Proof.
  apply addSchedule_unique_ids;
    [apply sample_wf; [by_compute | repeat constructor; by_compute]
    | distinct_ids | left; reflexivity].
Defined.

Lemma getNextFreeScheduleId_terminates_witness :
  free_id_loop 2 (ctl_schedules (sample [weekday_morning; night_owl])) 1
  = getNextFreeScheduleId (sample [weekday_morning; night_owl]).
Proof. apply getNextFreeScheduleId_terminates. left. apply le_n. Defined.

Lemma addSchedule_duplicate_witness :
  fst (addSchedule 0%nat (sample [weekday_morning]) (set_id night_owl 1)) = OK.
Proof.
  refine (proj1 (addSchedule_duplicate 0%nat (sample [weekday_morning])
                   (set_id night_owl 1) _ _ _)); by_compute.
Defined.

Lemma getSchedule_addSchedule_witness :
  getSchedule (snd (addSchedule 0%nat (sample [weekday_morning]) night_owl))
    (sched_id (stored (sample [weekday_morning]) night_owl))
  = Some (stored (sample [weekday_morning]) night_owl).
Proof.
  pose proof (getSchedule_addSchedule 0%nat (sample [weekday_morning]) night_owl) as P.
  cbv zeta in P. apply P; by_compute.
Defined.

(** Ten schedules added with id 0 receive the ids 1 to 10 in order; the
    eleventh is refused and the set is unchanged. *)
Example addSchedule_ten_then_full :
  let add c := snd (addSchedule 0%nat c blank_schedule) in
  let c10 := Nat.iter 10 add (sample []) in
  map sched_id (ctl_schedules c10) = [1; 2; 3; 4; 5; 6; 7; 8; 9; 10]
  /\ addSchedule 0%nat c10 blank_schedule = (Failed CapacityExceeded, c10).
Proof. vm_compute. auto. Qed.

(** Removing id 2 of the ids 1, 2, 3 and adding with id 0 reuses 2. *)
Example removeSchedule_then_addSchedule_reuses_id :
  let add c := snd (addSchedule 0%nat c blank_schedule) in
  let c3 := Nat.iter 3 add (sample []) in
  map sched_id (ctl_schedules (add (snd (removeSchedule 0%nat c3 2)))) = [1; 3; 2].
Proof. vm_compute. reflexivity. Qed.
