(* ===== verification/ScheduleMap.v ===== *)
(** * The schedule set as a finite map

    What the schedule set promises its callers, stated without the
    vector: a finite map from ids to schedules of at most
    [MAX_SCHEDULES] entries, with [abs_step] the effect of adding,
    updating, removing and clearing, and the least unused id from 1 as
    the id a new schedule gets when the caller gives none.

    The refinement: the vector of the controller represents the map
    [abs] of its schedules; when its ids are pairwise different and the
    caller adds only under a new id or lets the set allocate one, every
    operation on the schedule set takes related states to related
    states with the status of [abs_step], and [getSchedule] is the lookup
    of the map.  The statement covers runs of any length. *)

From stdpp Require Import gmap.
From S2P Require Import Prelude DateTime Schedule Hardware State Window Occurrence.
From S2P Require Import Alarm ScheduleSet.

(** ** The abstract set *)

(** The calls that change the set. *)
Inductive Op : Type :=
  | Add (s : Schedule)
  | Update (scheduleId : Z) (s : Schedule)
  | Remove (scheduleId : Z)
  | Clear.

(** The least id from 1 that the map does not bind. *)
Definition least_free (m : gmap Z Schedule) (id : Z) : Prop :=
  1 <= id /\ m !! id = None /\ forall j, 1 <= j < id -> is_Some (m !! j).

(** One call: the map before, the status, the map after. *)
Inductive abs_step : Op -> gmap Z Schedule -> Status -> gmap Z Schedule -> Prop :=
  | abs_add_full m s :
      MAX_SCHEDULES <= Z.of_nat (size m) ->
      abs_step (Add s) m (Failed CapacityExceeded) m
  | abs_add_given m s :
      Z.of_nat (size m) < MAX_SCHEDULES -> sched_id s <> 0 -> m !! sched_id s = None ->
      abs_step (Add s) m OK (<[sched_id s := s]> m)
  | abs_add_fresh m s id :
      Z.of_nat (size m) < MAX_SCHEDULES -> sched_id s = 0 -> least_free m id ->
      abs_step (Add s) m OK (<[id := set_id s id]> m)
  | abs_update m scheduleId s :
      is_Some (m !! scheduleId) ->
      abs_step (Update scheduleId s) m OK (<[scheduleId := set_id s scheduleId]> m)
  | abs_update_missing m scheduleId s :
      m !! scheduleId = None ->
      abs_step (Update scheduleId s) m (Failed NotFound) m
  | abs_remove m scheduleId :
      is_Some (m !! scheduleId) ->
      abs_step (Remove scheduleId) m OK (delete scheduleId m)
  | abs_remove_missing m scheduleId :
      m !! scheduleId = None ->
      abs_step (Remove scheduleId) m (Failed NotFound) m
  | abs_clear m : abs_step Clear m OK ∅.

(** A run of calls with the statuses they return. *)
Inductive abs_run : list Op -> gmap Z Schedule -> list Status -> gmap Z Schedule -> Prop :=
  | abs_run_nil m : abs_run [] m [] m
  | abs_run_cons op ops m st m1 sts m2 :
      abs_step op m st m1 -> abs_run ops m1 sts m2 ->
      abs_run (op :: ops) m (st :: sts) m2.

(** What the caller owes: a schedule is added under an id the set does
    not hold, or under id 0 for the set to allocate one. *)
Definition permitted (op : Op) (m : gmap Z Schedule) : Prop :=
  match op with
  | Add s => sched_id s = 0 \/ m !! sched_id s = None
  | _ => True
  end.

(** A run in which every added schedule has id 0. *)
Definition allocating (ops : list Op) : Prop :=
  Forall (fun op => match op with Add s => sched_id s = 0 | _ => True end) ops.

(** ** The representation *)

(** The map a vector of schedules represents; of two schedules with one
    id the first counts, as for [getSchedule]. *)
Definition abs (l : list Schedule) : gmap Z Schedule :=
  list_to_map (map (fun s => (sched_id s, s)) l).

Section Refinement.

Context {D : Type} `{RtcDevice D}.

Implicit Types (c : Controller D) (me : Mutex.TaskId) (m : gmap Z Schedule).

(** The call [op] on the controller. *)
Definition exec me (op : Op) c : Status * Controller D :=
  match op with
  | Add s => addSchedule me c s
  | Update scheduleId s => updateSchedule me c scheduleId s
  | Remove scheduleId => removeSchedule me c scheduleId
  | Clear => (OK, clearAllSchedules c)
  end.

(** The calls [ops] in order: their statuses and the final state. *)
Fixpoint exec_all me (ops : list Op) c : list Status * Controller D :=
  match ops with
  | [] => ([], c)
  | op :: ops' =>
      let '(st, c1) := exec me op c in
      let '(sts, c2) := exec_all me ops' c1 in
      (st :: sts, c2)
  end.

(** The controller represents the map. *)
Definition represents c m : Prop :=
  abs (ctl_schedules c) = m /\ unique_ids (ctl_schedules c).

End Refinement.

(** ** Examples *)

Example abs_first_wins :
  abs [weekday_morning; set_id night_owl 1] !! 1 = Some weekday_morning.
Proof. reflexivity. Qed.

(** ** The representation, by lookups *)

Lemma abs_cons a l : abs (a :: l) = <[sched_id a := a]> (abs l).
Proof. unfold abs. simpl map. apply list_to_map_cons. Qed.

Lemma abs_lookup l id : abs l !! id = find (fun s => sched_id s =? id) l.
Proof.
  induction l as [|a l IH]; [apply lookup_empty|].
  rewrite abs_cons, lookup_insert. cbn [find].
  destruct (Z.eqb_spec (sched_id a) id); case_decide; try lia; [reflexivity | exact IH].
Qed.

Lemma find_id_in_use l id :
  is_Some (find (fun s => sched_id s =? id) l) <-> id_in_use l id = true.
Proof.
  rewrite id_in_use_In. induction l as [|a l IH]; simpl.
  - split; [intros [x [=]] | intros []].
  - destruct (Z.eqb_spec (sched_id a) id); [split; eauto|].
    rewrite IH. split; [auto | intros [? | ?]; [contradiction | assumption]].
Qed.

Lemma abs_in_use l id : is_Some (abs l !! id) <-> id_in_use l id = true.
Proof. rewrite abs_lookup. apply find_id_in_use. Qed.

Lemma abs_not_in_use l id : abs l !! id = None <-> id_in_use l id = false.
Proof.
  rewrite eq_None_not_Some, abs_in_use. destruct (id_in_use l id); split; congruence.
Qed.

Lemma abs_size l : unique_ids l -> size (abs l) = length l.
Proof.
  unfold unique_ids. induction l as [|a l IH]; intros Hnd; [apply map_size_empty|].
  simpl map in Hnd. apply NoDup_cons_iff in Hnd as [Hna Hnd].
  rewrite abs_cons, map_size_insert_None, IH by
    (assumption || (apply abs_not_in_use, not_true_iff_false; rewrite id_in_use_In; exact Hna)).
  reflexivity.
Qed.

Lemma abs_snoc l s :
  id_in_use l (sched_id s) = false -> abs (l ++ [s]) = <[sched_id s := s]> (abs l).
Proof.
  intros Hf. apply map_eq. intros i. rewrite lookup_insert, !abs_lookup, find_app. simpl.
  case_decide as E.
  - subst i. apply abs_not_in_use in Hf. rewrite abs_lookup in Hf.
    rewrite Hf, Z.eqb_refl. reflexivity.
  - apply Z.eqb_neq in E. rewrite E. destruct (find _ l); reflexivity.
Qed.

Lemma abs_replace_first scheduleId s l l' :
  replace_first scheduleId s l = Some l' ->
  abs l' = <[scheduleId := set_id s scheduleId]> (abs l).
Proof.
  intros Hr. pose proof (replace_first_spec scheduleId s l) as Hs. rewrite Hr in Hs.
  destruct Hs as (_ & _ & _ & Hf & Ho). apply map_eq. intros i.
  rewrite lookup_insert, !abs_lookup. case_decide as E; [subst i; exact Hf|].
  apply Ho. congruence.
Qed.

Lemma abs_remove_id scheduleId l : abs (remove_id scheduleId l) = delete scheduleId (abs l).
Proof.
  destruct (remove_id_spec scheduleId l) as (Hgone & Ho & _). apply map_eq. intros i.
  rewrite lookup_delete, !abs_lookup. case_decide as E; [|apply Ho; congruence].
  subst i. apply abs_not_in_use in Hgone. rewrite abs_lookup in Hgone. exact Hgone.
Qed.

(** ** The refinement *)

Section RefinementTheory.

Context {D : Type} `{RtcDevice D}.

Implicit Types (c : Controller D) (me : Mutex.TaskId) (m : gmap Z Schedule).

Lemma represents_size c m :
  represents c m -> Z.of_nat (size m) = Z.of_nat (length (ctl_schedules c)).
Proof. intros [<- Hu]. rewrite abs_size by exact Hu. reflexivity. Qed.

(** Below capacity the id the code allocates is the least free id of the
    map. *)
Lemma least_free_next c :
  Z.of_nat (length (ctl_schedules c)) < MAX_SCHEDULES ->
  least_free (abs (ctl_schedules c)) (getNextFreeScheduleId c).
Proof.
  intros Hlt. destruct (next_free_id_least c) as (Hr & Hused & _).
  destruct (next_free_id_fresh c) as [Hfresh _]; [lia|].
  split; [lia|]. split; [apply abs_not_in_use, Hfresh|].
  intros j Hj. apply abs_in_use, Hused, Hj.
Qed.

(** Appending under an id that is not in use. *)
Lemma represents_snoc c m x c' :
  represents c m -> id_in_use (ctl_schedules c) (sched_id x) = false ->
  ctl_schedules c' = ctl_schedules c ++ [x] ->
  represents c' (<[sched_id x := x]> m).
Proof.
  intros [<- Hu] Hf Hs. unfold represents. rewrite Hs.
  split; [apply abs_snoc, Hf | apply unique_ids_snoc; assumption].
Qed.

Lemma add_refines me s c m :
  represents c m -> permitted (Add s) m ->
  exists m', abs_step (Add s) m (fst (addSchedule me c s)) m'
             /\ represents (snd (addSchedule me c s)) m'.
Proof.
  intros Hr Hp. pose proof (represents_size c m Hr) as Hsz.
  destruct (Z.ltb_spec (Z.of_nat (length (ctl_schedules c))) MAX_SCHEDULES) as [Hlt | Hge].
  2:{ rewrite addSchedule_full by exact Hge. exists m. split; [|exact Hr].
      apply abs_add_full. lia. }
  pose proof (addSchedule_schedules me c s Hlt) as Hs.
  assert (Hst : fst (addSchedule me c s) = OK)
    by (unfold addSchedule; rewrite (proj2 (Z.ltb_lt _ _) Hlt); reflexivity).
  rewrite Hst. unfold stored in Hs. destruct (Z.eqb_spec (sched_id s) 0) as [E | Hne].
  - pose proof (least_free_next c Hlt) as Hlf. destruct Hr as [<- Hu].
    exists (<[getNextFreeScheduleId c := set_id s (getNextFreeScheduleId c)]>
              (abs (ctl_schedules c))).
    split; [apply abs_add_fresh; assumption || lia|].
    apply (represents_snoc c _ (set_id s (getNextFreeScheduleId c)));
      [split; [reflexivity | exact Hu] | apply abs_not_in_use, Hlf | exact Hs].
  - destruct Hp as [? | Hnone]; [contradiction|]. exists (<[sched_id s := s]> m).
    split; [apply abs_add_given; assumption || lia|].
    apply (represents_snoc c m s); [exact Hr | | exact Hs].
    destruct Hr as [<- _]. apply abs_not_in_use, Hnone.
Qed.

Lemma update_refines me scheduleId s c m :
  represents c m ->
  exists m', abs_step (Update scheduleId s) m (fst (updateSchedule me c scheduleId s)) m'
             /\ represents (snd (updateSchedule me c scheduleId s)) m'.
Proof.
  intros [<- Hu]. unfold updateSchedule.
  pose proof (replace_first_spec scheduleId s (ctl_schedules c)) as Hs.
  destruct (replace_first _ _ _) as [l'|] eqn:Hr; cbn [fst snd].
  - destruct Hs as (Hin & Hids & _). eexists. split; [apply abs_update, abs_in_use, Hin|].
    unfold represents. rewrite planned_schedules. cbn [set_schedules ctl_schedules].
    split; [apply abs_replace_first, Hr | unfold unique_ids; rewrite Hids; exact Hu].
  - eexists. split; [apply abs_update_missing, abs_not_in_use, Hs | split; auto].
Qed.

Lemma remove_refines me scheduleId c m :
  represents c m ->
  exists m', abs_step (Remove scheduleId) m (fst (removeSchedule me c scheduleId)) m'
             /\ represents (snd (removeSchedule me c scheduleId)) m'.
Proof.
  intros [<- Hu]. unfold removeSchedule. cbv zeta.
  destruct (remove_id_spec scheduleId (ctl_schedules c)) as (_ & _ & _ & Hiff).
  destruct (Nat.ltb_spec (length (remove_id scheduleId (ctl_schedules c)))
              (length (ctl_schedules c))) as [Hlt | Hge]; cbn [fst snd].
  - eexists. split; [apply abs_remove, abs_in_use, Hiff, Hlt|].
    unfold represents. rewrite planned_schedules. cbn [set_schedules ctl_schedules].
    split; [apply abs_remove_id | apply remove_id_unique, Hu].
  - eexists. split; [|split; auto]. apply abs_remove_missing, abs_not_in_use.
    destruct (id_in_use _ _); [|reflexivity]. pose proof (proj2 Hiff eq_refl). lia.
Qed.

(** One call refines one abstract step. *)
Lemma step_refines me op c m :
  represents c m -> permitted op m ->
  exists m', abs_step op m (fst (exec me op c)) m' /\ represents (snd (exec me op c)) m'.
Proof.
  intros Hr Hp. destruct op as [s | scheduleId s | scheduleId |]; cbn [exec].
  - apply add_refines; assumption.
  - apply update_refines, Hr.
  - apply remove_refines, Hr.
  - exists ∅. split; [apply abs_clear|]. split; [reflexivity | apply List.NoDup_nil].
Qed.

(** Refinement.  From a controller that represents a map, with the
    caller adding only under id 0 or under an id the map does not bind,
    each of [addSchedule], [updateSchedule], [removeSchedule] and
    [clearAllSchedules] returns the status of a step of the abstract set
    and leaves a controller that represents the map of that step; there
    [getSchedule] is the lookup of the map and the number of schedules its
    size. *)
Theorem exec_refines me op c m :
  represents c m -> permitted op m ->
  let '(st, c') := exec me op c in
  exists m', abs_step op m st m' /\ represents c' m'
             /\ (forall i, getSchedule c' i = m' !! i)
             /\ length (ctl_schedules c') = size m'.
Proof.
  intros Hr Hp. destruct (step_refines me op c m Hr Hp) as (m' & Hstep & Hr').
  destruct (exec me op c) as [st c']. exists m'. split; [exact Hstep|].
  split; [exact Hr'|]. destruct Hr' as [<- Hu]. split; [|symmetry; apply abs_size, Hu].
  intros i. symmetry. apply abs_lookup.
Qed.

(** Refinement of runs.  A sequence of calls in which every schedule
    is added under id 0, from a controller that represents a map, returns
    the statuses of a run of the abstract set and ends in a controller
    that represents the map that run ends in: ids stay pairwise
    different for as long as the set allocates them. *)
Theorem exec_all_refines me ops : forall c m,
  represents c m -> allocating ops ->
  exists m', abs_run ops m (fst (exec_all me ops c)) m'
             /\ represents (snd (exec_all me ops c)) m'.
Proof.
  induction ops as [|op ops IH]; intros c m Hr Ha.
  - exists m. split; [constructor | exact Hr].
  - apply Forall_cons in Ha as [Hop Ha].
    destruct (step_refines me op c m Hr) as (m1 & Hstep & Hr1);
      [destruct op; cbn; auto|].
    cbn [exec_all]. destruct (exec me op c) as [st c1]. cbn [fst snd] in *.
    destruct (IH c1 m1 Hr1 Ha) as (m2 & Hrun & Hr2).
    destruct (exec_all me ops c1) as [sts c2]. cbn [fst snd] in *.
    exists m2. split; [econstructor; eassumption | exact Hr2].
Qed.

End RefinementTheory.

(** ** The refinement on the sample system *)

Lemma exec_refines_witness :
  exists m', abs_step (Add night_owl) (abs [weekday_morning]) OK m'
             /\ represents (snd (exec 0%nat (Add night_owl) (sample [weekday_morning]))) m'.
Proof.
  pose proof (exec_refines 0%nat (Add night_owl) (sample [weekday_morning])
                (abs [weekday_morning])) as P.
  destruct (exec 0%nat (Add night_owl) (sample [weekday_morning])) as [st c'] eqn:E.
  assert (st = OK) as -> by (apply (f_equal fst) in E; vm_compute in E; congruence).
  destruct P as (m' & Hstep & Hr' & _);
    [split; [reflexivity | distinct_ids] | right; reflexivity |].
  exists m'. auto.
Defined.

Lemma exec_all_refines_witness :
  unique_ids (ctl_schedules (snd (exec_all 0%nat
     [Add blank_schedule; Add blank_schedule; Remove 1; Add blank_schedule] (sample [])))).
Proof.
  destruct (exec_all_refines 0%nat
              [Add blank_schedule; Add blank_schedule; Remove 1; Add blank_schedule]
              (sample []) ∅) as (m' & _ & _ & Hu);
    [split; [reflexivity | apply List.NoDup_nil] | repeat constructor | exact Hu].
Defined.
