(* ===== verification/Policy.v ===== *)
(** * Vacation and pump exercise

    The two policies beside the schedules: [setVacationMode] and
    [isVacationMode], and the monthly pump exercise with
    [setPumpExercise], [isPumpExerciseTime] and
    [markPumpExerciseComplete].

    The setters write the record and nothing else: they neither test
    [_initialized] nor take the lock.  The queries are gated.

    The theorems: what vacation suppresses, when the exercise is due, and
    that after [markPumpExerciseComplete] it is not due again during the
    same month. *)

From stdpp Require Import strings.
From S2P Require Import Prelude DateTime Schedule Hardware State Window.

Section Policy.

Context {D : Type} `{RtcDevice D}.

Implicit Types (c : Controller D) (me : Mutex.TaskId).

(** ** Vacation *)

(** [setVacationMode(enabled, start, end)]: three of the four fields;
    [runPumpExercise] keeps what it held. *)
Definition setVacationMode c (enabled : bool) (start end_ : DateTime) : Controller D :=
  set_vacationMode c
    (mkVacationMode enabled start end_ (vac_runPumpExercise (ctl_vacationMode c))).

(** [getVacationMode()]: a copy of the settings, made without the lock. *)
Definition getVacationMode c : VacationMode := ctl_vacationMode c.

(** [isVacationMode()]. *)
Definition isVacationMode me c : bool :=
  check vac_enabled (ctl_vacationMode c) orelse false ;;
  check ctl_initialized c orelse false ;;
  check hasLock me c orelse false ;;
  let now := rtc_now (ctl_rtc c) in
  dt_geb now (vac_startDate (ctl_vacationMode c))
  && dt_leb now (vac_endDate (ctl_vacationMode c)).

(** ** Pump exercise *)

(** [setPumpExercise(enabled, dayOfMonth, hour, minute, durationSeconds)]:
    [lastRun] keeps what it held. *)
Definition setPumpExercise c (enabled : bool) (dayOfMonth hour minute durationSeconds : Z)
  : Controller D :=
  set_pumpExercise c
    (mkPumpExercise enabled dayOfMonth hour minute durationSeconds
                    (pump_lastRun (ctl_pumpExercise c))).

(** [getPumpExercise()]: a copy of the settings, made without the lock. *)
Definition getPumpExercise c : PumpExercise := ctl_pumpExercise c.

(** The test "already ran this month" of [isPumpExerciseTime]. *)
Definition ran_this_month (p : PumpExercise) (now : DateTime) : bool :=
  isValid (pump_lastRun p)
  && (year (pump_lastRun p) =? year now)
  && (dt_month (pump_lastRun p) =? dt_month now).

(** The test on day, hour and minute of [isPumpExerciseTime]. *)
Definition at_exercise_minute (p : PumpExercise) (now : DateTime) : bool :=
  (dt_day now =? pump_dayOfMonth p) && (dt_hour now =? pump_hour p)
  && (dt_minute now =? pump_minute p).

(** [isPumpExerciseTime()]. *)
Definition isPumpExerciseTime me c : bool :=
  check pump_enabled (ctl_pumpExercise c) orelse false ;;
  check ctl_initialized c orelse false ;;
  check hasLock me c orelse false ;;
  let now := rtc_now (ctl_rtc c) in
  check negb (isVacationMode me c && negb (vac_runPumpExercise (ctl_vacationMode c)))
    orelse false ;;
  if at_exercise_minute (ctl_pumpExercise c) now
  then (if ran_this_month (ctl_pumpExercise c) now then false else true)
  else false.

(** [markPumpExerciseComplete()]. *)
Definition markPumpExerciseComplete me c : Controller D :=
  check ctl_initialized c orelse c ;;
  check hasLock me c orelse c ;;
  let p := ctl_pumpExercise c in
  set_pumpExercise c
    (mkPumpExercise (pump_enabled p) (pump_dayOfMonth p) (pump_hour p) (pump_minute p)
                    (pump_durationSeconds p) (rtc_now (ctl_rtc c))).

(** ** Theory of vacation *)

Lemma isVacationMode_eq me c :
  isVacationMode me c
  = vac_enabled (ctl_vacationMode c) && ctl_initialized c && hasLock me c
    && in_vacation_range (ctl_vacationMode c) (rtc_now (ctl_rtc c)).
Proof.
  unfold isVacationMode, in_vacation_range.
  destruct (vac_enabled _), (ctl_initialized c), (hasLock me c); reflexivity.
Qed.

(** [isVacationMode] answers for the whole set: when it is true, no
    schedule is reported active. *)
Lemma isVacationMode_blocks me c :
  isVacationMode me c = true -> isWithinAnySchedule me c = false.
Proof.
  rewrite isVacationMode_eq, !andb_true_iff. intros [[[He _] _] Hr].
  apply isWithinAnySchedule_vacation; assumption.
Qed.

(** [isVacationMode] is true exactly when vacation is enabled, the
    object is ready, and the clock's time lies between the start and the
    end of the vacation, both included. *)
Theorem isVacationMode_spec me c :
  let v := ctl_vacationMode c in
  let now := rtc_now (ctl_rtc c) in
  calendar_ok now -> calendar_ok (vac_startDate v) -> calendar_ok (vac_endDate v) ->
  isVacationMode me c = true
  <-> vac_enabled v = true /\ ready me c
      /\ epoch2000 (vac_startDate v) <= epoch2000 now <= epoch2000 (vac_endDate v).
Proof.
  cbv zeta. intros Hn Hs He. rewrite isVacationMode_eq. unfold in_vacation_range, ready.
  rewrite !andb_true_iff, dt_geb_ge, dt_leb_le by assumption. tauto.
Qed.

(** Vacation override.  After [setVacationMode(true, start, end)] with
    the clock's time in [start, end], on a ready object, [isVacationMode]
    is true and [isWithinAnySchedule] is false whatever the schedules; the
    schedules, the pump settings and the clock are untouched. *)
Theorem setVacationMode_suppresses me c start end_ :
  ready me c ->
  let now := rtc_now (ctl_rtc c) in
  calendar_ok now -> calendar_ok start -> calendar_ok end_ ->
  epoch2000 start <= epoch2000 now <= epoch2000 end_ ->
  let c' := setVacationMode c true start end_ in
  isVacationMode me c' = true /\ isWithinAnySchedule me c' = false
  /\ ctl_schedules c' = ctl_schedules c /\ ctl_pumpExercise c' = ctl_pumpExercise c
  /\ ctl_rtc c' = ctl_rtc c.
Proof.
  cbv zeta. intros [Hi Hl] Hn Hs He Hr.
  assert (Hv : isVacationMode me (setVacationMode c true start end_) = true).
  { rewrite isVacationMode_eq. unfold in_vacation_range, hasLock in *. simpl.
    rewrite Hi, Hl. simpl. apply andb_true_iff.
    rewrite dt_geb_ge, dt_leb_le by assumption. exact Hr. }
  split; [exact Hv|]. split; [apply isVacationMode_blocks, Hv | auto].
Qed.

(** A disabled vacation is never active, whatever its dates. *)
Lemma setVacationMode_disabled me c start end_ :
  isVacationMode me (setVacationMode c false start end_) = false.
Proof. reflexivity. Qed.

(** ** Theory of the pump exercise *)

Lemma at_exercise_minute_iff p now :
  at_exercise_minute p now = true
  <-> dt_day now = pump_dayOfMonth p /\ dt_hour now = pump_hour p
      /\ dt_minute now = pump_minute p.
Proof. unfold at_exercise_minute. rewrite !andb_true_iff, !Z.eqb_eq. tauto. Qed.

Lemma ran_this_month_iff p now :
  ran_this_month p now = true
  <-> isValid (pump_lastRun p) = true /\ year (pump_lastRun p) = year now
      /\ dt_month (pump_lastRun p) = dt_month now.
Proof. unfold ran_this_month. rewrite !andb_true_iff, !Z.eqb_eq. tauto. Qed.

Lemma isPumpExerciseTime_eq me c :
  isPumpExerciseTime me c
  = pump_enabled (ctl_pumpExercise c) && ctl_initialized c && hasLock me c
    && negb (isVacationMode me c && negb (vac_runPumpExercise (ctl_vacationMode c)))
    && at_exercise_minute (ctl_pumpExercise c) (rtc_now (ctl_rtc c))
    && negb (ran_this_month (ctl_pumpExercise c) (rtc_now (ctl_rtc c))).
Proof.
  unfold isPumpExerciseTime.
  destruct (pump_enabled _), (ctl_initialized c), (hasLock me c); try reflexivity. simpl.
  destruct (negb _), (at_exercise_minute _ _), (ran_this_month _ _); reflexivity.
Qed.

(** C37: [isPumpExerciseTime] is true exactly when the exercise is enabled,
    the object is ready, vacation does not forbid it (no vacation now, or
    [runPumpExercise] set), the clock's day, hour and minute are the
    configured ones, and the last run is not a valid timestamp of the
    clock's year and month. *)
Theorem isPumpExerciseTime_spec me c :
  let p := ctl_pumpExercise c in
  let now := rtc_now (ctl_rtc c) in
  isPumpExerciseTime me c = true
  <-> pump_enabled p = true /\ ready me c
      /\ (isVacationMode me c = false \/ vac_runPumpExercise (ctl_vacationMode c) = true)
      /\ (dt_day now = pump_dayOfMonth p /\ dt_hour now = pump_hour p
          /\ dt_minute now = pump_minute p)
      /\ ~ (isValid (pump_lastRun p) = true /\ year (pump_lastRun p) = year now
            /\ dt_month (pump_lastRun p) = dt_month now).
Proof.
  cbv zeta. unfold ready.
  rewrite isPumpExerciseTime_eq, !andb_true_iff, !negb_true_iff, at_exercise_minute_iff.
  rewrite <- ran_this_month_iff.
  destruct (ran_this_month _ _), (isVacationMode me c), (vac_runPumpExercise _); simpl;
    intuition discriminate.
Qed.

Lemma markPumpExerciseComplete_lastRun me c :
  ready me c ->
  ctl_pumpExercise (markPumpExerciseComplete me c)
  = mkPumpExercise (pump_enabled (ctl_pumpExercise c)) (pump_dayOfMonth (ctl_pumpExercise c))
      (pump_hour (ctl_pumpExercise c)) (pump_minute (ctl_pumpExercise c))
      (pump_durationSeconds (ctl_pumpExercise c)) (rtc_now (ctl_rtc c)).
Proof. intros [Hi Hl]. unfold markPumpExerciseComplete. rewrite Hi, Hl. reflexivity. Qed.

(** Once per month.  After [markPumpExerciseComplete] on a ready
    object whose clock reads a valid time, [isPumpExerciseTime] is false in
    every later state with the same pump record whose clock reads a time
    of the same year and month, and so also when asked again within the
    same minute. *)
Theorem markPumpExerciseComplete_once_per_month me c c' :
  ready me c -> isValid (rtc_now (ctl_rtc c)) = true ->
  ctl_pumpExercise c' = ctl_pumpExercise (markPumpExerciseComplete me c) ->
  year (rtc_now (ctl_rtc c')) = year (rtc_now (ctl_rtc c)) ->
  dt_month (rtc_now (ctl_rtc c')) = dt_month (rtc_now (ctl_rtc c)) ->
  isPumpExerciseTime me c' = false.
Proof.
  intros Hr Hv Hp Hy Hm. rewrite markPumpExerciseComplete_lastRun in Hp by exact Hr.
  rewrite isPumpExerciseTime_eq. apply andb_false_iff. right. apply negb_false_iff.
  apply ran_this_month_iff. rewrite Hp. simpl. auto.
Qed.

(** [markPumpExerciseComplete] changes nothing but [lastRun], and nothing
    at all on an object that is not ready. *)
Lemma markPumpExerciseComplete_frame me c :
  let c' := markPumpExerciseComplete me c in
  ctl_schedules c' = ctl_schedules c /\ ctl_vacationMode c' = ctl_vacationMode c
  /\ ctl_rtc c' = ctl_rtc c /\ ctl_mutex c' = ctl_mutex c
  /\ (~ ready me c -> c' = c).
Proof.
  cbv zeta. unfold markPumpExerciseComplete, ready.
  destruct (ctl_initialized c), (hasLock me c); simpl; intuition congruence.
Qed.

Lemma policy_setters_wf c enabled start end_ dayOfMonth hour minute durationSeconds :
  wf c -> wf (setVacationMode c enabled start end_)
          /\ wf (setPumpExercise c enabled dayOfMonth hour minute durationSeconds).
Proof. intros Hwf. split; exact Hwf. Qed.

End Policy.

(** ** The policies on the sample system *)

(** The sample system with the exercise enabled for the 17th at 07:00. *)
Definition sample_pump : Controller SimRtc := setPumpExercise (sample []) true 17 7 0 300.

Lemma isVacationMode_spec_witness :
  isVacationMode 0%nat
    (setVacationMode (sample []) true (DateTime_of_fields 2024 1 1 0 0 0)
                     (DateTime_of_fields 2024 2 1 0 0 0)) = true.
Proof.
  apply isVacationMode_spec; [by_compute | by_compute | by_compute |].
  split; [reflexivity|]. split; [split; reflexivity | by_compute].
Defined.

Lemma setVacationMode_suppresses_witness :
  isWithinAnySchedule 0%nat
    (setVacationMode (sample [weekday_morning]) true (DateTime_of_fields 2024 1 1 0 0 0)
                     (DateTime_of_fields 2024 2 1 0 0 0)) = false.
Proof.
  pose proof (setVacationMode_suppresses 0%nat (sample [weekday_morning])
                (DateTime_of_fields 2024 1 1 0 0 0) (DateTime_of_fields 2024 2 1 0 0 0)
                (sample_ready _)) as P.
  cbv zeta in P. apply P; by_compute.
Defined.

(** On the 17th at 07:00 the exercise is due; after it is marked complete
    it is not. *)
Example pump_exercise_due : isPumpExerciseTime 0%nat sample_pump = true.
Proof. vm_compute. reflexivity. Qed.

Lemma markPumpExerciseComplete_once_per_month_witness :
  isPumpExerciseTime 0%nat (markPumpExerciseComplete 0%nat sample_pump) = false.
Proof.
  apply (markPumpExerciseComplete_once_per_month 0%nat sample_pump);
    [apply sample_ready | apply isValid_iff; by_compute | reflexivity
    | reflexivity | reflexivity].
Defined.

(** The timestamp of an exercise that never ran.  The constructor
    leaves [lastRun] default-constructed, 2000-01-01 00:00:00, which is a
    valid timestamp of January 2000: with the clock in that month an
    exercise that never ran counts as already run. *)
Theorem pump_exercise_never_run_january_2000 :
  let rtc := mkSimRtc true (DateTime_of_fields 2000 1 17 7 0 0) false None None false false in
  let c := setPumpExercise
             (snd (begin DateTime_default 0%nat (new_controller rtc false))) true 17 7 0 300 in
  pump_lastRun (ctl_pumpExercise c) = DateTime_default
  /\ at_exercise_minute (ctl_pumpExercise c) (rtc_now (ctl_rtc c)) = true
  /\ isPumpExerciseTime 0%nat c = false.
Proof. vm_compute. auto. Qed.
