(* ===== verification/Observe.v ===== *)
(** * What the queries see of a controller

    The queries of the controller read the schedule set, the vacation and
    pump records, the initialisation flag, the lock and the time of the
    clock, and nothing else: not the alarm registers, not the callbacks,
    not [_lastCheck].  [same_view] is the equivalence of controllers that
    agree on what is read; every query is a morphism for it ([Proper]
    instances), so an answer on one controller can be rewritten into the
    answer on an equivalent one.

    The alarm operations stay inside an equivalence class.  Hence
    programming, clearing or acknowledging an alarm changes no answer of
    any query, and planning twice programs the same alarm as planning
    once. *)

From Stdlib Require Import Morphisms Setoid.
From stdpp Require Import strings.
From S2P Require Import Prelude DateTime Schedule Hardware State Window Occurrence.
From S2P Require Import NextEvent Alarm ScheduleSet Policy.

Section View.

Context {D : Type} `{RtcDevice D}.

Implicit Types (c : Controller D) (me : Mutex.TaskId).

(** What the queries read. *)
Definition view c
  : list Schedule * VacationMode * PumpExercise * bool * Mutex.t * DateTime :=
  (ctl_schedules c, ctl_vacationMode c, ctl_pumpExercise c, ctl_initialized c,
   ctl_mutex c, rtc_now (ctl_rtc c)).

Definition same_view c c' : Prop := view c = view c'.

End View.

Infix "≈" := same_view (at level 70, no associativity) : ctl_scope.

(** ** Lists under pointwise equal functions *)

#[export] Instance existsb_pointwise {A} :
  Proper (pointwise_relation A eq ==> eq ==> eq) (@existsb A).
Proof.
  intros f g Hfg l ? <-. induction l as [|a l IH]; [reflexivity|].
  simpl. rewrite (Hfg a), IH. reflexivity.
Qed.

#[export] Instance find_pointwise {A} :
  Proper (pointwise_relation A eq ==> eq ==> eq) (@find A).
Proof.
  intros f g Hfg l ? <-. induction l as [|a l IH]; [reflexivity|].
  simpl. rewrite (Hfg a), IH. reflexivity.
Qed.

Section Morphisms.

Context {D : Type} `{RtcDevice D}.

Implicit Types (c : Controller D) (me : Mutex.TaskId).

#[export] Instance same_view_equivalence : Equivalence (@same_view D _).
Proof.
  unfold same_view. split; [intros c | intros c c' | intros c1 c2 c3]; congruence.
Qed.

Lemma view_fields c c' :
  c ≈ c' ->
  ctl_schedules c = ctl_schedules c' /\ ctl_vacationMode c = ctl_vacationMode c'
  /\ ctl_pumpExercise c = ctl_pumpExercise c' /\ ctl_initialized c = ctl_initialized c'
  /\ rtc_now (ctl_rtc c) = rtc_now (ctl_rtc c').
Proof. unfold same_view, view. intros [= -> -> -> -> _ ->]. auto 10. Qed.

Lemma hasLock_view me c c' : c ≈ c' -> hasLock me c = hasLock me c'.
Proof. unfold same_view, view, hasLock. intros [= _ _ _ _ -> _]. reflexivity. Qed.

(** Rewrites every field the queries read from [c] to [c']. *)
Ltac to_view Hv :=
  let Hs := fresh in let Hvac := fresh in let Hp := fresh in
  let Hi := fresh in let Hn := fresh in
  match type of Hv with
  | ?c ≈ ?c' =>
      destruct (view_fields c c' Hv) as (Hs & Hvac & Hp & Hi & Hn);
      rewrite ?Hs, ?Hvac, ?Hp, ?Hi, ?Hn, ?(hasLock_view _ c c' Hv)
  end.

#[export] Instance now_view me : Proper (same_view ==> eq) (now me).
Proof. intros c c' Hv. unfold now. to_view Hv. reflexivity. Qed.

#[export] Instance isWithinSchedule_view me :
  Proper (same_view ==> eq ==> eq) (isWithinSchedule me).
Proof. intros c c' Hv id ? <-. unfold isWithinSchedule. to_view Hv. reflexivity. Qed.

#[export] Instance isWithinAnySchedule_view me :
  Proper (same_view ==> eq) (isWithinAnySchedule me).
Proof.
  intros c c' Hv. unfold isWithinAnySchedule. to_view Hv.
  setoid_rewrite Hv. reflexivity.
Qed.

#[export] Instance getCurrentActiveSchedule_view me :
  Proper (same_view ==> eq) (getCurrentActiveSchedule me).
Proof.
  intros c c' Hv. unfold getCurrentActiveSchedule. to_view Hv.
  setoid_rewrite Hv. reflexivity.
Qed.

#[export] Instance getNextScheduledStart_view me :
  Proper (same_view ==> eq) (getNextScheduledStart me).
Proof. intros c c' Hv. unfold getNextScheduledStart. to_view Hv. reflexivity. Qed.

#[export] Instance next_end_step_view me :
  Proper (same_view ==> eq ==> eq ==> eq ==> eq) (next_end_step me).
Proof.
  intros c c' Hv now ? <- [nextEnd found] ? <- s ? <-. unfold next_end_step.
  setoid_rewrite Hv. reflexivity.
Qed.

#[export] Instance getNextScheduledEnd_view me :
  Proper (same_view ==> eq) (getNextScheduledEnd me).
Proof.
  intros c c' Hv. unfold getNextScheduledEnd. to_view Hv.
  destruct (ctl_initialized c'), (hasLock me c'); try reflexivity. cbv zeta. f_equal.
  apply fold_left_ext_in. intros acc s _. apply next_end_step_view; auto.
Qed.

#[export] Instance getSecondsUntilNextEvent_view me :
  Proper (same_view ==> eq) (getSecondsUntilNextEvent me).
Proof.
  intros c c' Hv. unfold getSecondsUntilNextEvent. to_view Hv.
  rewrite (getNextScheduledStart_view me c c' Hv), (getNextScheduledEnd_view me c c' Hv).
  reflexivity.
Qed.

#[export] Instance isVacationMode_view me : Proper (same_view ==> eq) (isVacationMode me).
Proof. intros c c' Hv. unfold isVacationMode. to_view Hv. reflexivity. Qed.

#[export] Instance isPumpExerciseTime_view me :
  Proper (same_view ==> eq) (isPumpExerciseTime me).
Proof.
  intros c c' Hv. unfold isPumpExerciseTime. to_view Hv.
  rewrite (isVacationMode_view me c c' Hv). reflexivity.
Qed.

#[export] Instance getSchedule_view :
  Proper (same_view ==> eq ==> eq) (getSchedule (D:=D)).
Proof. intros c c' Hv id ? <-. unfold getSchedule. to_view Hv. reflexivity. Qed.

End Morphisms.

(** ** The alarm operations *)

Inductive AlarmOp : Type :=
  | SetAlarm1 (dt : DateTime) (matchSeconds : bool)
  | SetAlarm2 (dt : DateTime)
  | ClearAlarm (alarmNumber : Z)
  | Acknowledge (alarmNumber : Z)
  | Plan.

Section Alarms.

Context {D : Type} `{RtcDevice D}.

Implicit Types (c : Controller D) (me : Mutex.TaskId).

(** The controller after an alarm operation. *)
Definition alarm_exec me (op : AlarmOp) c : Controller D :=
  match op with
  | SetAlarm1 dt matchSeconds => snd (setAlarm1 me c dt matchSeconds)
  | SetAlarm2 dt => snd (setAlarm2 me c dt)
  | ClearAlarm alarmNumber => clearAlarm me c alarmNumber
  | Acknowledge alarmNumber => acknowledgeAlarm me c alarmNumber
  | Plan => snd (setAlarmForNextSchedule me c)
  end.

(** Solves [op c ≈ c] for an operation that only writes the alarm
    registers and the event list. *)
Ltac alarm_view c me :=
  destruct (ctl_initialized c) eqn:?, (hasLock me c) eqn:?; try reflexivity;
  unfold same_view, view; cbn; autorewrite with rtc_rw; reflexivity.

Lemma setAlarm1_view me c dt matchSeconds : snd (setAlarm1 me c dt matchSeconds) ≈ c.
Proof. unfold setAlarm1. destruct (isValid dt); alarm_view c me. Qed.

Lemma setAlarm2_view me c dt : snd (setAlarm2 me c dt) ≈ c.
Proof. unfold setAlarm2. alarm_view c me. Qed.

Lemma clearAlarm_view me c n : clearAlarm me c n ≈ c.
Proof. unfold clearAlarm. alarm_view c me. Qed.

Lemma acknowledgeAlarm_view me c n : acknowledgeAlarm me c n ≈ c.
Proof.
  unfold acknowledgeAlarm. cbv zeta.
  destruct (ctl_alarmCallback (set_rtc c (rtc_clearAlarm (ctl_rtc c) n))); alarm_view c me.
Qed.

Lemma setAlarmForNextSchedule_view me c : snd (setAlarmForNextSchedule me c) ≈ c.
Proof. rewrite setAlarmForNextSchedule_eq. apply setAlarm1_view. Qed.

Lemma alarm_exec_view me op c : alarm_exec me op c ≈ c.
Proof.
  destruct op; cbn [alarm_exec];
    auto using setAlarm1_view, setAlarm2_view, clearAlarm_view, acknowledgeAlarm_view,
      setAlarmForNextSchedule_view.
Qed.

(** The alarms and the queries are separate.  Programming, clearing
    or acknowledging an alarm, or planning the next one, by any task,
    changes no answer of any query asked by any task: what is active, the
    next start and end, the seconds to the next event, vacation, the pump
    exercise, the time and the lookups are as before. *)
Theorem alarm_ops_change_no_answer me me' op c :
  let c' := alarm_exec me op c in
  isWithinAnySchedule me' c' = isWithinAnySchedule me' c
  /\ getCurrentActiveSchedule me' c' = getCurrentActiveSchedule me' c
  /\ getNextScheduledStart me' c' = getNextScheduledStart me' c
  /\ getNextScheduledEnd me' c' = getNextScheduledEnd me' c
  /\ getSecondsUntilNextEvent me' c' = getSecondsUntilNextEvent me' c
  /\ isVacationMode me' c' = isVacationMode me' c
  /\ isPumpExerciseTime me' c' = isPumpExerciseTime me' c
  /\ now me' c' = now me' c
  /\ forall id, isWithinSchedule me' c' id = isWithinSchedule me' c id
                /\ getSchedule c' id = getSchedule c id.
Proof.
  intros c'. subst c'. pose proof (alarm_exec_view me op c) as Hv.
  repeat split; rewrite Hv; reflexivity.
Qed.

(** Programming alarm 1 twice with the same arguments is programming it
    once. *)
Lemma setAlarm1_twice me c dt matchSeconds :
  let c1 := snd (setAlarm1 me c dt matchSeconds) in
  let c2 := snd (setAlarm1 me c1 dt matchSeconds) in
  fst (setAlarm1 me c1 dt matchSeconds) = fst (setAlarm1 me c dt matchSeconds)
  /\ rtc_alarm1 (ctl_rtc c2) = rtc_alarm1 (ctl_rtc c1)
  /\ rtc_alarm2 (ctl_rtc c2) = rtc_alarm2 (ctl_rtc c1).
Proof.
  cbv zeta. unfold setAlarm1, hasLock.
  destruct (ctl_initialized c) eqn:Hi, (isValid dt) eqn:Hd,
    (Mutex.lockable me (ctl_mutex c)) eqn:Hl;
    cbn [fst snd set_rtc ctl_initialized ctl_mutex ctl_rtc]; rewrite ?Hi, ?Hd, ?Hl;
    cbn [fst snd set_rtc ctl_rtc]; autorewrite with rtc_rw; auto.
Qed.

(** Planning is idempotent.  A second [setAlarmForNextSchedule] right
    after the first returns the same status and leaves the same alarm in
    both slots. *)
Theorem setAlarmForNextSchedule_idempotent me c :
  let c1 := snd (setAlarmForNextSchedule me c) in
  let c2 := snd (setAlarmForNextSchedule me c1) in
  fst (setAlarmForNextSchedule me c1) = fst (setAlarmForNextSchedule me c)
  /\ rtc_alarm1 (ctl_rtc c2) = rtc_alarm1 (ctl_rtc c1)
  /\ rtc_alarm2 (ctl_rtc c2) = rtc_alarm2 (ctl_rtc c1).
Proof.
  cbv zeta. pose proof (setAlarmForNextSchedule_view me c) as Hv.
  rewrite !setAlarmForNextSchedule_eq in *.
  rewrite (getNextScheduledStart_view me _ _ Hv). apply setAlarm1_twice.
Qed.

End Alarms.
