(* ===== verification/TimeZone.v ===== *)
(** * Time zone helpers

    The clock keeps local wall time.  [setTimeFromUTC] sets it from a UTC
    epoch and an offset, [nowUTC] reads it back as a UTC epoch.  Both
    compute in [uint32_t]: the offset, an [int32_t], is added and
    subtracted modulo 2^32.

    The theorems: the branches of [setTimeFromUTC] in terms of the epoch,
    the round trip through the clock, and the year 2100, which the range
    test accepts and [setTime] then refuses. *)

From S2P Require Import Prelude DateTime Schedule Hardware State.

(** Seconds from 2000-01-01 to the end of the last year the range test of
    [setTimeFromUTC] accepts, 2100, as the library's calendar counts them. *)
Definition SECONDS_TO_2101 : Z := days_before_year 101 * 86400.

Section TimeZone.

Context {D : Type} `{RtcDevice D}.

Implicit Types (c : Controller D) (me : Mutex.TaskId).

(** [setTimeFromUTC(utcEpoch, offsetSeconds)]. *)
Definition setTimeFromUTC me c (utcEpoch offsetSeconds : Z) : Status * Controller D :=
  check negb (utcEpoch <? 946684800) orelse (Failed InvalidEpoch, c) ;;
  let localEpoch := u32 (utcEpoch + offsetSeconds) in
  let localTime := DateTime_of_epoch localEpoch in
  check negb ((year localTime <? 2000) || (2100 <? year localTime))
    orelse (Failed InvalidConversion, c) ;;
  setTime me c localTime.

(** [nowUTC(offsetSeconds)]. *)
Definition nowUTC me c (offsetSeconds : Z) : Z :=
  let localTime := now me c in
  let localEpoch := unixtime localTime in
  u32 (localEpoch - offsetSeconds).

(** ** Theory *)

(** The year of a timestamp made from an epoch, read off the epoch. *)
Lemma of_epoch_year t :
  2000 <= year (DateTime_of_epoch t)
  /\ (2100 < year (DateTime_of_epoch t) <-> SECONDS_TO_2101 <= since2000 t).
Proof.
  pose proof (of_epoch_calendar_ok t) as Hc. pose proof (of_epoch_epoch2000 t) as He.
  pose proof (day_number_bounds _ Hc) as Hb. pose proof (day_number_div _ Hc) as Hd.
  rewrite He in Hd. revert Hc Hb Hd. unfold year, SECONDS_TO_2101.
  generalize (DateTime_of_epoch t). intros x Hc Hb Hd.
  pose proof (days_before_year_mono (dt_yOff x + 1) 101).
  pose proof (days_before_year_mono 101 (dt_yOff x)).
  destruct Hc as (Hy & _). split; [lia|]. split; intros; [zdiv|].
  destruct (Z.lt_ge_cases 100 (dt_yOff x)); [lia|]. zdiv.
Qed.

(** The range test on the year, as a test on the local epoch. *)
Lemma year_test_epoch l :
  0 <= l < 4294967296 ->
  (year (DateTime_of_epoch l) <? 2000) || (2100 <? year (DateTime_of_epoch l))
  = (l <? SECONDS_FROM_1970_TO_2000) || (SECONDS_FROM_1970_TO_2000 + SECONDS_TO_2101 <=? l).
Proof.
  intros Hr. destruct (of_epoch_year l) as [Hlo Hhi].
  rewrite (proj2 (Z.ltb_ge _ _) Hlo). simpl orb. apply eq_true_iff_eq.
  rewrite Z.ltb_lt, Hhi, orb_true_iff, Z.ltb_lt, Z.leb_le.
  unfold since2000. rewrite (u32_small l) by exact Hr.
  unfold u32, wrap, SECONDS_TO_2101, SECONDS_FROM_1970_TO_2000 in *.
  change (days_before_year 101 * 86400) with 3187382400. change (2 ^ 32) with 4294967296.
  zdiv.
Qed.

(** The branches of [setTimeFromUTC].  A UTC epoch before 2000-01-01
    fails with [InvalidEpoch]; a local epoch, computed modulo 2^32, before
    2000-01-01 or after the year 2100 fails with [InvalidConversion]; both
    leave the object untouched, whatever its state.  Otherwise the call is
    [setTime] of the local time. *)
Theorem setTimeFromUTC_spec me c utcEpoch offsetSeconds :
  let localEpoch := u32 (utcEpoch + offsetSeconds) in
  setTimeFromUTC me c utcEpoch offsetSeconds =
  if utcEpoch <? SECONDS_FROM_1970_TO_2000 then (Failed InvalidEpoch, c)
  else if (localEpoch <? SECONDS_FROM_1970_TO_2000)
          || (SECONDS_FROM_1970_TO_2000 + SECONDS_TO_2101 <=? localEpoch)
       then (Failed InvalidConversion, c)
       else setTime me c (DateTime_of_epoch localEpoch).
Proof.
  cbv zeta. unfold setTimeFromUTC. change 946684800 with SECONDS_FROM_1970_TO_2000.
  destruct (utcEpoch <? SECONDS_FROM_1970_TO_2000); [reflexivity|]. simpl negb. cbv iota.
  rewrite year_test_epoch by apply u32_range. destruct (_ || _); reflexivity.
Qed.

(** A timestamp made from an epoch of the years 2000 to 2099 is one that
    [setTime] accepts. *)
Lemma of_epoch_valid t :
  SECONDS_FROM_1970_TO_2000 <= t < SECONDS_FROM_1970_TO_2000 + VALID_SECONDS ->
  isValid (DateTime_of_epoch t) = true.
Proof. intros Ht. apply isValid_iff, of_epoch_wf, Ht. Qed.

(** C38: round trip through the clock.  On a ready object, for a UTC epoch
    from 2000-01-01 on and an offset that puts the local time in the years
    2000 to 2099, [setTimeFromUTC] succeeds, the clock reads the local
    calendar time, and [nowUTC] with the same offset returns the UTC epoch
    that was set. *)
Theorem setTimeFromUTC_nowUTC me c utcEpoch offsetSeconds :
  ready me c -> SECONDS_FROM_1970_TO_2000 <= utcEpoch < 4294967296 ->
  SECONDS_FROM_1970_TO_2000 <= utcEpoch + offsetSeconds
    < SECONDS_FROM_1970_TO_2000 + VALID_SECONDS ->
  let '(st, c') := setTimeFromUTC me c utcEpoch offsetSeconds in
  st = OK /\ now me c' = DateTime_of_epoch (utcEpoch + offsetSeconds)
  /\ nowUTC me c' offsetSeconds = utcEpoch.
Proof.
  intros [Hi Hl] Hu Hloc. unfold setTimeFromUTC.
  rewrite (proj2 (Z.ltb_ge _ _)) by (unfold SECONDS_FROM_1970_TO_2000 in Hu; lia).
  simpl negb. cbv iota.
  assert (Hs : u32 (utcEpoch + offsetSeconds) = utcEpoch + offsetSeconds).
  { apply u32_small. unfold SECONDS_FROM_1970_TO_2000, VALID_SECONDS in *. lia. }
  rewrite Hs. destruct (of_epoch_year (utcEpoch + offsetSeconds)) as [Hlo Hhi].
  pose proof (of_epoch_valid _ Hloc) as Hv. pose proof (of_epoch_wf _ Hloc) as [[_ Hy] _].
  rewrite (proj2 (Z.ltb_ge _ _) Hlo), (proj2 (Z.ltb_ge _ _)) by (unfold year; lia).
  simpl negb. cbv iota. unfold setTime, nowUTC, now. rewrite Hi, Hv, Hl.
  assert (G : forall c', ctl_initialized c' = true -> hasLock me c' = true ->
            rtc_now (ctl_rtc c') = DateTime_of_epoch (utcEpoch + offsetSeconds) ->
            OK = OK /\ (if ctl_initialized c' then if hasLock me c' then rtc_now (ctl_rtc c')
                        else DateTime_default else DateTime_default)
                       = DateTime_of_epoch (utcEpoch + offsetSeconds)
            /\ u32 (unixtime (if ctl_initialized c' then if hasLock me c'
                              then rtc_now (ctl_rtc c') else DateTime_default
                              else DateTime_default) - offsetSeconds) = utcEpoch).
  { intros c' -> -> ->. rewrite unixtime_of_epoch, Hs. repeat split.
    replace (utcEpoch + offsetSeconds - offsetSeconds) with utcEpoch by lia.
    apply u32_small. unfold SECONDS_FROM_1970_TO_2000 in Hu. lia. }
  simpl. destruct (ctl_timeChangeCallback c); apply G; simpl; auto using rtc_now_adjust.
Qed.

(** The year 2100.  A local epoch in the year 2100 passes the range
    test of [setTimeFromUTC], and [setTime] then refuses the timestamp as
    invalid: on an initialised object the call fails and the clock is not
    set. *)
Theorem setTimeFromUTC_year_2100 me c utcEpoch offsetSeconds :
  ctl_initialized c = true -> SECONDS_FROM_1970_TO_2000 <= utcEpoch ->
  SECONDS_FROM_1970_TO_2000 + VALID_SECONDS <= utcEpoch + offsetSeconds
    < SECONDS_FROM_1970_TO_2000 + SECONDS_TO_2101 ->
  year (DateTime_of_epoch (u32 (utcEpoch + offsetSeconds))) = 2100
  /\ setTimeFromUTC me c utcEpoch offsetSeconds = (Failed InvalidArgument, c).
Proof.
  intros Hi Hu Hloc.
  assert (Hs : u32 (utcEpoch + offsetSeconds) = utcEpoch + offsetSeconds).
  { apply u32_small. unfold SECONDS_FROM_1970_TO_2000, SECONDS_TO_2101, VALID_SECONDS in *.
    change (days_before_year 101 * 86400) with 3187382400 in *. lia. }
  assert (Hy : dt_yOff (DateTime_of_epoch (utcEpoch + offsetSeconds)) = 100).
  { destruct (of_epoch_year (utcEpoch + offsetSeconds)) as [_ Hhi].
    pose proof (of_epoch_calendar_ok (utcEpoch + offsetSeconds)) as Hc.
    pose proof (of_epoch_epoch2000 (utcEpoch + offsetSeconds)) as He.
    pose proof (day_number_div _ Hc) as Hd. rewrite He in Hd.
    assert (Hsm : since2000 (utcEpoch + offsetSeconds)
                  = utcEpoch + offsetSeconds - SECONDS_FROM_1970_TO_2000).
    { unfold since2000. rewrite Hs. apply u32_small.
      unfold SECONDS_FROM_1970_TO_2000, SECONDS_TO_2101, VALID_SECONDS in *.
      change (days_before_year 101 * 86400) with 3187382400 in *. lia. }
    rewrite Hsm in *. revert Hhi Hc Hd. unfold year.
    generalize (DateTime_of_epoch (utcEpoch + offsetSeconds)). intros x Hhi Hc Hd.
    destruct (Z.lt_ge_cases (dt_yOff x) 100) as [Hlt | Hge]; [|lia].
    pose proof (day_number_bounds x Hc) as Hb.
    pose proof (days_before_year_mono (dt_yOff x + 1) 100).
    change (days_before_year 100) with 36525 in *. unfold VALID_SECONDS in *. zdiv. }
  rewrite Hs. split; [unfold year; lia|].
  unfold setTimeFromUTC, setTime. change 946684800 with SECONDS_FROM_1970_TO_2000.
  rewrite (proj2 (Z.ltb_ge _ _)), Hs, Hi by exact Hu. unfold year. rewrite Hy.
  replace (isValid _) with false; [reflexivity|].
  symmetry. apply not_true_is_false. intros Hv%isValid_iff. destruct Hv as [_ Hlt]. lia.
Qed.

(** On an object that is not ready [nowUTC] does not fail: it converts the
    default timestamp. *)
Lemma nowUTC_not_ready me c offsetSeconds :
  ~ ready me c -> nowUTC me c offsetSeconds = u32 (SECONDS_FROM_1970_TO_2000 - offsetSeconds).
Proof.
  unfold ready, nowUTC, now. intros Hn.
  replace (if ctl_initialized c then _ else _) with DateTime_default
    by (destruct (ctl_initialized c), (hasLock me c); tauto).
  rewrite unixtime_default. reflexivity.
Qed.

End TimeZone.

(** ** The helpers on the sample system *)

(** One second before 2000-01-01 is refused. *)
Example setTimeFromUTC_before_2000 :
  setTimeFromUTC 0%nat (sample []) 946684799 0 = (Failed InvalidEpoch, sample []).
Proof. vm_compute. reflexivity. Qed.

(** 2024-01-17 07:00:00 UTC at one hour east of Greenwich. *)
Lemma setTimeFromUTC_nowUTC_witness :
  nowUTC 0%nat (snd (setTimeFromUTC 0%nat (sample []) 1705474800 3600)) 3600 = 1705474800.
Proof.
  pose proof (setTimeFromUTC_nowUTC 0%nat (sample []) 1705474800 3600 (sample_ready _)) as P.
  destruct (setTimeFromUTC _ _ _ _) as [st c']. apply P; by_compute.
Defined.

(** 2100-01-01 00:00:00. *)
Lemma setTimeFromUTC_year_2100_witness :
  setTimeFromUTC 0%nat (sample []) 4102444800 0 = (Failed InvalidArgument, sample []).
Proof.
  refine (proj2 (setTimeFromUTC_year_2100 0%nat (sample []) 4102444800 0 _ _ _));
    [reflexivity | by_compute | by_compute].
Defined.
