(* ===== verification/DayNames.v ===== *)
(** * Day names

    The static helpers [dayOfWeekStr], [dayOfWeekFromStr] and
    [formatDayMask].

    C strings are modelled as [string]; [strcasecmp(a, b) == 0] as equality
    after mapping the letters A to Z to lower case.

    The theorems: the two conversions are inverse on the days 0 to 6, the
    parser ignores case and answers 255 for anything that is no day name,
    and [formatDayMask] is the comma-joined list of the enabled days, or
    "None". *)

From Stdlib Require Import Ascii String.
From stdpp Require Import strings.
From S2P Require Import Prelude Schedule.

(** ** The tables *)

Definition shortDays : list string := ["Sun"; "Mon"; "Tue"; "Wed"; "Thu"; "Fri"; "Sat"].

Definition longDays : list string :=
  ["Sunday"; "Monday"; "Tuesday"; "Wednesday"; "Thursday"; "Friday"; "Saturday"].

Definition twoLetterDays : list string := ["Su"; "Mo"; "Tu"; "We"; "Th"; "Fr"; "Sa"].

(** ** [dayOfWeekStr] *)

(** [(dow < 7) ? days[dow] : "???"]. *)
Definition dayOfWeekStr (dow : Z) : string :=
  if dow <? 7 then nth (Z.to_nat dow) shortDays "???" else "???".

(** ** [dayOfWeekFromStr] *)

(** [tolower] in the C locale. *)
Definition tolower (a : ascii) : ascii :=
  let n := nat_of_ascii a in
  if (65 <=? n)%nat && (n <=? 90)%nat then ascii_of_nat (n + 32) else a.

Fixpoint lower (s : string) : string :=
  match s with
  | EmptyString => EmptyString
  | String a s' => String (tolower a) (lower s')
  end.

(** [strcasecmp(a, b) == 0]. *)
Definition strcaseeq (a b : string) : bool := String.eqb (lower a) (lower b).

(** The test of the loop body for day [i]. *)
Definition names_day (str : string) (i : nat) : bool :=
  strcaseeq str (nth i shortDays "") || strcaseeq str (nth i longDays "").

(** [dayOfWeekFromStr(str)]: the first day whose short or long name is
    [str], case ignored; 255 when there is none. *)
Definition dayOfWeekFromStr (str : string) : Z :=
  match find (names_day str) (seq 0 7) with
  | Some i => Z.of_nat i
  | None => 255
  end.

(** ** [formatDayMask] *)

(** One iteration of the loop: day [i] is appended, after a comma when
    something is there already. *)
Definition format_step (dayMask : Z) (result : string) (i : nat) : string :=
  if negb (Z.land dayMask (bit (Z.of_nat i)) =? 0)
  then String.append (if (0 <? String.length result)%nat
                      then String.append result ","
                      else result)
                     (nth i twoLetterDays "")
  else result.

(** [formatDayMask(dayMask)]. *)
Definition formatDayMask (dayMask : Z) : string :=
  let result := fold_left (format_step dayMask) (seq 0 7) EmptyString in
  if (0 <? String.length result)%nat then result else "None".

(** ** Specification *)

(** The days of the week enabled in a mask, in order. *)
Definition enabled_days (dayMask : Z) : list nat :=
  List.filter (fun i => Z.testbit dayMask (Z.of_nat i)) (seq 0 7).

(** The names joined by commas. *)
Definition joined (l : list nat) : string :=
  String.concat "," (map (fun i => nth i twoLetterDays "") l).

(** ** Examples: the cases of the unit tests *)

Example dayOfWeekStr_all :
  map dayOfWeekStr [0; 1; 2; 3; 4; 5; 6; 7]
  = ["Sun"; "Mon"; "Tue"; "Wed"; "Thu"; "Fri"; "Sat"; "???"].
Proof. reflexivity. Qed.

Example dayOfWeekFromStr_names :
  map dayOfWeekFromStr ["Sun"; "Monday"; "tuesday"; "WED"; "Thu"; "friDAY"; "Sat"; "Invalid"]
  = [0; 1; 2; 3; 4; 5; 6; 255].
Proof. vm_compute. reflexivity. Qed.

Example formatDayMask_cases :
  map formatDayMask [0; 62; 127; 128] = ["None"; "Mo,Tu,We,Th,Fr"; "Su,Mo,Tu,We,Th,Fr,Sa"; "None"].
Proof. vm_compute. reflexivity. Qed.

(** ** Theory *)

Lemma day_cases dow :
  0 <= dow < 7 -> In dow [0; 1; 2; 3; 4; 5; 6].
Proof. simpl. lia. Qed.

(** Names round trip.  For every day from 0 to 6, parsing the name
    [dayOfWeekStr] gives returns the day; from 7 on [dayOfWeekStr] gives
    "???", which parses to the sentinel 255. *)
Theorem dayOfWeekFromStr_dayOfWeekStr dow :
  0 <= dow ->
  dayOfWeekFromStr (dayOfWeekStr dow) = if dow <? 7 then dow else 255.
Proof.
  intros Hd. destruct (Z.ltb_spec dow 7) as [Hlt | Hge].
  - destruct (day_cases dow) as [<- | [<- | [<- | [<- | [<- | [<- | [<- | []]]]]]]];
      [lia | vm_compute; reflexivity ..].
  - unfold dayOfWeekStr. rewrite (proj2 (Z.ltb_ge _ _) Hge). vm_compute. reflexivity.
Qed.

Lemma dayOfWeekFromStr_dayOfWeekStr_witness : dayOfWeekFromStr (dayOfWeekStr 3) = 3.
Proof. apply (dayOfWeekFromStr_dayOfWeekStr 3). lia. Defined.

Lemma tolower_idem a : tolower (tolower a) = tolower a.
Proof. destruct a as [[] [] [] [] [] [] [] []]; reflexivity. Qed.

Lemma lower_idem s : lower (lower s) = lower s.
Proof. induction s as [|a s IH]; simpl; [reflexivity|]. rewrite tolower_idem, IH. reflexivity. Qed.

Lemma find_range (p : nat -> bool) a n i :
  find p (seq a n) = Some i -> (a <= i < a + n)%nat /\ p i = true.
Proof.
  intros Hf. destruct (find_some _ _ Hf) as [Hin Hp]. apply in_seq in Hin. auto.
Qed.

(** [dayOfWeekFromStr] ignores the case of the letters, and its result
    is a day from 0 to 6 whose short or long name is the argument up to
    case, or the sentinel 255 when no day has that name. *)
Theorem dayOfWeekFromStr_spec str :
  dayOfWeekFromStr (lower str) = dayOfWeekFromStr str
  /\ match find (names_day str) (seq 0 7) with
     | Some i => dayOfWeekFromStr str = Z.of_nat i /\ (i < 7)%nat
                 /\ (lower str = lower (nth i shortDays "")
                     \/ lower str = lower (nth i longDays ""))
     | None => dayOfWeekFromStr str = 255
               /\ forall i, (i < 7)%nat -> lower str <> lower (nth i shortDays "")
                                           /\ lower str <> lower (nth i longDays "")
     end.
Proof.
  split.
  - unfold dayOfWeekFromStr, names_day, strcaseeq. rewrite lower_idem. reflexivity.
  - unfold dayOfWeekFromStr. destruct (find _ _) as [i|] eqn:Hf.
    + destruct (find_range _ _ _ _ Hf) as [Hi Hn]. repeat split; [lia|].
      unfold names_day, strcaseeq in Hn. apply orb_true_iff in Hn.
      rewrite !String.eqb_eq in Hn. exact Hn.
    + split; [reflexivity|]. intros i Hi.
      pose proof (find_none _ _ Hf i) as Hn. unfold names_day, strcaseeq in Hn.
      rewrite orb_false_iff, !String.eqb_neq in Hn. apply Hn, in_seq. lia.
Qed.

(** The loop over seven flags, whatever the mask they come from. *)
Definition format_flags (flags : list bool) : string :=
  let result :=
    fold_left (fun result '(i, b) =>
                 if b : bool
                 then String.append (if (0 <? String.length result)%nat
                                     then String.append result ","
                                     else result)
                                    (nth i twoLetterDays "")
                 else result)
              (combine (seq 0 7) flags) EmptyString in
  if (0 <? String.length result)%nat then result else "None".

Definition joined_flags (flags : list bool) : string :=
  match map fst (List.filter snd (combine (seq 0 7) flags)) with
  | [] => "None"
  | l => joined l
  end.

Lemma format_flags_joined b0 b1 b2 b3 b4 b5 b6 :
  format_flags [b0; b1; b2; b3; b4; b5; b6] = joined_flags [b0; b1; b2; b3; b4; b5; b6].
Proof. destruct b0, b1, b2, b3, b4, b5, b6; vm_compute; reflexivity. Qed.

Lemma fold_format_step dayMask l : forall acc,
  fold_left (format_step dayMask) l acc
  = fold_left (fun result '(i, b) =>
                 if b : bool
                 then String.append (if (0 <? String.length result)%nat
                                     then String.append result ","
                                     else result)
                                    (nth i twoLetterDays "")
                 else result)
              (combine l (map (fun i => Z.testbit dayMask (Z.of_nat i)) l)) acc.
Proof.
  induction l as [|i l IH]; intros acc; [reflexivity|]. cbn [fold_left map combine].
  rewrite <- IH. unfold format_step at 2. rewrite land_bit_testbit by lia. reflexivity.
Qed.

Lemma filter_combine {A} (f : A -> bool) l :
  List.filter f l = map fst (List.filter snd (combine l (map f l))).
Proof.
  induction l as [|a l IH]; [reflexivity|]. cbn [List.filter map combine snd].
  destruct (f a); cbn [map fst]; rewrite <- IH; reflexivity.
Qed.

(** [formatDayMask] prints the two-letter names of the days 0 to 6
    whose bit is set in the mask, in order and joined by commas, and
    "None" when no such bit is set; bit 7 is ignored. *)
Theorem formatDayMask_spec dayMask :
  formatDayMask dayMask
  = match enabled_days dayMask with
    | [] => "None"
    | l => joined l
    end.
Proof.
  unfold formatDayMask, enabled_days. rewrite fold_format_step, filter_combine.
  assert (E : exists b0 b1 b2 b3 b4 b5 b6,
            map (fun i => Z.testbit dayMask (Z.of_nat i)) (seq 0 7)
            = [b0; b1; b2; b3; b4; b5; b6]) by (cbn [map seq]; eauto 10).
  destruct E as (b0 & b1 & b2 & b3 & b4 & b5 & b6 & ->).
  apply (format_flags_joined b0 b1 b2 b3 b4 b5 b6).
Qed.

(** The days printed are those [isDayEnabled] reports. *)
Lemma enabled_days_isDayEnabled s i :
  In i (enabled_days (sched_dayMask s)) <-> (i < 7)%nat /\ isDayEnabled s (Z.of_nat i) = true.
Proof.
  unfold enabled_days. rewrite filter_In, in_seq, isDayEnabled_testbit by lia.
  intuition lia.
Qed.
