(* ===== verification/Persist.v ===== *)
(** * Persistence

    [getScheduleDataSize], [serializeSchedules] and
    [deserializeSchedules]: the schedules, the vacation record and the
    pump record in a byte buffer.

    A buffer is a list of bytes (as [Z]) with the offset an index into it.
    A store of a block is [write_at]; it never writes past the end in any
    call the theorems cover ([serializeSchedules_length]).  A load is
    [read_at], in the option monad: [None] stands for a read outside the
    buffer, which the source does not exclude.

    The sizes the source takes from [sizeof] depend on the platform and
    are the fields of the class [Layout]; [esp32] is the instance for the
    32-bit targets of the library.  The images of the two records copied
    with [memcpy] follow the declaration order of their members.

    The theorems: serialisation stays within the buffer and within the
    size announced; deserialisation inverts it; the header checks; and the
    reads that the size check does not cover. *)

From Stdlib Require Import Ascii String.
From stdpp Require Import strings.
From S2P Require Import Prelude DateTime Schedule Hardware State.

(** ** Platform sizes *)

Class Layout : Type := {
  sizeof_Schedule : Z;
  sizeof_String : Z;
  (* the seven one-byte members come before the name *)
  layout_members : 7 <= sizeof_Schedule - sizeof_String
}.

(** [sizeof(VacationMode)]: bool, two [DateTime] of six bytes, bool. *)
Definition sizeof_VacationMode : Z := 14.

(** [sizeof(PumpExercise)]: bool, three bytes, a [uint16_t], a
    [DateTime]. *)
Definition sizeof_PumpExercise : Z := 12.

#[export, refine] Instance esp32 : Layout := {
  sizeof_Schedule := 24;
  sizeof_String := 16
}.
Proof. lia. Defined.

(** ** Bytes *)

Definition byte_of_bool (b : bool) : Z := if b then 1 else 0.

Definition byte_of_ascii (a : ascii) : Z := Z.of_nat (nat_of_ascii a).

Definition ascii_of_byte (b : Z) : ascii := ascii_of_nat (Z.to_nat b).

(** [name.c_str()], without the terminator. *)
Fixpoint c_str (s : string) : list Z :=
  match s with
  | EmptyString => []
  | String a s' => byte_of_ascii a :: c_str s'
  end.

(** [String(name)] for a [char] array: the bytes before the first zero. *)
Fixpoint String_of (name : list Z) : string :=
  match name with
  | [] => EmptyString
  | b :: name' => if b =? 0 then EmptyString else String (ascii_of_byte b) (String_of name')
  end.

(** The six members of a [DateTime]. *)
Definition DateTime_bytes (dt : DateTime) : list Z :=
  [dt_yOff dt; dt_month dt; dt_day dt; dt_hour dt; dt_minute dt; dt_second dt].

(** The object representation of [VacationMode]. *)
Definition VacationMode_bytes (v : VacationMode) : list Z :=
  [byte_of_bool (vac_enabled v)] ++ DateTime_bytes (vac_startDate v)
  ++ DateTime_bytes (vac_endDate v) ++ [byte_of_bool (vac_runPumpExercise v)].

(** The object representation of [PumpExercise]; the [uint16_t] is
    little-endian. *)
Definition PumpExercise_bytes (p : PumpExercise) : list Z :=
  [byte_of_bool (pump_enabled p); pump_dayOfMonth p; pump_hour p; pump_minute p;
   pump_durationSeconds p mod 256; pump_durationSeconds p / 256]
  ++ DateTime_bytes (pump_lastRun p).

Definition VacationMode_of_bytes (l : list Z) : option VacationMode :=
  match l with
  | [e; y1; m1; d1; hh1; mm1; ss1; y2; m2; d2; hh2; mm2; ss2; r] =>
      Some (mkVacationMode (negb (e =? 0)) (mkDT y1 m1 d1 hh1 mm1 ss1)
                           (mkDT y2 m2 d2 hh2 mm2 ss2) (negb (r =? 0)))
  | _ => None
  end.

Definition PumpExercise_of_bytes (l : list Z) : option PumpExercise :=
  match l with
  | [e; dayOfMonth; hour; minute; lo; hi; y; m; d; hh; mm; ss] =>
      Some (mkPumpExercise (negb (e =? 0)) dayOfMonth hour minute (lo + 256 * hi)
                           (mkDT y m d hh mm ss))
  | _ => None
  end.

(** ** Buffers *)

(** [memcpy(&buffer[offset], src, n)], and [buffer[offset] = b] for one
    byte. *)
Definition write_at (buffer : list Z) (offset : nat) (src : list Z) : list Z :=
  take offset buffer ++ src ++ drop (offset + length src) buffer.

(** [n] bytes from [buffer + offset]; [None] when they are not all inside
    the buffer. *)
Definition read_at (buffer : list Z) (offset n : nat) : option (list Z) :=
  let l := take n (drop offset buffer) in
  if decide (length l = n) then Some l else None.

Definition MAGIC_1 : Z := 211.   (* 0xD3 *)
Definition MAGIC_2 : Z := 35.    (* 0x23 *)
Definition VERSION : Z := 1.

(** The bytes one schedule takes in the buffer. *)
Definition RECORD_BYTES : nat := 39.

(** ** Serialisation *)

(** The body of the loop over the schedules: the buffer and the offset. *)
Definition write_schedule (st : list Z * nat) (schedule : Schedule) : list Z * nat :=
  let '(buffer, offset) := st in
  let buffer := write_at buffer offset
                  [sched_id schedule; sched_dayMask schedule;
                   sched_startHour schedule; sched_startMinute schedule;
                   sched_endHour schedule; sched_endMinute schedule;
                   byte_of_bool (sched_enabled schedule)] in
  let offset := (offset + 7)%nat in
  let name := c_str (sched_name schedule) in
  let nameLen := Nat.min (length name) 31 in
  let buffer := write_at buffer offset (take nameLen name) in
  let buffer := write_at buffer (offset + nameLen) [0] in
  (buffer, (offset + 32)%nat).

Section Persist.

Context {D : Type} `{RtcDevice D} `{Layout}.

Implicit Types (c : Controller D).

(** [getScheduleDataSize()]. *)
Definition getScheduleDataSize c : Z :=
  4 + Z.of_nat (length (ctl_schedules c)) * (sizeof_Schedule - sizeof_String + 32)
  + sizeof_VacationMode + sizeof_PumpExercise.

(** [serializeSchedules(buffer, bufferSize)]: the status and the buffer
    afterwards.  The pointer is not null. *)
Definition serializeSchedules c (buffer : list Z) (bufferSize : Z) : Status * list Z :=
  check negb (bufferSize <? getScheduleDataSize c) orelse (Failed InvalidArgument, buffer) ;;
  let buffer := write_at buffer 0
                  [MAGIC_1; MAGIC_2; VERSION; u8 (Z.of_nat (length (ctl_schedules c)))] in
  let '(buffer, offset) := fold_left write_schedule (ctl_schedules c) (buffer, 4%nat) in
  let buffer := write_at buffer offset (VacationMode_bytes (ctl_vacationMode c)) in
  let offset := (offset + Z.to_nat sizeof_VacationMode)%nat in
  let buffer := write_at buffer offset (PumpExercise_bytes (ctl_pumpExercise c)) in
  (OK, buffer).

(** ** Deserialisation *)

(** One turn of the reading loop. *)
Definition read_schedule (buffer : list Z) (offset : nat) : option Schedule :=
  fields ← read_at buffer offset 7;
  name ← read_at buffer (offset + 7) 32;
  match fields with
  | [id; dayMask; startHour; startMinute; endHour; endMinute; enabled] =>
      Some (mkSchedule id dayMask startHour startMinute endHour endMinute
                       (negb (enabled =? 0)) (String_of (take 31 name)))
  | _ => None
  end.

(** The reading loop with [count] turns left. *)
Fixpoint read_schedules (count : nat) (buffer : list Z) (offset : nat)
  : option (list Schedule) :=
  match count with
  | O => Some []
  | S count' =>
      schedule ← read_schedule buffer offset;
      rest ← read_schedules count' buffer (offset + RECORD_BYTES);
      Some (schedule :: rest)
  end.

(** The two records behind the schedules: each is read only if
    [dataSize] covers it. *)
Definition read_trailing c (buffer : list Z) (dataSize : Z) (offset : nat)
  : option (Controller D) :=
  '(c, offset) ←
    (if Z.of_nat offset + sizeof_VacationMode <=? dataSize
     then l ← read_at buffer offset (Z.to_nat sizeof_VacationMode);
          v ← VacationMode_of_bytes l;
          Some (set_vacationMode c v, (offset + Z.to_nat sizeof_VacationMode)%nat)
     else Some (c, offset));
  if Z.of_nat offset + sizeof_PumpExercise <=? dataSize
  then l ← read_at buffer offset (Z.to_nat sizeof_PumpExercise);
       p ← PumpExercise_of_bytes l;
       Some (set_pumpExercise c p)
  else Some c.

(** [deserializeSchedules(buffer, dataSize)]; [None] when a read leaves
    the buffer.  The pointer is not null. *)
Definition deserializeSchedules c (buffer : list Z) (dataSize : Z)
  : option (Status * Controller D) :=
  check negb (dataSize <? 4) orelse Some (Failed InvalidArgument, c) ;;
  b0 ← buffer !! 0%nat;
  check b0 =? MAGIC_1 orelse Some (Failed BadMagic, c) ;;
  b1 ← buffer !! 1%nat;
  check b1 =? MAGIC_2 orelse Some (Failed BadMagic, c) ;;
  version ← buffer !! 2%nat;
  check version =? VERSION orelse Some (Failed UnsupportedVersion, c) ;;
  scheduleCount ← buffer !! 3%nat;
  check negb (MAX_SCHEDULES <? scheduleCount) orelse Some (Failed TooManySchedules, c) ;;
  schedules ← read_schedules (Z.to_nat scheduleCount) buffer 4;
  c ← read_trailing (set_schedules c schedules) buffer dataSize
                    (4 + Z.to_nat scheduleCount * RECORD_BYTES);
  Some (OK, c).

End Persist.

(** ** Examples *)

(** A buffer of [n] bytes 0xFF, as erased flash reads. *)
Definition erased (n : nat) : list Z := replicate n 255.

(** The sample system with one schedule needs 70 bytes by
    [getScheduleDataSize] and writes 69. *)
Example data_size_one_schedule : getScheduleDataSize (sample [weekday_morning]) = 70.
Proof. reflexivity. Qed.

Example serialize_one_schedule :
  take 15 (snd (serializeSchedules (sample [weekday_morning]) (erased 80) 80))
  = [211; 35; 1; 1;  1; 62; 6; 0; 8; 0; 1;  109; 111; 114; 110].
Proof. vm_compute. reflexivity. Qed.

(** An empty set: the header, its count 0, then the two records. *)
Example deserialize_empty :
  let buffer := [211; 35; 1; 0] ++ VacationMode_bytes (ctl_vacationMode (sample []))
                ++ PumpExercise_bytes (ctl_pumpExercise (sample [])) in
  deserializeSchedules (sample [night_owl]) buffer 30 = Some (OK, sample []).
Proof. vm_compute. reflexivity. Qed.

(** ** Theory of buffers *)

Lemma write_at_length buffer offset src :
  (offset + length src <= length buffer)%nat ->
  length (write_at buffer offset src) = length buffer.
Proof. intros Hle. unfold write_at. rewrite !length_app, length_take, length_drop. lia. Qed.

(** A store at the end of what is already written: the buffer as the part
    before the offset and the part from it. *)
Lemma write_at_app pre rest src offset :
  offset = length pre ->
  write_at (pre ++ rest) offset src = pre ++ src ++ drop (length src) rest.
Proof.
  intros ->. unfold write_at. rewrite take_app_length, drop_app_ge by lia.
  repeat f_equal. lia.
Qed.

Lemma read_at_app pre rest offset n :
  offset = length pre -> (n <= length rest)%nat ->
  read_at (pre ++ rest) offset n = Some (take n rest).
Proof.
  intros -> Hn. unfold read_at. rewrite drop_app_length.
  destruct (decide _) as [_ | Hne]; [reflexivity|]. rewrite length_take in Hne. lia.
Qed.

Lemma read_at_app2 pre mid rest offset n :
  offset = (length pre + length mid)%nat -> (n <= length rest)%nat ->
  read_at (pre ++ mid ++ rest) offset n = Some (take n rest).
Proof.
  intros -> Hn. rewrite app_assoc. apply read_at_app; [|exact Hn].
  rewrite length_app. reflexivity.
Qed.

Lemma read_at_short buffer offset n :
  (0 < n)%nat -> (length buffer < offset + n)%nat -> read_at buffer offset n = None.
Proof.
  intros Hn Hlt. unfold read_at. destruct (decide _) as [E | _]; [|reflexivity].
  rewrite length_take, length_drop in E. lia.
Qed.

Lemma drop_take_drop {A} (l : list A) n m :
  (n <= m <= length l)%nat -> drop n (take m l) ++ drop m l = drop n l.
Proof.
  intros Hn. rewrite <- (take_drop m l) at 3.
  rewrite drop_app_le by (rewrite length_take; lia). reflexivity.
Qed.

(** ** Images *)

(** The 32 bytes of a name field after the store: the name cut to 31
    bytes, a zero, and what the buffer held before in the rest. *)
Definition name_field (name : string) (old : list Z) : list Z :=
  let nameLen := Nat.min (length (c_str name)) 31 in
  take nameLen (c_str name) ++ [0] ++ drop (nameLen + 1) old.

(** The 39 bytes of a schedule after the store over [old]. *)
Definition record_image (s : Schedule) (old : list Z) : list Z :=
  [sched_id s; sched_dayMask s; sched_startHour s; sched_startMinute s;
   sched_endHour s; sched_endMinute s; byte_of_bool (sched_enabled s)]
  ++ name_field (sched_name s) (drop 7 old).

Fixpoint records_image (l : list Schedule) (old : list Z) : list Z :=
  match l with
  | [] => []
  | s :: l' => record_image s (take RECORD_BYTES old)
               ++ records_image l' (drop RECORD_BYTES old)
  end.

Lemma name_field_length name old : length old = 32%nat -> length (name_field name old) = 32%nat.
Proof.
  intros Ho. unfold name_field. rewrite !length_app, length_take, length_drop. simpl. lia.
Qed.

Lemma record_image_length s old :
  length old = RECORD_BYTES -> length (record_image s old) = RECORD_BYTES.
Proof.
  unfold RECORD_BYTES. intros Ho. unfold record_image.
  rewrite length_app, name_field_length by (rewrite length_drop; lia). reflexivity.
Qed.

Lemma records_image_length l : forall old,
  (length l * RECORD_BYTES <= length old)%nat ->
  length (records_image l old) = (length l * RECORD_BYTES)%nat.
Proof.
  induction l as [|s l IH]; intros old Ho; cbn [records_image length] in *; [reflexivity|].
  unfold RECORD_BYTES in *.
  rewrite length_app, record_image_length, IH
    by (rewrite ?length_take, ?length_drop; unfold RECORD_BYTES; lia).
  unfold RECORD_BYTES. lia.
Qed.

(** One turn of the writing loop, on a buffer split at the offset. *)
Lemma write_schedule_app pre rest s :
  (RECORD_BYTES <= length rest)%nat ->
  write_schedule (pre ++ rest, length pre) s
  = (pre ++ record_image s (take RECORD_BYTES rest) ++ drop RECORD_BYTES rest,
     (length pre + RECORD_BYTES)%nat).
Proof.
  unfold RECORD_BYTES. intros Hr. unfold write_schedule, record_image, name_field.
  set (fields := [sched_id s; _; _; _; _; _; _]).
  set (nm := take _ (c_str (sched_name s))).
  assert (Hnm : length nm = Nat.min (length (c_str (sched_name s))) 31).
  { unfold nm. rewrite length_take. lia. }
  rewrite (write_at_app pre rest fields) by reflexivity.
  rewrite (app_assoc pre fields), (write_at_app (pre ++ fields) _ nm)
    by (rewrite length_app; reflexivity).
  rewrite (app_assoc (pre ++ fields) nm), (write_at_app ((pre ++ fields) ++ nm) _ [0])
    by (rewrite !length_app, Hnm; reflexivity).
  f_equal; [|lia]. rewrite <- !app_assoc. do 4 f_equal. rewrite !drop_drop, Hnm.
  rewrite drop_take_drop by lia. f_equal; simpl length; lia.
Qed.

Lemma fold_write_schedule l : forall pre rest,
  (length l * RECORD_BYTES <= length rest)%nat ->
  fold_left write_schedule l (pre ++ rest, length pre)
  = (pre ++ records_image l rest ++ drop (length l * RECORD_BYTES) rest,
     (length pre + length l * RECORD_BYTES)%nat).
Proof.
  induction l as [|s l IH]; intros pre rest Hr;
    cbn [fold_left records_image length] in *.
  - rewrite drop_0, Nat.add_0_r. reflexivity.
  - assert (Hs : length (record_image s (take RECORD_BYTES rest)) = RECORD_BYTES).
    { apply record_image_length. rewrite length_take. unfold RECORD_BYTES in *. lia. }
    rewrite write_schedule_app by (unfold RECORD_BYTES in *; lia). rewrite app_assoc.
    replace (length pre + RECORD_BYTES)%nat
      with (length (pre ++ record_image s (take RECORD_BYTES rest)))
      by (rewrite length_app, Hs; reflexivity).
    rewrite IH by (rewrite length_drop; unfold RECORD_BYTES in *; lia).
    rewrite length_app, Hs, drop_drop, <- !app_assoc.
    f_equal; unfold RECORD_BYTES; lia.
Qed.

(** ** What is written *)

(** The bytes [serializeSchedules] stores for [n] schedules. *)
Definition written_size (n : nat) : nat := (4 + n * RECORD_BYTES + 14 + 12)%nat.

(** The buffer after serialisation over [old]. *)
Definition image (l : list Schedule) (v : VacationMode) (p : PumpExercise) (old : list Z)
  : list Z :=
  [MAGIC_1; MAGIC_2; VERSION; u8 (Z.of_nat (length l))]
  ++ records_image l (drop 4 old)
  ++ VacationMode_bytes v ++ PumpExercise_bytes p
  ++ drop (written_size (length l)) old.

Lemma image_length l v p old :
  (written_size (length l) <= length old)%nat -> length (image l v p old) = length old.
Proof.
  unfold written_size. intros Ho. unfold image.
  rewrite !length_app, records_image_length by (rewrite length_drop; lia).
  rewrite length_drop. simpl. unfold written_size. lia.
Qed.

Section PersistTheory.

Context {D : Type} `{RtcDevice D} `{Layout}.

Implicit Types (c : Controller D).

(** The size announced covers the bytes stored, on every platform. *)
Lemma written_size_le c :
  Z.of_nat (written_size (length (ctl_schedules c))) <= getScheduleDataSize c.
Proof.
  unfold written_size, getScheduleDataSize, RECORD_BYTES, sizeof_VacationMode,
    sizeof_PumpExercise. pose proof layout_members. nia.
Qed.

Lemma serializeSchedules_image c buffer bufferSize :
  getScheduleDataSize c <= bufferSize ->
  (written_size (length (ctl_schedules c)) <= length buffer)%nat ->
  serializeSchedules c buffer bufferSize
  = (OK, image (ctl_schedules c) (ctl_vacationMode c) (ctl_pumpExercise c) buffer).
Proof.
  unfold written_size. intros Hs Hb. unfold serializeSchedules, image.
  rewrite (proj2 (Z.ltb_ge _ _) Hs). simpl negb. cbv iota.
  set (hdr := [MAGIC_1; _; _; _]). set (l := ctl_schedules c) in *.
  rewrite (write_at_app [] buffer hdr) by reflexivity. rewrite app_nil_l.
  change 4%nat with (length hdr) at 1.
  rewrite fold_write_schedule by (rewrite length_drop; simpl; lia).
  rewrite app_assoc, (write_at_app (hdr ++ records_image l (drop 4 buffer)))
    by (rewrite length_app, records_image_length by (rewrite length_drop; lia); reflexivity).
  rewrite app_assoc, (write_at_app ((hdr ++ records_image l (drop 4 buffer)) ++ _))
    by (rewrite !length_app, records_image_length by (rewrite length_drop; lia);
        reflexivity).
  rewrite <- !app_assoc, !drop_drop. do 6 f_equal.
  unfold written_size. simpl length. lia.
Qed.

End PersistTheory.

(** ** Theory of names *)

(** The name [deserializeSchedules] reads for a stored name: its bytes up
    to the 31st, or up to a zero before that. *)
Definition stored_name (name : string) : string := String_of (take 31 (c_str name)).

(** A name that is stored whole: at most 31 bytes, none of them zero. *)
Definition name_ok (name : string) : Prop :=
  (length (c_str name) <= 31)%nat /\ Forall (fun b => b <> 0) (c_str name).

#[export] Instance name_ok_dec name : Decision (name_ok name).
Proof. unfold name_ok. apply _. Defined.

Lemma ascii_of_byte_of_ascii a : ascii_of_byte (byte_of_ascii a) = a.
Proof. unfold ascii_of_byte, byte_of_ascii. rewrite Nat2Z.id. apply ascii_nat_embedding. Qed.

Lemma byte_of_ascii_range a : fits 8 (byte_of_ascii a).
Proof.
  unfold fits, byte_of_ascii. pose proof (nat_ascii_bounded a).
  change (2 ^ 8) with 256. lia.
Qed.

Lemma String_of_zero x t : String_of (x ++ 0 :: t) = String_of x.
Proof.
  induction x as [|b x IH]; simpl; [reflexivity|].
  destruct (b =? 0); [reflexivity|]. rewrite IH. reflexivity.
Qed.

Lemma String_of_c_str name :
  Forall (fun b => b <> 0) (c_str name) -> String_of (c_str name) = name.
Proof.
  induction name as [|a name IH]; simpl; [reflexivity|]. intros [Ha Hn]%Forall_cons.
  apply Z.eqb_neq in Ha. rewrite Ha, ascii_of_byte_of_ascii, IH by exact Hn. reflexivity.
Qed.

Lemma stored_name_ok name : name_ok name -> stored_name name = name.
Proof.
  intros [Hlen Hnz]. unfold stored_name. rewrite take_ge by lia.
  apply String_of_c_str, Hnz.
Qed.

(** Reading a name field gives the stored name, whatever the buffer held
    behind the terminator. *)
Lemma String_of_name_field name old :
  String_of (take 31 (name_field name old)) = stored_name name.
Proof.
  unfold name_field, stored_name.
  destruct (Nat.le_gt_cases 31 (length (c_str name))) as [Hge | Hlt].
  - rewrite Nat.min_r by exact Hge.
    rewrite take_app_length' by (rewrite length_take; lia). reflexivity.
  - rewrite Nat.min_l, !(take_ge (c_str name)) by lia.
    rewrite take_app_ge by lia. simpl app.
    destruct (31 - length (c_str name))%nat as [|k] eqn:E; [lia|].
    simpl take. apply String_of_zero.
Qed.

(** ** Theory of reading *)

(** A schedule as it is read back: its name as stored. *)
Definition canon (s : Schedule) : Schedule :=
  mkSchedule (sched_id s) (sched_dayMask s) (sched_startHour s) (sched_startMinute s)
             (sched_endHour s) (sched_endMinute s) (sched_enabled s)
             (stored_name (sched_name s)).

Lemma canon_name_ok s : name_ok (sched_name s) -> canon s = s.
Proof. intros Hn. unfold canon. rewrite stored_name_ok by exact Hn. destruct s; reflexivity. Qed.

Lemma read_schedule_app pre s old tail offset :
  offset = length pre -> length old = RECORD_BYTES ->
  read_schedule (pre ++ record_image s old ++ tail) offset = Some (canon s).
Proof.
  unfold RECORD_BYTES. intros -> Ho. unfold read_schedule, record_image.
  set (fields := [sched_id s; _; _; _; _; _; _]).
  assert (Hn : length (name_field (sched_name s) (drop 7 old)) = 32%nat)
    by (apply name_field_length; rewrite length_drop; lia).
  rewrite <- (app_assoc fields).
  rewrite (read_at_app pre _ (length pre) 7), (read_at_app2 pre fields _ (length pre + 7) 32)
    by (try reflexivity; rewrite !length_app, ?Hn; unfold fields; simpl length; lia).
  rewrite (take_app_length' fields), take_app_length' by (reflexivity || (symmetry; exact Hn)).
  simpl. rewrite String_of_name_field. unfold canon. destruct (sched_enabled s); reflexivity.
Qed.

Lemma read_schedules_app l : forall pre old tail offset,
  offset = length pre -> (length l * RECORD_BYTES <= length old)%nat ->
  read_schedules (length l) (pre ++ records_image l old ++ tail) offset
  = Some (map canon l).
Proof.
  induction l as [|s l IH]; intros pre old tail offset -> Ho;
    cbn [length read_schedules records_image map] in *; [reflexivity|].
  assert (Hs : length (record_image s (take RECORD_BYTES old)) = RECORD_BYTES).
  { apply record_image_length. rewrite length_take. unfold RECORD_BYTES in *. lia. }
  rewrite <- app_assoc, (read_schedule_app pre s)
    by (reflexivity || (rewrite length_take; unfold RECORD_BYTES in *; lia)).
  cbn [mbind option_bind]. rewrite (app_assoc pre).
  rewrite (IH (pre ++ record_image s (take RECORD_BYTES old)) (drop RECORD_BYTES old) tail);
    [reflexivity | rewrite length_app, Hs; reflexivity
    | rewrite length_drop; unfold RECORD_BYTES in *; lia].
Qed.

Lemma VacationMode_of_bytes_bytes v : VacationMode_of_bytes (VacationMode_bytes v) = Some v.
Proof.
  destruct v as [e [y1 m1 d1 hh1 mm1 ss1] [y2 m2 d2 hh2 mm2 ss2] r]. destruct e, r; reflexivity.
Qed.

Lemma PumpExercise_of_bytes_bytes p : PumpExercise_of_bytes (PumpExercise_bytes p) = Some p.
Proof.
  destruct p as [e dom h m dur [y mo d hh mm ss]]. unfold PumpExercise_bytes. simpl.
  replace (dur mod 256 + 256 * (dur / 256)) with dur by zdiv. destruct e; reflexivity.
Qed.

Lemma read_at_app3 pre mid1 mid2 rest offset n :
  offset = (length pre + length mid1 + length mid2)%nat -> (n <= length rest)%nat ->
  read_at (pre ++ mid1 ++ mid2 ++ rest) offset n = Some (take n rest).
Proof.
  intros -> Hn. rewrite (app_assoc mid1). apply read_at_app2; [|exact Hn].
  rewrite length_app. lia.
Qed.

(** A reading loop that starts too close to the end of the buffer leaves
    it. *)
Lemma read_schedules_short buffer count : forall offset,
  (0 < count)%nat -> (length buffer < offset + count * RECORD_BYTES)%nat ->
  read_schedules count buffer offset = None.
Proof.
  unfold RECORD_BYTES. induction count as [|count IH]; intros offset Hc Hlen; [lia|].
  cbn [read_schedules]. destruct (Nat.le_gt_cases (offset + 39) (length buffer)) as [Hin | Hout].
  - rewrite (IH (offset + RECORD_BYTES)%nat) by (unfold RECORD_BYTES; lia).
    destruct (read_schedule buffer offset); reflexivity.
  - unfold read_schedule. destruct (read_at buffer offset 7) as [fields|]; [|reflexivity].
    rewrite (read_at_short buffer (offset + 7) 32) by lia. reflexivity.
Qed.

Section PersistClaims.

Context {D : Type} `{RtcDevice D} `{Layout}.

Implicit Types (c : Controller D).

(** [deserializeSchedules] on a buffer whose first four bytes are given. *)
Lemma deserializeSchedules_cons c b0 b1 version scheduleCount rest dataSize :
  let buffer := b0 :: b1 :: version :: scheduleCount :: rest in
  deserializeSchedules c buffer dataSize
  = if dataSize <? 4 then Some (Failed InvalidArgument, c)
    else if negb ((b0 =? MAGIC_1) && (b1 =? MAGIC_2)) then Some (Failed BadMagic, c)
    else if negb (version =? VERSION) then Some (Failed UnsupportedVersion, c)
    else if MAX_SCHEDULES <? scheduleCount then Some (Failed TooManySchedules, c)
    else schedules ← read_schedules (Z.to_nat scheduleCount) buffer 4;
         c' ← read_trailing (set_schedules c schedules) buffer dataSize
                            (4 + Z.to_nat scheduleCount * RECORD_BYTES);
         Some (OK, c').
Proof.
  cbv zeta. unfold deserializeSchedules. cbn [lookup list_lookup mbind option_bind].
  destruct (dataSize <? 4), (b0 =? MAGIC_1), (b1 =? MAGIC_2), (version =? VERSION),
    (MAX_SCHEDULES <? scheduleCount); reflexivity.
Qed.

Lemma read_schedules_length buffer n : forall offset l,
  read_schedules n buffer offset = Some l -> length l = n.
Proof.
  induction n as [|n IH]; intros offset l; cbn [read_schedules].
  - intros [= <-]. reflexivity.
  - destruct (read_schedule buffer offset); [|discriminate]. cbn [mbind option_bind].
    destruct (read_schedules n buffer _) as [l'|] eqn:E; [|discriminate].
    intros [= <-]. simpl. f_equal. eapply IH. exact E.
Qed.

Lemma read_trailing_schedules c buffer dataSize offset c' :
  read_trailing c buffer dataSize offset = Some c' -> ctl_schedules c' = ctl_schedules c.
Proof.
  unfold read_trailing.
  repeat match goal with
         | |- context [if ?b then _ else _] => destruct b; cbn [mbind option_bind]
         | |- context [read_at ?b ?o ?n] => destruct (read_at b o n); cbn [mbind option_bind]
         | |- context [VacationMode_of_bytes ?l] =>
             destruct (VacationMode_of_bytes l); cbn [mbind option_bind]
         | |- context [PumpExercise_of_bytes ?l] =>
             destruct (PumpExercise_of_bytes l); cbn [mbind option_bind]
         end; intros [= <-] || discriminate; reflexivity.
Qed.

(** The two records aside, reading them changes nothing. *)
Lemma read_trailing_frame c buffer dataSize offset c' :
  read_trailing c buffer dataSize offset = Some c' ->
  ctl_mutex c' = ctl_mutex c /\ ctl_initialized c' = ctl_initialized c
  /\ ctl_rtc c' = ctl_rtc c.
Proof.
  unfold read_trailing.
  repeat match goal with
         | |- context [if ?b then _ else _] => destruct b; cbn [mbind option_bind]
         | |- context [read_at ?b ?o ?n] => destruct (read_at b o n); cbn [mbind option_bind]
         | |- context [VacationMode_of_bytes ?l] =>
             destruct (VacationMode_of_bytes l); cbn [mbind option_bind]
         | |- context [PumpExercise_of_bytes ?l] =>
             destruct (PumpExercise_of_bytes l); cbn [mbind option_bind]
         end; intros [= <-] || discriminate; auto.
Qed.

(** What is read from a buffer of bytes is bytes. *)
Lemma read_at_bytes buffer offset n l :
  Forall (fits 8) buffer -> read_at buffer offset n = Some l -> Forall (fits 8) l.
Proof.
  intros Hb. unfold read_at. destruct (decide _); [|discriminate]. intros [= <-].
  apply Forall_take, Forall_drop, Hb.
Qed.

Lemma read_schedule_bytes buffer offset s :
  Forall (fits 8) buffer -> read_schedule buffer offset = Some s -> schedule_bytes s.
Proof.
  intros Hb. unfold read_schedule.
  destruct (read_at buffer offset 7) as [fields|] eqn:Ef; [|discriminate].
  cbn [mbind option_bind]. destruct (read_at buffer (offset + 7) 32); [|discriminate].
  cbn [mbind option_bind]. pose proof (read_at_bytes _ _ _ _ Hb Ef) as Hf.
  do 8 (destruct fields as [|? fields]; try discriminate). intros [= <-].
  repeat match goal with Hf : Forall _ (_ :: _) |- _ => apply Forall_cons in Hf as [? Hf] end.
  unfold schedule_bytes. cbn. auto 10.
Qed.

Lemma read_schedules_bytes buffer n : forall offset l,
  Forall (fits 8) buffer -> read_schedules n buffer offset = Some l ->
  Forall schedule_bytes l.
Proof.
  induction n as [|n IH]; intros offset l Hb; cbn [read_schedules].
  - intros [= <-]. constructor.
  - destruct (read_schedule buffer offset) as [s|] eqn:Es; [|discriminate].
    cbn [mbind option_bind]. destruct (read_schedules n buffer _) as [l'|] eqn:E; [|discriminate].
    intros [= <-]. constructor; [apply (read_schedule_bytes _ _ _ Hb Es) | apply (IH _ _ Hb E)].
Qed.

(** The two ways [deserializeSchedules] returns: with an error and the
    object as it was, or with the schedules and the records read. *)
Lemma deserializeSchedules_inv c buffer dataSize st c' :
  deserializeSchedules c buffer dataSize = Some (st, c') ->
  (st <> OK /\ c' = c)
  \/ (st = OK /\ exists scheduleCount schedules,
        scheduleCount <= MAX_SCHEDULES
        /\ read_schedules (Z.to_nat scheduleCount) buffer 4 = Some schedules
        /\ read_trailing (set_schedules c schedules) buffer dataSize
             (4 + Z.to_nat scheduleCount * RECORD_BYTES) = Some c').
Proof.
  assert (Herr : forall e, Some (Failed e, c) = Some (st, c') -> st <> OK /\ c' = c)
    by (intros e Heq; inversion Heq; subst; split; [discriminate | reflexivity]).
  unfold deserializeSchedules.
  destruct (dataSize <? 4); cbv beta iota delta [negb]; [left; eauto|].
  do 4 (destruct buffer as [|? buffer]; cbn [lookup list_lookup mbind option_bind];
        [repeat match goal with
                | |- context [if ?b then _ else _] => destruct b; [|left; eauto]
                end; discriminate|]).
  repeat match goal with
         | |- context [if ?b then _ else _] => destruct b eqn:?; [|left; eauto]
         end.
  destruct (read_schedules _ _ _) as [schedules|] eqn:Er; [|discriminate].
  cbn [mbind option_bind]. destruct (read_trailing _ _ _ _) as [c1|] eqn:Et; [|discriminate].
  intros [= <- <-]. right. split; [reflexivity|]. eexists _, schedules.
  repeat split; [|exact Er | exact Et]. apply negb_true_iff, Z.ltb_ge in Heqb2. exact Heqb2.
Qed.

Lemma deserializeSchedules_wf c buffer dataSize st c' :
  Forall (fits 8) buffer -> wf c ->
  deserializeSchedules c buffer dataSize = Some (st, c') -> wf c'.
Proof.
  intros Hb Hwf Hd. destruct (deserializeSchedules_inv _ _ _ _ _ Hd)
    as [(_ & ->) | (_ & n & l & Hn & Hr & Ht)]; [exact Hwf|].
  destruct (read_trailing_frame _ _ _ _ _ Ht) as (Hm & _).
  unfold wf. rewrite (read_trailing_schedules _ _ _ _ _ Ht), Hm. cbn [ctl_schedules set_schedules ctl_mutex].
  rewrite (read_schedules_length _ _ _ _ Hr). unfold MAX_SCHEDULES in *.
  repeat split; [lia | | apply Hwf].
  apply (read_schedules_bytes _ _ _ _ Hb Hr).
Qed.

(** The two records read back from an image. *)
Lemma read_trailing_image c pre v p tail dataSize offset :
  offset = length pre -> Z.of_nat offset + 26 <= dataSize ->
  read_trailing c (pre ++ VacationMode_bytes v ++ PumpExercise_bytes p ++ tail) dataSize offset
  = Some (set_pumpExercise (set_vacationMode c v) p).
Proof.
  intros -> Hd. unfold read_trailing, sizeof_VacationMode, sizeof_PumpExercise.
  rewrite (proj2 (Z.leb_le _ _)), (read_at_app pre)
    by (reflexivity || lia || (rewrite !length_app; simpl; lia)).
  rewrite take_app_length' by reflexivity. cbn [mbind option_bind].
  rewrite VacationMode_of_bytes_bytes. cbn [mbind option_bind].
  rewrite (proj2 (Z.leb_le _ _)), (read_at_app2 pre)
    by (reflexivity || (simpl; lia) || (rewrite !length_app; simpl; lia)).
  rewrite take_app_length' by reflexivity. cbn [mbind option_bind].
  rewrite PumpExercise_of_bytes_bytes. reflexivity.
Qed.

(** Serialisation stays in bounds.  Given a buffer that really has
    [bufferSize] bytes, [serializeSchedules] refuses, without writing, a
    size below [getScheduleDataSize]; otherwise it succeeds, the buffer
    keeps its length and holds the image of the state, and no byte from
    offset 30 + 39 n on is written, which is within the size announced. *)
Theorem serializeSchedules_bounds c buffer bufferSize :
  bufferSize <= Z.of_nat (length buffer) ->
  let n := length (ctl_schedules c) in
  let '(st, buffer') := serializeSchedules c buffer bufferSize in
  length buffer' = length buffer
  /\ Z.of_nat (written_size n) <= getScheduleDataSize c
  /\ if bufferSize <? getScheduleDataSize c
     then st = Failed InvalidArgument /\ buffer' = buffer
     else st = OK
          /\ buffer' = image (ctl_schedules c) (ctl_vacationMode c) (ctl_pumpExercise c) buffer
          /\ drop (written_size n) buffer' = drop (written_size n) buffer.
Proof.
  intros Hb. cbv zeta. pose proof (written_size_le c) as Hw.
  destruct (Z.ltb_spec bufferSize (getScheduleDataSize c)) as [Hlt | Hge].
  - unfold serializeSchedules. rewrite (proj2 (Z.ltb_lt _ _) Hlt). simpl. auto.
  - rewrite serializeSchedules_image by lia.
    rewrite image_length by lia. repeat split; [exact Hw|].
    unfold image. rewrite !app_assoc, drop_app_length'; [reflexivity|].
    rewrite !length_app, records_image_length
      by (rewrite length_drop; unfold written_size in *; lia).
    unfold written_size. simpl. lia.
Qed.

(** C35: round trip.  When at most [MAX_SCHEDULES] schedules are held and
    every name has at most 31 bytes, none of them zero, deserialising the
    buffer [serializeSchedules] filled, with a size that covers what was
    written, succeeds on any object and gives it exactly the schedules, in
    order, the vacation record and the pump record that were
    serialised. *)
Theorem deserializeSchedules_serializeSchedules c (c0 : Controller D)
    buffer bufferSize dataSize :
  Z.of_nat (length (ctl_schedules c)) <= MAX_SCHEDULES ->
  Forall (fun s => name_ok (sched_name s)) (ctl_schedules c) ->
  getScheduleDataSize c <= bufferSize <= Z.of_nat (length buffer) ->
  Z.of_nat (written_size (length (ctl_schedules c))) <= dataSize ->
  let '(st, buffer') := serializeSchedules c buffer bufferSize in
  st = OK
  /\ deserializeSchedules c0 buffer' dataSize
     = Some (OK, set_pumpExercise
                   (set_vacationMode (set_schedules c0 (ctl_schedules c))
                                     (ctl_vacationMode c))
                   (ctl_pumpExercise c)).
Proof.
  unfold MAX_SCHEDULES. intros Hmax Hnames [Hs Hb] Hd.
  pose proof (written_size_le c) as Hw.
  rewrite serializeSchedules_image by lia. split; [reflexivity|].
  unfold image, written_size in *. set (l := ctl_schedules c) in *.
  cbn [app]. rewrite deserializeSchedules_cons. cbv zeta.
  rewrite (proj2 (Z.ltb_ge _ _)), !Z.eqb_refl, u8_small by lia.
  rewrite (proj2 (Z.ltb_ge _ _)) by (unfold MAX_SCHEDULES; lia). cbn [negb andb].
  rewrite Nat2Z.id.
  change (MAGIC_1 :: MAGIC_2 :: VERSION :: Z.of_nat (length l) :: ?X)
    with ([MAGIC_1; MAGIC_2; VERSION; Z.of_nat (length l)] ++ X).
  set (hdr := [MAGIC_1; MAGIC_2; VERSION; Z.of_nat (length l)]).
  assert (Hrec : length (records_image l (drop 4 buffer)) = (length l * RECORD_BYTES)%nat)
    by (apply records_image_length; rewrite length_drop; lia).
  rewrite (read_schedules_app l hdr) by (reflexivity || (rewrite length_drop; lia)).
  cbn [mbind option_bind]. replace (map canon l) with l.
  2:{ symmetry. rewrite <- (map_id l) at 2. apply map_ext_Forall.
      eapply Forall_impl; [exact Hnames | intros s Hn; apply canon_name_ok, Hn]. }
  rewrite app_assoc, read_trailing_image;
    [reflexivity | rewrite length_app, Hrec; reflexivity
    | unfold RECORD_BYTES in *; lia].
Qed.

(** The header checks of [deserializeSchedules], in their order: a
    size below 4, a wrong magic number, a version other than 1 and a
    count above [MAX_SCHEDULES] each fail with their own error and leave
    the object as it was; a header that passes never yields an error, and
    a result holds as many schedules as the header announces. *)
Theorem deserializeSchedules_header c b0 b1 version scheduleCount rest dataSize :
  let r := deserializeSchedules c (b0 :: b1 :: version :: scheduleCount :: rest) dataSize in
  if dataSize <? 4 then r = Some (Failed InvalidArgument, c)
  else if negb ((b0 =? 211) && (b1 =? 35)) then r = Some (Failed BadMagic, c)
  else if negb (version =? 1) then r = Some (Failed UnsupportedVersion, c)
  else if MAX_SCHEDULES <? scheduleCount then r = Some (Failed TooManySchedules, c)
  else match r with
       | Some (st, c') => st = OK /\ length (ctl_schedules c') = Z.to_nat scheduleCount
       | None => True
       end.
Proof.
  cbv zeta. rewrite deserializeSchedules_cons. cbv zeta. unfold MAGIC_1, MAGIC_2, VERSION.
  destruct (dataSize <? 4); [reflexivity|].
  destruct (negb _); [reflexivity|]. destruct (negb _); [reflexivity|].
  destruct (MAX_SCHEDULES <? scheduleCount); [reflexivity|].
  destruct (read_schedules _ _ 4) as [l|] eqn:Hl; [|exact I]. cbn [mbind option_bind].
  destruct (read_trailing _ _ _ _) as [c'|] eqn:Ht; [|exact I]. cbn [mbind option_bind].
  split; [reflexivity|]. rewrite (read_trailing_schedules _ _ _ _ _ Ht).
  apply (read_schedules_length _ _ _ _ Hl).
Qed.

(** C40: reads past the data.  The size check covers the header only: with
    a valid header that announces more schedules than the buffer holds,
    the reading loop leaves the buffer, although the buffer has the
    [dataSize] bytes the caller announced. *)
Theorem deserializeSchedules_overread c buffer dataSize scheduleCount :
  4 <= dataSize -> Z.of_nat (length buffer) = dataSize ->
  take 4 buffer = [MAGIC_1; MAGIC_2; VERSION; scheduleCount] ->
  0 < scheduleCount <= MAX_SCHEDULES ->
  dataSize < 4 + 39 * scheduleCount ->
  deserializeSchedules c buffer dataSize = None.
Proof.
  intros Hd Hlen Hhdr Hc Hshort.
  destruct buffer as [|b0 [|b1 [|b2 [|b3 rest]]]]; try discriminate Hhdr.
  injection Hhdr as -> -> -> ->. rewrite deserializeSchedules_cons. cbv zeta.
  rewrite (proj2 (Z.ltb_ge _ _) Hd), !Z.eqb_refl, (proj2 (Z.ltb_ge _ _)) by lia.
  cbn [negb andb].
  rewrite read_schedules_short; [reflexivity | lia | unfold RECORD_BYTES; lia].
Qed.

End PersistClaims.

(** ** Persistence on the sample system *)

Lemma serializeSchedules_bounds_witness :
  length (snd (serializeSchedules (sample [weekday_morning]) (erased 80) 80)) = 80%nat.
Proof.
  pose proof (serializeSchedules_bounds (sample [weekday_morning]) (erased 80) 80) as P.
  cbv zeta in P. destruct (serializeSchedules _ _ _) as [st buffer'].
  apply P. by_compute.
Defined.

Lemma deserializeSchedules_serializeSchedules_witness :
  deserializeSchedules (sample [])
    (snd (serializeSchedules (sample [weekday_morning; night_owl]) (erased 200) 200)) 200
  = Some (OK, sample [weekday_morning; night_owl]).
Proof.
  pose proof (deserializeSchedules_serializeSchedules
                (sample [weekday_morning; night_owl]) (sample []) (erased 200) 200 200) as P.
  destruct (serializeSchedules _ _ _) as [st buffer'].
  apply P; [by_compute | repeat constructor; by_compute | by_compute | by_compute].
Defined.

Lemma deserializeSchedules_overread_witness :
  deserializeSchedules (sample []) [211; 35; 1; 1] 4 = None.
Proof. apply (deserializeSchedules_overread _ _ 4 1); by_compute || reflexivity. Defined.

(** The bytes of a name field behind the terminator are not written: they
    keep what the buffer held, here 0xFF, where the format calls for
    zeros. *)
Example serialize_name_padding :
  take 32 (drop 11 (snd (serializeSchedules (sample [weekday_morning]) (erased 80) 80)))
  = c_str "morning" ++ [0] ++ replicate 24 255.
Proof. vm_compute. reflexivity. Qed.
