(* ===== verification/Api.v ===== *)
(** * The public interface as one transition system

    Every method of [DS3231Controller] that changes the object, as an
    [Action] with its arguments, and [perform], which dispatches an action
    to the method's model.  The chip moving on by itself (time passing, an
    alarm firing) is an action too, so that the states reachable from the
    constructor are those of any program that uses the class, one call at
    a time.

    The theorems hold for every action, and so for every sequence of
    them:

    - the object stays well formed ([wf]): at most [MAX_SCHEDULES]
      schedules, byte-sized fields, a consistent lock;
    - a call that reports failure has changed nothing;
    - no call leaves the lock taken, and none resets [_initialized];
    - until [begin] succeeds no call touches the chip, and a call by a
      task that cannot take the lock never does.

    Each is proved once for all methods: a predicate on the state before
    and after a call ([orderly], [inert], [steady]), one lemma per method
    in the hint database [api], and [perform] by cases. *)

From stdpp Require Import strings.
From S2P Require Import Prelude DateTime Schedule Hardware State Window Occurrence Alarm.
From S2P Require Import ScheduleSet Policy TimeZone Persist.

(** ** Actions *)

Section Api.

Context {D : Type} `{RtcDevice D} `{Layout}.

Inductive Action : Type :=
  | Do_begin
  | Do_setTime (dt : DateTime)
  | Do_setTimeFromUTC (utcEpoch offsetSeconds : Z)
  | Do_addSchedule (schedule : Schedule)
  | Do_updateSchedule (scheduleId : Z) (schedule : Schedule)
  | Do_removeSchedule (scheduleId : Z)
  | Do_clearAllSchedules
  | Do_setVacationMode (enabled : bool) (start end_ : DateTime)
  | Do_setPumpExercise (enabled : bool) (dayOfMonth hour minute durationSeconds : Z)
  | Do_markPumpExerciseComplete
  | Do_setAlarmForNextSchedule
  | Do_setAlarm1 (dt : DateTime) (matchSeconds : bool)
  | Do_setAlarm2 (dt : DateTime)
  | Do_clearAlarm (alarmNumber : Z)
  | Do_acknowledgeAlarm (alarmNumber : Z)
  | Do_onTimeChange
  | Do_onAlarm
  | Do_onScheduleEvent
  | Do_deserializeSchedules (buffer : list Z) (dataSize : Z)
  | Chip (d : D).   (* the chip moves on: [_rtc] is now [d] *)

(** [compileTime] is the time [begin] falls back to. *)
Variable compileTime : DateTime.

Implicit Types (c : Controller D) (me : Mutex.TaskId) (a : Action).

(** The action performed by task [me]: the status the call returns ([OK]
    for a [void] method) and the object after it; [None] when
    [deserializeSchedules] reads outside its buffer. *)
Definition perform me a c : option (Status * Controller D) :=
  match a with
  | Do_begin => Some (begin compileTime me c)
  | Do_setTime dt => Some (setTime me c dt)
  | Do_setTimeFromUTC utcEpoch offsetSeconds =>
      Some (setTimeFromUTC me c utcEpoch offsetSeconds)
  | Do_addSchedule schedule => Some (addSchedule me c schedule)
  | Do_updateSchedule scheduleId schedule => Some (updateSchedule me c scheduleId schedule)
  | Do_removeSchedule scheduleId => Some (removeSchedule me c scheduleId)
  | Do_clearAllSchedules => Some (OK, clearAllSchedules c)
  | Do_setVacationMode enabled start end_ => Some (OK, setVacationMode c enabled start end_)
  | Do_setPumpExercise enabled dayOfMonth hour minute durationSeconds =>
      Some (OK, setPumpExercise c enabled dayOfMonth hour minute durationSeconds)
  | Do_markPumpExerciseComplete => Some (OK, markPumpExerciseComplete me c)
  | Do_setAlarmForNextSchedule => Some (setAlarmForNextSchedule me c)
  | Do_setAlarm1 dt matchSeconds => Some (setAlarm1 me c dt matchSeconds)
  | Do_setAlarm2 dt => Some (setAlarm2 me c dt)
  | Do_clearAlarm alarmNumber => Some (OK, clearAlarm me c alarmNumber)
  | Do_acknowledgeAlarm alarmNumber => Some (OK, acknowledgeAlarm me c alarmNumber)
  | Do_onTimeChange => Some (OK, onTimeChange c)
  | Do_onAlarm => Some (OK, onAlarm c)
  | Do_onScheduleEvent => Some (OK, onScheduleEvent c)
  | Do_deserializeSchedules buffer dataSize => deserializeSchedules c buffer dataSize
  | Chip d => Some (OK, set_rtc c d)
  end.

(** The arguments are what their C++ types can hold: bytes in the
    schedules and in the buffer. *)
Definition typed a : Prop :=
  match a with
  | Do_addSchedule schedule => schedule_bytes schedule
  | Do_updateSchedule scheduleId schedule => fits 8 scheduleId /\ schedule_bytes schedule
  | Do_deserializeSchedules buffer _ => Forall (fits 8) buffer
  | _ => True
  end.

(** What a call is: everything but the chip moving on. *)
Definition is_call a : bool := match a with Chip _ => false | _ => true end.

(** A program: who does what, in order.  [None] once a read has left its
    buffer. *)
Fixpoint perform_all (program : list (Mutex.TaskId * Action)) c : option (Controller D) :=
  match program with
  | [] => Some c
  | (me, a) :: program' =>
      match perform me a c with
      | Some (_, c') => perform_all program' c'
      | None => None
      end
  end.

(** ** The transition system *)

Inductive api_step : Controller D -> Controller D -> Prop :=
  | api_step_perform me a c st c' :
      typed a -> perform me a c = Some (st, c') -> api_step c c'.

Inductive api_reachable (init : Controller D) : Controller D -> Prop :=
  | api_reach_init : api_reachable init init
  | api_reach_step c c' : api_reachable init c -> api_step c c' -> api_reachable init c'.

(** What the invariant adds to [wf]: nobody holds the lock between
    calls. *)
Definition api_inv c : Prop := wf c /\ ctl_mutex c = Mutex.free.

End Api.

Arguments Action D : clear implicits.

#[export] Instance typed_dec {D : Type} (a : Action D) : Decision (typed a).
Proof. destruct a; cbn [typed]; apply _. Defined.

(** ** A session *)

(** Two tasks and the simulated chip: a call before [begin], [begin],
    schedules added by both tasks, an id that does not exist, the clock
    moving on, and an image too short to restore from. *)
Definition session : list (Mutex.TaskId * Action SimRtc) :=
  [ (0%nat, Do_setTime (DateTime_of_fields 2024 1 17 8 0 0));
    (0%nat, Do_begin);
    (0%nat, Do_addSchedule weekday_morning);
    (1%nat, Do_addSchedule night_owl);
    (1%nat, Do_removeSchedule 7);
    (0%nat, Chip (sim_tick sample_rtc (DateTime_of_fields 2024 1 18 6 0 0)));
    (0%nat, Do_setAlarmForNextSchedule);
    (1%nat, Do_deserializeSchedules [1; 0; 0] 3) ].

(** Calls on an object that [begin] has not been called on. *)
Definition early_calls : list (Mutex.TaskId * Action SimRtc) :=
  [ (0%nat, Do_setTime (DateTime_of_fields 2024 1 17 8 0 0));
    (0%nat, Do_addSchedule weekday_morning);
    (1%nat, Do_setAlarm1 (DateTime_of_fields 2024 1 18 6 0 0) true);
    (0%nat, Do_clearAlarm 1);
    (0%nat, Do_markPumpExerciseComplete) ].

(** The status of each call of a program. *)
Fixpoint statuses {D : Type} `{RtcDevice D} `{Layout} (compileTime : DateTime)
    (program : list (Mutex.TaskId * Action D)) (c : Controller D) : list (option Status) :=
  match program with
  | [] => []
  | (me, a) :: program' =>
      match perform compileTime me a c with
      | Some (st, c') => Some st :: statuses compileTime program' c'
      | None => [None]
      end
  end.

Example session_statuses :
  statuses DateTime_default session (new_controller sample_rtc false)
  = [Some (Failed NotInitialized); Some OK; Some OK; Some OK; Some (Failed NotFound);
     Some OK; Some OK; Some (Failed InvalidArgument)].
Proof. vm_compute. reflexivity. Qed.

(** ** Theory *)

Create HintDb api.

Section ApiTheory.

Context {D : Type} `{RtcDevice D} `{Layout}.

Variable compileTime : DateTime.

Implicit Types (c : Controller D) (me : Mutex.TaskId) (a : Action D) (st : Status).

(** A call is orderly: it gives the lock back, does not reset
    [_initialized], and changes nothing when it fails. *)
Definition orderly c st c' : Prop :=
  ctl_mutex c' = ctl_mutex c
  /\ (ctl_initialized c = true -> ctl_initialized c' = true)
  /\ (st <> OK -> c' = c).

(** A call by task [me] is inert on an object that is not initialised or
    whose lock [me] cannot take: it leaves the chip alone, and the object
    as initialised as it was. *)
Definition inert me c c' : Prop :=
  ctl_initialized c = false \/ hasLock me c = false ->
  ctl_rtc c' = ctl_rtc c /\ ctl_initialized c' = ctl_initialized c.

(** A call is steady: it leaves the schedules as they are. *)
Definition steady c c' : Prop := ctl_schedules c' = ctl_schedules c.

(** The shape of [wf]: it reads the schedules and the lock. *)
Lemma wf_shape c c' :
  ctl_schedules c' = ctl_schedules c -> ctl_mutex c' = ctl_mutex c -> wf c -> wf c'.
Proof. unfold wf. intros -> ->. auto. Qed.

(** The case analysis of a method that is a chain of guards. *)
Ltac guards :=
  repeat match goal with
         | |- context [if ?b then _ else _] => destruct b eqn:?
         end.

Ltac method :=
  cbv zeta; guards; unfold orderly, inert, steady; cbn [fst snd]; repeat split; intros;
  try match goal with H : _ \/ _ |- _ => destruct H end;
  try reflexivity; try assumption; try congruence.

Lemma orderly_begin me c :
  orderly c (fst (begin compileTime me c)) (snd (begin compileTime me c)).
Proof. unfold begin. method. Qed.

Lemma orderly_setTime me c dt : orderly c (fst (setTime me c dt)) (snd (setTime me c dt)).
Proof. unfold setTime. method. Qed.

Lemma inert_setTime me c dt : inert me c (snd (setTime me c dt)).
Proof. unfold setTime. method. Qed.

Lemma orderly_setAlarm1 me c dt m :
  orderly c (fst (setAlarm1 me c dt m)) (snd (setAlarm1 me c dt m)).
Proof. unfold setAlarm1. method. Qed.

Lemma inert_setAlarm1 me c dt m : inert me c (snd (setAlarm1 me c dt m)).
Proof. unfold setAlarm1. method. Qed.

Lemma orderly_setAlarm2 me c dt : orderly c (fst (setAlarm2 me c dt)) (snd (setAlarm2 me c dt)).
Proof. unfold setAlarm2. method. Qed.

Lemma inert_setAlarm2 me c dt : inert me c (snd (setAlarm2 me c dt)).
Proof. unfold setAlarm2. method. Qed.

Lemma orderly_planned me c :
  orderly c (fst (setAlarmForNextSchedule me c)) (snd (setAlarmForNextSchedule me c)).
Proof.
  unfold setAlarmForNextSchedule. destruct (isValid _); [apply orderly_setAlarm1|].
  unfold orderly. auto.
Qed.

Lemma inert_planned me c : inert me c (snd (setAlarmForNextSchedule me c)).
Proof.
  unfold setAlarmForNextSchedule. destruct (isValid _); [apply inert_setAlarm1|].
  unfold inert. auto.
Qed.

(** A change of the set followed by the planning call, whose result is
    discarded. *)
Lemma orderly_replanned me c l :
  orderly c OK (snd (setAlarmForNextSchedule me (set_schedules c l))).
Proof.
  destruct (orderly_planned me (set_schedules c l)) as (Hm & Hi & _).
  unfold orderly. repeat split; [exact Hm | exact Hi | congruence].
Qed.

Lemma inert_replanned me c l : inert me c (snd (setAlarmForNextSchedule me (set_schedules c l))).
Proof. exact (inert_planned me (set_schedules c l)). Qed.

Lemma orderly_void_clearAlarm me c n : orderly c OK (clearAlarm me c n).
Proof. unfold clearAlarm. method. Qed.

Lemma inert_clearAlarm me c n : inert me c (clearAlarm me c n).
Proof. unfold clearAlarm. method. Qed.

Lemma orderly_acknowledgeAlarm me c n : orderly c OK (acknowledgeAlarm me c n).
Proof. unfold acknowledgeAlarm. method. Qed.

Lemma inert_acknowledgeAlarm me c n : inert me c (acknowledgeAlarm me c n).
Proof. unfold acknowledgeAlarm. method. Qed.

Lemma orderly_markPumpExerciseComplete me c : orderly c OK (markPumpExerciseComplete me c).
Proof. unfold markPumpExerciseComplete. method. Qed.

Lemma inert_markPumpExerciseComplete me c : inert me c (markPumpExerciseComplete me c).
Proof. unfold markPumpExerciseComplete. method. Qed.

Lemma steady_planned me c : steady c (snd (setAlarmForNextSchedule me c)).
Proof. apply (setAlarmForNextSchedule_frame me c). Qed.

Lemma steady_begin me c : steady c (snd (begin compileTime me c)).
Proof. unfold begin. method. Qed.

Lemma steady_setTime me c dt : steady c (snd (setTime me c dt)).
Proof. unfold setTime. method. Qed.

Lemma steady_setTimeFromUTC me c utcEpoch offsetSeconds :
  steady c (snd (setTimeFromUTC me c utcEpoch offsetSeconds)).
Proof. unfold setTimeFromUTC. cbv zeta. guards; try apply steady_setTime; method. Qed.

Lemma steady_setAlarm1 me c dt m : steady c (snd (setAlarm1 me c dt m)).
Proof. unfold setAlarm1. method. Qed.

Lemma steady_setAlarm2 me c dt : steady c (snd (setAlarm2 me c dt)).
Proof. unfold setAlarm2. method. Qed.

Lemma steady_clearAlarm me c n : steady c (clearAlarm me c n).
Proof. unfold clearAlarm. method. Qed.

Lemma steady_acknowledgeAlarm me c n : steady c (acknowledgeAlarm me c n).
Proof. unfold acknowledgeAlarm. method. Qed.

Lemma steady_markPumpExerciseComplete me c : steady c (markPumpExerciseComplete me c).
Proof. unfold markPumpExerciseComplete. method. Qed.

Lemma steady_wf c st c' : orderly c st c' -> steady c c' -> wf c -> wf c'.
Proof. intros (Hm & _) Hs. apply wf_shape; assumption. Qed.

Lemma orderly_deserializeSchedules c buffer dataSize st c' :
  deserializeSchedules c buffer dataSize = Some (st, c') ->
  orderly c st c' /\ forall me, inert me c c'.
Proof.
  intros Hd. destruct (deserializeSchedules_inv _ _ _ _ _ Hd)
    as [(_ & ->) | (-> & n & l & _ & _ & Ht)]; [unfold orderly, inert; auto|].
  destruct (read_trailing_frame _ _ _ _ _ Ht) as (Hm & Hi & Hr).
  unfold orderly, inert. rewrite Hm, Hi, Hr. cbn [ctl_mutex ctl_initialized ctl_rtc set_schedules].
  repeat split; auto; congruence.
Qed.

Lemma orderly_setTimeFromUTC me c utcEpoch offsetSeconds :
  orderly c (fst (setTimeFromUTC me c utcEpoch offsetSeconds))
            (snd (setTimeFromUTC me c utcEpoch offsetSeconds)).
Proof. unfold setTimeFromUTC. cbv zeta. guards; try apply orderly_setTime; method. Qed.

Lemma inert_setTimeFromUTC me c utcEpoch offsetSeconds :
  inert me c (snd (setTimeFromUTC me c utcEpoch offsetSeconds)).
Proof. unfold setTimeFromUTC. cbv zeta. guards; try apply inert_setTime; method. Qed.

Lemma orderly_addSchedule me c s : orderly c (fst (addSchedule me c s)) (snd (addSchedule me c s)).
Proof. unfold addSchedule. cbv zeta. guards; [apply orderly_replanned | method]. Qed.

Lemma inert_addSchedule me c s : inert me c (snd (addSchedule me c s)).
Proof. unfold addSchedule. cbv zeta. guards; [apply inert_replanned | method]. Qed.

Lemma orderly_updateSchedule me c id s :
  orderly c (fst (updateSchedule me c id s)) (snd (updateSchedule me c id s)).
Proof.
  unfold updateSchedule. destruct (replace_first _ _ _); [apply orderly_replanned | method].
Qed.

Lemma inert_updateSchedule me c id s : inert me c (snd (updateSchedule me c id s)).
Proof.
  unfold updateSchedule. destruct (replace_first _ _ _); [apply inert_replanned | method].
Qed.

Lemma orderly_removeSchedule me c id :
  orderly c (fst (removeSchedule me c id)) (snd (removeSchedule me c id)).
Proof. unfold removeSchedule. cbv zeta. guards; [apply orderly_replanned | method]. Qed.

Lemma inert_removeSchedule me c id : inert me c (snd (removeSchedule me c id)).
Proof. unfold removeSchedule. cbv zeta. guards; [apply inert_replanned | method]. Qed.

(** [begin] touches the chip under the lock only. *)
Lemma locked_begin me c :
  hasLock me c = false -> ctl_rtc (snd (begin compileTime me c)) = ctl_rtc c.
Proof. unfold begin. method. Qed.

(** The setters and the registrations change one member each. *)
Lemma orderly_setter c c' :
  ctl_mutex c' = ctl_mutex c -> ctl_initialized c' = ctl_initialized c -> orderly c OK c'.
Proof. unfold orderly. intros -> ->. repeat split; congruence. Qed.

Lemma inert_setter me c c' :
  ctl_rtc c' = ctl_rtc c -> ctl_initialized c' = ctl_initialized c -> inert me c c'.
Proof. unfold inert. intros -> ->. auto. Qed.

(** A method that returns a pair, seen through [perform]. *)
Lemma from_pair {A B : Type} (P : A -> B -> Prop) (p : A * B) x y :
  P (fst p) (snd p) -> Some p = Some (x, y) -> P x y.
Proof. intros HP [= ->]. exact HP. Qed.

End ApiTheory.

#[export] Hint Resolve orderly_begin orderly_setTime orderly_setTimeFromUTC orderly_addSchedule
  orderly_updateSchedule orderly_removeSchedule orderly_markPumpExerciseComplete
  orderly_planned orderly_setAlarm1 orderly_setAlarm2 orderly_void_clearAlarm
  orderly_acknowledgeAlarm : api.
#[export] Hint Resolve inert_setTime inert_setTimeFromUTC inert_addSchedule
  inert_updateSchedule inert_removeSchedule inert_markPumpExerciseComplete
  inert_planned inert_setAlarm1 inert_setAlarm2 inert_clearAlarm
  inert_acknowledgeAlarm : api.

#[export] Hint Resolve steady_begin steady_setTime steady_setTimeFromUTC steady_planned
  steady_setAlarm1 steady_setAlarm2 steady_clearAlarm steady_acknowledgeAlarm
  steady_markPumpExerciseComplete : api.

(** ** The properties of every call *)

Section ApiClaims.

Context {D : Type} `{RtcDevice D} `{Layout}.

Variable compileTime : DateTime.

Implicit Types (c : Controller D) (me : Mutex.TaskId) (a : Action D) (st : Status).

Lemma action_orderly me a c st c' : perform compileTime me a c = Some (st, c') -> orderly c st c'.
Proof.
  destruct a; cbn [perform];
    try (apply (from_pair (orderly c)); cbn [fst snd];
         first [solve [auto with api] | apply orderly_setter; reflexivity]).
  intros Hd. apply (orderly_deserializeSchedules _ _ _ _ _ Hd).
Qed.

Lemma action_inert me a c st c' :
  is_call a = true -> a <> Do_begin ->
  perform compileTime me a c = Some (st, c') -> inert me c c'.
Proof.
  destruct a; cbn [perform]; intros Hc Hb; try discriminate; try congruence;
    try (apply (from_pair (fun _ => inert me c)); cbn [fst snd];
         first [solve [auto with api] | apply inert_setter; reflexivity]).
  intros Hd. apply (orderly_deserializeSchedules _ _ _ _ _ Hd).
Qed.

Lemma action_wf me a c st c' :
  typed a -> wf c -> perform compileTime me a c = Some (st, c') -> wf c'.
Proof.
  destruct a; cbn [perform typed]; intros Ht Hwf;
    try (apply (from_pair (fun _ c' => wf c')); cbn [fst snd]);
    try (eapply steady_wf; [| |exact Hwf]; solve [eauto with api]);
    try (apply (wf_shape c); [reflexivity | reflexivity | exact Hwf]).
  - apply addSchedule_wf; assumption.
  - apply updateSchedule_wf; tauto.
  - apply removeSchedule_wf; assumption.
  - unfold clearAllSchedules, wf, MAX_SCHEDULES. cbn [ctl_schedules ctl_mutex set_schedules length].
    repeat split; [lia | constructor | apply Hwf].
  - apply (deserializeSchedules_wf _ _ _ _ _ Ht Hwf).
Qed.

Lemma api_step_inv c c' : api_inv c -> api_step compileTime c c' -> api_inv c'.
Proof.
  intros (Hwf & Hm) Hs. destruct Hs as [me a c st c' Ht Hp]. split.
  - apply (action_wf _ _ _ _ _ Ht Hwf Hp).
  - destruct (action_orderly _ _ _ _ _ Hp) as (-> & _). exact Hm.
Qed.

Lemma api_step_initialized c c' :
  ctl_initialized c = true -> api_step compileTime c c' -> ctl_initialized c' = true.
Proof.
  intros Hi Hs. destruct Hs as [me a c st c' _ Hp].
  apply (action_orderly _ _ _ _ _ Hp), Hi.
Qed.

Lemma perform_all_snoc program me a c :
  perform_all compileTime (program ++ [(me, a)]) c
  = c1 ← perform_all compileTime program c;
    option_map snd (perform compileTime me a c1).
Proof.
  revert c. induction program as [|[me0 a0] program IH]; intros c; cbn [perform_all app].
  - cbn [mbind option_bind]. destruct (perform _ _ _ _) as [[? ?]|]; reflexivity.
  - destruct (perform compileTime me0 a0 c) as [[? c1]|]; [apply IH | reflexivity].
Qed.

Lemma perform_all_reachable program : forall c c',
  Forall (fun p => typed (snd p)) program ->
  perform_all compileTime program c = Some c' -> api_reachable compileTime c c'.
Proof.
  induction program as [|[me a] program IH] using rev_ind; intros c c' Ht.
  - intros [= <-]. constructor.
  - apply Forall_app in Ht as [Ht Ha]. rewrite perform_all_snoc.
    destruct (perform_all compileTime program c) as [c1|] eqn:E1; [|discriminate].
    cbn [mbind option_bind]. destruct (perform _ _ _ c1) as [[st c2]|] eqn:E2; [|discriminate].
    intros [= <-]. apply (api_reach_step _ _ c1); [apply IH; auto|].
    apply (api_step_perform _ me a c1 st); [|exact E2]. apply (Forall_inv Ha).
Qed.

(** C11: every state a program can reach through the public interface,
    with arguments that fit their types and the chip moving on in between,
    is well formed and has the lock free: at most [MAX_SCHEDULES]
    schedules, each with byte-sized members. *)
Theorem api_reachable_inv init c :
  api_inv init -> api_reachable compileTime init c -> api_inv c.
Proof.
  intros Hi Hr. induction Hr as [|c c' _ IH Hs]; [exact Hi | exact (api_step_inv _ _ IH Hs)].
Qed.

(** C23: a call that does not return [OK] has changed nothing of the
    object, whatever the method and its arguments. *)
Theorem failed_call_changes_nothing me a c st c' :
  perform compileTime me a c = Some (st, c') -> st <> OK -> c' = c.
Proof. intros Hp. apply (action_orderly _ _ _ _ _ Hp). Qed.

(** Once [begin] has succeeded the object stays initialised: no
    sequence of calls resets [_initialized]. *)
Theorem initialized_is_stable init c :
  ctl_initialized init = true -> api_reachable compileTime init c ->
  ctl_initialized c = true.
Proof.
  intros Hi Hr. induction Hr as [|c c' _ IH Hs]; [exact Hi|].
  exact (api_step_initialized _ _ IH Hs).
Qed.

(** On an object that is not initialised no sequence of calls other
    than [begin] touches the chip or initialises the object. *)
Theorem uninitialised_calls_leave_chip program : forall c c',
  ctl_initialized c = false ->
  Forall (fun p => is_call (snd p) = true /\ snd p <> Do_begin) program ->
  perform_all compileTime program c = Some c' ->
  ctl_rtc c' = ctl_rtc c /\ ctl_initialized c' = false.
Proof.
  induction program as [|[me a] program IH]; intros c c' Hi Hp; cbn [perform_all].
  - intros [= <-]. auto.
  - destruct (perform compileTime me a c) as [[st c1]|] eqn:E; [|discriminate].
    destruct (Forall_inv Hp) as [Hc Hb]. cbn [snd] in Hc, Hb.
    destruct (action_inert _ _ _ _ _ Hc Hb E (or_introl Hi)) as (Hr & Hi1). intros Hall.
    rewrite <- Hr. apply IH; [congruence | exact (Forall_inv_tail Hp) | exact Hall].
Qed.

(** C21: the chip is written under the lock only.  A call by a task that
    cannot take the lock, whatever the method, leaves the chip as it
    was: every access to the bus is inside the guard. *)
Theorem chip_written_under_lock me a c st c' :
  is_call a = true -> hasLock me c = false ->
  perform compileTime me a c = Some (st, c') -> ctl_rtc c' = ctl_rtc c.
Proof.
  intros Hc Hl Hp.
  assert (a = Do_begin \/ a <> Do_begin) as [->|Hb]
    by (destruct a; (left; reflexivity) || (right; discriminate)).
  - revert Hp. apply (from_pair (fun _ c' => ctl_rtc c' = ctl_rtc c)), (locked_begin compileTime me c Hl).
  - apply (action_inert _ _ _ _ _ Hc Hb Hp). right. exact Hl.
Qed.

End ApiClaims.

(** ** The theorems at work on the session *)

Lemma api_reachable_inv_witness :
  exists c, perform_all DateTime_default session (new_controller sample_rtc false) = Some c
            /\ api_inv c.
Proof.
  eexists. split; [vm_compute; reflexivity|].
  apply (api_reachable_inv DateTime_default (new_controller sample_rtc false));
    [split; [apply wf_new_controller | reflexivity]|].
  apply (perform_all_reachable DateTime_default session); [by_compute | vm_compute; reflexivity].
Defined.

Lemma failed_call_changes_nothing_witness :
  snd (removeSchedule 1%nat (sample [weekday_morning]) 7) = sample [weekday_morning].
Proof.
  apply (failed_call_changes_nothing DateTime_default 1%nat (Do_removeSchedule 7)
           (sample [weekday_morning]) (Failed NotFound)); [vm_compute; reflexivity | discriminate].
Defined.

Lemma initialized_is_stable_witness :
  exists c, perform_all DateTime_default session (sample []) = Some c
            /\ ctl_initialized c = true.
Proof.
  eexists. split; [vm_compute; reflexivity|].
  apply (initialized_is_stable DateTime_default (sample [])); [reflexivity|].
  apply (perform_all_reachable DateTime_default session); [by_compute | vm_compute; reflexivity].
Defined.

Lemma uninitialised_calls_leave_chip_witness :
  exists c, perform_all DateTime_default early_calls (new_controller sample_rtc false) = Some c
            /\ ctl_rtc c = sample_rtc /\ ctl_initialized c = false.
Proof.
  eexists. split; [vm_compute; reflexivity|].
  apply (uninitialised_calls_leave_chip DateTime_default early_calls
           (new_controller sample_rtc false));
    [reflexivity | repeat constructor; discriminate | vm_compute; reflexivity].
Defined.

Lemma chip_written_under_lock_witness :
  ctl_rtc (snd (setTime 1%nat (set_mutex (sample []) (Mutex.mk (Some 0%nat) 1))
                  (DateTime_of_fields 2024 1 17 8 0 0)))
  = ctl_rtc (sample []).
Proof.
  apply (chip_written_under_lock DateTime_default 1%nat
           (Do_setTime (DateTime_of_fields 2024 1 17 8 0 0))
           (set_mutex (sample []) (Mutex.mk (Some 0%nat) 1)) (Failed LockUnavailable));
    vm_compute; reflexivity.
Defined.
