(* ===== verification/ApiMap.v ===== *)
(** * The public interface refines the abstract schedule set

    [ScheduleMap] gives the schedule set its specification, a finite map
    from ids to schedules with one step per operation, and shows that the
    four methods of the set refine it.  Here the refinement is extended to
    the whole interface of [Api]: a call is a step of the map when it is
    one of the four ([op_of]), and leaves the map alone otherwise, with
    one exception, [deserializeSchedules], which replaces the set by what
    the image holds.  So a program that does not restore refines the run
    of its set operations, whatever else it calls in between and whatever
    the chip does. *)

From stdpp Require Import gmap.
From S2P Require Import Prelude DateTime Schedule Hardware State Window Occurrence Alarm.
From S2P Require Import ScheduleSet ScheduleMap Policy TimeZone Persist Api.

(** ** Calls as operations of the set *)

(** The operation of the set that a call is, if any. *)
Definition op_of {D : Type} (a : Action D) : option Op :=
  match a with
  | Do_addSchedule schedule => Some (Add schedule)
  | Do_updateSchedule scheduleId schedule => Some (Update scheduleId schedule)
  | Do_removeSchedule scheduleId => Some (Remove scheduleId)
  | Do_clearAllSchedules => Some Clear
  | _ => None
  end.

(** The call restores the set from an image. *)
Definition restores {D : Type} (a : Action D) : bool :=
  match a with
  | Do_deserializeSchedules _ _ => true
  | _ => false
  end.

(** The operations of the set in a program, in order. *)
Definition ops_of {D : Type} (program : list (Mutex.TaskId * Action D)) : list Op :=
  omap (fun p => op_of (snd p)) program.

(** The statuses that the set operations of a program return, in order. *)
Fixpoint op_statuses {D : Type} `{RtcDevice D} `{Layout} (compileTime : DateTime)
    (program : list (Mutex.TaskId * Action D)) (c : Controller D) : list Status :=
  match program with
  | [] => []
  | (me, a) :: program' =>
      match perform compileTime me a c with
      | Some (st, c') =>
          match op_of a with
          | Some _ => st :: op_statuses compileTime program' c'
          | None => op_statuses compileTime program' c'
          end
      | None => []
      end
  end.

(** Two tasks fill the set, with other calls and the chip in between. *)
Definition household : list (Mutex.TaskId * Action SimRtc) :=
  [ (0%nat, Do_begin);
    (0%nat, Do_addSchedule (set_id weekday_morning 0));
    (1%nat, Do_setVacationMode false DateTime_default DateTime_default);
    (1%nat, Do_addSchedule (set_id night_owl 0));
    (0%nat, Chip (sim_tick sample_rtc (DateTime_of_fields 2024 1 18 6 0 0)));
    (0%nat, Do_setAlarmForNextSchedule);
    (1%nat, Do_removeSchedule 1) ].

(** ** Examples *)

(** The set operations of the session of [Api]. *)
Example session_ops : ops_of session = [Add weekday_morning; Add night_owl; Remove 7].
Proof. reflexivity. Qed.

Example household_statuses :
  op_statuses DateTime_default household (new_controller sample_rtc false) = [OK; OK; OK].
Proof. vm_compute. reflexivity. Qed.

(** A restored image may hold one id twice: the object no longer
    represents a map with as many entries as it has schedules. *)
Example restored_duplicate_ids :
  let twice := set_schedules (sample []) [weekday_morning; set_id night_owl 1] in
  let image := snd (serializeSchedules twice (replicate 200 0) 200) in
  option_map (fun r => map sched_id (ctl_schedules (snd r)))
    (perform DateTime_default 0%nat (Do_deserializeSchedules image 200) (sample []))
  = Some [1; 1].
Proof. vm_compute. reflexivity. Qed.

(** ** Theory *)

Section ApiMap.

Context {D : Type} `{RtcDevice D} `{Layout}.

Variable compileTime : DateTime.

Implicit Types (c : Controller D) (me : Mutex.TaskId) (a : Action D) (st : Status)
  (m : gmap Z Schedule).

(** A call that is no operation of the set and does not restore leaves
    the schedules as they are. *)
Lemma action_steady me a c st c' :
  op_of a = None -> restores a = false ->
  perform compileTime me a c = Some (st, c') -> steady c c'.
Proof.
  destruct a; cbn [perform op_of restores]; intros Ho Hr; try discriminate;
    apply (from_pair (fun _ => steady c)); cbn [fst snd];
    first [solve [auto with api] | reflexivity].
Qed.

Lemma steady_represents c c' m : steady c c' -> represents c m -> represents c' m.
Proof. unfold steady, represents. intros ->. auto. Qed.

(** A call that is an operation of the set is [exec] of it. *)
Lemma perform_exec me a op c :
  op_of a = Some op -> perform compileTime me a c = Some (exec me op c).
Proof. destruct a; cbn [op_of]; intros [= <-]; reflexivity. Qed.

(** One call: a step of the map, or none. *)
Lemma action_refines me a c m st c' :
  represents c m -> restores a = false ->
  (forall op, op_of a = Some op -> permitted op m) ->
  perform compileTime me a c = Some (st, c') ->
  match op_of a with
  | Some op => exists m', abs_step op m st m' /\ represents c' m'
  | None => represents c' m
  end.
Proof.
  intros Hr Hres Hp Hperf. destruct (op_of a) as [op|] eqn:Ho.
  - rewrite (perform_exec me a op c Ho) in Hperf.
    destruct (step_refines me op c m Hr (Hp op eq_refl)) as (m' & Hs & Hr').
    injection Hperf as Hperf. rewrite Hperf in Hs, Hr'. exists m'. auto.
  - apply (steady_represents c); [|exact Hr]. apply (action_steady me a c st c' Ho Hres Hperf).
Qed.

(** What the program owes: it does not restore, and it adds under id 0. *)
Definition orderly_program (program : list (Mutex.TaskId * Action D)) : Prop :=
  Forall (fun p => restores (snd p) = false) program /\ allocating (ops_of program).

Lemma orderly_program_cons me a program :
  orderly_program ((me, a) :: program) ->
  restores a = false /\ (forall op m, op_of a = Some op -> permitted op m)
  /\ orderly_program program.
Proof.
  unfold orderly_program, allocating, ops_of. intros [Hr Ha].
  apply Forall_cons in Hr as [Hr0 Hr]. cbn [omap list_omap snd] in Ha.
  split; [exact Hr0|]. destruct (op_of a) as [op0|] eqn:Ho.
  - apply Forall_cons in Ha as [Ha0 Ha]. split; [|split; assumption].
    intros op m [= <-]. destruct op0; cbn; auto.
  - split; [discriminate | split; assumption].
Qed.

(** C12: refinement over the whole interface.  A program of calls of any
    methods but [deserializeSchedules], by any tasks and with the chip
    moving on in between, in which schedules are added under id 0, from
    an object that represents a map: the object it ends in represents
    the map that the run of the program's set operations ends in, and
    these operations return the statuses of that run.  No other method
    disturbs the set. *)
Theorem program_refines program : forall c m c',
  represents c m -> orderly_program program ->
  perform_all compileTime program c = Some c' ->
  exists m', abs_run (ops_of program) m (op_statuses compileTime program c) m'
             /\ represents c' m'.
Proof.
  induction program as [|[me a] program IH]; intros c m c' Hr Ho;
    cbn [perform_all op_statuses].
  - intros [= <-]. exists m. split; [constructor | exact Hr].
  - destruct (perform compileTime me a c) as [[st c1]|] eqn:E; [|discriminate].
    destruct (orderly_program_cons me a program Ho) as (Hres & Hp & Ho').
    pose proof (action_refines me a c m st c1 Hr Hres (fun op => Hp op m) E) as Hstep.
    unfold ops_of. cbn [omap list_omap snd]. destruct (op_of a) as [op|].
    + destruct Hstep as (m1 & Hs & Hr1). intros Hall.
      destruct (IH c1 m1 c' Hr1 Ho' Hall) as (m2 & Hrun & Hr2).
      exists m2. split; [econstructor; eassumption | exact Hr2].
    + intros Hall. apply (IH c1 m c' Hstep Ho' Hall).
Qed.

End ApiMap.

(** ** The refinement on a program *)

Lemma program_refines_witness :
  exists c', perform_all DateTime_default household (new_controller sample_rtc false) = Some c'
    /\ exists m', abs_run (ops_of household) ∅
                    (op_statuses DateTime_default household (new_controller sample_rtc false)) m'
                  /\ represents c' m'.
Proof.
  eexists. split; [vm_compute; reflexivity|].
  apply (program_refines DateTime_default household (new_controller sample_rtc false) ∅);
    [split; [reflexivity | constructor] | split; repeat constructor | vm_compute; reflexivity].
Defined.
