(* ===== verification/Report.v ===== *)
(** * Reports

    The methods that print: [getFormattedTime], [getFormattedDate] and
    [getScheduleStatus], with [isBatteryBackupEnabled] and
    [syncSystemTime], which report the state of the chip to the caller and
    to the system clock.

    [snprintf] with the conversions [%02d] and [%04d] is modelled by
    [padded] over [decimal], and the bound of the buffer by [snprintf];
    RTClib's [timestamp(TIMESTAMP_TIME)] by [timestamp_TIME].

    The theorems: [decimal] prints the number ([number] reads it back), the
    formatted time and date of a valid clock have the fixed-width layout and
    fit the buffer for any byte fields, [getScheduleStatus] takes each of
    its branches as written, and its last branch is never taken. *)

From Stdlib Require Import Ascii String.
From stdpp Require Import strings.
From S2P Require Import Prelude DateTime Schedule Hardware State Window Occurrence Policy.

(** ** Printing numbers *)

Definition digit (d : Z) : ascii := ascii_of_nat (48 + Z.to_nat d).

(** The digits of [n], least significant first, in front of [acc]. *)
Fixpoint decimal_go (fuel : nat) (n : Z) (acc : string) : string :=
  let acc' := String (digit (n mod 10)) acc in
  match fuel with
  | O => acc'
  | S fuel' => if n / 10 =? 0 then acc' else decimal_go fuel' (n / 10) acc'
  end.

(** [%d] of a non-negative [int]: ten digits print every 32-bit value. *)
Definition decimal (n : Z) : string := decimal_go 9 n EmptyString.

Fixpoint zeros (n : nat) : string :=
  match n with
  | O => EmptyString
  | S n' => String "0" (zeros n')
  end.

(** [%0<width>d]. *)
Definition padded (width : nat) (n : Z) : string :=
  let s := decimal n in String.append (zeros (width - String.length s)) s.

(** [snprintf(buffer, size, ...)]: at most [size - 1] characters are
    stored. *)
Definition snprintf (size : nat) (s : string) : string := substring 0 (size - 1) s.

(** [hh:mm:ss], the layout of [getFormattedTime] and of RTClib's
    [TIMESTAMP_TIME]. *)
Definition time_text (hh mm ss : Z) : string :=
  String.append (padded 2 hh)
    (String ":" (String.append (padded 2 mm) (String ":" (padded 2 ss)))).

(** [YYYY-MM-DD]. *)
Definition date_text (y m d : Z) : string :=
  String.append (padded 4 y)
    (String "-" (String.append (padded 2 m) (String "-" (padded 2 d)))).

(** [dt.timestamp(DateTime::TIMESTAMP_TIME)]. *)
Definition timestamp_TIME (dt : DateTime) : string :=
  time_text (dt_hour dt) (dt_minute dt) (dt_second dt).

(** [dt.timestamp(DateTime::TIMESTAMP_DATE)]. *)
Definition timestamp_DATE (dt : DateTime) : string :=
  decimal (year dt) +:+ "-" +:+ padded 2 (dt_month dt) +:+ "-" +:+ padded 2 (dt_day dt).

(** [dt.timestamp(DateTime::TIMESTAMP_FULL)]. *)
Definition timestamp_FULL (dt : DateTime) : string :=
  timestamp_DATE dt +:+ "T" +:+ timestamp_TIME dt.

(** ** The system clock *)

Record SystemClock : Type := mkSystemClock {
  sys_seconds : Z;       (* tv_sec of the last successful settimeofday *)
  sys_settable : bool    (* settimeofday succeeds *)
}.

Section Report.

Context {D : Type} `{RtcDevice D}.

Implicit Types (c : Controller D) (me : Mutex.TaskId).

(** [getFormattedTime()]. *)
Definition getFormattedTime me c : string :=
  check ctl_initialized c orelse "--:--:--" ;;
  check hasLock me c orelse "--:--:--" ;;
  let now := rtc_now (ctl_rtc c) in
  snprintf 20 (time_text (dt_hour now) (dt_minute now) (dt_second now)).

(** [getFormattedDate()]. *)
Definition getFormattedDate me c : string :=
  check ctl_initialized c orelse "----/--/--" ;;
  check hasLock me c orelse "----/--/--" ;;
  let now := rtc_now (ctl_rtc c) in
  snprintf 20 (date_text (year now) (dt_month now) (dt_day now)).

(** [getScheduleStatus()]. *)
Definition getScheduleStatus me c : string :=
  let active := getCurrentActiveSchedule me c in
  if isVacationMode me c then "Vacation Mode Active"
  else match active with
       | Some schedule => String.append "Active: " (sched_name schedule)
       | None =>
           let next := getNextScheduledStart me c in
           if isValid next
           then String.append "Next: " (timestamp_TIME next)
           else "No Active Schedules"
       end.

(** [isBatteryBackupEnabled()]. *)
Definition isBatteryBackupEnabled me c : bool :=
  check ctl_initialized c orelse false ;;
  check hasLock me c orelse false ;;
  negb (rtc_lostPower (ctl_rtc c)).

(** [syncSystemTime()]: the status and the system clock afterwards. *)
Definition syncSystemTime me c (sys : SystemClock) : Status * SystemClock :=
  check ctl_initialized c orelse (Failed NotInitialized, sys) ;;
  check hasLock me c orelse (Failed LockUnavailable, sys) ;;
  let rtcTime := rtc_now (ctl_rtc c) in
  check isValid rtcTime orelse (Failed InvalidConversion, sys) ;;
  check sys_settable sys orelse (Failed HardwareFailure, sys) ;;
  (OK, mkSystemClock (unixtime rtcTime) (sys_settable sys)).

End Report.

(** ** Specification *)

(** The number a string of digits denotes, after the digits read so far
    gave [v]. *)
Fixpoint number_go (s : string) (v : Z) : Z :=
  match s with
  | EmptyString => v
  | String a s' => number_go s' (v * 10 + (Z.of_nat (nat_of_ascii a) - 48))
  end.

Definition number (s : string) : Z := number_go s 0.

(** Two digits. *)
Definition two_digits (n : Z) : string :=
  String (digit (n / 10)) (String (digit (n mod 10)) EmptyString).

(** ** Examples *)

Example formatted_sample :
  getFormattedDate 0%nat (sample []) = "2024-01-17"
  /\ getFormattedTime 0%nat (sample []) = "07:00:00".
Proof. vm_compute. auto. Qed.

Example status_active :
  getScheduleStatus 0%nat (sample [weekday_morning]) = "Active: morning".
Proof. vm_compute. reflexivity. Qed.

Example status_next :
  getScheduleStatus 0%nat (sample [night_owl]) = "Next: 23:00:00".
Proof. vm_compute. reflexivity. Qed.

(** With no schedule at all the status names midnight as the next
    start. *)
Example status_no_schedules :
  getScheduleStatus 0%nat (sample []) = "Next: 00:00:00".
Proof. vm_compute. reflexivity. Qed.

(** ** Theory of the digits *)

Lemma number_digit d v : 0 <= d < 10 -> number_go (String (digit d) EmptyString) v = v * 10 + d.
Proof.
  intros Hd. unfold digit. cbn [number_go]. rewrite nat_ascii_embedding by lia. lia.
Qed.

Lemma number_go_digit d s v :
  0 <= d < 10 -> number_go (String (digit d) s) v = number_go s (v * 10 + d).
Proof.
  intros Hd. unfold digit. cbn [number_go]. rewrite nat_ascii_embedding by lia.
  f_equal. lia.
Qed.

Lemma number_decimal_go fuel : forall n acc,
  0 <= n < 10 ^ Z.of_nat (S fuel) ->
  number_go (decimal_go fuel n acc) 0 = number_go acc n.
Proof.
  induction fuel as [|fuel IH]; intros n acc Hn.
  - change (10 ^ Z.of_nat 1) with 10 in Hn. cbn [decimal_go].
    rewrite number_go_digit by (apply Z.mod_pos_bound; lia).
    rewrite Z.mod_small by lia. reflexivity.
  - cbn [decimal_go]. assert (Hm : 0 <= n mod 10 < 10) by (apply Z.mod_pos_bound; lia).
    destruct (Z.eqb_spec (n / 10) 0) as [Hz | Hnz].
    + rewrite number_go_digit by exact Hm. f_equal. zdiv.
    + rewrite IH, number_go_digit by (exact Hm || (rewrite Nat2Z.inj_succ, Z.pow_succ_r in Hn by lia; zdiv)).
      f_equal. zdiv.
Qed.

(** Printing round trip.  Reading the digits [decimal] prints gives
    the number back, for every value of 32 bits. *)
Theorem number_decimal n : 0 <= n < 2 ^ 32 -> number (decimal n) = n.
Proof.
  intros Hn. unfold number, decimal. rewrite number_decimal_go; [reflexivity|].
  change (10 ^ Z.of_nat 10) with 10000000000. lia.
Qed.

Lemma number_decimal_witness : number (decimal 2024) = 2024.
Proof. apply (number_decimal 2024). lia. Defined.

Lemma padded_two n : 0 <= n < 100 -> padded 2 n = two_digits n.
Proof. apply (forall_below (fun n => padded 2 n = two_digits n) 100). by_compute. Qed.

Lemma padded_byte_length n : 0 <= n < 256 -> (String.length (padded 2 n) <= 3)%nat.
Proof.
  apply (forall_below (fun n => (String.length (padded 2 n) <= 3)%nat) 256). by_compute.
Qed.

Lemma length_append a b :
  String.length (String.append a b) = (String.length a + String.length b)%nat.
Proof. induction a as [|x a IH]; simpl; [reflexivity | rewrite IH; reflexivity]. Qed.

Lemma substring_all s n : (String.length s <= n)%nat -> substring 0 n s = s.
Proof.
  revert n. induction s as [|a s IH]; intros [|n] Hn; simpl in *; try reflexivity; try lia.
  rewrite IH by lia. reflexivity.
Qed.

Lemma snprintf_fits size s : (String.length s < size)%nat -> snprintf size s = s.
Proof. intros Hs. apply substring_all. lia. Qed.

Lemma time_text_length hh mm ss :
  0 <= hh < 256 -> 0 <= mm < 256 -> 0 <= ss < 256 ->
  (String.length (time_text hh mm ss) <= 11)%nat.
Proof.
  intros Hh Hm Hs. unfold time_text.
  repeat (rewrite length_append || cbn [String.length]).
  pose proof (padded_byte_length hh Hh). pose proof (padded_byte_length mm Hm).
  pose proof (padded_byte_length ss Hs). lia.
Qed.

Lemma time_text_valid hh mm ss :
  0 <= hh < 24 -> 0 <= mm < 60 -> 0 <= ss < 60 ->
  time_text hh mm ss
  = String.append (two_digits hh)
      (String ":" (String.append (two_digits mm) (String ":" (two_digits ss)))).
Proof. intros Hh Hm Hs. unfold time_text. rewrite !padded_two by lia. reflexivity. Qed.

Lemma padded_year k :
  0 <= k < 100 -> padded 4 (2000 + k) = String "2" (String "0" (two_digits k)).
Proof.
  apply (forall_below (fun k => padded 4 (2000 + k) = String "2" (String "0" (two_digits k)))
           100). by_compute.
Qed.

Lemma date_text_valid dt :
  wf_date dt ->
  date_text (year dt) (dt_month dt) (dt_day dt)
  = String "2" (String "0" (String.append (two_digits (dt_yOff dt))
      (String "-" (String.append (two_digits (dt_month dt))
                     (String "-" (two_digits (dt_day dt))))))).
Proof.
  intros [Hc Hy']. pose proof (calendar_day_le dt Hc). destruct Hc as (Hy & Hm & Hd & _).
  unfold date_text, year.
  rewrite padded_year, !padded_two by lia. reflexivity.
Qed.

Section ReportTheory.

Context {D : Type} `{RtcDevice D}.

Implicit Types (c : Controller D) (me : Mutex.TaskId).

(** [getFormattedTime] is "--:--:--" on an object that is not ready;
    on a ready one whose clock holds byte fields the 20-byte buffer never
    truncates, and for a time of day the text is two digits for each of
    hour, minute and second, separated by colons. *)
Theorem getFormattedTime_spec me c :
  let now := rtc_now (ctl_rtc c) in
  fits 8 (dt_hour now) -> fits 8 (dt_minute now) -> fits 8 (dt_second now) ->
  getFormattedTime me c
  = (if ctl_initialized c && hasLock me c
     then time_text (dt_hour now) (dt_minute now) (dt_second now)
     else "--:--:--")
  /\ (0 <= dt_hour now < 24 -> 0 <= dt_minute now < 60 -> 0 <= dt_second now < 60 ->
      time_text (dt_hour now) (dt_minute now) (dt_second now)
      = String.append (two_digits (dt_hour now))
          (String ":" (String.append (two_digits (dt_minute now))
                         (String ":" (two_digits (dt_second now)))))).
Proof.
  intros now Hh Hm Hs. unfold fits in *. split; [|apply time_text_valid].
  unfold getFormattedTime. destruct (ctl_initialized c); [|reflexivity].
  destruct (hasLock me c); [|reflexivity]. cbv zeta. simpl andb. cbv iota.
  apply snprintf_fits. pose proof (time_text_length _ _ _ Hh Hm Hs). fold now. lia.
Qed.

(** [getFormattedDate] of a ready object with a valid clock: ten
    characters, [20YY-MM-DD]. *)
Lemma getFormattedDate_valid me c :
  ready me c -> wf_date (rtc_now (ctl_rtc c)) ->
  let now := rtc_now (ctl_rtc c) in
  getFormattedDate me c
  = String "2" (String "0" (String.append (two_digits (dt_yOff now))
      (String "-" (String.append (two_digits (dt_month now))
                     (String "-" (two_digits (dt_day now))))))).
Proof.
  intros [Hi Hl] Hwf. unfold getFormattedDate. rewrite Hi, Hl. cbv zeta.
  rewrite date_text_valid by exact Hwf. apply snprintf_fits. simpl. lia.
Qed.

(** The status when nothing is active and no vacation holds. *)
Lemma getScheduleStatus_idle me c :
  isVacationMode me c = false -> getCurrentActiveSchedule me c = None ->
  getScheduleStatus me c
  = String.append "Next: " (timestamp_TIME (getNextScheduledStart me c)).
Proof.
  intros Hv Ha. unfold getScheduleStatus. rewrite Hv, Ha. cbv zeta.
  rewrite getNextScheduledStart_valid. reflexivity.
Qed.

(** [getScheduleStatus] is "Vacation Mode Active" during a vacation,
    otherwise "Active: " and the name of the first active schedule, and
    otherwise "Next: " and the time of day of the next start.  The text
    "No Active Schedules" is never returned: the timestamp returned by
    [getNextScheduledStart] when nothing is planned is valid. *)
Theorem getScheduleStatus_spec me c :
  getScheduleStatus me c
  = (if isVacationMode me c then "Vacation Mode Active"
     else match getCurrentActiveSchedule me c with
          | Some schedule => String.append "Active: " (sched_name schedule)
          | None => String.append "Next: " (timestamp_TIME (getNextScheduledStart me c))
          end)
  /\ getScheduleStatus me c <> "No Active Schedules".
Proof.
  assert (E : getScheduleStatus me c
              = if isVacationMode me c then "Vacation Mode Active"
                else match getCurrentActiveSchedule me c with
                     | Some schedule => String.append "Active: " (sched_name schedule)
                     | None => String.append "Next: "
                                 (timestamp_TIME (getNextScheduledStart me c))
                     end).
  { destruct (isVacationMode me c) eqn:Hv; [unfold getScheduleStatus; rewrite Hv; reflexivity|].
    destruct (getCurrentActiveSchedule me c) eqn:Ha; [|apply getScheduleStatus_idle; assumption].
    unfold getScheduleStatus. rewrite Hv, Ha. reflexivity. }
  split; [exact E|]. rewrite E. destruct (isVacationMode me c); [discriminate|].
  destruct (getCurrentActiveSchedule me c); simpl; discriminate.
Qed.

(** [syncSystemTime] fails and leaves the system clock as it was
    when the object is not initialised, the lock is not available, the
    RTC's time is not valid or [settimeofday] fails, in that order;
    otherwise it sets the system clock to the Unix time of the RTC. *)
Theorem syncSystemTime_spec me c sys :
  syncSystemTime me c sys
  = if negb (ctl_initialized c) then (Failed NotInitialized, sys)
    else if negb (hasLock me c) then (Failed LockUnavailable, sys)
    else if negb (isValid (rtc_now (ctl_rtc c))) then (Failed InvalidConversion, sys)
    else if negb (sys_settable sys) then (Failed HardwareFailure, sys)
    else (OK, mkSystemClock (unixtime (rtc_now (ctl_rtc c))) true).
Proof.
  unfold syncSystemTime. destruct (ctl_initialized c); [|reflexivity].
  destruct (hasLock me c); [|reflexivity]. cbv zeta.
  destruct (isValid _); [|reflexivity]. destruct (sys_settable sys) eqn:E; reflexivity.
Qed.

End ReportTheory.

Lemma getFormattedTime_spec_witness :
  getFormattedTime 0%nat (sample []) = time_text 7 0 0.
Proof.
  refine (proj1 (getFormattedTime_spec 0%nat (sample []) _ _ _)); by_compute.
Defined.
