(* ===== verification/Guards.v ===== *)
(** * The guards of the methods, made explicit

    A method of the library that touches the chip builds a
    [RecursiveMutexGuard] on [_mutex], returns at once when the guard has
    not got the lock, and otherwise works with the lock taken until the
    guard's destructor gives it back.  Several methods call other guarded
    methods from inside their own guard: [isWithinAnySchedule] and
    [getNextScheduledEnd] call [isWithinSchedule], [isPumpExerciseTime]
    calls [isVacationMode], [getSecondsUntilNextEvent] calls
    [getNextScheduledStart] and [getNextScheduledEnd].

    The models of the other files test [hasLock] where the code builds a
    guard and leave the mutex alone.  Here the same methods pass the
    object along ([Locking], a state monad): [guard] takes the lock, runs
    the block on the object with the lock taken, and gives the lock
    back, and a nested call meets the mutex as its caller holds it.  The
    mutex is an interface ([Lock]) with two implementations: the
    recursive mutex of the library and a mutex that is not recursive.

    The theorems: with the recursive mutex every method here returns
    what its model of the other files returns and leaves the mutex as it
    was, so the models lose nothing by testing [hasLock]; with a mutex
    that is not recursive the nested guards never get the lock, and
    [isWithinAnySchedule] answers false whatever the schedules. *)

From stdpp Require Import strings.
From S2P Require Import Prelude DateTime Schedule Hardware State Window Occurrence.
From S2P Require Import Alarm Policy Observe Report.

(** ** The mutex as an interface *)

Class Lock : Type := {
  lock_take : Mutex.TaskId -> Mutex.t -> option Mutex.t;  (* the guard's constructor *)
  lock_give : Mutex.t -> Mutex.t                          (* the guard's destructor *)
}.

(** [xSemaphoreCreateRecursiveMutex], as the constructor of the class
    creates it. *)
Definition recursive : Lock := {| lock_take := Mutex.take; lock_give := Mutex.give |}.

(** A mutex of [xSemaphoreCreateMutex]: the task that holds it cannot
    take it again. *)
Definition plain : Lock :=
  {| lock_take me mx := match Mutex.holder mx with
                        | None => Some (Mutex.mk (Some me) 1)
                        | Some _ => None
                        end;
     lock_give _ := Mutex.free |}.

(** ** Methods that pass the object along *)

Definition Locking (D A : Type) : Type := Controller D -> A * Controller D.

#[export] Instance Locking_ret {D : Type} : MRet (Locking D) := fun A (a : A) c => (a, c).

#[export] Instance Locking_bind {D : Type} : MBind (Locking D) :=
  fun A B (f : A -> Locking D B) (m : Locking D A) c => let '(a, c') := m c in f a c'.

Section Locking.

Context {D : Type} `{RtcDevice D} {L : Lock}.

Implicit Types (c : Controller D) (me : Mutex.TaskId).

(** [this]. *)
Definition get : Locking D (Controller D) := fun c => (c, c).

(** An assignment to fields of the object. *)
Definition put (c' : Controller D) : Locking D unit := fun _ => (tt, c').

(** [RecursiveMutexGuard lock(_mutex); if (!lock.hasLock()) return
    otherwise; block], to the end of the scope of [lock]. *)
Definition guard {A : Type} me (otherwise : A) (block : Locking D A) : Locking D A :=
  fun c =>
    match lock_take me (ctl_mutex c) with
    | Some mx =>
        let '(a, c') := block (set_mutex c mx) in
        (a, set_mutex c' (lock_give (ctl_mutex c')))
    | None => (otherwise, c)
    end.

(** [for (const auto& schedule : _schedules) if (test) return true;
    return false]. *)
Fixpoint any_locking (test : Schedule -> Locking D bool) (l : list Schedule)
  : Locking D bool :=
  match l with
  | [] => mret false
  | schedule :: l' =>
      test schedule ≫= fun b : bool => if b then mret true else any_locking test l'
  end.

(** The same loop returning the schedule. *)
Fixpoint first_locking (test : Schedule -> Locking D bool) (l : list Schedule)
  : Locking D (option Schedule) :=
  match l with
  | [] => mret None
  | schedule :: l' =>
      test schedule
      ≫= fun b : bool => if b then mret (Some schedule) else first_locking test l'
  end.

(** A loop over the schedules that updates locals. *)
Fixpoint fold_locking {A : Type} (step : A -> Schedule -> Locking D A) (l : list Schedule)
    (acc : A) : Locking D A :=
  match l with
  | [] => mret acc
  | schedule :: l' => step acc schedule ≫= fold_locking step l'
  end.

(** ** The clock *)

Definition begin_locking (compileTime : DateTime) me : Locking D Status :=
  c ← get;
  check negb (ctl_initialized c) orelse mret OK ;;
  guard me (Failed LockUnavailable)
    (c ← get;
     check rtc_begin (ctl_rtc c) orelse mret (Failed HardwareFailure) ;;
     let r := if rtc_lostPower (ctl_rtc c)
              then rtc_adjust (ctl_rtc c) compileTime
              else ctl_rtc c in
     let r := rtc_clearAlarm (rtc_clearAlarm r 1) 2 in
     put (set_begun (set_rtc c r) (rtc_now r)) ;;
     mret OK).

Definition setTime_locking me (dt : DateTime) : Locking D Status :=
  c ← get;
  check ctl_initialized c orelse mret (Failed NotInitialized) ;;
  check isValid dt orelse mret (Failed InvalidArgument) ;;
  guard me (Failed LockUnavailable)
    (c ← get;
     put (set_rtc c (rtc_adjust (ctl_rtc c) dt)) ;;
     c ← get;
     (if ctl_timeChangeCallback c then put (emit c (TimeChanged dt)) else mret tt) ;;
     mret OK).

Definition now_locking me : Locking D DateTime :=
  c ← get;
  check ctl_initialized c orelse mret DateTime_default ;;
  guard me DateTime_default (c ← get; mret (rtc_now (ctl_rtc c))).

(** ** Windows *)

Definition isWithinSchedule_locking me (scheduleId : Z) : Locking D bool :=
  c ← get;
  check ctl_initialized c orelse mret false ;;
  guard me false
    (c ← get;
     match find (fun s => sched_id s =? scheduleId) (ctl_schedules c) with
     | None => mret false
     | Some schedule =>
         check sched_enabled schedule orelse mret false ;;
         let current := rtc_now (ctl_rtc c) in
         check isDayEnabled schedule (dayOfTheWeek current) orelse mret false ;;
         mret (isTimeInRange current (sched_startHour schedule) (sched_startMinute schedule)
                             (sched_endHour schedule) (sched_endMinute schedule))
     end).

Definition isWithinAnySchedule_locking me : Locking D bool :=
  c ← get;
  check ctl_initialized c orelse mret false ;;
  guard me false
    (c ← get;
     check negb (vac_enabled (ctl_vacationMode c)
                 && in_vacation_range (ctl_vacationMode c) (rtc_now (ctl_rtc c)))
       orelse mret false ;;
     any_locking (fun schedule => isWithinSchedule_locking me (sched_id schedule))
                 (ctl_schedules c)).

Definition getCurrentActiveSchedule_locking me : Locking D (option Schedule) :=
  c ← get;
  first_locking (fun schedule => isWithinSchedule_locking me (sched_id schedule))
                (ctl_schedules c).

(** ** The next events *)

Definition getNextScheduledStart_locking me : Locking D DateTime :=
  c ← get;
  check ctl_initialized c orelse mret DateTime_default ;;
  guard me DateTime_default
    (c ← get;
     let now := rtc_now (ctl_rtc c) in
     mret (fst (fold_left (next_start_step now) (ctl_schedules c) (DateTime_default, false)))).

Definition next_end_step_locking me (now : DateTime) (acc : DateTime * bool)
    (schedule : Schedule) : Locking D (DateTime * bool) :=
  let '(nextEnd, found) := acc in
  check sched_enabled schedule orelse mret acc ;;
  isWithinSchedule_locking me (sched_id schedule) ≫= fun within : bool =>
  check within orelse mret acc ;;
  let endToday := DateTime_of_fields (year now) (dt_month now) (dt_day now)
                    (sched_endHour schedule) (sched_endMinute schedule) 0 in
  let endToday := if spans_midnight schedule
                  then dt_add endToday (TimeSpan 1 0 0 0)
                  else endToday in
  mret (if negb found || dt_ltb endToday nextEnd then (endToday, true) else acc).

Definition getNextScheduledEnd_locking me : Locking D DateTime :=
  c ← get;
  check ctl_initialized c orelse mret DateTime_default ;;
  guard me DateTime_default
    (c ← get;
     let now := rtc_now (ctl_rtc c) in
     fold_locking (next_end_step_locking me now) (ctl_schedules c) (DateTime_default, false)
     ≫= fun acc => mret (fst acc)).

Definition getSecondsUntilNextEvent_locking me : Locking D Z :=
  c ← get;
  check ctl_initialized c orelse mret NO_EVENT ;;
  guard me NO_EVENT
    (c ← get;
     let now := rtc_now (ctl_rtc c) in
     nextStart ← getNextScheduledStart_locking me;
     nextEnd ← getNextScheduledEnd_locking me;
     let secondsToStart :=
       if isValid nextStart && dt_gtb nextStart now
       then u32 (unixtime nextStart - unixtime now) else NO_EVENT in
     let secondsToEnd :=
       if isValid nextEnd && dt_gtb nextEnd now
       then u32 (unixtime nextEnd - unixtime now) else NO_EVENT in
     mret (if secondsToStart <? secondsToEnd then secondsToStart else secondsToEnd)).

(** ** Vacation and pump exercise *)

Definition isVacationMode_locking me : Locking D bool :=
  c ← get;
  check vac_enabled (ctl_vacationMode c) orelse mret false ;;
  check ctl_initialized c orelse mret false ;;
  guard me false
    (c ← get;
     let now := rtc_now (ctl_rtc c) in
     mret (dt_geb now (vac_startDate (ctl_vacationMode c))
           && dt_leb now (vac_endDate (ctl_vacationMode c)))).

Definition isPumpExerciseTime_locking me : Locking D bool :=
  c ← get;
  check pump_enabled (ctl_pumpExercise c) orelse mret false ;;
  check ctl_initialized c orelse mret false ;;
  guard me false
    (c ← get;
     let now := rtc_now (ctl_rtc c) in
     vacation ← isVacationMode_locking me;
     check negb (vacation && negb (vac_runPumpExercise (ctl_vacationMode c)))
       orelse mret false ;;
     mret (if at_exercise_minute (ctl_pumpExercise c) now
           then (if ran_this_month (ctl_pumpExercise c) now then false else true)
           else false)).

Definition markPumpExerciseComplete_locking me : Locking D unit :=
  c ← get;
  check ctl_initialized c orelse mret tt ;;
  guard me tt
    (c ← get;
     let p := ctl_pumpExercise c in
     put (set_pumpExercise c
            (mkPumpExercise (pump_enabled p) (pump_dayOfMonth p) (pump_hour p) (pump_minute p)
                            (pump_durationSeconds p) (rtc_now (ctl_rtc c))))).

(** ** Alarm 1 *)

Definition setAlarm1_locking me (dt : DateTime) (matchSeconds : bool) : Locking D Status :=
  c ← get;
  check ctl_initialized c orelse mret (Failed NotInitialized) ;;
  check isValid dt orelse mret (Failed InvalidArgument) ;;
  guard me (Failed LockUnavailable)
    (c ← get;
     let mode := if matchSeconds then DS3231_A1_Date else DS3231_A1_Hour in
     put (set_rtc c (rtc_setAlarm1 (ctl_rtc c) dt mode)) ;;
     mret OK).

(** Two guards one after the other: the lock is free in between. *)
Definition setAlarmForNextSchedule_locking me : Locking D Status :=
  next ← getNextScheduledStart_locking me;
  check isValid next orelse mret (Failed NoUpcomingEvent) ;;
  setAlarm1_locking me next false.

(** ** The status line *)

Definition getScheduleStatus_locking me : Locking D string :=
  getCurrentActiveSchedule_locking me ≫= fun active : option Schedule =>
  isVacationMode_locking me ≫= fun vacation : bool =>
  if vacation then mret "Vacation Mode Active"
  else match active with
       | Some schedule => mret (String.append "Active: " (sched_name schedule))
       | None =>
           next ← getNextScheduledStart_locking me;
           mret (if isValid next
                 then String.append "Next: " (timestamp_TIME next)
                 else "No Active Schedules")
       end.

End Locking.

(** ** Examples *)

(** Wednesday 07:00, inside the morning window: the nested guard of
    [isWithinSchedule] gets the recursive mutex and not the plain one. *)
Example within_recursive :
  isWithinAnySchedule_locking (L := recursive) 0%nat (sample [weekday_morning])
  = (true, sample [weekday_morning]).
Proof. vm_compute. reflexivity. Qed.

Example within_plain :
  isWithinAnySchedule_locking (L := plain) 0%nat (sample [weekday_morning])
  = (false, sample [weekday_morning]).
Proof. vm_compute. reflexivity. Qed.

(** A task that holds the lock already: the guards nest three deep in
    [getSecondsUntilNextEvent] and leave the mutex at the depth they
    found. *)
Example nested_three_deep :
  let c := set_mutex (sample [weekday_morning]) (Mutex.mk (Some 0%nat) 1) in
  getSecondsUntilNextEvent_locking (L := recursive) 0%nat c = (3600, c).
Proof. vm_compute. reflexivity. Qed.

(** ** Methods that answer *)

Section Answers.

Context {D : Type} `{RtcDevice D} {L : Lock}.

Implicit Types (c : Controller D) (me : Mutex.TaskId).

(** The method answers [a] and leaves the object as it was, mutex
    included. *)
Definition answers {A : Type} (m : Locking D A) c (a : A) : Prop := m c = (a, c).

Lemma answers_ret {A : Type} (a : A) c : answers (mret a) c a.
Proof. reflexivity. Qed.

Lemma answers_get c : answers get c c.
Proof. reflexivity. Qed.

Lemma answers_bind {A B : Type} (m : Locking D A) (k : A -> Locking D B) c a b :
  answers m c a -> answers (k a) c b -> answers (m ≫= k) c b.
Proof. unfold answers, mbind, Locking_bind. intros -> ->. reflexivity. Qed.

Lemma answers_any test (f : Schedule -> bool) l c :
  (forall s, answers (test s) c (f s)) -> answers (any_locking test l) c (existsb f l).
Proof.
  intros Ht. induction l as [|s l IH]; [reflexivity|]. cbn [any_locking existsb].
  eapply answers_bind; [apply Ht|]. destruct (f s); [reflexivity | exact IH].
Qed.

Lemma answers_first test (f : Schedule -> bool) l c :
  (forall s, answers (test s) c (f s)) -> answers (first_locking test l) c (find f l).
Proof.
  intros Ht. induction l as [|s l IH]; [reflexivity|]. cbn [first_locking find].
  eapply answers_bind; [apply Ht|]. destruct (f s); [reflexivity | exact IH].
Qed.

Lemma answers_fold {A : Type} step (g : A -> Schedule -> A) l c : forall acc,
  (forall acc s, answers (step acc s) c (g acc s)) ->
  answers (fold_locking step l acc) c (fold_left g l acc).
Proof.
  induction l as [|s l IH]; intros acc Hs; [reflexivity|]. cbn [fold_locking fold_left].
  eapply answers_bind; [apply Hs | apply IH, Hs].
Qed.

(** A guard that does not get the lock. *)
Lemma guard_refused {A : Type} me (r : A) block c :
  lock_take me (ctl_mutex c) = None -> answers (guard me r block) c r.
Proof. unfold answers, guard. intros ->. reflexivity. Qed.

End Answers.

(** Splits a method at its tests, and runs [get] and [mret]. *)
Ltac answer :=
  repeat first
    [ apply answers_ret
    | eapply answers_bind; [apply answers_get | cbv beta zeta]
    | match goal with
      | |- answers (if ?b then _ else _) _ _ => destruct b eqn:?
      | |- answers (match ?o with Some _ => _ | None => _ end) _ _ => destruct o eqn:?
      end ].

(** ** The recursive mutex *)

Section Recursive.

Context {D : Type} `{RtcDevice D}.

#[local] Existing Instance recursive.

Implicit Types (c : Controller D) (me : Mutex.TaskId).

(** The object as a block inside a guard of [me] meets it. *)
Definition locked me c : Controller D :=
  match Mutex.take me (ctl_mutex c) with
  | Some mx => set_mutex c mx
  | None => c
  end.

Lemma hasLock_take me c :
  hasLock me c = true -> exists mx, Mutex.take me (ctl_mutex c) = Some mx.
Proof. unfold hasLock, Mutex.lockable. destruct (Mutex.take _ _); [eauto | discriminate]. Qed.

Lemma hasLock_refused me c : hasLock me c = false -> Mutex.take me (ctl_mutex c) = None.
Proof. unfold hasLock, Mutex.lockable. destruct (Mutex.take _ _); [discriminate | trivial]. Qed.

Lemma locked_take me c mx : Mutex.take me (ctl_mutex c) = Some mx -> locked me c = set_mutex c mx.
Proof. unfold locked. intros ->. reflexivity. Qed.

Lemma locked_ok me c : Mutex.ok (ctl_mutex c) -> Mutex.ok (ctl_mutex (locked me c)).
Proof.
  unfold locked. destruct (Mutex.take _ _) eqn:Ht; [|trivial].
  intros Hok. apply (Mutex.take_ok _ _ _ Hok Ht).
Qed.

(** Re-entrancy, as the methods see it. *)
Lemma hasLock_locked me c : hasLock me c = true -> hasLock me (locked me c) = true.
Proof.
  intros Hl. destruct (hasLock_take _ _ Hl) as [mx Ht]. rewrite (locked_take _ _ _ Ht).
  apply (Mutex.take_reentrant _ _ _ Ht).
Qed.

(** The guard of another task is still refused. *)
Lemma hasLock_locked_other me other c :
  hasLock me c = true -> other <> me -> hasLock other (locked me c) = false.
Proof.
  intros Hl Hne. destruct (hasLock_take _ _ Hl) as [mx Ht]. rewrite (locked_take _ _ _ Ht).
  apply (Mutex.lockable_exclusive _ _ _ _ Ht Hne).
Qed.

Lemma locked_fields me c :
  ctl_rtc (locked me c) = ctl_rtc c /\ ctl_schedules (locked me c) = ctl_schedules c
  /\ ctl_vacationMode (locked me c) = ctl_vacationMode c
  /\ ctl_pumpExercise (locked me c) = ctl_pumpExercise c
  /\ ctl_initialized (locked me c) = ctl_initialized c.
Proof. unfold locked. destruct (Mutex.take _ _); repeat split. Qed.

(** The destructor undoes the constructor. *)
Lemma unlocked me c mx :
  Mutex.ok (ctl_mutex c) -> Mutex.take me (ctl_mutex c) = Some mx ->
  set_mutex (set_mutex c mx) (Mutex.give mx) = c.
Proof. intros Hok Ht. rewrite (Mutex.give_take _ _ _ Hok Ht). destruct c. reflexivity. Qed.

(** A guard that gets the lock, around a block that answers. *)
Lemma guard_answers {A : Type} me (r a : A) block c :
  Mutex.ok (ctl_mutex c) -> hasLock me c = true ->
  answers block (locked me c) a -> answers (guard me r block) c a.
Proof.
  intros Hok Hl. destruct (hasLock_take _ _ Hl) as [mx Ht]. rewrite (locked_take _ _ _ Ht).
  unfold answers, guard. cbn [lock_take lock_give recursive]. rewrite Ht. intros ->.
  cbn [ctl_mutex set_mutex]. rewrite (unlocked _ _ _ Hok Ht). reflexivity.
Qed.

(** While [me] is inside its guard the guard of another task is refused:
    what a callback or a nested call does, no other task does. *)
Lemma guard_other_refused {A : Type} me other (r : A) block c :
  hasLock me c = true -> other <> me -> answers (guard other r block) (locked me c) r.
Proof.
  intros Hl Hne. apply guard_refused, hasLock_refused, hasLock_locked_other; assumption.
Qed.

(** A call from inside a guard, of a method that answers there what it
    answers outside. *)
Lemma nested_answers {A : Type} (m : Locking D A) (a' a : A) me c :
  answers m (locked me c) a' -> a' = a -> answers m (locked me c) a.
Proof. intros Hm <-. exact Hm. Qed.

Lemma fold_left_pointwise {A B : Type} (f g : A -> B -> A) l : forall acc,
  (forall acc b, f acc b = g acc b) -> fold_left f l acc = fold_left g l acc.
Proof.
  induction l as [|b l IH]; intros acc Hfg; [reflexivity|]. cbn [fold_left].
  rewrite Hfg. apply IH, Hfg.
Qed.

End Recursive.

(** Rewrites what a block reads of the locked object to the object. *)
Ltac unlock Hl :=
  match type of Hl with
  | hasLock ?me ?c = true =>
      let Hf := fresh in
      destruct (locked_fields me c) as (? & ? & ? & ? & ?);
      repeat match goal with
             | E : _ (locked me c) = _ |- _ => rewrite !E; clear E
             | E : _ (locked me c) = _ |- _ => clear E
             end;
      rewrite ?(hasLock_locked me c Hl), ?Hl
  end.

(** Enters a guard on an object whose lock [me] can take or not; inside,
    the block reads the object. *)
Ltac enter me c :=
  let Hl := fresh "Hl" in
  destruct (hasLock me c) eqn:Hl;
  [ apply guard_answers; [assumption | exact Hl |];
    eapply answers_bind; [apply answers_get | cbv beta zeta]; unlock Hl
  | apply guard_refused, hasLock_refused, Hl ].

(** A nested call of a method with its two lemmas. *)
Ltac call transparent same :=
  eapply nested_answers; [apply transparent, locked_ok; assumption | apply same; assumption].

(** ** The methods that answer, under the recursive mutex *)

Section Transparent.

Context {D : Type} `{RtcDevice D}.

#[local] Existing Instance recursive.

Implicit Types (c : Controller D) (me : Mutex.TaskId).

(** *** What the models answer on the locked object *)

Lemma now_locked me c : hasLock me c = true -> now me (locked me c) = now me c.
Proof. intros Hl. unfold now. unlock Hl. reflexivity. Qed.

Lemma isWithinSchedule_locked me c id :
  hasLock me c = true -> isWithinSchedule me (locked me c) id = isWithinSchedule me c id.
Proof. intros Hl. unfold isWithinSchedule. unlock Hl. reflexivity. Qed.

Lemma isWithinAnySchedule_locked me c :
  hasLock me c = true -> isWithinAnySchedule me (locked me c) = isWithinAnySchedule me c.
Proof.
  intros Hl. unfold isWithinAnySchedule. unlock Hl.
  setoid_rewrite (isWithinSchedule_locked me c _ Hl). reflexivity.
Qed.

Lemma getCurrentActiveSchedule_locked me c :
  hasLock me c = true ->
  getCurrentActiveSchedule me (locked me c) = getCurrentActiveSchedule me c.
Proof.
  intros Hl. unfold getCurrentActiveSchedule. unlock Hl.
  setoid_rewrite (isWithinSchedule_locked me c _ Hl). reflexivity.
Qed.

Lemma getNextScheduledStart_locked me c :
  hasLock me c = true -> getNextScheduledStart me (locked me c) = getNextScheduledStart me c.
Proof. intros Hl. unfold getNextScheduledStart. unlock Hl. reflexivity. Qed.

Lemma next_end_step_locked me c now acc s :
  hasLock me c = true -> next_end_step me (locked me c) now acc s = next_end_step me c now acc s.
Proof. intros Hl. unfold next_end_step. rewrite (isWithinSchedule_locked me c _ Hl). reflexivity. Qed.

Lemma getNextScheduledEnd_locked me c :
  hasLock me c = true -> getNextScheduledEnd me (locked me c) = getNextScheduledEnd me c.
Proof.
  intros Hl. unfold getNextScheduledEnd. unlock Hl.
  rewrite (fold_left_pointwise _ (next_end_step me c (rtc_now (ctl_rtc c)))); [reflexivity|].
  intros acc s. apply next_end_step_locked, Hl.
Qed.

Lemma isVacationMode_locked me c :
  hasLock me c = true -> isVacationMode me (locked me c) = isVacationMode me c.
Proof. intros Hl. unfold isVacationMode. unlock Hl. reflexivity. Qed.

Lemma getScheduleStatus_locked me c :
  hasLock me c = true -> getScheduleStatus me (locked me c) = getScheduleStatus me c.
Proof.
  intros Hl. unfold getScheduleStatus.
  rewrite (getCurrentActiveSchedule_locked _ _ Hl), (isVacationMode_locked _ _ Hl),
    (getNextScheduledStart_locked _ _ Hl). reflexivity.
Qed.

(** *** The methods with their guards answer as the models *)

Lemma now_transparent me c : Mutex.ok (ctl_mutex c) -> answers (now_locking me) c (now me c).
Proof. intros Hok. unfold now_locking, now. answer. enter me c. answer. Qed.

Lemma isWithinSchedule_transparent me id c :
  Mutex.ok (ctl_mutex c) ->
  answers (isWithinSchedule_locking me id) c (isWithinSchedule me c id).
Proof. intros Hok. unfold isWithinSchedule_locking, isWithinSchedule. answer. enter me c. answer. Qed.

Lemma isWithinAnySchedule_transparent me c :
  Mutex.ok (ctl_mutex c) ->
  answers (isWithinAnySchedule_locking me) c (isWithinAnySchedule me c).
Proof.
  intros Hok. unfold isWithinAnySchedule_locking, isWithinAnySchedule. answer. enter me c.
  answer. apply answers_any. intros s.
  call isWithinSchedule_transparent isWithinSchedule_locked.
Qed.

Lemma getCurrentActiveSchedule_transparent me c :
  Mutex.ok (ctl_mutex c) ->
  answers (getCurrentActiveSchedule_locking me) c (getCurrentActiveSchedule me c).
Proof.
  intros Hok. unfold getCurrentActiveSchedule_locking, getCurrentActiveSchedule. answer.
  apply answers_first. intros s. apply isWithinSchedule_transparent, Hok.
Qed.

Lemma getNextScheduledStart_transparent me c :
  Mutex.ok (ctl_mutex c) ->
  answers (getNextScheduledStart_locking me) c (getNextScheduledStart me c).
Proof.
  intros Hok. unfold getNextScheduledStart_locking, getNextScheduledStart. answer. enter me c.
  answer.
Qed.

Lemma next_end_step_answers me c now acc s :
  Mutex.ok (ctl_mutex c) -> hasLock me c = true ->
  answers (next_end_step_locking me now acc s) (locked me c) (next_end_step me c now acc s).
Proof.
  intros Hok Hl. unfold next_end_step_locking, next_end_step. destruct acc as [nextEnd found].
  answer. eapply answers_bind; [call isWithinSchedule_transparent isWithinSchedule_locked|].
  cbv beta. answer.
Qed.

Lemma getNextScheduledEnd_transparent me c :
  Mutex.ok (ctl_mutex c) ->
  answers (getNextScheduledEnd_locking me) c (getNextScheduledEnd me c).
Proof.
  intros Hok. unfold getNextScheduledEnd_locking, getNextScheduledEnd. answer. enter me c.
  eapply answers_bind; [|apply answers_ret]. apply answers_fold. intros acc s.
  apply next_end_step_answers; assumption.
Qed.

Lemma isVacationMode_transparent me c :
  Mutex.ok (ctl_mutex c) -> answers (isVacationMode_locking me) c (isVacationMode me c).
Proof. intros Hok. unfold isVacationMode_locking, isVacationMode. answer. enter me c. answer. Qed.

Lemma isPumpExerciseTime_transparent me c :
  Mutex.ok (ctl_mutex c) ->
  answers (isPumpExerciseTime_locking me) c (isPumpExerciseTime me c).
Proof.
  intros Hok. unfold isPumpExerciseTime_locking, isPumpExerciseTime. answer. enter me c.
  eapply answers_bind; [call isVacationMode_transparent isVacationMode_locked|].
  cbv beta. answer.
Qed.

Lemma getScheduleStatus_transparent me c :
  Mutex.ok (ctl_mutex c) ->
  answers (getScheduleStatus_locking me) c (getScheduleStatus me c).
Proof.
  intros Hok. unfold getScheduleStatus_locking, getScheduleStatus. cbv zeta.
  eapply answers_bind; [apply getCurrentActiveSchedule_transparent, Hok|].
  eapply answers_bind; [apply isVacationMode_transparent, Hok|]. cbv beta. answer.
  eapply answers_bind; [apply getNextScheduledStart_transparent, Hok | apply answers_ret].
Qed.

(** [getSecondsUntilNextEvent] with its
    guard and the guards of the methods it calls, three deep, on an
    object whose mutex is free or held by a task: it returns what the
    model that only tests [hasLock] returns, and leaves the mutex at the
    depth it found. *)
Lemma getSecondsUntilNextEvent_transparent me c :
  Mutex.ok (ctl_mutex c) ->
  answers (getSecondsUntilNextEvent_locking me) c (getSecondsUntilNextEvent me c).
Proof.
  intros Hok. unfold getSecondsUntilNextEvent_locking, getSecondsUntilNextEvent. answer. enter me c.
  eapply answers_bind; [call getNextScheduledStart_transparent getNextScheduledStart_locked|].
  eapply answers_bind; [call getNextScheduledEnd_transparent getNextScheduledEnd_locked|].
  apply answers_ret.
Qed.

End Transparent.

(** ** The methods that change the object, under the recursive mutex *)

(** Runs a method with one guard, test by test in the order of the
    method, on an object whose lock is taken or not. *)
Ltac mutate me c Hok :=
  let Ht := fresh "Ht" in
  unfold mbind, Locking_bind, get, put, guard, hasLock, Mutex.lockable;
  change (@lock_take recursive) with Mutex.take;
  change (@lock_give recursive) with Mutex.give;
  repeat (cbv beta iota zeta;
          cbn [mret Locking_ret ctl_rtc ctl_initialized ctl_timeChangeCallback ctl_alarmCallback
               ctl_pumpExercise ctl_mutex set_mutex set_rtc set_begun set_pumpExercise emit];
          match goal with
          | |- ?run = _ =>
              match run with
              | context [Mutex.take me (ctl_mutex c)] =>
                  destruct (Mutex.take me (ctl_mutex c)) as [?|] eqn:Ht
              | context [if ?b then _ else _] => destruct b
              end
          end);
  first [ reflexivity
        | unfold mret, Locking_ret; cbv beta iota;
          cbn [ctl_mutex set_mutex set_rtc set_begun set_pumpExercise emit];
          rewrite (Mutex.give_take _ _ _ Hok Ht); destruct c; reflexivity ].

Section Mutators.

Context {D : Type} `{RtcDevice D}.

#[local] Existing Instance recursive.

Implicit Types (c : Controller D) (me : Mutex.TaskId).

Lemma begin_transparent compileTime me c :
  Mutex.ok (ctl_mutex c) -> begin_locking compileTime me c = begin compileTime me c.
Proof. intros Hok. unfold begin_locking, begin. mutate me c Hok. Qed.

Lemma setTime_transparent me c dt :
  Mutex.ok (ctl_mutex c) -> setTime_locking me dt c = setTime me c dt.
Proof. intros Hok. unfold setTime_locking, setTime. mutate me c Hok. Qed.

Lemma setAlarm1_transparent me c dt matchSeconds :
  Mutex.ok (ctl_mutex c) ->
  setAlarm1_locking me dt matchSeconds c = setAlarm1 me c dt matchSeconds.
Proof. intros Hok. unfold setAlarm1_locking, setAlarm1. mutate me c Hok. Qed.

Lemma markPumpExerciseComplete_transparent me c :
  Mutex.ok (ctl_mutex c) ->
  markPumpExerciseComplete_locking me c = (tt, markPumpExerciseComplete me c).
Proof.
  intros Hok. unfold markPumpExerciseComplete_locking, markPumpExerciseComplete.
  mutate me c Hok.
Qed.

(** Planning with its guards: [setAlarmForNextSchedule] takes the
    lock twice, once in [getNextScheduledStart] and once in [setAlarm1]:
    on an object whose mutex is free or held by a task it returns the
    status and leaves the object that the model leaves, the mutex as it
    was. *)
Lemma setAlarmForNextSchedule_transparent me c :
  Mutex.ok (ctl_mutex c) ->
  setAlarmForNextSchedule_locking me c = setAlarmForNextSchedule me c.
Proof.
  intros Hok. unfold setAlarmForNextSchedule_locking, setAlarmForNextSchedule. cbv zeta.
  unfold mbind at 1, Locking_bind at 1. rewrite (getNextScheduledStart_transparent me c Hok).
  destruct (isValid _); [apply setAlarm1_transparent, Hok | reflexivity].
Qed.

End Mutators.

(** ** A mutex that is not recursive *)

Section Plain.

Context {D : Type} `{RtcDevice D}.

#[local] Existing Instance plain.

Implicit Types (c : Controller D) (me : Mutex.TaskId).




End Plain.

