(* ===== verification/Temperature.v ===== *)
(** * Temperature and the constant answers

    [getTemperature] and [getTemperatureCelsius] read the chip's
    temperature through RTClib and convert it to Fahrenheit in floating
    point; [adjustDrift], [isTemperatureCompensationEnabled],
    [enableBatteryBackup] and [getBatteryVoltage] answer with a constant.

    A [float] is an IEEE 754 binary32 number and a [double] a binary64
    number, both as the standard library's [spec_float] with its
    operations at the precision of the format; every operation rounds to
    nearest, ties to even.  The expression
    [data.celsius * 9.0 / 5.0 + 32.0] is evaluated in [double], because
    its constants are, and rounded to [float] by the assignment.

    The chip reports the temperature in quarters of a degree, in two
    bytes.  The theorems: RTClib's reading is exactly the register's
    value; the Fahrenheit value stored is within half a unit in the last
    place of the exact conversion, for every reading; and what the two
    methods return when the object is not ready. *)

From Stdlib Require Import Floats.SpecFloat.
From S2P Require Import Prelude DateTime Hardware State.

(** ** Floating point *)

Definition float32 : Type := spec_float.
Definition float64 : Type := spec_float.

#[export] Instance spec_float_eq_dec : EqDecision spec_float.
Proof. solve_decision. Defined.

(** The [float] and the [double] nearest to [m * 2 ^ e]. *)
Definition f32 (m e : Z) : float32 := binary_normalize 24 128 m e false.
Definition f64 (m e : Z) : float64 := binary_normalize 53 1024 m e false.

(** The promotion of a [float] to [double], which is exact, and the
    conversion of a [double] to [float], which rounds. *)
Definition to_double (x : float32) : float64 :=
  match x with
  | S754_finite s m e => binary_normalize 53 1024 (cond_Zopp s (Zpos m)) e s
  | _ => x
  end.

Definition to_float (x : float64) : float32 :=
  match x with
  | S754_finite s m e => binary_normalize 24 128 (cond_Zopp s (Zpos m)) e s
  | _ => x
  end.

(** [value * 2 ^ k], when that is an integer. *)
Definition scaled (k : Z) (x : spec_float) : option Z :=
  match x with
  | S754_zero _ => Some 0
  | S754_finite s m e =>
      if 0 <=? e + k then Some (cond_Zopp s (Zpos m * 2 ^ (e + k)))
      else if Zpos m mod 2 ^ (- (e + k)) =? 0
           then Some (cond_Zopp s (Zpos m / 2 ^ (- (e + k))))
           else None
  | _ => None
  end.

(** [x] is positive, and no further from [num / den] than half the
    distance to its neighbours of the same exponent. *)
Definition within_half_ulp (x : spec_float) (num den : Z) : bool :=
  match x with
  | S754_finite false m e =>
      (e <? 0) && (2 * Z.abs (den * Zpos m - num * 2 ^ (- e)) <=? den)
  | _ => false
  end.

(** ** The sensor *)

(** RTClib's [RTC_DS3231::getTemperature()] on the two bytes of the
    temperature register:
    [(float)buffer[0] + (buffer[1] >> 6) * 0.25f]. *)
Definition temperature_of_register (msb lsb : Z) : float32 :=
  SFadd 24 128 (f32 msb 0) (SFmul 24 128 (f32 (Z.shiftr lsb 6) 0) (f32 1 (-2))).

(** The reading of [quarters] quarter degrees. *)
Definition reading (quarters : Z) : float32 := f32 quarters (-2).

Class Thermometer (D : Type) : Type := {
  rtc_getTemperature : D -> float32   (* getTemperature() *)
}.

(** The simulated chip sits at 25.25 degrees. *)
#[export] Instance SimRtc_thermometer : Thermometer SimRtc := {
  rtc_getTemperature := fun _ => temperature_of_register 25 64
}.

(** ** The methods *)

(** [struct TemperatureData]. *)
Record TemperatureData : Type := mkTemperatureData {
  celsius : float32;
  fahrenheit : float32;
  timestamp : DateTime
}.

(** [celsius * 9.0 / 5.0 + 32.0], assigned to a [float]. *)
Definition to_fahrenheit (celsius : float32) : float32 :=
  to_float (SFadd 53 1024
              (SFdiv 53 1024 (SFmul 53 1024 (to_double celsius) (f64 9 0)) (f64 5 0))
              (f64 32 0)).

Section Temperature.

Context {D : Type} `{RtcDevice D} `{Thermometer D}.

Implicit Types (c : Controller D) (me : Mutex.TaskId).

(** [getTemperature()]. *)
Definition getTemperature me c : TemperatureData :=
  let data := mkTemperatureData (f32 0 0) (f32 32 0) DateTime_default in
  check ctl_initialized c orelse data ;;
  check hasLock me c orelse data ;;
  let celsius := rtc_getTemperature (ctl_rtc c) in
  mkTemperatureData celsius (to_fahrenheit celsius) (rtc_now (ctl_rtc c)).

(** [getTemperatureCelsius()]. *)
Definition getTemperatureCelsius me c : float32 :=
  check ctl_initialized c orelse f32 0 0 ;;
  check hasLock me c orelse f32 0 0 ;;
  rtc_getTemperature (ctl_rtc c).

(** [adjustDrift(secondsPerMonth)]: not implemented, [false]. *)
Definition adjustDrift c (secondsPerMonth : Z) : bool := false.

(** [isTemperatureCompensationEnabled()]. *)
Definition isTemperatureCompensationEnabled c : bool := true.

(** [enableBatteryBackup(enable)]: only logs. *)
Definition enableBatteryBackup c (enable : bool) : Controller D := c.

(** [getBatteryVoltage()]: [-1.0f]. *)
Definition getBatteryVoltage c : float32 := SFopp (f32 1 0).

End Temperature.

(** ** Examples *)

(** The sample chip: 25.25 degrees Celsius are 101 quarters, and 77.45
    degrees Fahrenheit, which is stored as 10151526 / 2 ^ 17. *)
Example sample_temperature :
  let d := getTemperature 0%nat (sample []) in
  scaled 2 (celsius d) = Some 101
  /\ fahrenheit d = S754_finite false 10151526 (-17)
  /\ timestamp d = DateTime_of_fields 2024 1 17 7 0 0.
Proof. vm_compute. auto. Qed.

Example freezing_point : to_fahrenheit (reading 0) = f32 32 0.
Proof. vm_compute. reflexivity. Qed.

Example battery_voltage : scaled 0 (getBatteryVoltage (sample [])) = Some (-1).
Proof. vm_compute. reflexivity. Qed.

(** ** Theory *)

(** The four quarters of each of the 256 degrees, by enumeration. *)
Lemma temperature_of_register_quarters n :
  0 <= n < 1024 ->
  SFadd 24 128 (f32 (n / 4) 0) (SFmul 24 128 (f32 (n mod 4) 0) (f32 1 (-2))) = reading n.
Proof.
  apply (forall_below
           (fun n => SFadd 24 128 (f32 (n / 4) 0) (SFmul 24 128 (f32 (n mod 4) 0) (f32 1 (-2)))
                     = reading n) 1024).
  by_compute.
Qed.

Lemma reading_scaled n : 0 <= n < 1024 -> scaled 2 (reading n) = Some n.
Proof. apply (forall_below (fun n => scaled 2 (reading n) = Some n) 1024). by_compute. Qed.

Lemma reading_fahrenheit n :
  0 <= n < 1024 -> within_half_ulp (to_fahrenheit (reading n)) (9 * n + 640) 20 = true.
Proof.
  apply (forall_below
           (fun n => within_half_ulp (to_fahrenheit (reading n)) (9 * n + 640) 20 = true) 1024).
  by_compute.
Qed.

Lemma reading_fahrenheit_valid n :
  0 <= n < 1024 -> valid_binary 24 128 (to_fahrenheit (reading n)) = true.
Proof.
  apply (forall_below (fun n => valid_binary 24 128 (to_fahrenheit (reading n)) = true) 1024).
  by_compute.
Qed.

(** The top two bits of a byte. *)
Lemma byte_top_bits lsb : 0 <= lsb < 256 -> 0 <= Z.shiftr lsb 6 < 4.
Proof. intros Hl. rewrite Z.shiftr_div_pow2 by lia. change (2 ^ 6) with 64. zdiv. Qed.

(** RTClib reads the register exactly: no rounding happens in its sum. *)
Theorem temperature_of_register_exact msb lsb :
  0 <= msb < 256 -> 0 <= lsb < 256 ->
  temperature_of_register msb lsb = reading (4 * msb + Z.shiftr lsb 6).
Proof.
  intros Hm Hl. pose proof (byte_top_bits lsb Hl) as Hk. unfold temperature_of_register.
  rewrite <- temperature_of_register_quarters by lia.
  replace ((4 * msb + Z.shiftr lsb 6) / 4) with msb by zdiv.
  replace ((4 * msb + Z.shiftr lsb 6) mod 4) with (Z.shiftr lsb 6) by zdiv.
  reflexivity.
Qed.

Section TemperatureTheory.

Context {D : Type} `{RtcDevice D} `{Thermometer D}.

Implicit Types (c : Controller D) (me : Mutex.TaskId).

Lemma getTemperature_ready me c :
  ready me c ->
  getTemperature me c
  = mkTemperatureData (rtc_getTemperature (ctl_rtc c))
      (to_fahrenheit (rtc_getTemperature (ctl_rtc c))) (rtc_now (ctl_rtc c)).
Proof. intros (Hi & Hl). unfold getTemperature. rewrite Hi, Hl. reflexivity. Qed.

(** The temperature.  On a ready object whose chip holds the bytes
    [msb] and [lsb] in its temperature register, [getTemperature] returns
    the time of the clock, the Celsius value that is exactly the
    register's count of quarter degrees, and a Fahrenheit value that is a
    [float] within half a unit in the last place of the exact
    [celsius * 9 / 5 + 32]: the two roundings of the computation in
    [double] never add up to a wrong [float]. *)
Theorem getTemperature_spec me c msb lsb :
  ready me c -> 0 <= msb < 256 -> 0 <= lsb < 256 ->
  rtc_getTemperature (ctl_rtc c) = temperature_of_register msb lsb ->
  let quarters := 4 * msb + Z.shiftr lsb 6 in
  let d := getTemperature me c in
  timestamp d = rtc_now (ctl_rtc c)
  /\ scaled 2 (celsius d) = Some quarters
  /\ valid_binary 24 128 (fahrenheit d) = true
  /\ within_half_ulp (fahrenheit d) (9 * quarters + 640) 20 = true.
Proof.
  intros Hr Hm Hl Ht. pose proof (byte_top_bits lsb Hl) as Hk. cbv zeta.
  rewrite (getTemperature_ready me c Hr), Ht, (temperature_of_register_exact msb lsb Hm Hl).
  cbn [timestamp celsius fahrenheit].
  split; [reflexivity|].
  split; [apply reading_scaled; lia|].
  split; [apply reading_fahrenheit_valid | apply reading_fahrenheit]; lia.
Qed.

(** On an object that is not initialised, or whose lock another task
    holds, both methods answer 0 degrees Celsius, and [getTemperature] 32
    degrees Fahrenheit with the default timestamp. *)
Theorem getTemperature_not_ready me c :
  ctl_initialized c = false \/ hasLock me c = false ->
  getTemperature me c = mkTemperatureData (f32 0 0) (f32 32 0) DateTime_default
  /\ getTemperatureCelsius me c = f32 0 0.
Proof.
  unfold getTemperature, getTemperatureCelsius.
  intros [Hi | Hl]; [rewrite Hi | rewrite Hl; destruct (ctl_initialized c)]; auto.
Qed.

(** The two methods agree on the Celsius value. *)
Theorem getTemperatureCelsius_spec me c :
  getTemperatureCelsius me c = celsius (getTemperature me c).
Proof.
  unfold getTemperature, getTemperatureCelsius.
  destruct (ctl_initialized c), (hasLock me c); reflexivity.
Qed.

End TemperatureTheory.

Lemma getTemperature_spec_witness :
  within_half_ulp (fahrenheit (getTemperature 0%nat (sample []))) (9 * 101 + 640) 20 = true.
Proof.
  pose proof (getTemperature_spec 0%nat (sample []) 25 64) as P. cbv zeta in P.
  apply P; [apply sample_ready | lia | lia | reflexivity].
Defined.
