(* ===== verification/FloatText.v ===== *)
(** * Printing floating-point numbers

    The two ways the code prints a [float]: [printf] with [%.1f] and
    [%.2f] (the hot water sketch and the log lines of the library), and
    Arduino's [Print::print(double)], which is [printFloat] with two
    digits (the basic sketch).  Both get the [float] promoted to
    [double].

    [printf_f] is the conversion of the C library: the decimal nearest to
    the exact value of the number, ties to even.  [printFloat] is the
    algorithm of the Arduino core, which adds half a unit of the last
    digit and then cuts digits off one at a time, all in [double].

    The theorems: on every reading of the chip both print the reading's
    two decimals exactly, and so agree; and [%.2f] of the Fahrenheit value
    that [getTemperature] computes prints the exact conversion, although
    the [float] holds a rounded one. *)

From Stdlib Require Import Ascii String Floats.SpecFloat.
From stdpp Require Import strings.
From S2P Require Import Prelude DateTime Schedule Hardware State Window Occurrence Policy.
From S2P Require Import Report Temperature.

(** ** Integers of any size *)

(** [%lu], or [print(unsigned long)]: a number has at most one digit more
    than the position of its leading bit. *)
Definition integer_text (n : Z) : string := decimal_go (Z.to_nat (Z.log2 n)) n EmptyString.

(** ** [printf("%.<prec>f")] *)

(** [num / den] rounded to the nearest integer, ties to even. *)
Definition round_half_even (num den : Z) : Z :=
  let q := num / den in
  let r := num mod den in
  if 2 * r <? den then q
  else if den <? 2 * r then q + 1
  else if Z.even q then q else q + 1.

(** The digits of [n] hundredths (or tenths, ...) with the point. *)
Definition fixed_text (prec : nat) (n : Z) : string :=
  let unit := 10 ^ Z.of_nat prec in
  String.append (integer_text (n / unit))
    (match prec with
     | O => EmptyString
     | _ => String "." (let s := integer_text (n mod unit) in
                        String.append (zeros (prec - String.length s)) s)
     end).

Definition printf_f (prec : nat) (x : float64) : string :=
  match x with
  | S754_nan => "nan"
  | S754_infinity s => if s then "-inf" else "inf"
  | S754_zero s => String.append (if s then "-" else EmptyString) (fixed_text prec 0)
  | S754_finite s m e =>
      let unit := 10 ^ Z.of_nat prec in
      let n := if 0 <=? e then Zpos m * 2 ^ e * unit
               else round_half_even (Zpos m * unit) (2 ^ (- e)) in
      String.append (if s then "-" else EmptyString) (fixed_text prec n)
  end.

(** ** Arduino's [Print::printFloat] *)

(** [(unsigned long)number] and [int(remainder)]: towards zero. *)
Definition trunc (x : float64) : Z :=
  match x with
  | S754_finite s m e =>
      cond_Zopp s (if 0 <=? e then Zpos m * 2 ^ e else Zpos m / 2 ^ (- e))
  | _ => 0
  end.

(** [double rounding = 0.5; for (i < digits) rounding /= 10.0;] *)
Fixpoint rounding (digits : nat) : float64 :=
  match digits with
  | O => f64 1 (-1)
  | S digits' => SFdiv 53 1024 (rounding digits') (f64 10 0)
  end.

(** [while (digits-- > 0) { remainder *= 10.0; ... }] *)
Fixpoint fraction_digits (digits : nat) (remainder : float64) : string :=
  match digits with
  | O => EmptyString
  | S digits' =>
      let remainder := SFmul 53 1024 remainder (f64 10 0) in
      let toPrint := trunc remainder in
      String.append (integer_text toPrint)
        (fraction_digits digits' (SFsub 53 1024 remainder (f64 toPrint 0)))
  end.

Definition printFloat (number : float64) (digits : nat) : string :=
  match number with
  | S754_nan => "nan"
  | S754_infinity _ => "inf"
  | _ =>
      if SFltb (f64 4294967040 0) number then "ovf"
      else if SFltb number (SFopp (f64 4294967040 0)) then "ovf"
      else
        let negative := SFltb number (f64 0 0) in
        let number := if negative then SFopp number else number in
        let number := SFadd 53 1024 number (rounding digits) in
        let int_part := trunc number in
        let remainder := SFsub 53 1024 number (f64 int_part 0) in
        String.append (if negative then "-" else EmptyString)
          (String.append (integer_text int_part)
             (String.append (match digits with O => EmptyString | _ => "." end)
                (fraction_digits digits remainder)))
  end.

(** [Serial.print(float)]: two digits. *)
Definition print_float (x : float32) : string := printFloat (to_double x) 2.

(** ** The degree sign *)

(** The two bytes of the degree sign in UTF-8, as the library and the
    basic sketch have them. *)
Definition degree : string :=
  String (ascii_of_nat 194) (String (ascii_of_nat 176) EmptyString).

(** The three bytes the hot water sketch has in their place. *)
Definition degree_hot_water : string :=
  String (ascii_of_nat 236) (String (ascii_of_nat 167) (String (ascii_of_nat 184) EmptyString)).

(** ** Specification *)

(** [quarters / 4] with two decimals. *)
Definition quarters_text (quarters : Z) : string :=
  String.append (decimal (quarters / 4)) (String "." (two_digits (25 * (quarters mod 4)))).

(** [hundredths / 100] with two decimals. *)
Definition hundredths_text (hundredths : Z) : string :=
  String.append (decimal (hundredths / 100)) (String "." (two_digits (hundredths mod 100))).

(** ** Examples *)

(** Ties go to the even digit in [printf] and up in [printFloat]:
    0.125 is exact in binary. *)
Example tie_at_an_eighth :
  (printf_f 2 (f64 1 (-3)), printFloat (f64 1 (-3)) 2) = ("0.12", "0.13").
Proof. vm_compute. reflexivity. Qed.

Example printf_f_samples :
  map (printf_f 2) [to_double (reading 101); f64 0 0; SFopp (f64 1 (-2)); f64 1 40]
  = ["25.25"; "0.00"; "-0.25"; "1099511627776.00"].
Proof. vm_compute. reflexivity. Qed.

Example printFloat_samples :
  map (fun x => printFloat x 2) [to_double (reading 101); f64 0 0; SFopp (f64 1 (-2)); f64 1 40]
  = ["25.25"; "0.00"; "-0.25"; "ovf"].
Proof. vm_compute. reflexivity. Qed.

(** One digit: 25.25 is a tie and prints as 25.2; 77.45 is stored a
    little below and prints as 77.4. *)
Example one_digit :
  (printf_f 1 (to_double (reading 101)), printf_f 1 (to_double (to_fahrenheit (reading 101))))
  = ("25.2", "77.4").
Proof. vm_compute. reflexivity. Qed.

(** ** Theory *)

(** On small numbers [integer_text] is [decimal]. *)
Lemma integer_text_decimal n : 0 <= n < 1024 -> integer_text n = decimal n.
Proof. apply (forall_below (fun n => integer_text n = decimal n) 1024). by_compute. Qed.

(** [%.2f] of a reading prints its quarters. *)
Lemma printf_f_reading quarters :
  0 <= quarters < 1024 -> printf_f 2 (to_double (reading quarters)) = quarters_text quarters.
Proof.
  apply (forall_below (fun q => printf_f 2 (to_double (reading q)) = quarters_text q) 1024).
  by_compute.
Qed.

(** So does [Serial.print]. *)
Lemma print_float_reading quarters :
  0 <= quarters < 1024 -> print_float (reading quarters) = quarters_text quarters.
Proof.
  apply (forall_below (fun q => print_float (reading q) = quarters_text q) 1024). by_compute.
Qed.

(** The two printers agree on what the chip can report. *)
Theorem print_float_printf_f quarters :
  0 <= quarters < 1024 ->
  print_float (reading quarters) = printf_f 2 (to_double (reading quarters)).
Proof. intros Hq. rewrite print_float_reading, printf_f_reading by exact Hq. reflexivity. Qed.

(** The exact conversion of [quarters] quarter degrees Celsius is
    [32 + 0.45 * quarters] degrees Fahrenheit, a number of hundredths;
    [%.2f] of the [float] that [getTemperature] stores prints it, for
    every reading of the chip: the rounding of [to_fahrenheit] never
    reaches the second decimal. *)
Theorem printf_f_fahrenheit quarters :
  0 <= quarters < 1024 ->
  printf_f 2 (to_double (to_fahrenheit (reading quarters)))
  = hundredths_text (3200 + 45 * quarters).
Proof.
  apply (forall_below
           (fun q => printf_f 2 (to_double (to_fahrenheit (reading q)))
                     = hundredths_text (3200 + 45 * q)) 1024).
  by_compute.
Qed.

Lemma printf_f_fahrenheit_witness :
  printf_f 2 (to_double (to_fahrenheit (reading 101))) = hundredths_text 7745.
Proof. apply (printf_f_fahrenheit 101). lia. Defined.
