(* ===== verification/Logging.v ===== *)
(** * Logging and diagnostics

    The macros of [DS3231ControllerLogging.h] and [printDiagnostics], the
    one method whose only effect is its log.

    A build has two switches, [DS3231_DEBUG] and [USE_CUSTOM_LOGGER]
    ([Build]).  [DS3231_LOG_LEVEL] is the level a macro logs at, and
    [DS3231_LOG] is what a macro expands to: with the custom logger a
    call of [LOG_WRITE] at that level, which for the suppressed levels is
    [ESP_LOG_NONE]; without it one of ESP-IDF's macros, or nothing.  The
    custom logger is not code of the repository: it is the function
    [LOG_WRITE] of the section, and the theorems say what they assume of
    it.  A log is the list of the lines written, oldest first.

    The theorems: which levels a build writes; that the two routes write
    the same lines when the custom logger drops [ESP_LOG_NONE], and that a
    logger which only compares the level with a threshold writes the
    suppressed lines; the lines of [printDiagnostics] on each of its
    branches. *)

From Stdlib Require Import Ascii String Floats.SpecFloat.
From stdpp Require Import strings.
From S2P Require Import Prelude DateTime Schedule Hardware State Window Occurrence Policy.
From S2P Require Import DayNames Report Temperature FloatText.

(** ** Levels *)

(** The five macros [DS3231_LOG_E] to [DS3231_LOG_V]. *)
Inductive Level : Type := LOG_E | LOG_W | LOG_I | LOG_D | LOG_V.

(** [esp_log_level_t]. *)
Inductive esp_log_level_t : Type :=
  | ESP_LOG_NONE | ESP_LOG_ERROR | ESP_LOG_WARN | ESP_LOG_INFO | ESP_LOG_DEBUG
  | ESP_LOG_VERBOSE.

#[export] Instance Level_eq_dec : EqDecision Level.
Proof. solve_decision. Defined.

#[export] Instance esp_log_level_eq_dec : EqDecision esp_log_level_t.
Proof. solve_decision. Defined.

(** The value of the enumerator. *)
Definition rank (l : esp_log_level_t) : Z :=
  match l with
  | ESP_LOG_NONE => 0 | ESP_LOG_ERROR => 1 | ESP_LOG_WARN => 2 | ESP_LOG_INFO => 3
  | ESP_LOG_DEBUG => 4 | ESP_LOG_VERBOSE => 5
  end.

(** The two switches of the preprocessor. *)
Record Build : Type := mkBuild {
  DS3231_DEBUG : bool;
  USE_CUSTOM_LOGGER : bool
}.

Definition DS3231_LOG_TAG : string := "DS3231".

(** [DS3231_LOG_LEVEL_E] to [DS3231_LOG_LEVEL_V]. *)
Definition DS3231_LOG_LEVEL (b : Build) (l : Level) : esp_log_level_t :=
  match l with
  | LOG_E => ESP_LOG_ERROR
  | LOG_W => ESP_LOG_WARN
  | LOG_I => ESP_LOG_INFO
  | LOG_D => if DS3231_DEBUG b then ESP_LOG_DEBUG else ESP_LOG_NONE
  | LOG_V => if DS3231_DEBUG b then ESP_LOG_VERBOSE else ESP_LOG_NONE
  end.

(** ** Lines *)

Record LogLine : Type := mkLogLine {
  log_level : esp_log_level_t;
  log_tag : string;
  log_text : string
}.

#[export] Instance LogLine_eq_dec : EqDecision LogLine.
Proof. solve_decision. Defined.

(** [ESP_LOGE(tag, ...)] to [ESP_LOGV(tag, ...)] with the formatted text:
    one line at the macro's level. *)
Definition ESP_LOG (level : esp_log_level_t) (tag text : string) : list LogLine :=
  [mkLogLine level tag text].

(** A custom logger that writes what it is given, except at
    [ESP_LOG_NONE]. *)
Definition LOG_WRITE_dropping (level : esp_log_level_t) (tag text : string) : list LogLine :=
  match level with
  | ESP_LOG_NONE => []
  | _ => ESP_LOG level tag text
  end.

(** A custom logger that writes a line when its level is not above a
    threshold. *)
Definition LOG_WRITE_threshold (threshold level : esp_log_level_t) (tag text : string)
  : list LogLine :=
  if rank level <=? rank threshold then ESP_LOG level tag text else [].

(** [pdTICKS_TO_MS(ticks)] in 32 bits. *)
Definition pdTICKS_TO_MS (configTICK_RATE_HZ ticks : Z) : Z :=
  u32 (u32 ticks * 1000) / configTICK_RATE_HZ.

Section Logging.

(** [LOG_WRITE] of [LogInterface.h]. *)
Variable LOG_WRITE : esp_log_level_t -> string -> string -> list LogLine.

Variable build : Build.

(** ** The macros *)

(** [DS3231_LOG_E(...)] to [DS3231_LOG_V(...)], with the text formatted. *)
Definition DS3231_LOG (l : Level) (text : string) : list LogLine :=
  if USE_CUSTOM_LOGGER build
  then LOG_WRITE (DS3231_LOG_LEVEL build l) DS3231_LOG_TAG text
  else match l with
       | LOG_E => ESP_LOG ESP_LOG_ERROR DS3231_LOG_TAG text
       | LOG_W => ESP_LOG ESP_LOG_WARN DS3231_LOG_TAG text
       | LOG_I => ESP_LOG ESP_LOG_INFO DS3231_LOG_TAG text
       | LOG_D => if DS3231_DEBUG build
                  then ESP_LOG ESP_LOG_DEBUG DS3231_LOG_TAG text else []
       | LOG_V => if DS3231_DEBUG build
                  then ESP_LOG ESP_LOG_VERBOSE DS3231_LOG_TAG text else []
       end.

(** [DS3231_TIME_START()]: the local [_ds3231_start], in a debug build. *)
Definition DS3231_TIME_START (xTaskGetTickCount : Z) : option Z :=
  if DS3231_DEBUG build then Some (u32 xTaskGetTickCount) else None.

(** [DS3231_TIME_END(msg)]. *)
Definition DS3231_TIME_END (configTICK_RATE_HZ : Z) (_ds3231_start : option Z)
  (msg : string) (xTaskGetTickCount : Z) : list LogLine :=
  match DS3231_DEBUG build, _ds3231_start with
  | true, Some start =>
      DS3231_LOG LOG_D
        ("Timing: " +:+ msg +:+ " took "
         +:+ integer_text (pdTICKS_TO_MS configTICK_RATE_HZ (xTaskGetTickCount - start))
         +:+ " ms")
  | _, _ => []
  end.

(** ** [printDiagnostics] *)

Context {D : Type} `{RtcDevice D} `{Thermometer D}.

Implicit Types (c : Controller D) (me : Mutex.TaskId).

Definition ON_OFF (flag : bool) : string := if flag then "ON" else "OFF".

(** The line of one schedule. *)
Definition schedule_line (schedule : Schedule) : list LogLine :=
  DS3231_LOG LOG_I
    ("  Schedule " +:+ decimal (sched_id schedule) +:+ " '" +:+ sched_name schedule +:+ "': "
     +:+ ON_OFF (sched_enabled schedule) +:+ ", "
     +:+ padded 2 (sched_startHour schedule) +:+ ":" +:+ padded 2 (sched_startMinute schedule)
     +:+ "-" +:+ padded 2 (sched_endHour schedule) +:+ ":" +:+ padded 2 (sched_endMinute schedule)
     +:+ ", days=" +:+ formatDayMask (sched_dayMask schedule)).

(** [printDiagnostics()]: the lines it logs. *)
Definition printDiagnostics me c : list LogLine :=
  check ctl_initialized c
    orelse DS3231_LOG LOG_E "RTC not initialized - call begin() first" ;;
  check hasLock me c
    orelse DS3231_LOG LOG_E "Failed to acquire mutex for printDiagnostics()" ;;
  let now := rtc_now (ctl_rtc c) in
  let temp := rtc_getTemperature (ctl_rtc c) in
  DS3231_LOG LOG_I "=== DS3231 Diagnostics ==="
  ++ DS3231_LOG LOG_I ("Current Time: " +:+ timestamp_FULL now)
  ++ DS3231_LOG LOG_I ("Temperature: " +:+ printf_f 2 (to_double temp) +:+ degree +:+ "C")
  ++ DS3231_LOG LOG_I ("Total Schedules: " +:+ decimal (Z.of_nat (length (ctl_schedules c))))
  ++ flat_map schedule_line (ctl_schedules c)
  ++ DS3231_LOG LOG_I ("Vacation Mode: " +:+ ON_OFF (vac_enabled (ctl_vacationMode c)))
  ++ DS3231_LOG LOG_I ("Pump Exercise: " +:+ ON_OFF (pump_enabled (ctl_pumpExercise c)))
  ++ DS3231_LOG LOG_I ("Current Status: " +:+ getScheduleStatus me c)
  ++ DS3231_LOG LOG_I "==========================".

End Logging.

(** ** Examples *)

Definition release : Build := mkBuild false false.
Definition debug : Build := mkBuild true false.
Definition release_custom : Build := mkBuild false true.

(** The diagnostics of the sample controller with one schedule. *)
Example sample_diagnostics :
  map log_text (printDiagnostics LOG_WRITE_dropping release 0%nat (sample [weekday_morning]))
  = ["=== DS3231 Diagnostics ===";
     "Current Time: 2024-01-17T07:00:00";
     "Temperature: 25.25" +:+ degree +:+ "C";
     "Total Schedules: 1";
     "  Schedule 1 'morning': ON, 06:00-08:00, days=Mo,Tu,We,Th,Fr";
     "Vacation Mode: OFF";
     "Pump Exercise: OFF";
     "Current Status: Active: morning";
     "=========================="].
Proof. vm_compute. reflexivity. Qed.

(** 3000 ticks of a millisecond each. *)
Example sample_timing :
  DS3231_TIME_END LOG_WRITE_dropping debug 1000 (DS3231_TIME_START debug 500) "plan" 3500
  = [mkLogLine ESP_LOG_DEBUG "DS3231" "Timing: plan took 3000 ms"].
Proof. vm_compute. reflexivity. Qed.

(** ** Theory *)

Section LoggingTheory.

Variable LOG_WRITE : esp_log_level_t -> string -> string -> list LogLine.

(** What a macro writes without the custom logger: one line at its
    level, or nothing when the level is suppressed. *)
Lemma DS3231_LOG_esp_idf debug_on l text :
  DS3231_LOG LOG_WRITE (mkBuild debug_on false) l text
  = LOG_WRITE_dropping (DS3231_LOG_LEVEL (mkBuild debug_on false) l) DS3231_LOG_TAG text.
Proof. destruct l, debug_on; reflexivity. Qed.

(** A release build suppresses exactly the debug and verbose macros. *)
Theorem release_levels l text :
  DS3231_LOG LOG_WRITE release l text = [] <-> l = LOG_D \/ l = LOG_V.
Proof. destruct l; cbn; split; intros Hl; try discriminate; auto; destruct Hl; discriminate. Qed.

(** The two routes.  When the custom logger writes one line for each
    call at a level other than [ESP_LOG_NONE] and none at [ESP_LOG_NONE],
    a macro writes the same with it as without it, in a debug build and in
    a release build. *)
Theorem DS3231_LOG_routes_agree debug_on l text :
  (forall level tag text', LOG_WRITE level tag text' = LOG_WRITE_dropping level tag text') ->
  DS3231_LOG LOG_WRITE (mkBuild debug_on true) l text
  = DS3231_LOG LOG_WRITE (mkBuild debug_on false) l text.
Proof.
  intros Hw. rewrite DS3231_LOG_esp_idf. unfold DS3231_LOG. cbn [USE_CUSTOM_LOGGER].
  rewrite Hw. destruct l, debug_on; reflexivity.
Qed.

End LoggingTheory.

(** A custom logger that compares the level with a threshold, as ESP-IDF
    does, writes the lines a release build means to suppress: they arrive
    at [ESP_LOG_NONE], which is below every threshold. *)
Theorem threshold_logger_writes_suppressed threshold text :
  DS3231_LOG (LOG_WRITE_threshold threshold) release_custom LOG_D text
  = [mkLogLine ESP_LOG_NONE DS3231_LOG_TAG text].
Proof. destruct threshold; reflexivity. Qed.

Lemma DS3231_LOG_routes_agree_witness :
  DS3231_LOG LOG_WRITE_dropping release_custom LOG_D "x" = [].
Proof.
  etransitivity; [apply (DS3231_LOG_routes_agree LOG_WRITE_dropping false LOG_D "x")|];
    reflexivity.
Defined.

Section DiagnosticsTheory.

Variable LOG_WRITE : esp_log_level_t -> string -> string -> list LogLine.
Variable build : Build.

Context {D : Type} `{RtcDevice D} `{Thermometer D}.

Implicit Types (c : Controller D) (me : Mutex.TaskId).

(** Without the custom logger an info line is written as it is. *)
Lemma info_line text :
  USE_CUSTOM_LOGGER build = false ->
  DS3231_LOG LOG_WRITE build LOG_I text = [mkLogLine ESP_LOG_INFO DS3231_LOG_TAG text].
Proof. intros Hb. unfold DS3231_LOG. rewrite Hb. reflexivity. Qed.

Lemma schedule_lines_length l :
  USE_CUSTOM_LOGGER build = false ->
  length (flat_map (schedule_line LOG_WRITE build) l) = length l.
Proof.
  intros Hb. induction l as [|s l IH]; [reflexivity|]. cbn [flat_map].
  unfold schedule_line at 1. rewrite (info_line _ Hb). cbn [app length]. rewrite IH. reflexivity.
Qed.

(** On an object that is not ready the method logs one error and
    nothing else. *)
Theorem printDiagnostics_not_ready me c :
  ctl_initialized c = false \/ hasLock me c = false ->
  exists text, printDiagnostics LOG_WRITE build me c = DS3231_LOG LOG_WRITE build LOG_E text.
Proof.
  unfold printDiagnostics.
  intros [Hi | Hl]; [rewrite Hi | rewrite Hl; destruct (ctl_initialized c)]; eauto.
Qed.

(** On a ready object, without the custom logger, it logs eight lines and
    one for each schedule, all at the info level, whatever the build. *)
Theorem printDiagnostics_lines me c :
  ready me c -> USE_CUSTOM_LOGGER build = false ->
  let lines := printDiagnostics LOG_WRITE build me c in
  length lines = (8 + length (ctl_schedules c))%nat
  /\ Forall (fun line => log_level line = ESP_LOG_INFO) lines.
Proof.
  intros (Hi & Hl) Hb. cbv zeta. unfold printDiagnostics. rewrite Hi, Hl. cbv iota zeta.
  rewrite !(info_line _ Hb). split.
  - rewrite !length_app, (schedule_lines_length _ Hb). cbn [length]. lia.
  - rewrite !Forall_app. repeat split; try (repeat constructor).
    apply Forall_flat_map, Forall_forall. intros s _. unfold schedule_line.
    rewrite (info_line _ Hb). repeat constructor.
Qed.

End DiagnosticsTheory.
