(* ===== verification/Logged.v ===== *)
(** * Methods that log

    A method of the library writes to the log through the macros
    [DS3231_LOG_E] to [DS3231_LOG_V] while it computes its result.  Here a
    computation that logs is a [Logged] value: the result with the calls
    of the macros it made, oldest first, each call ([Entry]) being the
    level of the macro and the formatted text.  [Logged] is a monad, with
    stdpp's notation: [tell l text ;; k] logs and goes on, and
    [x ← m; k] runs a method that logs and goes on with its result.

    What a build writes of these calls is [written]: the lines of
    [Logging.DS3231_LOG] for each entry.  The theorems are the laws of the
    monad, and what reaches the log in a release and in a debug build. *)

From Stdlib Require Import String Lia.
From stdpp Require Import base list strings.
From S2P Require Import Prelude Logging.

(** ** The monad *)

(** [DS3231_LOG_<level>(text)]. *)
Definition Entry : Type := Level * string.

Record Logged (A : Type) : Type := mkLogged {
  val : A;               (* what the method returns *)
  said : list Entry      (* the calls of the macros, oldest first *)
}.

Arguments mkLogged {A} _ _.
Arguments val {A} _.
Arguments said {A} _.

#[export] Instance Logged_ret : MRet Logged := fun A (a : A) => mkLogged a [].

#[export] Instance Logged_bind : MBind Logged :=
  fun A B (f : A -> Logged B) (m : Logged A) =>
    mkLogged (val (f (val m))) (said m ++ said (f (val m))).

#[export] Instance Logged_fmap : FMap Logged :=
  fun A B (f : A -> B) (m : Logged A) => mkLogged (f (val m)) (said m).

(** One call of a macro. *)
Definition tell (l : Level) (text : string) : Logged unit := mkLogged tt [(l, text)].

(** The early return of a method that says why. *)
Definition bail {A : Type} (l : Level) (text : string) (a : A) : Logged A :=
  tell l text ;; mret a.

(** ** Levels of entries *)

(** An error or a warning. *)
Definition alarming (e : Entry) : bool :=
  match fst e with
  | LOG_E | LOG_W => true
  | _ => false
  end.

(** What a release build keeps: errors, warnings and information. *)
Definition loud (e : Entry) : bool :=
  match fst e with
  | LOG_E | LOG_W | LOG_I => true
  | _ => false
  end.

(** The method ended on an error or a warning. *)
Definition complains {A : Type} (m : Logged A) : bool :=
  match last (said m) with
  | Some e => alarming e
  | None => false
  end.

(** ** What is written *)

Section Written.

Variable LOG_WRITE : esp_log_level_t -> string -> string -> list LogLine.

Variable build : Build.

(** The lines the entries leave in the log of the build. *)
Definition written (entries : list Entry) : list LogLine :=
  flat_map (fun e => DS3231_LOG LOG_WRITE build (fst e) (snd e)) entries.

End Written.

(** The line of an entry when it is written. *)
Definition line_of (b : Build) (e : Entry) : LogLine :=
  mkLogLine (DS3231_LOG_LEVEL b (fst e)) DS3231_LOG_TAG (snd e).

(** A line at the level of an error or of a warning. *)
Definition urgent (line : LogLine) : bool :=
  match log_level line with
  | ESP_LOG_ERROR | ESP_LOG_WARN => true
  | _ => false
  end.

(** ** Examples *)

Example bail_said :
  bail LOG_E "no" 7 = mkLogged 7 [(LOG_E, "no")].
Proof. reflexivity. Qed.

Example written_release_sample :
  written LOG_WRITE_dropping release [(LOG_D, "detail"); (LOG_W, "careful"); (LOG_I, "done")]
  = [mkLogLine ESP_LOG_WARN "DS3231" "careful"; mkLogLine ESP_LOG_INFO "DS3231" "done"].
Proof. reflexivity. Qed.

(** ** Laws *)

Lemma Logged_eq {A : Type} (m n : Logged A) : val m = val n -> said m = said n -> m = n.
Proof. destruct m, n. cbn. intros -> ->. reflexivity. Qed.

Section Laws.

Context {A B C : Type}.

Lemma val_bind (m : Logged A) (f : A -> Logged B) : val (m ≫= f) = val (f (val m)).
Proof. reflexivity. Qed.

Lemma said_bind (m : Logged A) (f : A -> Logged B) :
  said (m ≫= f) = said m ++ said (f (val m)).
Proof. reflexivity. Qed.

Lemma bind_ret_l (a : A) (f : A -> Logged B) : mret a ≫= f = f a.
Proof. apply Logged_eq; reflexivity. Qed.

Lemma bind_ret_r (m : Logged A) : m ≫= mret = m.
Proof. apply Logged_eq; [reflexivity | apply app_nil_r]. Qed.

Lemma bind_assoc (m : Logged A) (f : A -> Logged B) (g : B -> Logged C) :
  (m ≫= f) ≫= g = m ≫= (fun a => f a ≫= g).
Proof. apply Logged_eq; [reflexivity | symmetry; apply app_assoc]. Qed.

End Laws.

Lemma said_bail {A : Type} l text (a : A) : said (bail l text a) = [(l, text)].
Proof. reflexivity. Qed.

Lemma val_bail {A : Type} l text (a : A) : val (bail l text a) = a.
Proof. reflexivity. Qed.

Lemma val_fmap {A B : Type} (f : A -> B) (m : Logged A) : val (f <$> m) = f (val m).
Proof. reflexivity. Qed.

Lemma said_fmap {A B : Type} (f : A -> B) (m : Logged A) : said (f <$> m) = said m.
Proof. reflexivity. Qed.

(** What a method ends on is what its last part ends on, when that part
    logs at all. *)
Lemma complains_bind {A B : Type} (m : Logged A) (f : A -> Logged B) :
  complains (f (val m)) = true -> complains (m ≫= f) = true.
Proof.
  unfold complains. rewrite said_bind, last_app.
  destruct (last (said (f (val m)))); [trivial | discriminate].
Qed.

Lemma complains_bind_ret {A B : Type} (m : Logged A) (f : A -> B) :
  complains (x ← m; mret (f x)) = complains m.
Proof. unfold complains. rewrite said_bind. cbn [said mret Logged_ret]. rewrite app_nil_r. reflexivity. Qed.

Lemma complains_fmap {A B : Type} (f : A -> B) (m : Logged A) :
  complains (f <$> m) = complains m.
Proof. reflexivity. Qed.

Lemma complains_alarming {A : Type} (m : Logged A) :
  complains m = true -> existsb alarming (said m) = true.
Proof.
  unfold complains. destruct (last (said m)) as [e|] eqn:E; [|discriminate].
  apply last_Some in E as [l ->]. intros He. rewrite existsb_app. cbn. rewrite He.
  apply orb_true_iff. right. reflexivity.
Qed.

(** The errors and warnings of a log. *)
Lemma complains_counted {A : Type} (m : Logged A) :
  complains m = true -> (1 <= length (filter alarming (said m)))%nat.
Proof.
  unfold complains. destruct (last (said m)) as [e|] eqn:E; [|discriminate].
  apply last_Some in E as [l ->]. intros He. rewrite filter_app, length_app, filter_cons.
  rewrite decide_True by (rewrite He; exact I). cbn [length]. lia.
Qed.

Create Rewrite HintDb journal.

#[export] Hint Rewrite @val_bind @said_bind @val_fmap @said_fmap @said_bail @val_bail
  : journal.

(** ** Builds *)

Section WrittenTheory.

Variable LOG_WRITE : esp_log_level_t -> string -> string -> list LogLine.

Lemma written_app b l1 l2 :
  written LOG_WRITE b (l1 ++ l2) = written LOG_WRITE b l1 ++ written LOG_WRITE b l2.
Proof. unfold written. apply flat_map_app. Qed.

(** Without the custom logger an entry leaves its line, or nothing when
    the build suppresses its level. *)
Lemma written_entry debug_on e :
  written LOG_WRITE (mkBuild debug_on false) [e]
  = if debug_on || loud e then [line_of (mkBuild debug_on false) e] else [].
Proof. destruct e as [[] text], debug_on; reflexivity. Qed.

(** A release build writes the errors, the warnings and the information,
    in the order of the calls, and nothing else. *)
Theorem written_release entries :
  written LOG_WRITE release entries = map (line_of release) (filter loud entries).
Proof.
  unfold release. induction entries as [|e entries IH]; [reflexivity|].
  change (e :: entries) with ([e] ++ entries). rewrite written_app, written_entry, IH.
  cbn [orb app]. rewrite filter_cons. destruct (decide (loud e)) as [Hl|Hl].
  - rewrite (Is_true_eq_true _ Hl). reflexivity.
  - apply Is_true_false_1 in Hl. rewrite Hl. reflexivity.
Qed.

(** A debug build writes every call. *)
Theorem written_debug entries :
  written LOG_WRITE debug entries = map (line_of debug) entries.
Proof.
  unfold debug. induction entries as [|e entries IH]; [reflexivity|].
  change (e :: entries) with ([e] ++ entries). rewrite written_app, written_entry, IH.
  reflexivity.
Qed.

(** The errors and the warnings reach the log of every build that writes
    through the macros of ESP-IDF, and nothing else is written at their
    levels. *)
Theorem written_urgent debug_on entries :
  filter urgent (written LOG_WRITE (mkBuild debug_on false) entries)
  = map (line_of (mkBuild debug_on false)) (filter alarming entries).
Proof.
  induction entries as [|e entries IH]; [reflexivity|].
  change (e :: entries) with ([e] ++ entries).
  rewrite written_app, written_entry, !filter_app, map_app, IH. f_equal.
  destruct e as [[] text], debug_on; reflexivity.
Qed.

(** The release log is the debug log without its debug lines. *)
Corollary release_within_debug entries :
  map log_text (written LOG_WRITE release entries)
  = map log_text (filter (fun line => rank (log_level line) <=? rank ESP_LOG_INFO)
                         (written LOG_WRITE debug entries)).
Proof.
  rewrite written_release, written_debug. induction entries as [|[l text] entries IH];
    [reflexivity|].
  rewrite !filter_cons, map_cons, filter_cons.
  destruct l; cbn [loud fst line_of DS3231_LOG_LEVEL debug DS3231_DEBUG rank log_level];
    repeat case_decide; try discriminate; try contradiction; cbn [map]; rewrite ?IH;
    try reflexivity; exfalso; auto.
Qed.

End WrittenTheory.
