(* ===== verification/Queries.v ===== *)
(** * The reading side of the public interface

    Every method of [DS3231Controller] that answers without changing the
    object, as a [Query] with its arguments, and [ask], which dispatches a
    query to the method's model; the companion of [Action] and [perform]
    of [Api].  [printDiagnostics], whose answer is its log, is in
    [Logging], and the three static utilities, which do not take the
    object, are in [DayNames].

    The theorems are about the chip: a query reads it only from an
    initialised object and only with the lock taken, [isRunning] apart,
    which does not test [_initialized]; and the queries that [Observe]
    treats see the same on controllers with the same view. *)

From Stdlib Require Import Floats.SpecFloat.
From stdpp Require Import strings.
From S2P Require Import Prelude DateTime Schedule Hardware State Window Occurrence Alarm.
From S2P Require Import ScheduleSet Policy TimeZone Persist Report Temperature.

(** ** Queries and answers *)

Inductive Query : Type :=
  | Ask_isRunning
  | Ask_now
  | Ask_adjustDrift (secondsPerMonth : Z)
  | Ask_nowUTC (offsetSeconds : Z)
  | Ask_syncSystemTime (sys : SystemClock)
  | Ask_getSchedule (scheduleId : Z)
  | Ask_getAllSchedules
  | Ask_isWithinAnySchedule
  | Ask_isWithinSchedule (scheduleId : Z)
  | Ask_getCurrentActiveSchedule
  | Ask_getNextScheduledStart
  | Ask_getNextScheduledEnd
  | Ask_getSecondsUntilNextEvent
  | Ask_isVacationMode
  | Ask_getVacationMode
  | Ask_isPumpExerciseTime
  | Ask_getPumpExercise
  | Ask_getTemperature
  | Ask_getTemperatureCelsius
  | Ask_isTemperatureCompensationEnabled
  | Ask_isAlarmFired (alarmNumber : Z)
  | Ask_isBatteryBackupEnabled
  | Ask_getBatteryVoltage
  | Ask_getFormattedTime
  | Ask_getFormattedDate
  | Ask_getScheduleStatus
  | Ask_getScheduleDataSize
  | Ask_serializeSchedules (buffer : list Z) (bufferSize : Z).

(** What a query returns, by the return type of its declaration. *)
Inductive Answer : Type :=
  | Is (b : bool)
  | At (dt : DateTime)
  | Number (n : Z)
  | Found (s : option Schedule)
  | All (l : list Schedule)
  | Vacation (v : VacationMode)
  | Pump (p : PumpExercise)
  | Reading (data : TemperatureData)
  | Float (x : float32)
  | Text (s : string)
  | Synced (r : Status * SystemClock)
  | Written (r : Status * list Z).

Section Queries.

Context {D : Type} `{RtcDevice D} `{Thermometer D} `{Layout}.

Implicit Types (c : Controller D) (me : Mutex.TaskId) (q : Query).

Definition ask me q c : Answer :=
  match q with
  | Ask_isRunning => Is (isRunning me c)
  | Ask_now => At (now me c)
  | Ask_adjustDrift secondsPerMonth => Is (adjustDrift c secondsPerMonth)
  | Ask_nowUTC offsetSeconds => Number (nowUTC me c offsetSeconds)
  | Ask_syncSystemTime sys => Synced (syncSystemTime me c sys)
  | Ask_getSchedule scheduleId => Found (getSchedule c scheduleId)
  | Ask_getAllSchedules => All (getAllSchedules c)
  | Ask_isWithinAnySchedule => Is (isWithinAnySchedule me c)
  | Ask_isWithinSchedule scheduleId => Is (isWithinSchedule me c scheduleId)
  | Ask_getCurrentActiveSchedule => Found (getCurrentActiveSchedule me c)
  | Ask_getNextScheduledStart => At (getNextScheduledStart me c)
  | Ask_getNextScheduledEnd => At (getNextScheduledEnd me c)
  | Ask_getSecondsUntilNextEvent => Number (getSecondsUntilNextEvent me c)
  | Ask_isVacationMode => Is (isVacationMode me c)
  | Ask_getVacationMode => Vacation (getVacationMode c)
  | Ask_isPumpExerciseTime => Is (isPumpExerciseTime me c)
  | Ask_getPumpExercise => Pump (getPumpExercise c)
  | Ask_getTemperature => Reading (getTemperature me c)
  | Ask_getTemperatureCelsius => Float (getTemperatureCelsius me c)
  | Ask_isTemperatureCompensationEnabled => Is (isTemperatureCompensationEnabled c)
  | Ask_isAlarmFired alarmNumber => Is (isAlarmFired me c alarmNumber)
  | Ask_isBatteryBackupEnabled => Is (isBatteryBackupEnabled me c)
  | Ask_getBatteryVoltage => Float (getBatteryVoltage c)
  | Ask_getFormattedTime => Text (getFormattedTime me c)
  | Ask_getFormattedDate => Text (getFormattedDate me c)
  | Ask_getScheduleStatus => Text (getScheduleStatus me c)
  | Ask_getScheduleDataSize => Number (getScheduleDataSize c)
  | Ask_serializeSchedules buffer bufferSize => Written (serializeSchedules c buffer bufferSize)
  end.

(** The queries that test [_initialized] before they read the chip: all
    but [isRunning]. *)
Definition tests_initialized q : bool :=
  match q with
  | Ask_isRunning => false
  | _ => true
  end.

End Queries.

(** ** Examples *)

(** Before [begin] every query gives its default; [isRunning] reads the
    chip. *)
Example asked_before_begin :
  map (fun q => ask 0%nat q (new_controller sample_rtc false))
      [Ask_isRunning; Ask_now; Ask_nowUTC 3600; Ask_getSecondsUntilNextEvent;
       Ask_getFormattedTime; Ask_getScheduleStatus; Ask_isAlarmFired 1]
  = [Is true; At DateTime_default; Number 946681200; Number NO_EVENT;
     Text "--:--:--"; Text "Next: 00:00:00"; Is false].
Proof. vm_compute. reflexivity. Qed.

(** ** Theory *)

Section QueriesTheory.

Context {D : Type} `{RtcDevice D} `{Thermometer D} `{Layout}.

Implicit Types (c : Controller D) (me : Mutex.TaskId) (q : Query) (d : D).

(** Every method of [ask] down to its guards. *)
Ltac open_queries :=
  cbn [ask];
  unfold getScheduleStatus, getSecondsUntilNextEvent, isPumpExerciseTime, nowUTC,
    isWithinAnySchedule, getCurrentActiveSchedule;
  unfold isRunning, now, syncSystemTime, getSchedule, getAllSchedules, isWithinSchedule,
    getNextScheduledStart, getNextScheduledEnd, isVacationMode, getVacationMode,
    getPumpExercise, getTemperature, getTemperatureCelsius, isAlarmFired,
    isBatteryBackupEnabled, getFormattedTime, getFormattedDate, getScheduleDataSize,
    serializeSchedules, adjustDrift, isTemperatureCompensationEnabled, getBatteryVoltage;
  cbn [ctl_initialized ctl_mutex ctl_schedules ctl_vacationMode ctl_pumpExercise set_rtc].

(** On an object that is not initialised the chip is not read. *)
Lemma ask_uninitialised me q c d :
  ctl_initialized c = false -> tests_initialized q = true ->
  ask me q (set_rtc c d) = ask me q c.
Proof.
  intros Hi Hq. destruct c as [r l v p lc a i mx t1 t2 t3 ev]. cbn [ctl_initialized] in Hi.
  subst i. destruct q; try discriminate; open_queries; reflexivity.
Qed.

(** Nor by a task that cannot take the lock. *)
Lemma ask_locked_out me q c d :
  hasLock me c = false -> ask me q (set_rtc c d) = ask me q c.
Proof.
  intros Hl. destruct c as [r l v p lc a i mx t1 t2 t3 ev].
  unfold hasLock in Hl. cbn [ctl_mutex] in Hl.
  destruct q; open_queries; unfold hasLock; cbn [ctl_mutex set_rtc];
    revert Hl; generalize (Mutex.lockable me mx); intros b ->;
    destruct i; reflexivity.
Qed.

(** C22: the chip is read under the lock, by an initialised object.  The
    answer of a query does not depend on the chip when the object is not
    initialised, [isRunning] apart, or when the asking task cannot take
    the lock: every read of the bus is inside the guard. *)
Theorem chip_read_under_lock me q c d :
  (ctl_initialized c = false /\ tests_initialized q = true) \/ hasLock me c = false ->
  ask me q (set_rtc c d) = ask me q c.
Proof.
  intros [[Hi Hq]|Hl]; [apply ask_uninitialised; assumption | apply ask_locked_out, Hl].
Qed.

End QueriesTheory.

(** [isRunning] on an object that is not initialised reports the chip. *)
Example isRunning_reads_uninitialised :
  let c := new_controller sample_rtc false in
  (ask 0%nat Ask_isRunning c,
   ask 0%nat Ask_isRunning (set_rtc c (sim_adjust sample_rtc (DateTime_of_fields 2165 1 1 0 0 0))))
  = (Is true, Is false).
Proof. vm_compute. reflexivity. Qed.

Lemma chip_read_under_lock_witness :
  ask 1%nat Ask_getTemperature
    (set_rtc (set_mutex (sample [weekday_morning]) (Mutex.mk (Some 0%nat) 1))
       (sim_tick sample_rtc (DateTime_of_fields 2024 1 18 6 0 0)))
  = ask 1%nat Ask_getTemperature (set_mutex (sample [weekday_morning]) (Mutex.mk (Some 0%nat) 1)).
Proof. apply chip_read_under_lock. right. reflexivity. Defined.
