(* ===== verification/GuardedApi.v ===== *)
(** * The whole interface with its guards

    [Guards] writes the guard of a method as an operation on the mutex
    and treats the methods that nest guards.  This file completes the
    interface: the methods whose guard is the only one they take
    ([setAlarm2], [clearAlarm], [acknowledgeAlarm], [isAlarmFired],
    [isRunning], the temperature, the formatted clock, [syncSystemTime],
    [isBatteryBackupEnabled]), the methods that take none themselves and
    call a guarded one ([nowUTC], [setTimeFromUTC], [addSchedule],
    [updateSchedule], [removeSchedule]), and the two dispatchers
    [perform_locking] and [ask_locking], the companions of [perform] of
    [Api] and [ask] of [Queries].

    The theorems are the refinement of the whole interface: with the
    recursive mutex, on an object whose mutex is free or held, every
    call of [perform_locking] returns the status and leaves the object
    that [perform] does, and every query of [ask_locking] answers what
    [ask] answers and leaves the object, its mutex included, as it found
    it.  What [Api], [Queries], [ApiMap] and [Tasks] prove of the models
    that test [hasLock] is therefore proved of the methods that take and
    give the mutex. *)

From Stdlib Require Import Floats.SpecFloat.
From stdpp Require Import strings.
From S2P Require Import Prelude DateTime Schedule Hardware State Window Occurrence Alarm.
From S2P Require Import ScheduleSet Policy TimeZone Persist Report Api Guards Temperature.
From S2P Require Import DayNames FloatText Logging Queries.

#[export] Instance Locking_fmap {D : Type} : FMap (Locking D) :=
  fun A B (f : A -> B) m c => let '(a, c') := m c in (f a, c').

Section GuardedApi.

Context {D : Type} `{RtcDevice D} `{Thermometer D} `{Layout} {L : Lock}.

Implicit Types (c : Controller D) (me : Mutex.TaskId).

(** ** The alarms *)

Definition setAlarm2_locking me (dt : DateTime) : Locking D Status :=
  c ← get;
  check ctl_initialized c orelse mret (Failed NotInitialized) ;;
  guard me (Failed LockUnavailable)
    (c ← get;
     put (set_rtc c (rtc_setAlarm2 (ctl_rtc c) dt DS3231_A2_Minute)) ;;
     mret OK).

Definition clearAlarm_locking me (alarmNumber : Z) : Locking D unit :=
  c ← get;
  check ctl_initialized c orelse mret tt ;;
  guard me tt
    (c ← get;
     put (set_rtc c (rtc_clearAlarm (ctl_rtc c) alarmNumber))).

Definition isAlarmFired_locking me (alarmNumber : Z) : Locking D bool :=
  c ← get;
  check ctl_initialized c orelse mret false ;;
  guard me false
    (c ← get;
     mret (rtc_alarmFired (ctl_rtc c) alarmNumber)).

(** [acknowledgeAlarm]: the callback runs inside the guard. *)
Definition acknowledgeAlarm_locking me (alarmNumber : Z) : Locking D unit :=
  c ← get;
  check ctl_initialized c orelse mret tt ;;
  guard me tt
    (c ← get;
     let c := set_rtc c (rtc_clearAlarm (ctl_rtc c) alarmNumber) in
     put (if ctl_alarmCallback c then emit c (AlarmAcknowledged alarmNumber) else c)).

(** ** The clock and the chip *)

(** [isRunning] does not test [_initialized]. *)
Definition isRunning_locking me : Locking D bool :=
  guard me false
    (c ← get;
     mret (isValid (rtc_now (ctl_rtc c)))).

Definition getTemperature_locking me : Locking D TemperatureData :=
  let data := mkTemperatureData (f32 0 0) (f32 32 0) DateTime_default in
  c ← get;
  check ctl_initialized c orelse mret data ;;
  guard me data
    (c ← get;
     let celsius := rtc_getTemperature (ctl_rtc c) in
     mret (mkTemperatureData celsius (to_fahrenheit celsius) (rtc_now (ctl_rtc c)))).

Definition getTemperatureCelsius_locking me : Locking D float32 :=
  c ← get;
  check ctl_initialized c orelse mret (f32 0 0) ;;
  guard me (f32 0 0)
    (c ← get;
     mret (rtc_getTemperature (ctl_rtc c))).

Definition isBatteryBackupEnabled_locking me : Locking D bool :=
  c ← get;
  check ctl_initialized c orelse mret false ;;
  guard me false
    (c ← get;
     mret (negb (rtc_lostPower (ctl_rtc c)))).

Definition getFormattedTime_locking me : Locking D string :=
  c ← get;
  check ctl_initialized c orelse mret "--:--:--" ;;
  guard me "--:--:--"
    (c ← get;
     let now := rtc_now (ctl_rtc c) in
     mret (snprintf 20 (time_text (dt_hour now) (dt_minute now) (dt_second now)))).

Definition getFormattedDate_locking me : Locking D string :=
  c ← get;
  check ctl_initialized c orelse mret "----/--/--" ;;
  guard me "----/--/--"
    (c ← get;
     let now := rtc_now (ctl_rtc c) in
     mret (snprintf 20 (date_text (year now) (dt_month now) (dt_day now)))).

Definition syncSystemTime_locking me (sys : SystemClock)
  : Locking D (Status * SystemClock) :=
  c ← get;
  check ctl_initialized c orelse mret (Failed NotInitialized, sys) ;;
  guard me (Failed LockUnavailable, sys)
    (c ← get;
     let rtcTime := rtc_now (ctl_rtc c) in
     check isValid rtcTime orelse mret (Failed InvalidConversion, sys) ;;
     check sys_settable sys orelse mret (Failed HardwareFailure, sys) ;;
     mret (OK, mkSystemClock (unixtime rtcTime) (sys_settable sys))).

(** ** The diagnostics *)

(** [printDiagnostics()], with the logger and the build of [Logging]:
    [getScheduleStatus] is called inside the guard and takes the lock
    again in the methods it calls. *)
Definition printDiagnostics_locking
    (LOG_WRITE : esp_log_level_t -> string -> string -> list LogLine) (build : Build) me
  : Locking D (list LogLine) :=
  let log := DS3231_LOG LOG_WRITE build in
  c ← get;
  check ctl_initialized c
    orelse mret (log LOG_E "RTC not initialized - call begin() first") ;;
  guard me (log LOG_E "Failed to acquire mutex for printDiagnostics()")
    (c ← get;
     let now := rtc_now (ctl_rtc c) in
     let temp := rtc_getTemperature (ctl_rtc c) in
     status ← getScheduleStatus_locking me;
     mret (log LOG_I "=== DS3231 Diagnostics ==="
           ++ log LOG_I ("Current Time: " +:+ timestamp_FULL now)
           ++ log LOG_I ("Temperature: " +:+ printf_f 2 (to_double temp) +:+ degree +:+ "C")
           ++ log LOG_I ("Total Schedules: "
                         +:+ decimal (Z.of_nat (length (ctl_schedules c))))
           ++ flat_map (schedule_line LOG_WRITE build) (ctl_schedules c)
           ++ log LOG_I ("Vacation Mode: " +:+ ON_OFF (vac_enabled (ctl_vacationMode c)))
           ++ log LOG_I ("Pump Exercise: " +:+ ON_OFF (pump_enabled (ctl_pumpExercise c)))
           ++ log LOG_I ("Current Status: " +:+ status)
           ++ log LOG_I "==========================")).

(** ** The methods without a guard of their own *)

Definition nowUTC_locking me (offsetSeconds : Z) : Locking D Z :=
  localTime ← now_locking me;
  let localEpoch := unixtime localTime in
  mret (u32 (localEpoch - offsetSeconds)).

Definition setTimeFromUTC_locking me (utcEpoch offsetSeconds : Z) : Locking D Status :=
  check negb (utcEpoch <? 946684800) orelse mret (Failed InvalidEpoch) ;;
  let localEpoch := u32 (utcEpoch + offsetSeconds) in
  let localTime := DateTime_of_epoch localEpoch in
  check negb ((year localTime <? 2000) || (2100 <? year localTime))
    orelse mret (Failed InvalidConversion) ;;
  setTime_locking me localTime.

(** The tail of the three methods that change the schedules: the alarm
    is planned again and the status of the planning dropped. *)
Definition replan_locking me : Locking D Status :=
  setAlarmForNextSchedule_locking me ≫= fun _ : Status => mret OK.

Definition addSchedule_locking me (schedule : Schedule) : Locking D Status :=
  c ← get;
  check Z.of_nat (length (ctl_schedules c)) <? MAX_SCHEDULES
    orelse mret (Failed CapacityExceeded) ;;
  let newSchedule := stored c schedule in
  put (set_schedules c (ctl_schedules c ++ [newSchedule])) ;;
  replan_locking me.

Definition updateSchedule_locking me (scheduleId : Z) (schedule : Schedule)
  : Locking D Status :=
  c ← get;
  match replace_first scheduleId schedule (ctl_schedules c) with
  | Some l => put (set_schedules c l) ;; replan_locking me
  | None => mret (Failed NotFound)
  end.

Definition removeSchedule_locking me (scheduleId : Z) : Locking D Status :=
  c ← get;
  let kept := remove_id scheduleId (ctl_schedules c) in
  check (length kept <? length (ctl_schedules c))%nat orelse mret (Failed NotFound) ;;
  put (set_schedules c kept) ;;
  replan_locking me.

(** ** The dispatchers *)

(** A method that returns [void]. *)
Definition done (m : Locking D unit) : Locking D Status := m ≫= fun _ : unit => mret OK.

Variable compileTime : DateTime.

(** [perform] of [Api] with the guards: the methods that take the mutex
    take it, the others assign as they do there. *)
Definition perform_locking me (a : Action D) c : option (Status * Controller D) :=
  match a with
  | Do_begin => Some (begin_locking compileTime me c)
  | Do_setTime dt => Some (setTime_locking me dt c)
  | Do_setTimeFromUTC utcEpoch offsetSeconds =>
      Some (setTimeFromUTC_locking me utcEpoch offsetSeconds c)
  | Do_addSchedule schedule => Some (addSchedule_locking me schedule c)
  | Do_updateSchedule scheduleId schedule =>
      Some (updateSchedule_locking me scheduleId schedule c)
  | Do_removeSchedule scheduleId => Some (removeSchedule_locking me scheduleId c)
  | Do_markPumpExerciseComplete => Some (done (markPumpExerciseComplete_locking me) c)
  | Do_setAlarmForNextSchedule => Some (setAlarmForNextSchedule_locking me c)
  | Do_setAlarm1 dt matchSeconds => Some (setAlarm1_locking me dt matchSeconds c)
  | Do_setAlarm2 dt => Some (setAlarm2_locking me dt c)
  | Do_clearAlarm alarmNumber => Some (done (clearAlarm_locking me alarmNumber) c)
  | Do_acknowledgeAlarm alarmNumber =>
      Some (done (acknowledgeAlarm_locking me alarmNumber) c)
  | _ => perform compileTime me a c
  end.

(** [ask] of [Queries] with the guards. *)
Definition ask_locking me (q : Query) : Locking D Answer :=
  match q with
  | Ask_isRunning => Is <$> isRunning_locking me
  | Ask_now => At <$> now_locking me
  | Ask_nowUTC offsetSeconds => Number <$> nowUTC_locking me offsetSeconds
  | Ask_syncSystemTime sys => Synced <$> syncSystemTime_locking me sys
  | Ask_isWithinAnySchedule => Is <$> isWithinAnySchedule_locking me
  | Ask_isWithinSchedule scheduleId => Is <$> isWithinSchedule_locking me scheduleId
  | Ask_getCurrentActiveSchedule => Found <$> getCurrentActiveSchedule_locking me
  | Ask_getNextScheduledStart => At <$> getNextScheduledStart_locking me
  | Ask_getNextScheduledEnd => At <$> getNextScheduledEnd_locking me
  | Ask_getSecondsUntilNextEvent => Number <$> getSecondsUntilNextEvent_locking me
  | Ask_isVacationMode => Is <$> isVacationMode_locking me
  | Ask_isPumpExerciseTime => Is <$> isPumpExerciseTime_locking me
  | Ask_getTemperature => Reading <$> getTemperature_locking me
  | Ask_getTemperatureCelsius => Float <$> getTemperatureCelsius_locking me
  | Ask_isAlarmFired alarmNumber => Is <$> isAlarmFired_locking me alarmNumber
  | Ask_isBatteryBackupEnabled => Is <$> isBatteryBackupEnabled_locking me
  | Ask_getFormattedTime => Text <$> getFormattedTime_locking me
  | Ask_getFormattedDate => Text <$> getFormattedDate_locking me
  | Ask_getScheduleStatus => Text <$> getScheduleStatus_locking me
  | _ => ask me q <$> get
  end.

(** [perform_all] of [Api] with the guards: who does what, in order. *)
Fixpoint perform_all_locking (program : list (Mutex.TaskId * Action D)) c
  : option (Controller D) :=
  match program with
  | [] => Some c
  | (me, a) :: program' =>
      match perform_locking me a c with
      | Some (_, c') => perform_all_locking program' c'
      | None => None
      end
  end.

End GuardedApi.

(** ** Theory *)

Section Single.

Context {D : Type} `{RtcDevice D} `{Thermometer D} `{Layout}.

#[local] Existing Instance recursive.

Implicit Types (c : Controller D) (me : Mutex.TaskId).

Lemma answers_fmap {A B : Type} (f : A -> B) (m : Locking D A) c a :
  answers m c a -> answers (f <$> m) c (f a).
Proof. unfold answers, fmap, Locking_fmap. intros ->. reflexivity. Qed.

(** *** The queries with one guard *)

Lemma isRunning_transparent me c :
  Mutex.ok (ctl_mutex c) -> answers (isRunning_locking me) c (isRunning me c).
Proof. intros Hok. unfold isRunning_locking, isRunning. enter me c. answer. Qed.

Lemma isAlarmFired_transparent me n c :
  Mutex.ok (ctl_mutex c) -> answers (isAlarmFired_locking me n) c (isAlarmFired me c n).
Proof. intros Hok. unfold isAlarmFired_locking, isAlarmFired. answer. enter me c. answer. Qed.

Lemma getTemperature_transparent me c :
  Mutex.ok (ctl_mutex c) -> answers (getTemperature_locking me) c (getTemperature me c).
Proof.
  intros Hok. unfold getTemperature_locking, getTemperature. cbv zeta. answer. enter me c.
  answer.
Qed.

Lemma getTemperatureCelsius_transparent me c :
  Mutex.ok (ctl_mutex c) ->
  answers (getTemperatureCelsius_locking me) c (getTemperatureCelsius me c).
Proof.
  intros Hok. unfold getTemperatureCelsius_locking, getTemperatureCelsius. answer. enter me c.
  answer.
Qed.

Lemma isBatteryBackupEnabled_transparent me c :
  Mutex.ok (ctl_mutex c) ->
  answers (isBatteryBackupEnabled_locking me) c (isBatteryBackupEnabled me c).
Proof.
  intros Hok. unfold isBatteryBackupEnabled_locking, isBatteryBackupEnabled. answer.
  enter me c. answer.
Qed.

Lemma getFormattedTime_transparent me c :
  Mutex.ok (ctl_mutex c) -> answers (getFormattedTime_locking me) c (getFormattedTime me c).
Proof.
  intros Hok. unfold getFormattedTime_locking, getFormattedTime. answer. enter me c. answer.
Qed.

Lemma getFormattedDate_transparent me c :
  Mutex.ok (ctl_mutex c) -> answers (getFormattedDate_locking me) c (getFormattedDate me c).
Proof.
  intros Hok. unfold getFormattedDate_locking, getFormattedDate. answer. enter me c. answer.
Qed.

Lemma syncSystemTime_transparent me sys c :
  Mutex.ok (ctl_mutex c) ->
  answers (syncSystemTime_locking me sys) c (syncSystemTime me c sys).
Proof.
  intros Hok. unfold syncSystemTime_locking, syncSystemTime. answer. enter me c. answer.
Qed.

Lemma printDiagnostics_transparent LOG_WRITE build me c :
  Mutex.ok (ctl_mutex c) ->
  answers (printDiagnostics_locking LOG_WRITE build me) c
          (printDiagnostics LOG_WRITE build me c).
Proof.
  intros Hok. unfold printDiagnostics_locking, printDiagnostics. cbv zeta. answer. enter me c.
  eapply answers_bind; [call getScheduleStatus_transparent getScheduleStatus_locked|].
  apply answers_ret.
Qed.

Lemma nowUTC_transparent me offsetSeconds c :
  Mutex.ok (ctl_mutex c) ->
  answers (nowUTC_locking me offsetSeconds) c (nowUTC me c offsetSeconds).
Proof.
  intros Hok. unfold nowUTC_locking, nowUTC.
  eapply answers_bind; [apply now_transparent, Hok | apply answers_ret].
Qed.

(** *** The methods that change the object *)

Lemma setAlarm2_transparent me c dt :
  Mutex.ok (ctl_mutex c) -> setAlarm2_locking me dt c = setAlarm2 me c dt.
Proof. intros Hok. unfold setAlarm2_locking, setAlarm2. mutate me c Hok. Qed.

Lemma clearAlarm_transparent me c n :
  Mutex.ok (ctl_mutex c) -> clearAlarm_locking me n c = (tt, clearAlarm me c n).
Proof. intros Hok. unfold clearAlarm_locking, clearAlarm. mutate me c Hok. Qed.

Lemma acknowledgeAlarm_transparent me c n :
  Mutex.ok (ctl_mutex c) -> acknowledgeAlarm_locking me n c = (tt, acknowledgeAlarm me c n).
Proof. intros Hok. unfold acknowledgeAlarm_locking, acknowledgeAlarm. mutate me c Hok. Qed.

Lemma setTimeFromUTC_transparent me c utcEpoch offsetSeconds :
  Mutex.ok (ctl_mutex c) ->
  setTimeFromUTC_locking me utcEpoch offsetSeconds c
  = setTimeFromUTC me c utcEpoch offsetSeconds.
Proof.
  intros Hok. unfold setTimeFromUTC_locking, setTimeFromUTC. cbv zeta.
  destruct (negb (_ <? _)); [|reflexivity].
  destruct (negb (_ || _)); [apply setTime_transparent, Hok | reflexivity].
Qed.

(** Planning again on the object with its new schedules. *)
Lemma replan_transparent me c l :
  Mutex.ok (ctl_mutex c) ->
  replan_locking me (set_schedules c l)
  = (OK, snd (setAlarmForNextSchedule me (set_schedules c l))).
Proof.
  intros Hok. unfold replan_locking, mbind, Locking_bind.
  rewrite setAlarmForNextSchedule_transparent by exact Hok.
  destruct (setAlarmForNextSchedule _ _). reflexivity.
Qed.

Lemma addSchedule_transparent me c schedule :
  Mutex.ok (ctl_mutex c) -> addSchedule_locking me schedule c = addSchedule me c schedule.
Proof.
  intros Hok. unfold addSchedule_locking, addSchedule, mbind, Locking_bind, get, put.
  cbv beta iota zeta. destruct (_ <? _); [apply replan_transparent, Hok | reflexivity].
Qed.

Lemma updateSchedule_transparent me c id schedule :
  Mutex.ok (ctl_mutex c) ->
  updateSchedule_locking me id schedule c = updateSchedule me c id schedule.
Proof.
  intros Hok. unfold updateSchedule_locking, updateSchedule, mbind, Locking_bind, get, put.
  cbv beta iota zeta.
  destruct (replace_first _ _ _); [apply replan_transparent, Hok | reflexivity].
Qed.

Lemma removeSchedule_transparent me c id :
  Mutex.ok (ctl_mutex c) -> removeSchedule_locking me id c = removeSchedule me c id.
Proof.
  intros Hok. unfold removeSchedule_locking, removeSchedule, mbind, Locking_bind, get, put.
  cbv beta iota zeta. destruct (_ <? _)%nat; [apply replan_transparent, Hok | reflexivity].
Qed.


Lemma done_transparent (m : Locking D unit) c c' : m c = (tt, c') -> done m c = (OK, c').
Proof. unfold done, mbind, Locking_bind. intros ->. reflexivity. Qed.

End Single.

(** ** The interface *)

Section Interface.

Context {D : Type} `{RtcDevice D} `{Thermometer D} `{Layout}.

#[local] Existing Instance recursive.

Variable compileTime : DateTime.

Implicit Types (c : Controller D) (me : Mutex.TaskId) (a : Action D) (q : Query).

(** A call with its guards is the call of [Api]. *)
Lemma perform_locking_eq me a c :
  Mutex.ok (ctl_mutex c) -> perform_locking compileTime me a c = perform compileTime me a c.
Proof.
  intros Hok. destruct a; cbn [perform_locking perform]; try reflexivity; f_equal;
    try (apply done_transparent);
    auto using begin_transparent, setTime_transparent, setTimeFromUTC_transparent,
      addSchedule_transparent, updateSchedule_transparent, removeSchedule_transparent,
      markPumpExerciseComplete_transparent, setAlarmForNextSchedule_transparent,
      setAlarm1_transparent, setAlarm2_transparent, clearAlarm_transparent,
      acknowledgeAlarm_transparent.
Qed.

(** Every guard that a call opens it closes: the mutex after the call is
    the mutex before it. *)
Lemma perform_locking_mutex me a c st c' :
  Mutex.ok (ctl_mutex c) -> perform_locking compileTime me a c = Some (st, c') ->
  ctl_mutex c' = ctl_mutex c.
Proof.
  intros Hok. rewrite (perform_locking_eq _ _ _ Hok). intros Hp.
  apply (action_orderly _ _ _ _ _ _ Hp).
Qed.

(** A program with its guards is the program of [Api]. *)
Lemma perform_all_locking_eq program : forall c,
  Mutex.ok (ctl_mutex c) ->
  perform_all_locking compileTime program c = perform_all compileTime program c.
Proof.
  induction program as [|[me a] program IH]; intros c Hok; [reflexivity|].
  cbn [perform_all_locking perform_all].
  pose proof (perform_locking_mutex me a c) as Hm. rewrite (perform_locking_eq _ _ _ Hok) in *.
  destruct (perform _ _ _ _) as [[st c']|]; [|reflexivity].
  apply IH. rewrite (Hm st c' Hok eq_refl). exact Hok.
Qed.

(** C13: the guards of the writing side are transparent.  Every call of
    the interface written with its [RecursiveMutexGuard], the guards of
    the methods it calls included, on an object whose mutex is free or
    held by a task, returns the status and leaves the object that the
    model which only tests [hasLock] returns and leaves; so does every
    sequence of calls by any tasks. *)
Theorem perform_locking_transparent me a program c :
  Mutex.ok (ctl_mutex c) ->
  perform_locking compileTime me a c = perform compileTime me a c
  /\ perform_all_locking compileTime program c = perform_all compileTime program c.
Proof. intros Hok. split; [apply perform_locking_eq | apply perform_all_locking_eq]; exact Hok. Qed.


(** A query with its guards is the query of [Queries]. *)
Lemma ask_locking_answers me q c :
  Mutex.ok (ctl_mutex c) -> answers (ask_locking me q) c (ask me q c).
Proof.
  intros Hok. destruct q; cbn [ask_locking];
    try exact (answers_fmap (ask me _) get c c (answers_get c));
    cbn [ask]; apply answers_fmap;
    auto using isRunning_transparent, now_transparent, nowUTC_transparent,
      syncSystemTime_transparent, isWithinAnySchedule_transparent,
      isWithinSchedule_transparent, getCurrentActiveSchedule_transparent,
      getNextScheduledStart_transparent, getNextScheduledEnd_transparent,
      getSecondsUntilNextEvent_transparent, isVacationMode_transparent,
      isPumpExerciseTime_transparent, getTemperature_transparent,
      getTemperatureCelsius_transparent, isAlarmFired_transparent,
      isBatteryBackupEnabled_transparent, getFormattedTime_transparent,
      getFormattedDate_transparent, getScheduleStatus_transparent.
Qed.

(** C18: the guards of the reading side are transparent.  Every query of
    the interface written with its guard, and the guards nested in it up
    to three deep, answers what the model that tests [hasLock] answers,
    [printDiagnostics] logs the lines of its model, and both leave the
    object as they found it, the mutex at the depth it had, whether the
    mutex is free, held by the caller or held by another task. *)
Theorem ask_locking_transparent me q LOG_WRITE build c :
  Mutex.ok (ctl_mutex c) ->
  ask_locking me q c = (ask me q c, c)
  /\ printDiagnostics_locking LOG_WRITE build me c
     = (printDiagnostics LOG_WRITE build me c, c).
Proof.
  intros Hok. split; [apply ask_locking_answers | apply printDiagnostics_transparent]; exact Hok.
Qed.

(** While another task holds the lock, or before [begin], a call with
    its guards leaves the chip alone: its guard is refused. *)
Theorem locked_out_call_is_inert me a c st c' :
  Mutex.ok (ctl_mutex c) -> is_call a = true -> a <> Do_begin ->
  perform_locking compileTime me a c = Some (st, c') -> inert me c c'.
Proof.
  intros Hok Hc Hb. rewrite (perform_locking_eq _ _ _ Hok).
  apply action_inert; assumption.
Qed.

End Interface.

(** ** The theorems at the samples *)

(** A session on the chip of the samples: a schedule is added, stored
    and planned, the alarm that rang is acknowledged, and the mutex is
    free again. *)
Definition sample_session : list (Mutex.TaskId * Action SimRtc) :=
  [(0%nat, Do_begin); (1%nat, Do_addSchedule weekday_morning);
   (0%nat, Do_setAlarm2 (DateTime_of_fields 2024 1 17 8 30 0));
   (1%nat, Do_acknowledgeAlarm 1); (0%nat, Do_removeSchedule 1)].

Example sample_session_runs :
  option_map (fun c => (ctl_mutex c, length (ctl_schedules c), ctl_initialized c))
    (perform_all_locking (L := recursive) DateTime_default sample_session
       (new_controller sample_rtc false))
  = Some (Mutex.free, 0%nat, true).
Proof. vm_compute. reflexivity. Qed.

Lemma perform_locking_transparent_witness :
  perform_locking (L := recursive) DateTime_default 0%nat (Do_addSchedule weekday_morning)
    (sample [])
  = perform DateTime_default 0%nat (Do_addSchedule weekday_morning) (sample [])
  /\ perform_all_locking (L := recursive) DateTime_default sample_session (sample [])
     = perform_all DateTime_default sample_session (sample []).
Proof.
  apply (perform_locking_transparent DateTime_default 0%nat (Do_addSchedule weekday_morning)
           sample_session (sample [])).
  reflexivity.
Defined.


Lemma ask_locking_transparent_witness :
  ask_locking (L := recursive) 0%nat Ask_getSecondsUntilNextEvent (sample [weekday_morning])
  = (ask 0%nat Ask_getSecondsUntilNextEvent (sample [weekday_morning]),
     sample [weekday_morning])
  /\ printDiagnostics_locking (L := recursive) LOG_WRITE_dropping release 0%nat
       (sample [weekday_morning])
     = (printDiagnostics LOG_WRITE_dropping release 0%nat (sample [weekday_morning]),
        sample [weekday_morning]).
Proof.
  apply (ask_locking_transparent 0%nat Ask_getSecondsUntilNextEvent LOG_WRITE_dropping release
           (sample [weekday_morning])).
  reflexivity.
Defined.
