(* ===== verification/Journal.v ===== *)
(** * The journal of the library

    Every method of [DS3231Controller] once more, this time with the
    calls of the logging macros it makes: [begin_logged] is [begin] of
    the source statement by statement, its log lines included, as a
    computation in the monad [Logged].  A method that logs nothing is
    its model of the other files.  [perform_logged] and [ask_logged]
    dispatch a call of the public interface as [Api.perform] and
    [Queries.ask] do.

    The theorems:

    - erasure: the result of a logged method is the result of its model
      without the log, so everything proved of the models holds of the
      logged methods;
    - a call that fails says so: the last line it logs is an error or a
      warning whose text is the message of the early return that the
      model's error names ([reason]), and no build that writes through
      ESP-IDF suppresses it; the three [void] methods that can fail
      report it in the log only;
    - a call that succeeds may still log an error, the one of the
      planning call whose result [addSchedule], [updateSchedule] and
      [removeSchedule] discard;
    - [printDiagnostics] of [Logging] writes the lines of its journal. *)

From Stdlib Require Import Ascii String Floats.SpecFloat.
From stdpp Require Import base list strings.
From S2P Require Import Prelude DateTime Schedule Hardware State Window Occurrence Alarm.
From S2P Require Import ScheduleSet Policy TimeZone DayNames Persist Api Report Temperature.
From S2P Require Import FloatText Logging Logged Queries.

(** ** Conversions of [printf] *)

(** [%ld] of an [int32_t]. *)
Definition signed_decimal (n : Z) : string :=
  if n <? 0 then "-" +:+ decimal (- n) else decimal n.

(** [hh:mm-hh:mm] of a window, with [%02d]. *)
Definition window_text (s : Schedule) : string :=
  padded 2 (sched_startHour s) +:+ ":" +:+ padded 2 (sched_startMinute s) +:+ "-"
  +:+ padded 2 (sched_endHour s) +:+ ":" +:+ padded 2 (sched_endMinute s).

Section Journal.

Context {D : Type} `{RtcDevice D} `{Thermometer D} `{Layout}.

Implicit Types (c : Controller D) (me : Mutex.TaskId).

(** ** The clock *)

Definition begin_logged (compileTime : DateTime) me c : Logged (Status * Controller D) :=
  check negb (ctl_initialized c)
    orelse bail LOG_D "DS3231 already initialized - skipping" (OK, c) ;;
  check hasLock me c
    orelse bail LOG_E "Failed to acquire mutex for begin()" (Failed LockUnavailable, c) ;;
  tell LOG_I "Initializing DS3231 RTC controller" ;;
  check rtc_begin (ctl_rtc c)
    orelse bail LOG_E "Failed to initialize DS3231" (Failed HardwareFailure, c) ;;
  r ← (if rtc_lostPower (ctl_rtc c)
       then bail LOG_W "RTC lost power, setting to compile time"
                    (rtc_adjust (ctl_rtc c) compileTime)
       else mret (ctl_rtc c));
  let r := rtc_clearAlarm (rtc_clearAlarm r 1) 2 in
  tell LOG_I ("DS3231 initialized successfully. Current time: " +:+ timestamp_FULL (rtc_now r)) ;;
  mret (OK, set_begun (set_rtc c r) (rtc_now r)).

Definition setTime_logged me c (dt : DateTime) : Logged (Status * Controller D) :=
  check ctl_initialized c
    orelse bail LOG_E "RTC not initialized - call begin() first" (Failed NotInitialized, c) ;;
  check isValid dt
    orelse bail LOG_E "Invalid DateTime provided" (Failed InvalidArgument, c) ;;
  check hasLock me c
    orelse bail LOG_E "Failed to acquire mutex for setTime()" (Failed LockUnavailable, c) ;;
  tell LOG_D ("Setting RTC time to: " +:+ timestamp_FULL dt) ;;
  let c := set_rtc c (rtc_adjust (ctl_rtc c) dt) in
  let c := if ctl_timeChangeCallback c then emit c (TimeChanged dt) else c in
  mret (OK, c).

Definition now_logged me c : Logged DateTime :=
  check ctl_initialized c
    orelse bail LOG_E "RTC not initialized - call begin() first" DateTime_default ;;
  check hasLock me c
    orelse bail LOG_E "Failed to acquire mutex for now()" DateTime_default ;;
  mret (rtc_now (ctl_rtc c)).

(** ** Alarms *)

Definition setAlarm1_logged me c (dt : DateTime) (matchSeconds : bool)
  : Logged (Status * Controller D) :=
  check ctl_initialized c
    orelse bail LOG_E "RTC not initialized - call begin() first" (Failed NotInitialized, c) ;;
  check isValid dt
    orelse bail LOG_E "Invalid DateTime for Alarm 1" (Failed InvalidArgument, c) ;;
  check hasLock me c
    orelse bail LOG_E "Failed to acquire mutex for setAlarm1()" (Failed LockUnavailable, c) ;;
  tell LOG_I ("Setting Alarm 1 for " +:+ timestamp_FULL dt) ;;
  let mode := if matchSeconds then DS3231_A1_Date else DS3231_A1_Hour in
  mret (OK, set_rtc c (rtc_setAlarm1 (ctl_rtc c) dt mode)).

Definition setAlarm2_logged me c (dt : DateTime) : Logged (Status * Controller D) :=
  check ctl_initialized c
    orelse bail LOG_E "RTC not initialized - call begin() first" (Failed NotInitialized, c) ;;
  check hasLock me c
    orelse bail LOG_E "Failed to acquire mutex for setAlarm2()" (Failed LockUnavailable, c) ;;
  let c := set_rtc c (rtc_setAlarm2 (ctl_rtc c) dt DS3231_A2_Minute) in
  tell LOG_I ("Alarm 2 set for " +:+ padded 2 (dt_hour dt) +:+ ":" +:+ padded 2 (dt_minute dt)) ;;
  mret (OK, c).

Definition setAlarmForNextSchedule_logged me c : Logged (Status * Controller D) :=
  let next := getNextScheduledStart me c in
  check isValid next
    orelse bail LOG_W "No upcoming schedules to set alarm for" (Failed NoUpcomingEvent, c) ;;
  setAlarm1_logged me c next false.

Definition clearAlarm_logged me c (alarmNumber : Z) : Logged (Controller D) :=
  check ctl_initialized c
    orelse bail LOG_E "RTC not initialized - call begin() first" c ;;
  check hasLock me c
    orelse bail LOG_E "Failed to acquire mutex for clearAlarm()" c ;;
  let c := set_rtc c (rtc_clearAlarm (ctl_rtc c) alarmNumber) in
  tell LOG_D ("Cleared alarm " +:+ decimal alarmNumber) ;;
  mret c.

Definition acknowledgeAlarm_logged me c (alarmNumber : Z) : Logged (Controller D) :=
  check ctl_initialized c
    orelse bail LOG_E "RTC not initialized - call begin() first" c ;;
  check hasLock me c
    orelse bail LOG_E "Failed to acquire mutex for acknowledgeAlarm()" c ;;
  let c := set_rtc c (rtc_clearAlarm (ctl_rtc c) alarmNumber) in
  let c := if ctl_alarmCallback c then emit c (AlarmAcknowledged alarmNumber) else c in
  tell LOG_D ("Acknowledged alarm " +:+ decimal alarmNumber) ;;
  mret c.

(** ** The schedule set *)

Definition addSchedule_logged me c (schedule : Schedule) : Logged (Status * Controller D) :=
  check Z.of_nat (length (ctl_schedules c)) <? MAX_SCHEDULES
    orelse bail LOG_E
             ("Maximum number of schedules (" +:+ decimal MAX_SCHEDULES +:+ ") reached")
             (Failed CapacityExceeded, c) ;;
  let newSchedule := stored c schedule in
  let c := set_schedules c (ctl_schedules c ++ [newSchedule]) in
  tell LOG_I ("Added schedule " +:+ decimal (sched_id newSchedule) +:+ " '"
              +:+ sched_name newSchedule +:+ "': " +:+ window_text newSchedule
              +:+ ", days=" +:+ formatDayMask (sched_dayMask newSchedule)) ;;
  planned ← setAlarmForNextSchedule_logged me c;
  mret (OK, snd planned).

Definition updateSchedule_logged me c (scheduleId : Z) (schedule : Schedule)
  : Logged (Status * Controller D) :=
  match replace_first scheduleId schedule (ctl_schedules c) with
  | Some l =>
      tell LOG_I ("Updated schedule " +:+ decimal scheduleId) ;;
      planned ← setAlarmForNextSchedule_logged me (set_schedules c l);
      mret (OK, snd planned)
  | None =>
      bail LOG_W ("Schedule " +:+ decimal scheduleId +:+ " not found") (Failed NotFound, c)
  end.

Definition removeSchedule_logged me c (scheduleId : Z) : Logged (Status * Controller D) :=
  let kept := remove_id scheduleId (ctl_schedules c) in
  check (length kept <? length (ctl_schedules c))%nat
    orelse bail LOG_W ("Schedule " +:+ decimal scheduleId +:+ " not found")
                   (Failed NotFound, c) ;;
  tell LOG_I ("Removed schedule " +:+ decimal scheduleId) ;;
  planned ← setAlarmForNextSchedule_logged me (set_schedules c kept);
  mret (OK, snd planned).

Definition clearAllSchedules_logged c : Logged (Controller D) :=
  let c := clearAllSchedules c in
  tell LOG_I "All schedules cleared" ;;
  mret c.

Definition isWithinAnySchedule_logged me c : Logged bool :=
  check ctl_initialized c orelse mret false ;;
  check hasLock me c orelse mret false ;;
  check negb (vac_enabled (ctl_vacationMode c)
              && in_vacation_range (ctl_vacationMode c) (rtc_now (ctl_rtc c)))
    orelse bail LOG_D "Vacation mode active, schedules disabled" false ;;
  mret (existsb (fun s => isWithinSchedule me c (sched_id s)) (ctl_schedules c)).

(** ** Vacation and pump exercise *)

Definition setVacationMode_logged c (enabled : bool) (start end_ : DateTime)
  : Logged (Controller D) :=
  let c := setVacationMode c enabled start end_ in
  tell LOG_I ("Vacation mode " +:+ (if enabled then "enabled" else "disabled")) ;;
  (if enabled
   then tell LOG_I ("Vacation period: " +:+ timestamp_DATE start +:+ " to "
                    +:+ timestamp_DATE end_)
   else mret tt) ;;
  mret c.

Definition setPumpExercise_logged c (enabled : bool) (dayOfMonth hour minute durationSeconds : Z)
  : Logged (Controller D) :=
  let c := setPumpExercise c enabled dayOfMonth hour minute durationSeconds in
  tell LOG_I ("Pump exercise " +:+ (if enabled then "enabled" else "disabled") +:+ ": day "
              +:+ decimal dayOfMonth +:+ " at " +:+ padded 2 hour +:+ ":" +:+ padded 2 minute
              +:+ " for " +:+ decimal durationSeconds +:+ " seconds") ;;
  mret c.

Definition markPumpExerciseComplete_logged me c : Logged (Controller D) :=
  check ctl_initialized c
    orelse bail LOG_E "RTC not initialized - call begin() first" c ;;
  check hasLock me c
    orelse bail LOG_E "Failed to acquire mutex for markPumpExerciseComplete()" c ;;
  let c := markPumpExerciseComplete me c in
  tell LOG_I ("Pump exercise completed at "
              +:+ timestamp_FULL (pump_lastRun (ctl_pumpExercise c))) ;;
  mret c.

(** ** Temperature and power *)

Definition getTemperature_logged me c : Logged TemperatureData :=
  let data := mkTemperatureData (f32 0 0) (f32 32 0) DateTime_default in
  check ctl_initialized c
    orelse bail LOG_E "RTC not initialized - call begin() first" data ;;
  check hasLock me c
    orelse bail LOG_E "Failed to acquire mutex for getTemperature()" data ;;
  let degrees := rtc_getTemperature (ctl_rtc c) in
  let data := mkTemperatureData degrees (to_fahrenheit degrees) (rtc_now (ctl_rtc c)) in
  tell LOG_D ("Temperature: " +:+ printf_f 2 (to_double (celsius data)) +:+ degree +:+ "C / "
              +:+ printf_f 2 (to_double (fahrenheit data)) +:+ degree +:+ "F") ;;
  mret data.

Definition getTemperatureCelsius_logged me c : Logged float32 :=
  check ctl_initialized c
    orelse bail LOG_E "RTC not initialized - call begin() first" (f32 0 0) ;;
  check hasLock me c
    orelse bail LOG_E "Failed to acquire mutex for getTemperatureCelsius()" (f32 0 0) ;;
  mret (rtc_getTemperature (ctl_rtc c)).

Definition adjustDrift_logged c (secondsPerMonth : Z) : Logged bool :=
  bail LOG_W "Drift adjustment not implemented for DS3231" false.

Definition enableBatteryBackup_logged c (enable : bool) : Logged (Controller D) :=
  bail LOG_W "Battery backup is hardware-controlled on DS3231" c.

Definition getBatteryVoltage_logged c : Logged float32 :=
  bail LOG_W "Battery voltage monitoring not available on DS3231" (SFopp (f32 1 0)).

(** ** Time zones and the system clock *)

Definition setTimeFromUTC_logged me c (utcEpoch offsetSeconds : Z)
  : Logged (Status * Controller D) :=
  check negb (utcEpoch <? 946684800)
    orelse bail LOG_E ("Invalid UTC epoch: " +:+ decimal utcEpoch +:+ " (before year 2000)")
                   (Failed InvalidEpoch, c) ;;
  let localEpoch := u32 (utcEpoch + offsetSeconds) in
  let localTime := DateTime_of_epoch localEpoch in
  tell LOG_D ("Setting RTC from UTC: UTC epoch=" +:+ decimal utcEpoch +:+ ", offset="
              +:+ signed_decimal offsetSeconds +:+ ", local epoch=" +:+ decimal localEpoch) ;;
  tell LOG_D ("Local time will be: " +:+ timestamp_FULL localTime) ;;
  tell LOG_D ("DateTime components: " +:+ padded 4 (year localTime) +:+ "-"
              +:+ padded 2 (dt_month localTime) +:+ "-" +:+ padded 2 (dt_day localTime) +:+ " "
              +:+ padded 2 (dt_hour localTime) +:+ ":" +:+ padded 2 (dt_minute localTime) +:+ ":"
              +:+ padded 2 (dt_second localTime)) ;;
  check negb ((year localTime <? 2000) || (2100 <? year localTime))
    orelse bail LOG_E ("Invalid year " +:+ decimal (year localTime)
                          +:+ " after conversion - rejecting time update")
                   (Failed InvalidConversion, c) ;;
  setTime_logged me c localTime.

Definition nowUTC_logged me c (offsetSeconds : Z) : Logged Z :=
  localTime ← now_logged me c;
  let localEpoch := unixtime localTime in
  let utcEpoch := u32 (localEpoch - offsetSeconds) in
  tell LOG_D ("Converting RTC to UTC: local epoch=" +:+ decimal localEpoch +:+ ", offset="
              +:+ signed_decimal offsetSeconds +:+ ", UTC epoch=" +:+ decimal utcEpoch) ;;
  mret utcEpoch.

Definition syncSystemTime_logged me c (sys : SystemClock) : Logged (Status * SystemClock) :=
  check ctl_initialized c
    orelse bail LOG_E "Cannot sync system time - RTC not initialized"
                   (Failed NotInitialized, sys) ;;
  check hasLock me c
    orelse bail LOG_E "Failed to acquire mutex for syncSystemTime()"
                   (Failed LockUnavailable, sys) ;;
  let rtcTime := rtc_now (ctl_rtc c) in
  check isValid rtcTime
    orelse bail LOG_E "Invalid RTC time - cannot sync system time"
                   (Failed InvalidConversion, sys) ;;
  check sys_settable sys
    orelse bail LOG_E "settimeofday() failed" (Failed HardwareFailure, sys) ;;
  tell LOG_I ("System time synced from RTC: " +:+ timestamp_FULL rtcTime
              +:+ " (note: sub-second precision is 0)") ;;
  mret (OK, mkSystemClock (unixtime rtcTime) (sys_settable sys)).

(** ** Persistence *)

Definition serializeSchedules_logged c (buffer : list Z) (bufferSize : Z)
  : Logged (Status * list Z) :=
  check negb (bufferSize <? getScheduleDataSize c)
    orelse bail LOG_E "Invalid buffer or insufficient size" (Failed InvalidArgument, buffer) ;;
  let written := serializeSchedules c buffer bufferSize in
  tell LOG_I ("Serialized " +:+ decimal (Z.of_nat (length (ctl_schedules c)))
              +:+ " schedules to buffer") ;;
  mret written.

(** [None] when a read leaves the buffer, as in [Persist]. *)
Definition deserializeSchedules_logged c (buffer : list Z) (dataSize : Z)
  : option (Logged (Status * Controller D)) :=
  check negb (dataSize <? 4)
    orelse Some (bail LOG_E "Invalid buffer or size" (Failed InvalidArgument, c)) ;;
  b0 ← buffer !! 0%nat;
  check b0 =? MAGIC_1
    orelse Some (bail LOG_E "Invalid magic number" (Failed BadMagic, c)) ;;
  b1 ← buffer !! 1%nat;
  check b1 =? MAGIC_2
    orelse Some (bail LOG_E "Invalid magic number" (Failed BadMagic, c)) ;;
  version ← buffer !! 2%nat;
  check version =? VERSION
    orelse Some (bail LOG_E ("Unsupported version: " +:+ decimal version)
                         (Failed UnsupportedVersion, c)) ;;
  scheduleCount ← buffer !! 3%nat;
  check negb (MAX_SCHEDULES <? scheduleCount)
    orelse Some (bail LOG_E ("Too many schedules: " +:+ decimal scheduleCount)
                         (Failed TooManySchedules, c)) ;;
  schedules ← read_schedules (Z.to_nat scheduleCount) buffer 4;
  c ← read_trailing (set_schedules c schedules) buffer dataSize
                    (4 + Z.to_nat scheduleCount * RECORD_BYTES);
  Some (tell LOG_I ("Deserialized " +:+ decimal scheduleCount +:+ " schedules from buffer") ;;
        mret (OK, c)).

(** ** Diagnostics *)

Definition schedule_entry (schedule : Schedule) : Logged unit :=
  tell LOG_I ("  Schedule " +:+ decimal (sched_id schedule) +:+ " '" +:+ sched_name schedule
              +:+ "': " +:+ ON_OFF (sched_enabled schedule) +:+ ", "
              +:+ padded 2 (sched_startHour schedule) +:+ ":"
              +:+ padded 2 (sched_startMinute schedule) +:+ "-"
              +:+ padded 2 (sched_endHour schedule) +:+ ":"
              +:+ padded 2 (sched_endMinute schedule)
              +:+ ", days=" +:+ formatDayMask (sched_dayMask schedule)).

Definition printDiagnostics_logged me c : Logged unit :=
  check ctl_initialized c
    orelse tell LOG_E "RTC not initialized - call begin() first" ;;
  check hasLock me c
    orelse tell LOG_E "Failed to acquire mutex for printDiagnostics()" ;;
  let now := rtc_now (ctl_rtc c) in
  let temp := rtc_getTemperature (ctl_rtc c) in
  tell LOG_I "=== DS3231 Diagnostics ===" ;;
  tell LOG_I ("Current Time: " +:+ timestamp_FULL now) ;;
  tell LOG_I ("Temperature: " +:+ printf_f 2 (to_double temp) +:+ degree +:+ "C") ;;
  tell LOG_I ("Total Schedules: " +:+ decimal (Z.of_nat (length (ctl_schedules c)))) ;;
  mkLogged tt (flat_map (fun s => said (schedule_entry s)) (ctl_schedules c)) ;;
  tell LOG_I ("Vacation Mode: " +:+ ON_OFF (vac_enabled (ctl_vacationMode c))) ;;
  tell LOG_I ("Pump Exercise: " +:+ ON_OFF (pump_enabled (ctl_pumpExercise c))) ;;
  tell LOG_I ("Current Status: " +:+ getScheduleStatus me c) ;;
  tell LOG_I "==========================".

(** ** The public interface *)

(** A [void] method, which returns nothing to tell success from failure. *)
Definition void (m : Logged (Controller D)) : Logged (Status * Controller D) :=
  (fun c => (OK, c)) <$> m.

Definition perform_logged (compileTime : DateTime) me (a : Action D) c
  : option (Logged (Status * Controller D)) :=
  match a with
  | Do_begin => Some (begin_logged compileTime me c)
  | Do_setTime dt => Some (setTime_logged me c dt)
  | Do_setTimeFromUTC utcEpoch offsetSeconds =>
      Some (setTimeFromUTC_logged me c utcEpoch offsetSeconds)
  | Do_addSchedule schedule => Some (addSchedule_logged me c schedule)
  | Do_updateSchedule scheduleId schedule =>
      Some (updateSchedule_logged me c scheduleId schedule)
  | Do_removeSchedule scheduleId => Some (removeSchedule_logged me c scheduleId)
  | Do_clearAllSchedules => Some (void (clearAllSchedules_logged c))
  | Do_setVacationMode enabled start end_ =>
      Some (void (setVacationMode_logged c enabled start end_))
  | Do_setPumpExercise enabled dayOfMonth hour minute durationSeconds =>
      Some (void (setPumpExercise_logged c enabled dayOfMonth hour minute durationSeconds))
  | Do_markPumpExerciseComplete => Some (void (markPumpExerciseComplete_logged me c))
  | Do_setAlarmForNextSchedule => Some (setAlarmForNextSchedule_logged me c)
  | Do_setAlarm1 dt matchSeconds => Some (setAlarm1_logged me c dt matchSeconds)
  | Do_setAlarm2 dt => Some (setAlarm2_logged me c dt)
  | Do_clearAlarm alarmNumber => Some (void (clearAlarm_logged me c alarmNumber))
  | Do_acknowledgeAlarm alarmNumber => Some (void (acknowledgeAlarm_logged me c alarmNumber))
  | Do_deserializeSchedules buffer dataSize => deserializeSchedules_logged c buffer dataSize
  | Do_onTimeChange => Some (mret (OK, onTimeChange c))
  | Do_onAlarm => Some (mret (OK, onAlarm c))
  | Do_onScheduleEvent => Some (mret (OK, onScheduleEvent c))
  | Chip d => Some (mret (OK, set_rtc c d))
  end.

Definition ask_logged me (q : Query) c : Logged Answer :=
  match q with
  | Ask_now => At <$> now_logged me c
  | Ask_adjustDrift secondsPerMonth => Is <$> adjustDrift_logged c secondsPerMonth
  | Ask_nowUTC offsetSeconds => Number <$> nowUTC_logged me c offsetSeconds
  | Ask_syncSystemTime sys => Synced <$> syncSystemTime_logged me c sys
  | Ask_isWithinAnySchedule => Is <$> isWithinAnySchedule_logged me c
  | Ask_getTemperature => Reading <$> getTemperature_logged me c
  | Ask_getTemperatureCelsius => Float <$> getTemperatureCelsius_logged me c
  | Ask_getBatteryVoltage => Float <$> getBatteryVoltage_logged c
  | Ask_serializeSchedules buffer bufferSize =>
      Written <$> serializeSchedules_logged c buffer bufferSize
  | _ => mret (ask me q c)
  end.

(** A program that logs: the status of each call, as [Api.statuses] has
    it, with the entries of the calls in order, up to a read outside a
    buffer. *)
Fixpoint calls_logged (compileTime : DateTime) (program : list (Mutex.TaskId * Action D)) c
  : Logged (list (option Status)) :=
  match program with
  | [] => mret []
  | (me, a) :: program' =>
      match perform_logged compileTime me a c with
      | Some call =>
          r ← call;
          sts ← calls_logged compileTime program' (snd r);
          mret (Some (fst r) :: sts)
      | None => mret [None]
      end
  end.

(** The journal of a program. *)
Definition journal (compileTime : DateTime) (program : list (Mutex.TaskId * Action D)) c
  : list Entry :=
  said (calls_logged compileTime program c).

End Journal.

(** ** Examples *)

(** [addSchedule] before [begin]: the schedule is stored and the call
    returns [true], after the planning call has logged an error. *)
Example addSchedule_before_begin :
  let r := addSchedule_logged 0%nat (new_controller sample_rtc false) weekday_morning in
  (fst (val r), said r)
  = (OK, [(LOG_I, "Added schedule 1 'morning': 06:00-08:00, days=Mo,Tu,We,Th,Fr");
          (LOG_E, "RTC not initialized - call begin() first")]).
Proof. vm_compute. reflexivity. Qed.

(** The session of [Api], as the log has it. *)
Example session_journal :
  map snd (journal DateTime_default session (new_controller sample_rtc false))
  = ["RTC not initialized - call begin() first";
     "Initializing DS3231 RTC controller";
     "DS3231 initialized successfully. Current time: 2024-01-17T07:00:00";
     "Added schedule 1 'morning': 06:00-08:00, days=Mo,Tu,We,Th,Fr";
     "Setting Alarm 1 for 2024-01-18T06:00:00";
     "Added schedule 2 'night': 23:00-01:00, days=Su,Mo,Tu,We,Th,Fr,Sa";
     "Setting Alarm 1 for 2024-01-17T23:00:00";
     "Schedule 7 not found";
     "Setting Alarm 1 for 2024-01-18T23:00:00";
     "Invalid buffer or size"].
Proof. vm_compute. reflexivity. Qed.

(** A negative offset, and the epoch that wraps around. *)
Example nowUTC_journal :
  said (nowUTC_logged 0%nat (sample []) (-3600))
  = [(LOG_D, "Converting RTC to UTC: local epoch=1705474800, offset=-3600, UTC epoch=1705478400")].
Proof. vm_compute. reflexivity. Qed.

(** ** Erasure *)

(** The guards of the logged method and of its model, case by case. *)
Ltac guards :=
  repeat match goal with
         | |- context [if ?b then _ else _] => destruct b
         end.

Ltac erase := intros; cbv zeta; guards; reflexivity.

Section Erasure.

Context {D : Type} `{RtcDevice D} `{Thermometer D} `{Layout}.

Implicit Types (c : Controller D) (me : Mutex.TaskId).

Lemma val_begin_logged compileTime me c :
  val (begin_logged compileTime me c) = begin compileTime me c.
Proof. unfold begin_logged, begin. erase. Qed.

Lemma val_setTime_logged me c dt : val (setTime_logged me c dt) = setTime me c dt.
Proof. unfold setTime_logged, setTime. erase. Qed.

Lemma val_now_logged me c : val (now_logged me c) = now me c.
Proof. unfold now_logged, now. erase. Qed.

Lemma val_setAlarm1_logged me c dt m : val (setAlarm1_logged me c dt m) = setAlarm1 me c dt m.
Proof. unfold setAlarm1_logged, setAlarm1. erase. Qed.

Lemma val_setAlarm2_logged me c dt : val (setAlarm2_logged me c dt) = setAlarm2 me c dt.
Proof. unfold setAlarm2_logged, setAlarm2. erase. Qed.

Lemma val_setAlarmForNextSchedule_logged me c :
  val (setAlarmForNextSchedule_logged me c) = setAlarmForNextSchedule me c.
Proof.
  unfold setAlarmForNextSchedule_logged, setAlarmForNextSchedule. cbv zeta.
  destruct (isValid _); [apply val_setAlarm1_logged | reflexivity].
Qed.

Lemma val_clearAlarm_logged me c n : val (clearAlarm_logged me c n) = clearAlarm me c n.
Proof. unfold clearAlarm_logged, clearAlarm. erase. Qed.

Lemma val_acknowledgeAlarm_logged me c n :
  val (acknowledgeAlarm_logged me c n) = acknowledgeAlarm me c n.
Proof. unfold acknowledgeAlarm_logged, acknowledgeAlarm. erase. Qed.

(** What [addSchedule], [updateSchedule] and [removeSchedule] return
    after the planning call. *)
Lemma val_planned me c l (text : string) :
  val (tell LOG_I text ;; planned ← setAlarmForNextSchedule_logged me (set_schedules c l);
       mret (OK, snd planned))
  = (OK, snd (setAlarmForNextSchedule me (set_schedules c l))).
Proof. rewrite <- val_setAlarmForNextSchedule_logged. reflexivity. Qed.

Lemma val_addSchedule_logged me c s : val (addSchedule_logged me c s) = addSchedule me c s.
Proof.
  unfold addSchedule_logged, addSchedule. cbv zeta. destruct (_ <? _); [|reflexivity].
  apply val_planned.
Qed.

Lemma val_updateSchedule_logged me c id s :
  val (updateSchedule_logged me c id s) = updateSchedule me c id s.
Proof.
  unfold updateSchedule_logged, updateSchedule.
  destruct (replace_first _ _ _); [apply val_planned | reflexivity].
Qed.

Lemma val_removeSchedule_logged me c id :
  val (removeSchedule_logged me c id) = removeSchedule me c id.
Proof.
  unfold removeSchedule_logged, removeSchedule. cbv zeta. destruct (_ <? _)%nat; [|reflexivity].
  apply val_planned.
Qed.

Lemma val_isWithinAnySchedule_logged me c :
  val (isWithinAnySchedule_logged me c) = isWithinAnySchedule me c.
Proof. unfold isWithinAnySchedule_logged, isWithinAnySchedule. erase. Qed.

Lemma val_markPumpExerciseComplete_logged me c :
  val (markPumpExerciseComplete_logged me c) = markPumpExerciseComplete me c.
Proof.
  unfold markPumpExerciseComplete_logged, markPumpExerciseComplete.
  destruct (ctl_initialized c), (hasLock me c); reflexivity.
Qed.

Lemma val_getTemperature_logged me c : val (getTemperature_logged me c) = getTemperature me c.
Proof. unfold getTemperature_logged, getTemperature. erase. Qed.

Lemma val_getTemperatureCelsius_logged me c :
  val (getTemperatureCelsius_logged me c) = getTemperatureCelsius me c.
Proof. unfold getTemperatureCelsius_logged, getTemperatureCelsius. erase. Qed.

Lemma val_setTimeFromUTC_logged me c utcEpoch offsetSeconds :
  val (setTimeFromUTC_logged me c utcEpoch offsetSeconds)
  = setTimeFromUTC me c utcEpoch offsetSeconds.
Proof.
  unfold setTimeFromUTC_logged, setTimeFromUTC. cbv zeta.
  destruct (negb (utcEpoch <? _)); [|reflexivity].
  destruct (negb (_ || _)); [|reflexivity]. rewrite <- val_setTime_logged. reflexivity.
Qed.

Lemma val_nowUTC_logged me c offsetSeconds :
  val (nowUTC_logged me c offsetSeconds) = nowUTC me c offsetSeconds.
Proof. unfold nowUTC. rewrite <- val_now_logged. reflexivity. Qed.

Lemma val_syncSystemTime_logged me c sys :
  val (syncSystemTime_logged me c sys) = syncSystemTime me c sys.
Proof. unfold syncSystemTime_logged, syncSystemTime. erase. Qed.

Lemma val_serializeSchedules_logged c buffer bufferSize :
  val (serializeSchedules_logged c buffer bufferSize) = serializeSchedules c buffer bufferSize.
Proof.
  unfold serializeSchedules_logged. cbv zeta.
  destruct (negb _) eqn:E; [reflexivity|]. unfold serializeSchedules. rewrite E. reflexivity.
Qed.

End Erasure.

#[export] Hint Rewrite @val_begin_logged @val_setTime_logged @val_now_logged
  @val_setAlarm1_logged @val_setAlarm2_logged @val_setAlarmForNextSchedule_logged
  @val_clearAlarm_logged @val_acknowledgeAlarm_logged @val_addSchedule_logged
  @val_updateSchedule_logged @val_removeSchedule_logged @val_isWithinAnySchedule_logged
  @val_markPumpExerciseComplete_logged @val_getTemperature_logged
  @val_getTemperatureCelsius_logged @val_setTimeFromUTC_logged @val_nowUTC_logged
  @val_syncSystemTime_logged @val_serializeSchedules_logged : journal.

(** What is tested and read of an image, case by case. *)
Ltac image :=
  repeat (match goal with
          | |- context [if ?b then _ else _] => destruct b
          | |- context [?l !! ?i] => destruct (l !! i)
          | |- context [read_schedules ?n ?b ?o] => destruct (read_schedules n b o)
          | |- context [read_trailing ?c ?b ?n ?o] => destruct (read_trailing c b n o)
          end; cbn [mbind option_bind fmap option_fmap option_map]).

Section ErasureTheorems.

Context {D : Type} `{RtcDevice D} `{Thermometer D} `{Layout}.

Implicit Types (c : Controller D) (me : Mutex.TaskId).

Lemma val_deserializeSchedules_logged c buffer dataSize :
  val <$> deserializeSchedules_logged c buffer dataSize
  = deserializeSchedules c buffer dataSize.
Proof. unfold deserializeSchedules_logged, deserializeSchedules. image; reflexivity. Qed.

(** Erasure: the result of a call that logs is the result of the call in
    the model without the log, for every method that changes the object. *)
Lemma perform_logged_erasure compileTime me (a : Action D) c :
  val <$> perform_logged compileTime me a c = perform compileTime me a c.
Proof.
  destruct a; cbn [perform_logged perform];
    try apply val_deserializeSchedules_logged;
    cbn [fmap option_fmap option_map]; unfold void; autorewrite with journal;
    reflexivity.
Qed.


(** The same for the methods that answer. *)
Lemma ask_logged_erasure me (q : Query) c : val (ask_logged me q c) = ask me q c.
Proof.
  destruct q; cbn [ask_logged ask]; autorewrite with journal; reflexivity.
Qed.

End ErasureTheorems.

(** ** Failures and the log *)

(** The early return that a line of the log stands for: the texts of the
    errors and warnings of the library, by their beginnings. *)
Definition reason (text : string) : option Error :=
  if String.prefix "RTC not initialized" text then Some NotInitialized
  else if String.prefix "Cannot sync system time - RTC not initialized" text
  then Some NotInitialized
  else if String.prefix "Failed to acquire mutex" text then Some LockUnavailable
  else if String.prefix "Invalid DateTime" text then Some InvalidArgument
  else if String.prefix "Invalid buffer" text then Some InvalidArgument
  else if String.prefix "Maximum number of schedules" text then Some CapacityExceeded
  else if String.prefix "Schedule" text then Some NotFound
  else if String.prefix "No upcoming schedules" text then Some NoUpcomingEvent
  else if String.prefix "Invalid magic number" text then Some BadMagic
  else if String.prefix "Unsupported version" text then Some UnsupportedVersion
  else if String.prefix "Too many schedules" text then Some TooManySchedules
  else if String.prefix "Invalid UTC epoch" text then Some InvalidEpoch
  else if String.prefix "Invalid year" text then Some InvalidConversion
  else if String.prefix "Invalid RTC time" text then Some InvalidConversion
  else if String.prefix "Failed to initialize DS3231" text then Some HardwareFailure
  else if String.prefix "settimeofday() failed" text then Some HardwareFailure
  else None.

(** What the last line of a method's log blames. *)
Definition blamed {A : Type} (m : Logged A) : option Error :=
  entry ← last (said m); reason (snd entry).

(** A method with a status reports its failures: when it returns
    [Failed e], the last line it logged is an error or a warning, and its
    text is the one of the early return that [e] names. *)
Definition reports {X : Type} (m : Logged (Status * X)) : Prop :=
  forall e, fst (val m) = Failed e -> complains m = true /\ blamed m = Some e.

(** The [void] methods that test the state of the object. *)
Definition guarded_void {D : Type} (a : Action D) : bool :=
  match a with
  | Do_markPumpExerciseComplete | Do_clearAlarm _ | Do_acknowledgeAlarm _ => true
  | _ => false
  end.

(** The calls of a program that returned [false]. *)
Definition failed (st : option Status) : bool :=
  match st with
  | Some (Failed _) => true
  | _ => false
  end.

Definition failures (sts : list (option Status)) : nat := length (filter failed sts).

Ltac report :=
  unfold reports; cbv zeta; guards; intros e Hfailed;
  first [discriminate Hfailed | injection Hfailed as <-; split; reflexivity].

Section Reporting.

Context {D : Type} `{RtcDevice D} `{Thermometer D} `{Layout}.

Implicit Types (c : Controller D) (me : Mutex.TaskId).

(** A method that ends on a call reports what the call reports. *)
Lemma reports_bind {A X : Type} (m : Logged A) (f : A -> Logged (Status * X)) :
  reports (f (val m)) -> reports (m ≫= f).
Proof.
  intros Hf e Hfailed. destruct (Hf e Hfailed) as [Hc Hb]. split; [apply complains_bind, Hc|].
  unfold blamed, complains in *. rewrite said_bind, last_app.
  destruct (last (said (f (val m)))); [exact Hb | discriminate].
Qed.

Lemma reports_begin compileTime me c : reports (begin_logged compileTime me c).
Proof. unfold begin_logged. report. Qed.

Lemma reports_setTime me c dt : reports (setTime_logged me c dt).
Proof. unfold setTime_logged. report. Qed.

Lemma reports_setAlarm1 me c dt m : reports (setAlarm1_logged me c dt m).
Proof. unfold setAlarm1_logged. report. Qed.

Lemma reports_setAlarm2 me c dt : reports (setAlarm2_logged me c dt).
Proof. unfold setAlarm2_logged. report. Qed.

Lemma reports_setAlarmForNextSchedule me c : reports (setAlarmForNextSchedule_logged me c).
Proof.
  unfold setAlarmForNextSchedule_logged. cbv zeta.
  destruct (isValid _); [apply reports_setAlarm1 | report].
Qed.

Lemma reports_setTimeFromUTC me c utcEpoch offsetSeconds :
  reports (setTimeFromUTC_logged me c utcEpoch offsetSeconds).
Proof.
  unfold setTimeFromUTC_logged. cbv zeta. destruct (negb (utcEpoch <? _)); [|report].
  destruct (negb (_ || _)); [|report].
  do 3 apply reports_bind. apply reports_setTime.
Qed.

Lemma reports_addSchedule me c s : reports (addSchedule_logged me c s).
Proof. unfold addSchedule_logged. report. Qed.

Lemma reports_updateSchedule me c id s : reports (updateSchedule_logged me c id s).
Proof. unfold updateSchedule_logged. destruct (replace_first _ _ _); report. Qed.

Lemma reports_removeSchedule me c id : reports (removeSchedule_logged me c id).
Proof. unfold removeSchedule_logged. report. Qed.

Lemma reports_void (m : Logged (Controller D)) : reports (void m).
Proof. intros e Hfailed. discriminate Hfailed. Qed.

Lemma reports_ret {X : Type} (x : X) : reports (mret (OK, x)).
Proof. intros e Hfailed. discriminate Hfailed. Qed.

Lemma reports_syncSystemTime me c sys : reports (syncSystemTime_logged me c sys).
Proof. unfold syncSystemTime_logged. report. Qed.

Lemma reports_serializeSchedules c buffer bufferSize :
  reports (serializeSchedules_logged c buffer bufferSize).
Proof.
  unfold serializeSchedules_logged. cbv zeta. destruct (negb _) eqn:E; [|report].
  intros e Hfailed. exfalso. revert Hfailed.
  change (fst (serializeSchedules c buffer bufferSize) <> Failed e).
  unfold serializeSchedules. rewrite E. destruct (fold_left _ _ _). discriminate.
Qed.

Lemma reports_deserializeSchedules c buffer dataSize r :
  deserializeSchedules_logged c buffer dataSize = Some r -> reports r.
Proof.
  unfold deserializeSchedules_logged. image; intros [= <-]; report.
Qed.

End Reporting.

Section ReportingTheorems.

Context {D : Type} `{RtcDevice D} `{Thermometer D} `{Layout}.

Implicit Types (c : Controller D) (me : Mutex.TaskId).

(** The warning of the planning call is never logged: the time it tests
    is valid whatever the schedules. *)
Lemma setAlarmForNextSchedule_logged_eq me c :
  setAlarmForNextSchedule_logged me c
  = setAlarm1_logged me c (getNextScheduledStart me c) false.
Proof.
  unfold setAlarmForNextSchedule_logged. cbv zeta.
  rewrite getNextScheduledStart_valid. reflexivity.
Qed.

(** The planning call of [addSchedule], [updateSchedule] and
    [removeSchedule]: its failure ends the log of the method, which
    returns [true]. *)
Lemma complains_planned me c (text : string) :
  fst (setAlarmForNextSchedule me c) <> OK ->
  complains (tell LOG_I text ;; planned ← setAlarmForNextSchedule_logged me c;
             mret (OK, snd planned)) = true.
Proof.
  intros Hfailed. apply complains_bind. rewrite complains_bind_ret.
  destruct (fst (setAlarmForNextSchedule me c)) as [|e] eqn:Hst; [contradiction|].
  apply (reports_setAlarmForNextSchedule me c e).
  rewrite val_setAlarmForNextSchedule_logged. exact Hst.
Qed.

(** The lines of the schedules in the diagnostics. *)
Lemma written_schedule_entries LOG_WRITE build (l : list Schedule) :
  written LOG_WRITE build (flat_map (fun s => said (schedule_entry s)) l)
  = flat_map (schedule_line LOG_WRITE build) l.
Proof.
  induction l as [|s l IH]; [reflexivity|]. cbn [flat_map]. rewrite written_app, IH.
  f_equal. apply app_nil_r.
Qed.

(** Every call of the interface reports its failures. *)
Lemma perform_logged_reports compileTime me (a : Action D) c r :
  perform_logged compileTime me a c = Some r -> reports r.
Proof.
  destruct a; cbn [perform_logged]; try apply reports_deserializeSchedules;
    intros [= <-];
    auto using reports_begin, reports_setTime, reports_setTimeFromUTC, reports_addSchedule,
      reports_updateSchedule, reports_removeSchedule, reports_setAlarmForNextSchedule,
      reports_setAlarm1, reports_setAlarm2, reports_void, reports_ret.
Qed.

(** C25: a failure is explained in the log.  When a method of the
    interface returns [false], which the model has as [Failed e], the
    last line the method logged is an error or a warning, and its text is
    the message of the early return that [e] names: the errors of the
    model are the ones the code tells apart in its log. *)
Theorem failure_is_explained compileTime me (a : Action D) c r e :
  perform_logged compileTime me a c = Some r -> fst (val r) = Failed e ->
  complains r = true /\ blamed r = Some e.
Proof. intros Hr. apply (perform_logged_reports _ _ _ _ _ Hr). Qed.

(** The [void] methods report failure in the log only.
    [markPumpExerciseComplete], [clearAlarm] and [acknowledgeAlarm] on an
    object that is not initialised or whose lock the caller cannot take
    change nothing and end on an error line; the caller is told nothing. *)
Theorem void_failure_only_in_log compileTime me (a : Action D) c :
  guarded_void a = true ->
  ctl_initialized c = false \/ hasLock me c = false ->
  exists r, perform_logged compileTime me a c = Some r
            /\ val r = (OK, c) /\ complains r = true.
Proof.
  destruct a; try discriminate; intros _ Hout; (eexists; split; [reflexivity|]);
    unfold void, markPumpExerciseComplete_logged, clearAlarm_logged, acknowledgeAlarm_logged;
    destruct Hout as [-> | ->]; destruct (ctl_initialized c); split; reflexivity.
Qed.

(** A call that succeeds may end on an error.  [addSchedule] stores
    the schedule and returns [true] whatever the planning call it ends
    with returns: when that call fails, the log of the successful
    [addSchedule] ends on the planning call's error or warning. *)
Theorem addSchedule_discards_planning_failure me c (s : Schedule) :
  Z.of_nat (length (ctl_schedules c)) < MAX_SCHEDULES ->
  fst (setAlarmForNextSchedule me (set_schedules c (ctl_schedules c ++ [stored c s]))) <> OK ->
  fst (val (addSchedule_logged me c s)) = OK /\ complains (addSchedule_logged me c s) = true.
Proof.
  intros Hroom Hfailed. unfold addSchedule_logged. cbv zeta.
  apply Z.ltb_lt in Hroom. rewrite Hroom. split; [reflexivity|].
  apply complains_planned, Hfailed.
Qed.

(** [printDiagnostics] writes its journal.  The lines of
    [Logging.printDiagnostics] in a build are the entries of
    [printDiagnostics_logged] as that build writes them. *)
Theorem printDiagnostics_written LOG_WRITE build me c :
  written LOG_WRITE build (said (printDiagnostics_logged me c))
  = printDiagnostics LOG_WRITE build me c.
Proof.
  unfold printDiagnostics_logged, printDiagnostics. cbv zeta.
  destruct (ctl_initialized c); [|apply app_nil_r].
  destruct (hasLock me c); [|apply app_nil_r].
  autorewrite with journal. cbn [said tell]. rewrite !written_app, written_schedule_entries.
  unfold written. cbn [flat_map fst snd]. rewrite ?app_nil_r, <- ?app_assoc. reflexivity.
Qed.

(** The journal of a program holds at least as many errors and warnings
    as the program has calls that returned [false]. *)
Lemma failures_in_journal compileTime (program : list (Mutex.TaskId * Action D)) c :
  (failures (statuses compileTime program c)
   <= length (filter alarming (journal compileTime program c)))%nat.
Proof.
  unfold journal. revert c. induction program as [|[me a] program IH]; intros c; [reflexivity|].
  cbn [statuses calls_logged]. rewrite <- perform_logged_erasure.
  destruct (perform_logged compileTime me a c) as [r|] eqn:Hr; [|reflexivity].
  cbn [fmap option_fmap option_map]. pose proof (perform_logged_reports _ _ _ _ _ Hr) as Hrep.
  unfold reports in Hrep.
  autorewrite with journal. destruct (val r) as [st c']. specialize (IH c').
  cbn [fst snd said mret Logged_ret] in *. rewrite app_nil_r.
  unfold failures in *. rewrite filter_cons, filter_app, length_app.
  destruct st as [|e]; [rewrite decide_False by exact id; lia|].
  rewrite decide_True by exact I. cbn [length].
  pose proof (complains_counted r (proj1 (Hrep e eq_refl))). lia.
Qed.

(** C26: no call fails in silence.  In a release build and in a debug
    build alike, writing through the macros of ESP-IDF, the log of a
    program holds at least as many lines at the level of an error or of a
    warning as the program has calls that returned [false]: every path of
    a method that returns [false] logs an error or a warning, and no
    build suppresses those. *)
Theorem failures_are_logged LOG_WRITE debug_on compileTime
    (program : list (Mutex.TaskId * Action D)) c :
  (failures (statuses compileTime program c)
   <= length (filter urgent (written LOG_WRITE (mkBuild debug_on false)
                                     (journal compileTime program c))))%nat.
Proof. rewrite written_urgent, length_map. apply failures_in_journal. Qed.

End ReportingTheorems.

(** ** The theorems at the samples *)

(** A disabled schedule on an initialised object: the planning call
    finds no start, and plans the alarm for the date of a [DateTime] built
    without arguments instead of warning. *)
Example addSchedule_disabled :
  let r := addSchedule_logged 0%nat (sample []) (mkSchedule 0 62 8 0 9 0 false "off") in
  (fst (val r), said r)
  = (OK, [(LOG_I, "Added schedule 1 'off': 08:00-09:00, days=Mo,Tu,We,Th,Fr");
          (LOG_I, "Setting Alarm 1 for 2000-01-01T00:00:00")]).
Proof. vm_compute. reflexivity. Qed.

(** The calls of [Api.early_calls], made before [begin]: the two that
    return a status fail or succeed, the two [void] ones only log. *)
Example early_calls_journal :
  journal DateTime_default early_calls (new_controller sample_rtc false)
  = [(LOG_E, "RTC not initialized - call begin() first");
     (LOG_I, "Added schedule 1 'morning': 06:00-08:00, days=Mo,Tu,We,Th,Fr");
     (LOG_E, "RTC not initialized - call begin() first");
     (LOG_E, "RTC not initialized - call begin() first");
     (LOG_E, "RTC not initialized - call begin() first");
     (LOG_E, "RTC not initialized - call begin() first")].
Proof. vm_compute. reflexivity. Qed.

Lemma void_failure_only_in_log_witness :
  exists r, perform_logged DateTime_default 0%nat (Do_clearAlarm 1)
              (new_controller sample_rtc false) = Some r
            /\ val r = (OK, new_controller sample_rtc false) /\ complains r = true.
Proof.
  apply (void_failure_only_in_log DateTime_default 0%nat (Do_clearAlarm 1)
           (new_controller sample_rtc false)); [reflexivity | left; reflexivity].
Defined.

Lemma addSchedule_discards_planning_failure_witness :
  fst (val (addSchedule_logged 0%nat (new_controller sample_rtc false) weekday_morning)) = OK
  /\ complains (addSchedule_logged 0%nat (new_controller sample_rtc false) weekday_morning)
     = true.
Proof.
  apply (addSchedule_discards_planning_failure 0%nat (new_controller sample_rtc false)
           weekday_morning); [vm_compute; reflexivity | vm_compute; discriminate].
Defined.

Lemma failure_is_explained_witness :
  exists r, perform_logged DateTime_default 1%nat (Do_removeSchedule 7) (sample [weekday_morning])
            = Some r
            /\ complains r = true /\ blamed r = Some NotFound.
Proof.
  eexists. split; [reflexivity|].
  apply (failure_is_explained DateTime_default 1%nat (Do_removeSchedule 7)
           (sample [weekday_morning])); reflexivity.
Defined.
