(* ===== verification/HotWater.v ===== *)
(** * The hot water timer

    The sketch [examples/hot_water_timer/hot_water_timer.ino]: a relay
    that follows the schedules of a [DS3231Controller], with the monthly
    pump exercise, the alarm that is re-armed when it fires, and the
    commands read from the serial port.

    The state [App] holds the sketch's globals and the two output pins;
    the lines written to [Serial] and the writes to the relay pin are kept
    in a trace.  What the environment decides is an argument: the values
    [millis()] returns and the character read in [LoopInput], the
    uninitialised [id] of the four local schedules of [setupSchedules], and
    what the chip does while the sketch sleeps ([delay]).  The log of the
    library is not part of the trace, so [printDiagnostics] adds nothing
    to it.

    This file holds the definitions and the theory of one iteration; the
    invariants of the running sketch are in the file on its executions. *)

From Stdlib Require Import Ascii String.
From stdpp Require Import strings.
From S2P Require Import Prelude DateTime Schedule Hardware State Window Occurrence.
From S2P Require Import NextEvent Alarm ScheduleSet Policy Report Temperature FloatText.

(** ** Constants and data *)

Definition STATUS_INTERVAL : Z := 30000.

(** What the sketch sends out. *)
Inductive Output : Type :=
  | Relay (level : bool)     (* digitalWrite(RELAY_PIN, level) *)
  | Line (text : string).    (* one line on Serial *)

(** What one iteration of [loop] reads from outside. *)
Record LoopInput : Type := mkLoopInput {
  millis_tested : Z;            (* millis() in the test of the status interval *)
  millis_stored : Z;            (* millis() stored in lastStatusPrint *)
  serial_read : option ascii    (* Serial.read(), when Serial.available() *)
}.

(** The four schedules of [setupSchedules]; [id] is what the
    uninitialised field holds. *)
Definition morningWeekday (id : Z) : Schedule := mkSchedule id 126 6 0 8 0 true "Weekday Morning".
Definition eveningWeekday (id : Z) : Schedule := mkSchedule id 126 18 0 21 0 true "Weekday Evening".
Definition morningWeekend (id : Z) : Schedule := mkSchedule id 129 7 0 10 0 true "Weekend Morning".
Definition eveningWeekend (id : Z) : Schedule := mkSchedule id 129 17 0 22 0 true "Weekend Evening".

Definition set_enabled (s : Schedule) (enabled : bool) : Schedule :=
  mkSchedule (sched_id s) (sched_dayMask s) (sched_startHour s) (sched_startMinute s)
             (sched_endHour s) (sched_endMinute s) enabled (sched_name s).

(** [schedule->enabled = !schedule->enabled] through the pointer
    [getSchedule] returned: the first schedule with the id, in place. *)
Fixpoint toggle_first (scheduleId : Z) (l : list Schedule) : list Schedule :=
  match l with
  | [] => []
  | s :: l' =>
      if sched_id s =? scheduleId
      then set_enabled s (negb (sched_enabled s)) :: l'
      else s :: toggle_first scheduleId l'
  end.

(** [Serial.printf("...: %.<prec>f.C / %.<prec>f.F\n", temp.celsius,
    temp.fahrenheit)], with the three bytes the sketch has for the degree
    sign. *)
Definition temperature_line (label : string) (prec : nat) (temp : TemperatureData) : Output :=
  Line (label +:+ printf_f prec (to_double (celsius temp)) +:+ degree_hot_water +:+ "C / "
        +:+ printf_f prec (to_double (fahrenheit temp)) +:+ degree_hot_water +:+ "F").

Definition help : list Output :=
  [Line "  s - Show status"; Line "  d - Show diagnostics"; Line "  v - Toggle vacation mode";
   Line "  t - Show temperature"; Line "  1-7 - Toggle schedule"].

Section HotWater.

Context {D : Type} `{RtcDevice D} `{Thermometer D}.

(** The chip after the sketch slept for so many milliseconds. *)
Variable delay : Z -> D -> D.

Implicit Types (c : Controller D) (me : Mutex.TaskId).

(** ** State *)

Record App : Type := mkApp {
  app_rtc : Controller D;    (* rtc *)
  heaterState : bool;
  lastStatusPrint : Z;       (* unsigned long *)
  relay_pin : bool;          (* level of RELAY_PIN *)
  led_pin : bool;            (* level of STATUS_LED_PIN *)
  trace : list Output        (* ghost: the output so far, oldest first *)
}.

Definition with_rtc (app : App) c : App :=
  mkApp c (heaterState app) (lastStatusPrint app) (relay_pin app) (led_pin app) (trace app).

Definition say (app : App) (out : list Output) : App :=
  mkApp (app_rtc app) (heaterState app) (lastStatusPrint app) (relay_pin app) (led_pin app)
        (trace app ++ out).

Definition set_lastStatusPrint (app : App) (ms : Z) : App :=
  mkApp (app_rtc app) (heaterState app) ms (relay_pin app) (led_pin app) (trace app).

(** [delay(ms)]. *)
Definition sleep (ms : Z) (app : App) : App :=
  with_rtc app (set_rtc (app_rtc app) (delay ms (ctl_rtc (app_rtc app)))).

(** ** The heater *)

(** [activateHeater()]. *)
Definition activateHeater me (app : App) : App :=
  check negb (heaterState app) orelse app ;;
  mkApp (app_rtc app) true (lastStatusPrint app) true true
        (trace app ++ [Relay true; Line ">>> HEATER ACTIVATED";
                       temperature_line "Ambient temperature: " 1
                         (getTemperature me (app_rtc app))]).

(** [deactivateHeater()]. *)
Definition deactivateHeater (app : App) : App :=
  check heaterState app orelse app ;;
  mkApp (app_rtc app) false (lastStatusPrint app) false false
        (trace app ++ [Relay false; Line "<<< HEATER DEACTIVATED"]).

(** ** Set-up *)

(** [setupSchedules()]. *)
Definition setupSchedules me c (id1 id2 id3 id4 : Z) : Controller D :=
  let c := snd (addSchedule me c (morningWeekday id1)) in
  let c := snd (addSchedule me c (eveningWeekday id2)) in
  let c := snd (addSchedule me c (morningWeekend id3)) in
  snd (addSchedule me c (eveningWeekend id4)).

(** [setup()] on the freshly constructed controller; [None] when [begin]
    fails and the sketch blinks the LED for ever. *)
Definition setup (compileTime : DateTime) me (chip : D) (uninit : bool) (id1 id2 id3 id4 : Z)
  : option App :=
  let banner := [Line EmptyString; Line "=== DS3231 Hot Water Timer Example ==="] in
  let c := new_controller (delay 1000 chip) uninit in
  let '(st, c) := begin compileTime me c in
  check succeeded st orelse None ;;
  let c := setupSchedules me c id1 id2 id3 id4 in
  let c := setPumpExercise c true 1 3 0 300 in
  let c := onAlarm (onScheduleEvent c) in
  Some (mkApp c false 0 false false
          (banner ++ [Relay false; Line EmptyString;
                      Line "Setup complete. Hot water timer is running."; Line "Commands:"]
                  ++ help ++ [Line EmptyString])).

(** ** Status *)

(** [printStatus()]. *)
Definition printStatus me (app : App) : App :=
  let c := app_rtc app in
  let app := say app
    [Line EmptyString; Line "--- Current Status ---";
     Line ("Time: " +:+ getFormattedDate me c +:+ " " +:+ getFormattedTime me c);
     Line ("Heater: " +:+ (if heaterState app then "ON" else "OFF"));
     Line ("Status: " +:+ getScheduleStatus me c)] in
  let app :=
    if isVacationMode me c
    then say app [Line ("VACATION MODE until "
                        +:+ timestamp_DATE (vac_endDate (getVacationMode c)))]
    else app in
  let next := getNextScheduledStart me c in
  check isValid next orelse app ;;
  let seconds := getSecondsUntilNextEvent me c in
  let hours := seconds / 3600 in
  let minutes := (seconds mod 3600) / 60 in
  say app [Line ("Next event in: " +:+ decimal hours +:+ " hours "
                 +:+ decimal minutes +:+ " minutes")].

(** ** Commands *)

(** [case 'v']. *)
Definition toggleVacation me (app : App) : App :=
  let c := app_rtc app in
  let vacationOn := negb (isVacationMode me c) in
  if vacationOn
  then let now := now me c in
       let endDate := dt_add now (TimeSpan 7 0 0 0) in
       say (with_rtc app (setVacationMode c true now endDate))
           [Line "Vacation mode ENABLED for 7 days"]
  else say (with_rtc app (setVacationMode c false DateTime_default DateTime_default))
           [Line "Vacation mode DISABLED"].

(** [case '1'...'7']. *)
Definition toggleSchedule me (app : App) (scheduleId : Z) : App :=
  let c := app_rtc app in
  match getSchedule c scheduleId with
  | Some schedule =>
      let toggled := set_enabled schedule (negb (sched_enabled schedule)) in
      let c := set_schedules c (toggle_first scheduleId (ctl_schedules c)) in
      let c := snd (updateSchedule me c scheduleId toggled) in
      say (with_rtc app c)
          [Line ("Schedule " +:+ decimal scheduleId +:+ " '" +:+ sched_name toggled
                 +:+ "' is now " +:+ (if sched_enabled toggled then "ENABLED" else "DISABLED"))]
  | None => say app [Line ("Schedule " +:+ decimal scheduleId +:+ " not found")]
  end.

Definition is_digit_1_to_7 (cmd : ascii) : bool :=
  (49 <=? nat_of_ascii cmd)%nat && (nat_of_ascii cmd <=? 55)%nat.

(** [handleSerialCommands()]. *)
Definition handleSerialCommands me (app : App) (input : option ascii) : App :=
  match input with
  | None => app
  | Some cmd =>
      if Ascii.eqb cmd "s" then printStatus me app
      else if Ascii.eqb cmd "d" then app
      else if Ascii.eqb cmd "v" then toggleVacation me app
      else if Ascii.eqb cmd "t"
           then say app [temperature_line "RTC Temperature: " 2
                           (getTemperature me (app_rtc app))]
      else if is_digit_1_to_7 cmd
           then toggleSchedule me app (Z.of_nat (nat_of_ascii cmd) - 48)
      else say app (Line "Unknown command. Available commands:" :: help)
  end.

(** ** The loop *)

(** [if (rtc.isPumpExerciseTime()) { ... }]. *)
Definition exercise me (app : App) : App :=
  check isPumpExerciseTime me (app_rtc app) orelse app ;;
  let app := say app [Line "PUMP EXERCISE: Starting monthly pump exercise"] in
  let app := activateHeater me app in
  let app := sleep (pump_durationSeconds (ctl_pumpExercise (app_rtc app)) * 1000) app in
  let app := deactivateHeater app in
  with_rtc app (markPumpExerciseComplete me (app_rtc app)).

(** [if (shouldBeOn != heaterState) { ... }]. *)
Definition follow me (shouldBeOn : bool) (app : App) : App :=
  check negb (eqb shouldBeOn (heaterState app)) orelse app ;;
  if shouldBeOn then activateHeater me app else deactivateHeater app.

(** [if (rtc.isAlarmFired(1)) { ... }]; the callback registered with
    [onAlarm] prints a line. *)
Definition rearm me (app : App) : App :=
  check isAlarmFired me (app_rtc app) 1 orelse app ;;
  let c := acknowledgeAlarm me (app_rtc app) 1 in
  let app := if ctl_alarmCallback c then say app [Line "Alarm 1 fired!"] else app in
  with_rtc app (snd (setAlarmForNextSchedule me c)).

(** [if (millis() - lastStatusPrint > STATUS_INTERVAL) { ... }]. *)
Definition periodic me (app : App) (input : LoopInput) : App :=
  check STATUS_INTERVAL <? u32 (millis_tested input - lastStatusPrint app) orelse app ;;
  set_lastStatusPrint (printStatus me app) (u32 (millis_stored input)).

(** [loop()]. *)
Definition loop me (app : App) (input : LoopInput) : App :=
  let shouldBeOn := isWithinAnySchedule me (app_rtc app) in
  let app := exercise me app in
  let app := follow me shouldBeOn app in
  let app := rearm me app in
  let app := periodic me app input in
  let app := handleSerialCommands me app (serial_read input) in
  sleep 100 app.

End HotWater.

Arguments App D : clear implicits.

(** ** The simulated chip while the sketch sleeps *)

(** The clock moves on by the whole seconds slept, and the alarms that
    match the new time fire. *)
Definition sim_delay (ms : Z) (d : SimRtc) : SimRtc :=
  sim_tick d (dt_add (sim_time d) (ms / 1000)).

(** ** Specification *)

(** The heater as the sketch and the pins see it. *)
Definition heater {D} `{RtcDevice D} (app : App D) : bool * bool * bool :=
  (heaterState app, relay_pin app, led_pin app).

(** Both pins are at the level the sketch believes. *)
Definition pins_ok {D} `{RtcDevice D} (app : App D) : Prop :=
  relay_pin app = heaterState app /\ led_pin app = heaterState app.

(** The levels written to the relay pin, oldest first. *)
Definition relay_writes (out : list Output) : list bool :=
  omap (fun o => match o with Relay level => Some level | Line _ => None end) out.

(** ** Examples *)

(** The sketch on the simulated chip of the sample system, with the ids
    of the four schedules zero. *)
Definition sample_app : option (App SimRtc) :=
  setup sim_delay DateTime_default 0%nat sample_rtc false 0 0 0 0.

Example sample_app_ids :
  option_map (fun app => map sched_id (ctl_schedules (app_rtc app))) sample_app
  = Some [1; 2; 3; 4].
Proof. vm_compute. reflexivity. Qed.

(** Wednesday 07:00:01: the first iteration switches the relay on. *)
Example sample_app_first_iteration :
  option_map (fun app => heater (loop sim_delay 0%nat app (mkLoopInput 1100 1100 None)))
             sample_app
  = Some (true, true, true).
Proof. vm_compute. reflexivity. Qed.

(** What that iteration sends out: the relay goes on, and the
    temperature of the simulated chip, 25.25 degrees, is printed with one
    digit. *)
Example sample_app_first_output :
  option_map (fun app => skipn (length (trace app))
                           (trace (loop sim_delay 0%nat app (mkLoopInput 1100 1100 None))))
             sample_app
  = Some [Relay true; Line ">>> HEATER ACTIVATED";
          Line ("Ambient temperature: 25.2" +:+ degree_hot_water +:+ "C / 77.4"
                +:+ degree_hot_water +:+ "F")].
Proof. vm_compute. reflexivity. Qed.

(** The command [t] prints two digits. *)
Example sample_app_temperature :
  option_map (fun app => skipn (length (trace app))
                           (trace (handleSerialCommands 0%nat app (Some "t"%char))))
             sample_app
  = Some [Line ("RTC Temperature: 25.25" +:+ degree_hot_water +:+ "C / 77.45"
                +:+ degree_hot_water +:+ "F")].
Proof. vm_compute. reflexivity. Qed.

(** ** Theory of one iteration *)

Section Iteration.

Context {D : Type} `{RtcDevice D} `{Thermometer D}.

Variable delay : Z -> D -> D.

Implicit Types (c : Controller D) (me : Mutex.TaskId) (app : App D).

Lemma heater_activateHeater me app :
  pins_ok app -> heater (activateHeater me app) = (true, true, true).
Proof.
  unfold pins_ok, heater, activateHeater. destruct (heaterState app) eqn:Hs; simpl;
    [|reflexivity]. intros [-> ->]. rewrite Hs. reflexivity.
Qed.

Lemma heater_deactivateHeater app :
  pins_ok app -> heater (deactivateHeater app) = (false, false, false).
Proof.
  unfold pins_ok, heater, deactivateHeater. destruct (heaterState app) eqn:Hs; simpl;
    [reflexivity|]. intros [-> ->]. rewrite Hs. reflexivity.
Qed.

Lemma pins_ok_heater app b : heater app = (b, b, b) -> pins_ok app.
Proof. unfold heater, pins_ok. intros [= -> -> ->]. auto. Qed.

Lemma pins_ok_same app app' : heater app' = heater app -> pins_ok app -> pins_ok app'.
Proof. unfold heater, pins_ok. intros [= -> -> ->]. auto. Qed.

Lemma heater_printStatus me app : heater (printStatus me app) = heater app.
Proof.
  unfold printStatus. cbv zeta. destruct (isVacationMode _ _), (isValid _); reflexivity.
Qed.

Lemma heater_toggleSchedule me app scheduleId :
  heater (toggleSchedule me app scheduleId) = heater app.
Proof. unfold toggleSchedule. cbv zeta. destruct (getSchedule _ _); reflexivity. Qed.

Lemma heater_handleSerialCommands me app input :
  heater (handleSerialCommands me app input) = heater app.
Proof.
  unfold handleSerialCommands. destruct input as [cmd|]; [|reflexivity].
  repeat match goal with |- context [if ?b then _ else _] => destruct b end;
    auto using heater_printStatus, heater_toggleSchedule.
  unfold toggleVacation. cbv zeta. destruct (negb _); reflexivity.
Qed.

Lemma heater_rearm me app : heater (rearm me app) = heater app.
Proof.
  unfold rearm. destruct (isAlarmFired _ _ _); [|reflexivity]. cbv zeta.
  destruct (ctl_alarmCallback _); reflexivity.
Qed.

Lemma heater_periodic me app input : heater (periodic me app input) = heater app.
Proof.
  unfold periodic. destruct (_ <? _); [|reflexivity].
  rewrite <- (heater_printStatus me app). reflexivity.
Qed.

(** After the exercise the heater is off; without one nothing changed. *)
Lemma heater_exercise me app :
  pins_ok app ->
  heater (exercise delay me app)
  = if isPumpExerciseTime me (app_rtc app) then (false, false, false) else heater app.
Proof.
  intros Hp. unfold exercise. destruct (isPumpExerciseTime _ _); [|reflexivity]. cbv zeta.
  change (heater (with_rtc ?a _)) with (heater a). apply heater_deactivateHeater.
  apply (pins_ok_heater _ true).
  change (heater (sleep delay _ ?a)) with (heater a). apply heater_activateHeater. exact Hp.
Qed.

Lemma heater_follow me shouldBeOn app :
  pins_ok app -> heater (follow me shouldBeOn app) = (shouldBeOn, shouldBeOn, shouldBeOn).
Proof.
  intros Hp. unfold follow. destruct shouldBeOn, (heaterState app) eqn:Hs; simpl;
    auto using heater_activateHeater, heater_deactivateHeater;
    destruct Hp as [Hr Hl]; unfold heater; rewrite Hr, Hl, Hs; reflexivity.
Qed.

Lemma heater_loop me app input :
  pins_ok app ->
  let on := isWithinAnySchedule me (app_rtc app) in
  heater (loop delay me app input) = (on, on, on).
Proof.
  intros Hp. unfold loop. cbv zeta.
  change (heater (sleep delay 100 ?a)) with (heater a).
  rewrite heater_handleSerialCommands, heater_periodic, heater_rearm.
  apply heater_follow. pose proof (heater_exercise me app Hp) as He.
  destruct (isPumpExerciseTime _ _); [apply (pins_ok_heater _ false), He|].
  apply (pins_ok_same app); assumption.
Qed.

(** C32: the relay follows the schedules.  After an iteration of [loop]
    that starts with both pins at the level of [heaterState], the heater
    state and both pins equal what [isWithinAnySchedule] answered at the
    start of the iteration, whatever the pump exercise, the alarm and the
    command read did in between; in particular the pins agree with
    [heaterState] again. *)
Theorem loop_follows_schedule me app input :
  pins_ok app ->
  let on := isWithinAnySchedule me (app_rtc app) in
  let app' := loop delay me app input in
  heaterState app' = on /\ relay_pin app' = on /\ led_pin app' = on /\ pins_ok app'.
Proof.
  intros Hp. cbv zeta. pose proof (heater_loop me app input Hp) as Hh. cbv zeta in Hh.
  pose proof (pins_ok_heater _ _ Hh) as Hp'.
  pose proof (f_equal (fun x => fst (fst x)) Hh) as H1.
  pose proof (f_equal (fun x => snd (fst x)) Hh) as H2.
  pose proof (f_equal snd Hh) as H3. unfold heater in H1, H2, H3. cbn [fst snd] in H1, H2, H3.
  auto.
Qed.

(** C33: the status interval is measured in true time.  When
    [lastStatusPrint] holds the counter [millis()] of an uptime [t0] less
    than 2^32 ms before the uptime [t] of the test, the sketch prints its
    status and assigns the variable exactly when more than
    [STATUS_INTERVAL] milliseconds have really passed, also when the
    counter has wrapped in between: the subtraction on [unsigned long]
    undoes the wrap. *)
Theorem periodic_on_time me app (t0 t t' : Z) cmd :
  lastStatusPrint app = u32 t0 -> 0 <= t - t0 < 4294967296 ->
  periodic me app (mkLoopInput (u32 t) (u32 t') cmd)
  = if STATUS_INTERVAL <? t - t0
    then set_lastStatusPrint (printStatus me app) (u32 t')
    else app.
Proof.
  intros Hl Hd. unfold periodic. rewrite Hl. cbn [millis_tested millis_stored].
  rewrite (u32_elapsed _ _ Hd), u32_u32. reflexivity.
Qed.

End Iteration.

(** The counter wrapped since the last status, printed 1000 ms before:
    29500 on the counter is 30500 ms later, and the status is due. *)
Lemma periodic_on_time_witness :
  let app := mkApp (sample [weekday_morning]) false 4294966296 false false [] in
  periodic 0%nat app (mkLoopInput 29500 29501 None)
  = set_lastStatusPrint (printStatus 0%nat app) 29501.
Proof.
  cbv zeta.
  apply (periodic_on_time 0%nat
           (mkApp (sample [weekday_morning]) false 4294966296 false false [])
           4294966296 4294996796 4294996797 None); [reflexivity | split; [discriminate | reflexivity]].
Defined.

Lemma loop_follows_schedule_witness :
  relay_pin (loop sim_delay 0%nat
               (mkApp (sample [weekday_morning]) false 0 false false [])
               (mkLoopInput 100 100 None))
  = true.
Proof.
  pose proof (loop_follows_schedule sim_delay 0%nat
                (mkApp (sample [weekday_morning]) false 0 false false [])
                (mkLoopInput 100 100 None)) as P.
  cbv zeta in P. destruct P as (_ & P & _); [split; reflexivity|].
  etransitivity; [exact P | vm_compute; reflexivity].
Defined.
