(* ===== verification/HotWaterRun.v ===== *)
(** * Executions of the hot water timer

    The running sketch as a transition system: [step] is one iteration of
    [loop] for some input, [reachable] the states after [setup], and [run]
    the executable form over a list of inputs.

    The invariant [app_inv]: the controller keeps its invariant and stays
    initialised, the schedule set is the one [setup] stored up to the
    [enabled] flags the toggle command flips, the alarm callback stays
    registered, and the pins are at the level of [heaterState].  It holds
    after [setup] and is kept by every step, so it holds in every reachable
    state.  The environment is unconstrained: any input, and any behaviour
    of the chip during a delay. *)

From Stdlib Require Import Ascii String.
From stdpp Require Import strings.
From S2P Require Import Prelude DateTime Schedule Hardware State Window Occurrence.
From S2P Require Import NextEvent Alarm ScheduleSet Policy Report Temperature HotWater.

(** ** Specification *)

(** A schedule with its [enabled] flag forgotten. *)
Definition blueprint (s : Schedule) : Schedule := set_enabled s true.

(** The day mask and the window of a schedule. *)
Definition window_of (s : Schedule) : Z * Z * Z * Z * Z :=
  (sched_dayMask s, sched_startHour s, sched_startMinute s, sched_endHour s,
   sched_endMinute s).

(** The schedule set after [addSchedule] below capacity. *)
Definition allocate (l : list Schedule) (s : Schedule) : list Schedule :=
  l ++ [if sched_id s =? 0 then set_id s (free_id_loop 254 l 1) else s].

(** The schedule set after [setupSchedules] on an empty one. *)
Definition setup_list (id1 id2 id3 id4 : Z) : list Schedule :=
  allocate (allocate (allocate (allocate [] (morningWeekday id1)) (eveningWeekday id2))
              (morningWeekend id3)) (eveningWeekend id4).

Section Run.

Context {D : Type} `{RtcDevice D} `{Thermometer D}.

Variable delay : Z -> D -> D.
Variable me : Mutex.TaskId.

Implicit Types (c : Controller D) (app : App D).

(** ** The transition system *)

Inductive step : App D -> App D -> Prop :=
  | step_loop app input : step app (loop delay me app input).

Inductive reachable (init : App D) : App D -> Prop :=
  | reach_init : reachable init init
  | reach_step app app' : reachable init app -> step app app' -> reachable init app'.

(** The state after the iterations that read [inputs], in order. *)
Definition run (app : App D) (inputs : list LoopInput) : App D :=
  fold_left (loop delay me) inputs app.

(** ** The invariant *)

(** What the invariant of the controller depends on. *)
Definition config c : list Schedule * Mutex.t * bool * bool :=
  (ctl_schedules c, ctl_mutex c, ctl_initialized c, ctl_alarmCallback c).

Definition ctl_inv (l0 : list Schedule) c : Prop :=
  wf c /\ ctl_initialized c = true /\ ctl_alarmCallback c = true
  /\ map blueprint (ctl_schedules c) = map blueprint l0.

Definition app_inv (l0 : list Schedule) app : Prop :=
  ctl_inv l0 (app_rtc app) /\ pins_ok app.

(** ** Operations that keep the configuration *)

Lemma ctl_inv_config l0 c c' : config c' = config c -> ctl_inv l0 c -> ctl_inv l0 c'.
Proof. unfold config, ctl_inv, wf. intros [= -> -> -> ->]. auto. Qed.

Lemma config_fields c l mx i a :
  config c = (l, mx, i, a) ->
  ctl_schedules c = l /\ ctl_mutex c = mx /\ ctl_initialized c = i /\ ctl_alarmCallback c = a.
Proof. unfold config. intros [= ? ? ? ?]. auto. Qed.

Lemma config_set_rtc c r : config (set_rtc c r) = config c.
Proof. reflexivity. Qed.

Lemma config_markPumpExerciseComplete c : config (markPumpExerciseComplete me c) = config c.
Proof.
  unfold markPumpExerciseComplete. destruct (ctl_initialized c) eqn:Hi, (hasLock me c);
    reflexivity.
Qed.

Lemma config_acknowledgeAlarm c n : config (acknowledgeAlarm me c n) = config c.
Proof.
  unfold acknowledgeAlarm. destruct (ctl_initialized c) eqn:Hi, (hasLock me c);
    try reflexivity. cbv zeta. destruct (ctl_alarmCallback _) eqn:Ha; reflexivity.
Qed.

Lemma config_setAlarmForNextSchedule c :
  config (snd (setAlarmForNextSchedule me c)) = config c.
Proof.
  rewrite setAlarmForNextSchedule_eq. unfold setAlarm1.
  destruct (ctl_initialized c) eqn:Hi, (isValid (getNextScheduledStart me c)),
    (hasLock me c); reflexivity.
Qed.

Lemma config_setVacationMode c enabled start end_ :
  config (setVacationMode c enabled start end_) = config c.
Proof. reflexivity. Qed.

(** ** The toggle command *)

Lemma set_enabled_involutive s :
  set_enabled (set_enabled s (negb (sched_enabled s))) (negb (negb (sched_enabled s))) = s.
Proof. destruct s as [? ? ? ? ? ? [] ?]; reflexivity. Qed.

Lemma toggle_first_involutive scheduleId l :
  toggle_first scheduleId (toggle_first scheduleId l) = l.
Proof.
  induction l as [|s l IH]; [reflexivity|]. cbn [toggle_first].
  destruct (Z.eqb_spec (sched_id s) scheduleId) as [E | Hne]; cbn [toggle_first sched_id set_enabled].
  - rewrite (proj2 (Z.eqb_eq _ _) E). f_equal. apply set_enabled_involutive.
  - rewrite (proj2 (Z.eqb_neq _ _) Hne), IH. reflexivity.
Qed.

Lemma toggle_first_blueprint scheduleId l :
  map blueprint (toggle_first scheduleId l) = map blueprint l
  /\ length (toggle_first scheduleId l) = length l
  /\ (Forall schedule_bytes l -> Forall schedule_bytes (toggle_first scheduleId l)).
Proof.
  induction l as [|s l (IHb & IHl & IHf)]; [auto|]. cbn [toggle_first].
  destruct (sched_id s =? scheduleId); cbn [map length].
  - repeat split. intros [Hs Hl]%Forall_cons. constructor; [exact Hs | exact Hl].
  - rewrite IHb, IHl. repeat split. intros [Hs Hl]%Forall_cons. constructor; auto.
Qed.

(** Writing the toggled copy back with [updateSchedule] stores what the
    pointer already wrote. *)
Lemma replace_first_toggled scheduleId l schedule :
  find (fun s => sched_id s =? scheduleId) l = Some schedule ->
  replace_first scheduleId (set_enabled schedule (negb (sched_enabled schedule)))
    (toggle_first scheduleId l)
  = Some (toggle_first scheduleId l).
Proof.
  induction l as [|s l IH]; [discriminate|]. cbn [find toggle_first].
  destruct (Z.eqb_spec (sched_id s) scheduleId) as [E | Hne].
  - intros [= <-]. cbn [replace_first set_enabled sched_id].
    rewrite (proj2 (Z.eqb_eq _ _) E), <- E. reflexivity.
  - intros Hf. cbn [replace_first]. rewrite (proj2 (Z.eqb_neq _ _) Hne), (IH Hf). reflexivity.
Qed.

Lemma find_toggle_first scheduleId l :
  find (fun s => sched_id s =? scheduleId) (toggle_first scheduleId l)
  = option_map (fun s => set_enabled s (negb (sched_enabled s)))
      (find (fun s => sched_id s =? scheduleId) l).
Proof.
  induction l as [|s l IH]; [reflexivity|]. cbn [toggle_first find].
  destruct (sched_id s =? scheduleId) eqn:E; cbn [find set_enabled sched_id]; rewrite E;
    [reflexivity | exact IH].
Qed.

Lemma toggleSchedule_rtc app scheduleId :
  app_rtc (toggleSchedule me app scheduleId)
  = match getSchedule (app_rtc app) scheduleId with
    | Some _ => snd (setAlarmForNextSchedule me
                       (set_schedules (app_rtc app)
                          (toggle_first scheduleId (ctl_schedules (app_rtc app)))))
    | None => app_rtc app
    end.
Proof.
  unfold toggleSchedule, getSchedule. cbv zeta.
  destruct (find _ _) as [schedule|] eqn:Hf; [|reflexivity].
  cbn [app_rtc say with_rtc]. unfold updateSchedule. cbn [ctl_schedules set_schedules].
  rewrite (replace_first_toggled _ _ _ Hf). reflexivity.
Qed.

(** ** Every phase of the loop keeps the invariant of the controller *)

Lemma ctl_inv_toggled l0 c scheduleId :
  ctl_inv l0 c -> ctl_inv l0 (set_schedules c (toggle_first scheduleId (ctl_schedules c))).
Proof.
  destruct (toggle_first_blueprint scheduleId (ctl_schedules c)) as (Hb & Hl & Hf).
  unfold ctl_inv, wf. cbn [set_schedules ctl_schedules ctl_mutex ctl_initialized ctl_alarmCallback].
  rewrite Hb, Hl. intros ((? & ? & ?) & ? & ? & ?). auto 10.
Qed.

Lemma rtc_printStatus app : app_rtc (printStatus me app) = app_rtc app.
Proof.
  unfold printStatus. cbv zeta. destruct (isVacationMode _ _), (isValid _); reflexivity.
Qed.

Lemma rtc_activateHeater app : app_rtc (activateHeater me app) = app_rtc app.
Proof. unfold activateHeater. destruct (negb _); reflexivity. Qed.

Lemma rtc_deactivateHeater app : app_rtc (deactivateHeater app) = app_rtc app.
Proof. unfold deactivateHeater. destruct (heaterState app); reflexivity. Qed.

Lemma ctl_inv_toggleSchedule l0 app scheduleId :
  ctl_inv l0 (app_rtc app) -> ctl_inv l0 (app_rtc (toggleSchedule me app scheduleId)).
Proof.
  intros Hc. rewrite toggleSchedule_rtc. destruct (getSchedule _ _); [|exact Hc].
  eapply ctl_inv_config; [apply config_setAlarmForNextSchedule|].
  apply ctl_inv_toggled, Hc.
Qed.

Lemma ctl_inv_handleSerialCommands l0 app input :
  ctl_inv l0 (app_rtc app) -> ctl_inv l0 (app_rtc (handleSerialCommands me app input)).
Proof.
  intros Hc. unfold handleSerialCommands. destruct input as [cmd|]; [|exact Hc].
  repeat match goal with |- context [if ?b then _ else _] => destruct b end;
    rewrite ?rtc_printStatus; auto using ctl_inv_toggleSchedule.
  unfold toggleVacation. cbv zeta. destruct (negb _); exact Hc.
Qed.

Lemma ctl_inv_exercise l0 app :
  ctl_inv l0 (app_rtc app) -> ctl_inv l0 (app_rtc (exercise delay me app)).
Proof.
  intros Hc. unfold exercise. destruct (isPumpExerciseTime _ _); [|exact Hc]. cbv zeta.
  cbn [app_rtc with_rtc]. eapply ctl_inv_config; [apply config_markPumpExerciseComplete|].
  rewrite rtc_deactivateHeater. unfold sleep. cbn [app_rtc with_rtc].
  rewrite rtc_activateHeater. exact Hc.
Qed.

Lemma ctl_inv_follow l0 shouldBeOn app :
  ctl_inv l0 (app_rtc app) -> ctl_inv l0 (app_rtc (follow me shouldBeOn app)).
Proof.
  intros Hc. unfold follow. destruct (negb _); [|exact Hc].
  destruct shouldBeOn; rewrite ?rtc_activateHeater, ?rtc_deactivateHeater; exact Hc.
Qed.

Lemma ctl_inv_rearm l0 app :
  ctl_inv l0 (app_rtc app) -> ctl_inv l0 (app_rtc (rearm me app)).
Proof.
  intros Hc. unfold rearm. destruct (isAlarmFired _ _ _); [|exact Hc]. cbv zeta.
  cbn [app_rtc with_rtc]. eapply ctl_inv_config; [apply config_setAlarmForNextSchedule|].
  eapply ctl_inv_config; [apply config_acknowledgeAlarm | exact Hc].
Qed.

Lemma ctl_inv_periodic l0 app input :
  ctl_inv l0 (app_rtc app) -> ctl_inv l0 (app_rtc (periodic me app input)).
Proof.
  intros Hc. unfold periodic. destruct (_ <? _); [|exact Hc].
  cbn [app_rtc set_lastStatusPrint]. rewrite rtc_printStatus. exact Hc.
Qed.

Lemma ctl_inv_loop l0 app input :
  ctl_inv l0 (app_rtc app) -> ctl_inv l0 (app_rtc (loop delay me app input)).
Proof.
  intros Hc. unfold loop, sleep. cbv zeta. cbn [app_rtc with_rtc].
  apply (ctl_inv_config l0 _ _ (config_set_rtc _ _)).
  apply ctl_inv_handleSerialCommands, ctl_inv_periodic, ctl_inv_rearm, ctl_inv_follow,
    ctl_inv_exercise, Hc.
Qed.

Lemma step_app_inv l0 app app' : app_inv l0 app -> step app app' -> app_inv l0 app'.
Proof.
  intros [Hc Hp] Hstep. destruct Hstep as [app input]. split; [apply ctl_inv_loop, Hc|].
  eapply pins_ok_heater. apply (heater_loop delay me app input Hp).
Qed.

Lemma reachable_run init app :
  reachable init app <-> exists inputs, app = run init inputs.
Proof.
  split.
  - induction 1 as [|app app' _ [inputs ->] Hstep]; [exists []; reflexivity|].
    inversion Hstep as [app0 input]; subst.
    exists (inputs ++ [input]). unfold run. rewrite fold_left_app. reflexivity.
  - intros [inputs ->]. induction inputs as [|input inputs IH] using rev_ind;
      [apply reach_init|]. unfold run. rewrite fold_left_app.
    eapply reach_step; [exact IH | apply step_loop].
Qed.

End Run.

(** ** Set-up *)

Section Setup.

Context {D : Type} `{RtcDevice D} `{Thermometer D}.

Variable delay : Z -> D -> D.
Variable me : Mutex.TaskId.

Implicit Types (c : Controller D) (app : App D).

Lemma config_addSchedule c s :
  Z.of_nat (length (ctl_schedules c)) < MAX_SCHEDULES ->
  config (snd (addSchedule me c s))
  = (allocate (ctl_schedules c) s, ctl_mutex c, ctl_initialized c, ctl_alarmCallback c).
Proof.
  intros Hlt. rewrite addSchedule_replans by exact Hlt.
  rewrite config_setAlarmForNextSchedule. reflexivity.
Qed.

Lemma allocate_length l s : length (allocate l s) = S (length l).
Proof. unfold allocate. rewrite length_app. simpl. lia. Qed.

Lemma setupSchedules_config c id1 id2 id3 id4 :
  ctl_schedules c = [] ->
  config (setupSchedules me c id1 id2 id3 id4)
  = (setup_list id1 id2 id3 id4, ctl_mutex c, ctl_initialized c, ctl_alarmCallback c).
Proof.
  intros Hnil. unfold setupSchedules, setup_list. cbv zeta.
  set (c1 := snd (addSchedule me c _)).
  assert (E1 : config c1 = (allocate [] (morningWeekday id1), ctl_mutex c,
                            ctl_initialized c, ctl_alarmCallback c)).
  { subst c1. rewrite config_addSchedule, Hnil; [reflexivity|]. rewrite Hnil. reflexivity. }
  set (c2 := snd (addSchedule me c1 _)). injection E1 as S1 M1 I1 A1.
  assert (E2 : config c2 = (allocate (ctl_schedules c1) (eveningWeekday id2), ctl_mutex c,
                            ctl_initialized c, ctl_alarmCallback c)).
  { subst c2. rewrite config_addSchedule, M1, I1, A1; [reflexivity|].
    rewrite S1, allocate_length. reflexivity. }
  set (c3 := snd (addSchedule me c2 _)). injection E2 as S2 M2 I2 A2.
  assert (E3 : config c3 = (allocate (ctl_schedules c2) (morningWeekend id3), ctl_mutex c,
                            ctl_initialized c, ctl_alarmCallback c)).
  { subst c3. rewrite config_addSchedule, M2, I2, A2; [reflexivity|].
    rewrite S2, allocate_length, S1, allocate_length. reflexivity. }
  injection E3 as S3 M3 I3 A3.
  rewrite config_addSchedule, M3, I3, A3, S3, S2, S1; [reflexivity|].
  rewrite S3, S2, S1, !allocate_length. reflexivity.
Qed.

(** The controller [setup] builds when the chip answers. *)
Lemma setup_controller compileTime chip uninit id1 id2 id3 id4 :
  fits 8 id1 -> fits 8 id2 -> fits 8 id3 -> fits 8 id4 ->
  match setup delay compileTime me chip uninit id1 id2 id3 id4 with
  | Some init =>
      rtc_begin (delay 1000 chip) = true
      /\ ctl_inv (setup_list id1 id2 id3 id4) (app_rtc init)
      /\ ctl_schedules (app_rtc init) = setup_list id1 id2 id3 id4
      /\ (let p := ctl_pumpExercise (app_rtc init) in
          (pump_enabled p, pump_dayOfMonth p, pump_hour p, pump_minute p,
           pump_durationSeconds p) = (true, 1, 3, 0, 300))
      /\ heater init = (false, false, false)
  | None => rtc_begin (delay 1000 chip) = false
  end.
Proof.
  intros F1 F2 F3 F4. unfold setup, begin. cbv zeta.
  cbn [new_controller ctl_initialized negb ctl_rtc].
  change (hasLock me (new_controller ?r ?u)) with true. cbv iota.
  destruct (rtc_begin (delay 1000 chip)); [|reflexivity]. cbn [succeeded].
  set (c0 := set_begun _ _).
  pose proof (setupSchedules_config c0 id1 id2 id3 id4 eq_refl) as Hc.
  assert (Hwf0 : wf c0) by (unfold wf, MAX_SCHEDULES; cbn [c0 set_begun set_rtc new_controller
    ctl_schedules ctl_mutex length]; repeat split; [lia | constructor]).
  assert (Hwf : wf (setupSchedules me c0 id1 id2 id3 id4)).
  { unfold setupSchedules. cbv zeta.
    do 4 (apply addSchedule_wf; [|unfold schedule_bytes, fits in *; simpl; lia]).
    exact Hwf0. }
  assert (Hi0 : ctl_initialized c0 = true) by reflexivity.
  clearbody c0. apply config_fields in Hc as (Hs & Hm & Hi & Ha). split; [reflexivity|].
  cbn [app_rtc]. unfold ctl_inv, wf, heater in *.
  cbn [setPumpExercise set_pumpExercise onAlarm onScheduleEvent ctl_schedules ctl_mutex
       ctl_initialized ctl_alarmCallback ctl_pumpExercise heaterState relay_pin led_pin
       pump_enabled pump_dayOfMonth pump_hour pump_minute pump_durationSeconds].
  rewrite Hs in *. rewrite Hi, Hi0. auto 10.
Qed.

End Setup.

(** ** The windows of the stored schedules *)

Lemma window_of_blueprint s : window_of (blueprint s) = window_of s.
Proof. reflexivity. Qed.

Lemma setup_list_windows id1 id2 id3 id4 :
  map window_of (setup_list id1 id2 id3 id4)
  = [(126, 6, 0, 8, 0); (126, 18, 0, 21, 0); (129, 7, 0, 10, 0); (129, 17, 0, 22, 0)].
Proof.
  unfold setup_list, allocate, morningWeekday, eveningWeekday, morningWeekend, eveningWeekend.
  cbn [sched_id]. destruct (id1 =? 0), (id2 =? 0), (id3 =? 0), (id4 =? 0); reflexivity.
Qed.

Lemma windows_of_blueprints l l0 :
  map blueprint l = map blueprint l0 -> map window_of l = map window_of l0.
Proof.
  intros E.
  assert (G : forall k, map window_of k = map window_of (map blueprint k))
    by (intros k; rewrite map_map; apply map_ext; reflexivity).
  rewrite (G l), (G l0), E. reflexivity.
Qed.

(** A schedule for the days of mask 129 is never active on a Saturday;
    one for the days of mask 126 is active there during its window. *)
Lemma saturday_active s t sh sm eh em mask :
  calendar_ok t -> dayOfTheWeek t = 6 -> window_of s = (mask, sh, sm, eh, em) ->
  fits 8 sh -> fits 8 sm -> fits 8 eh -> fits 8 em ->
  schedule_active s t = true ->
  Z.testbit mask 6 = true /\ in_window (sh * 60 + sm) (eh * 60 + em) (minute_of_day t).
Proof.
  intros (_ & _ & _ & Hh & Hm & _) Hd [= Hmask <- <- <- <-] ? ? ? ? Ha.
  unfold schedule_active in Ha. rewrite !andb_true_iff, Hd in Ha.
  destruct Ha as [[_ Hday] Hr]. rewrite isDayEnabled_testbit, Hmask in Hday by lia.
  split; [exact Hday|]. rewrite isTimeInRange_decide in Hr by (assumption || lia).
  apply bool_decide_eq_true in Hr. exact Hr.
Qed.

Section Safety.

Context {D : Type} `{RtcDevice D} `{Thermometer D}.

Variable delay : Z -> D -> D.
Variable me : Mutex.TaskId.

Implicit Types (c : Controller D) (app : App D).

(** [setup] fails, leaving the sketch in its blinking loop, exactly
    when the chip does not answer after the first second; otherwise the
    state it leaves satisfies the invariant: the controller is
    initialised and well formed with the alarm callback registered, it
    holds the four schedules with ids allocated for those whose id is 0,
    the pump exercise is enabled for the 1st at 03:00 for 300 seconds, and
    the heater and both pins are off. *)
Theorem setup_spec compileTime chip uninit id1 id2 id3 id4 :
  fits 8 id1 -> fits 8 id2 -> fits 8 id3 -> fits 8 id4 ->
  match setup delay compileTime me chip uninit id1 id2 id3 id4 with
  | Some init =>
      rtc_begin (delay 1000 chip) = true
      /\ app_inv (setup_list id1 id2 id3 id4) init
      /\ ctl_schedules (app_rtc init) = setup_list id1 id2 id3 id4
      /\ (let p := ctl_pumpExercise (app_rtc init) in
          (pump_enabled p, pump_dayOfMonth p, pump_hour p, pump_minute p,
           pump_durationSeconds p) = (true, 1, 3, 0, 300))
      /\ heater init = (false, false, false)
  | None => rtc_begin (delay 1000 chip) = false
  end.
Proof.
  intros F1 F2 F3 F4.
  pose proof (setup_controller delay me compileTime chip uninit id1 id2 id3 id4 F1 F2 F3 F4) as S.
  destruct (setup _ _ _ _ _ _ _ _ _) as [init|]; [|exact S].
  destruct S as (Hb & Hc & Hs & Hp & Hh). unfold app_inv.
  pose proof (pins_ok_heater _ _ Hh). auto 10.
Qed.

Lemma reachable_app_inv l0 init app :
  app_inv l0 init -> reachable delay me init app -> app_inv l0 app.
Proof. intros Hi Hr. induction Hr as [|app app' _ IH Hstep]; eauto using step_app_inv. Qed.

(** C31: the invariant of the running sketch.  In every state reachable
    from the one [setup] leaves, for any inputs and any behaviour of the
    chip during the delays: the controller is well formed and initialised,
    the alarm callback is registered, the schedule set is the one [setup]
    stored up to the [enabled] flags, and both pins are at the level of
    [heaterState]. *)
Theorem reachable_invariant compileTime chip uninit id1 id2 id3 id4 init app :
  fits 8 id1 -> fits 8 id2 -> fits 8 id3 -> fits 8 id4 ->
  setup delay compileTime me chip uninit id1 id2 id3 id4 = Some init ->
  reachable delay me init app ->
  app_inv (setup_list id1 id2 id3 id4) app.
Proof.
  intros F1 F2 F3 F4 Hs Hr. apply (reachable_app_inv _ init); [|exact Hr].
  pose proof (setup_controller delay me compileTime chip uninit id1 id2 id3 id4 F1 F2 F3 F4) as S.
  rewrite Hs in S. destruct S as (_ & Hc & _ & _ & Hh). split; [exact Hc|].
  apply (pins_ok_heater _ _ Hh).
Qed.

(** On a Saturday a positive answer of [isWithinAnySchedule] is due to a
    window of mask 126. *)
Lemma saturday_windows l0 c :
  map blueprint (ctl_schedules c) = map blueprint l0 ->
  map window_of l0
  = [(126, 6, 0, 8, 0); (126, 18, 0, 21, 0); (129, 7, 0, 10, 0); (129, 17, 0, 22, 0)] ->
  calendar_ok (rtc_now (ctl_rtc c)) -> dayOfTheWeek (rtc_now (ctl_rtc c)) = 6 ->
  isWithinAnySchedule me c = true ->
  in_window 360 480 (minute_of_day (rtc_now (ctl_rtc c)))
  \/ in_window 1080 1260 (minute_of_day (rtc_now (ctl_rtc c))).
Proof.
  intros Hb Hw Hc Hd (s & Hin & Ha)%isWithinAnySchedule_active.
  apply windows_of_blueprints in Hb. rewrite Hw in Hb.
  apply (in_map window_of) in Hin. rewrite Hb in Hin.
  destruct Hin as [E | [E | [E | [E | []]]]]; symmetry in E;
    destruct (saturday_active s _ _ _ _ _ _ Hc Hd E) as [Hbit Hin];
    try (unfold fits; lia); try exact Ha; try discriminate Hbit; auto.
Qed.

(** C39: Saturdays.  The masks written in [setupSchedules] are
    [0b01111110] for the schedules named "Weekday" and [0b10000001] for
    those named "Weekend": bit 6, Saturday, is set in the first and not in
    the second, where bit 7 stands for no day.  So in every reachable
    state whose clock reads a Saturday, the heater is asked on only during
    the weekday windows 06:00 to 08:00 and 18:00 to 21:00, never because of
    a weekend window. *)
Theorem saturday_follows_weekday_windows compileTime chip uninit id1 id2 id3 id4 init app :
  fits 8 id1 -> fits 8 id2 -> fits 8 id3 -> fits 8 id4 ->
  setup delay compileTime me chip uninit id1 id2 id3 id4 = Some init ->
  reachable delay me init app ->
  let now := rtc_now (ctl_rtc (app_rtc app)) in
  calendar_ok now -> dayOfTheWeek now = 6 ->
  isWithinAnySchedule me (app_rtc app) = true ->
  in_window 360 480 (minute_of_day now) \/ in_window 1080 1260 (minute_of_day now).
Proof.
  intros F1 F2 F3 F4 Hs Hr now Hc Hd Hw.
  apply (saturday_windows (setup_list id1 id2 id3 id4) (app_rtc app));
    [|apply setup_list_windows | assumption ..].
  apply (reachable_app_inv (setup_list id1 id2 id3 id4) init app); [|exact Hr].
  pose proof (setup_controller delay me compileTime chip uninit id1 id2 id3 id4 F1 F2 F3 F4) as S.
  rewrite Hs in S. destruct S as (_ & Hci & _ & _ & Hh). split; [exact Hci|].
  apply (pins_ok_heater _ _ Hh).
Qed.

(** The toggle command is its own inverse on the schedule set:
    sending the same digit twice leaves every schedule as it was. *)
Theorem toggleSchedule_twice app scheduleId :
  ctl_schedules (app_rtc (toggleSchedule me (toggleSchedule me app scheduleId) scheduleId))
  = ctl_schedules (app_rtc app).
Proof.
  rewrite !toggleSchedule_rtc. unfold getSchedule.
  destruct (find _ (ctl_schedules (app_rtc app))) as [s|] eqn:Hf.
  - rewrite planned_schedules. cbn [set_schedules ctl_schedules].
    rewrite find_toggle_first, Hf. cbn [option_map].
    rewrite !planned_schedules. cbn [set_schedules ctl_schedules].
    apply toggle_first_involutive.
  - rewrite Hf. reflexivity.
Qed.

End Safety.

(** ** The sketch on the simulated chip *)

(** The state [setup] leaves on the sample chip, with the four ids
    zero. *)
Definition sample_init : App SimRtc :=
  default (mkApp (sample []) false 0 false false []) sample_app.

(** A chip that reads Saturday 2024-01-20 07:00:00, and the state
    [setup] leaves on it. *)
Definition saturday_rtc : SimRtc :=
  mkSimRtc true (DateTime_of_fields 2024 1 20 7 0 0) false None None false false.

Definition saturday_init : App SimRtc :=
  default (mkApp (sample []) false 0 false false [])
    (setup sim_delay DateTime_default 0%nat saturday_rtc false 0 0 0 0).

Lemma sample_app_init : sample_app = Some sample_init.
Proof. vm_compute. reflexivity. Qed.

Lemma saturday_app_init :
  setup sim_delay DateTime_default 0%nat saturday_rtc false 0 0 0 0 = Some saturday_init.
Proof. vm_compute. reflexivity. Qed.

Lemma setup_spec_witness : ctl_schedules (app_rtc sample_init) = setup_list 0 0 0 0.
Proof.
  pose proof (setup_spec sim_delay 0%nat DateTime_default sample_rtc false 0 0 0 0) as P.
  fold sample_app in P. rewrite sample_app_init in P. apply P; by_compute.
Defined.

Lemma reachable_invariant_witness :
  pins_ok (run sim_delay 0%nat sample_init
             [mkLoopInput 100 100 None; mkLoopInput 200 200 (Some "3"%char)]).
Proof.
  refine (proj2 (reachable_invariant sim_delay 0%nat DateTime_default sample_rtc false 0 0 0 0
                   sample_init _ _ _ _ _ sample_app_init _)); try by_compute.
  apply reachable_run. eexists. reflexivity.
Defined.

Lemma saturday_follows_weekday_windows_witness :
  in_window 360 480 (minute_of_day (rtc_now (ctl_rtc (app_rtc saturday_init))))
  \/ in_window 1080 1260 (minute_of_day (rtc_now (ctl_rtc (app_rtc saturday_init)))).
Proof.
  apply (saturday_follows_weekday_windows sim_delay 0%nat DateTime_default saturday_rtc false
           0 0 0 0 saturday_init saturday_init); try by_compute;
    [exact saturday_app_init | apply reach_init | vm_compute; reflexivity ..].
Defined.

(** On that Saturday at 07:00 the first iteration switches the heater on,
    for the schedule named "Weekday Morning"; on the Sunday it is the
    schedule named "Weekend Morning". *)
Example saturday_heater_on :
  heater (loop sim_delay 0%nat saturday_init (mkLoopInput 100 100 None)) = (true, true, true)
  /\ getScheduleStatus 0%nat (app_rtc saturday_init) = "Active: Weekday Morning".
Proof. vm_compute. auto. Qed.

(** Ids left at the same non-zero value are stored as they are: the
    command [7] then flips the first schedule only. *)
Example same_uninitialised_ids :
  let init := default sample_init (setup sim_delay DateTime_default 0%nat sample_rtc false 7 7 7 7) in
  map sched_id (ctl_schedules (app_rtc init)) = [7; 7; 7; 7]
  /\ map sched_enabled
       (ctl_schedules (app_rtc (handleSerialCommands 0%nat init (Some "7"%char))))
     = [false; true; true; true].
Proof. vm_compute. auto. Qed.

(** With every schedule switched off, the status block still announces
    a next start at midnight and an event in 1193046 hours: the sentinel
    [0xFFFFFFFF] printed as a duration. *)
Example status_without_events :
  let app := fold_left (fun app cmd => handleSerialCommands 0%nat app (Some cmd))
               ["1"; "2"; "3"; "4"]%char sample_init in
  skipn (length (trace app)) (trace (printStatus 0%nat app))
  = [Line EmptyString; Line "--- Current Status ---"; Line "Time: 2024-01-17 07:00:01";
     Line "Heater: OFF"; Line "Status: Next: 00:00:00";
     Line "Next event in: 1193046 hours 28 minutes"].
Proof. vm_compute. reflexivity. Qed.
