(* ===== verification/Basic.v ===== *)
(** * The basic sketch

    The sketch [examples/basic/basic.ino]: it initialises the controller,
    stores one schedule for every day from 09:00 to 17:00, plans the
    alarm, and then reports every ten seconds and answers two commands,
    [s] for the status and [t] to set the clock to the compile time.

    The state [Basic] holds the controller, the static [lastCheck] of
    [loop] and the trace of the lines printed; inputs and outputs are
    those of the hot water timer ([LoopInput], [Output]).

    The theorems: [setup] and every iteration keep the controller
    initialised with the one schedule stored and no vacation, and in every
    reachable state the answer of [isWithinAnySchedule] is the test of the
    clock against 09:00 to 17:00. *)

From Stdlib Require Import Ascii String.
From stdpp Require Import strings.
From S2P Require Import Prelude DateTime Schedule Hardware State Window Occurrence.
From S2P Require Import NextEvent Alarm ScheduleSet Policy Report Temperature FloatText.
From S2P Require Import HotWater.

(** ** Data *)

Definition CHECK_INTERVAL : Z := 10000.

(** The local [dailySchedule] of [setup]; [id] is what the uninitialised
    field holds. *)
Definition dailySchedule (id : Z) : Schedule :=
  mkSchedule id 255 9 0 17 0 true "Daily Schedule".

(** [Serial.print("Temperature: "); Serial.print(temp);
    Serial.println(". C");] with the degree sign. *)
Definition temperature_text (temp : float32) : Output :=
  Line ("Temperature: " +:+ print_float temp +:+ degree +:+ "C").

Section Basic.

Context {D : Type} `{RtcDevice D} `{Thermometer D}.

(** The chip after the sketch slept for so many milliseconds. *)
Variable delay : Z -> D -> D.

Implicit Types (c : Controller D) (me : Mutex.TaskId).

(** ** State *)

Record Basic : Type := mkBasic {
  basic_rtc : Controller D;   (* rtc *)
  lastCheck : Z;              (* static unsigned long lastCheck of loop *)
  printed : list Output       (* ghost: the output so far, oldest first *)
}.

Definition print (b : Basic) (out : list Output) : Basic :=
  mkBasic (basic_rtc b) (lastCheck b) (printed b ++ out).

Definition set_basic_rtc (b : Basic) c : Basic := mkBasic c (lastCheck b) (printed b).

(** ** Set-up *)

(** [setup()] on the freshly constructed controller; [None] when [begin]
    fails and the sketch sleeps for ever. *)
Definition basic_setup (compileTime : DateTime) me (chip : D) (uninit : bool) (id : Z)
  : option Basic :=
  let c := new_controller (delay 1000 chip) uninit in
  let '(st, c) := begin compileTime me c in
  check succeeded st orelse None ;;
  let out := [Line EmptyString; Line "=== DS3231Controller Basic Example ===";
              Line "DS3231 initialized successfully";
              Line ("Current time: " +:+ timestamp_FULL (now me c));
              temperature_text (getTemperatureCelsius me c)] in
  let '(st, c) := addSchedule me c (dailySchedule id) in
  let out := if succeeded st then out ++ [Line "Schedule added successfully"] else out in
  let c := snd (setAlarmForNextSchedule me c) in
  Some (mkBasic c 0
          (out ++ [Line EmptyString;
                   Line "Setup complete. Enter 's' for status, 't' for time."])).

(** ** The loop *)

(** [if (millis() - lastCheck > 10000) { ... }]. *)
Definition report me (b : Basic) (input : LoopInput) : Basic :=
  check CHECK_INTERVAL <? u32 (millis_tested input - lastCheck b) orelse b ;;
  let b := mkBasic (basic_rtc b) (u32 (millis_stored input)) (printed b) in
  let c := basic_rtc b in
  if isWithinAnySchedule me c
  then print b [Line "Currently within scheduled time"]
  else let next := getNextScheduledStart me c in
       if isValid next
       then print b [Line ("Next schedule starts at: " +:+ timestamp_TIME next)]
       else b.

(** [switch (cmd)]; [compileTime] is [DateTime(F(__DATE__), F(__TIME__))]. *)
Definition command (compileTime : DateTime) me (b : Basic) (cmd : ascii) : Basic :=
  let c := basic_rtc b in
  if Ascii.eqb cmd "s"
  then print b [Line EmptyString; Line "--- Status ---";
                Line ("Current time: " +:+ getFormattedDate me c +:+ " "
                      +:+ getFormattedTime me c);
                Line ("Schedule status: " +:+ getScheduleStatus me c);
                temperature_text (getTemperatureCelsius me c)]
  else if Ascii.eqb cmd "t"
  then let '(st, c) := setTime me c compileTime in
       let b := set_basic_rtc b c in
       if succeeded st
       then print b [Line ("Time set to: " +:+ timestamp_FULL compileTime)]
       else b
  else print b [Line "Commands: s=status, t=set time"].

(** [loop()]. *)
Definition basic_loop (compileTime : DateTime) me (b : Basic) (input : LoopInput) : Basic :=
  let b := report me b input in
  let b := match serial_read input with
           | Some cmd => command compileTime me b cmd
           | None => b
           end in
  set_basic_rtc b (set_rtc (basic_rtc b) (delay 100 (ctl_rtc (basic_rtc b)))).

(** ** The transition system *)

Inductive basic_step (compileTime : DateTime) me : Basic -> Basic -> Prop :=
  | basic_step_loop b input :
      basic_step compileTime me b (basic_loop compileTime me b input).

Inductive basic_reachable (compileTime : DateTime) me (init : Basic) : Basic -> Prop :=
  | basic_reach_init : basic_reachable compileTime me init init
  | basic_reach_step b b' :
      basic_reachable compileTime me init b -> basic_step compileTime me b b' ->
      basic_reachable compileTime me init b'.

(** ** The invariant *)

(** The controller is initialised, holds exactly one schedule, the daily
    one with some id, no vacation is set, and the lock is free. *)
Definition basic_inv (b : Basic) : Prop :=
  let c := basic_rtc b in
  ctl_initialized c = true
  /\ (exists id, ctl_schedules c = [dailySchedule id])
  /\ vac_enabled (ctl_vacationMode c) = false
  /\ ctl_mutex c = Mutex.free.

End Basic.

Arguments Basic D : clear implicits.

(** ** Examples *)

(** The sketch on the sample chip, Wednesday 07:00: nothing is active
    and the next start is at 09:00. *)
Example basic_first_report :
  option_map
    (fun b => skipn (length (printed b))
                (printed (basic_loop sim_delay DateTime_default 0%nat b
                            (mkLoopInput 10001 10001 None))))
    (basic_setup sim_delay DateTime_default 0%nat sample_rtc false 0)
  = Some [Line "Next schedule starts at: 09:00:00"].
Proof. vm_compute. reflexivity. Qed.

(** What [setup] prints on the sample chip. *)
Example basic_setup_output :
  option_map (fun b => printed b)
    (basic_setup sim_delay DateTime_default 0%nat sample_rtc false 0)
  = Some [Line EmptyString; Line "=== DS3231Controller Basic Example ===";
          Line "DS3231 initialized successfully";
          Line "Current time: 2024-01-17T07:00:01";
          Line ("Temperature: 25.25" +:+ degree +:+ "C");
          Line "Schedule added successfully";
          Line EmptyString; Line "Setup complete. Enter 's' for status, 't' for time."].
Proof. vm_compute. reflexivity. Qed.

(** ** Theory *)

(** The temperature line of a ready object whose chip reads [quarters]
    quarter degrees shows exactly that reading. *)
Lemma temperature_text_reading {D : Type} `{RtcDevice D} `{Thermometer D}
    me (c : Controller D) quarters :
  ready me c -> 0 <= quarters < 1024 ->
  rtc_getTemperature (ctl_rtc c) = reading quarters ->
  temperature_text (getTemperatureCelsius me c)
  = Line ("Temperature: " +:+ quarters_text quarters +:+ degree +:+ "C").
Proof.
  intros (Hi & Hl) Hq Ht. unfold temperature_text, getTemperatureCelsius.
  rewrite Hi, Hl, Ht. cbv iota. rewrite (print_float_reading quarters Hq). reflexivity.
Qed.

Lemma daily_every_day id d : 0 <= d < 7 -> isDayEnabled (dailySchedule id) d = true.
Proof.
  intros Hd. rewrite isDayEnabled_testbit by lia. cbn [dailySchedule sched_dayMask].
  assert (E : d = 0 \/ d = 1 \/ d = 2 \/ d = 3 \/ d = 4 \/ d = 5 \/ d = 6) by lia.
  repeat (destruct E as [-> | E]; [reflexivity|]). subst d. reflexivity.
Qed.

(** The daily schedule is active from 09:00 to 17:00 of every day. *)
Lemma daily_active id t :
  calendar_ok t ->
  schedule_active (dailySchedule id) t = bool_decide (in_window 540 1020 (minute_of_day t)).
Proof.
  intros Hc. unfold schedule_active. cbn [dailySchedule sched_enabled sched_startHour
    sched_startMinute sched_endHour sched_endMinute].
  rewrite (daily_every_day id) by apply dayOfTheWeek_range.
  destruct Hc as (_ & _ & _ & Hh & Hm & _).
  rewrite isTimeInRange_decide by (unfold fits; lia). reflexivity.
Qed.

Section BasicTheory.

Context {D : Type} `{RtcDevice D} `{Thermometer D}.

Variable delay : Z -> D -> D.
Variable compileTime : DateTime.
Variable me : Mutex.TaskId.

Implicit Types (c : Controller D) (b : Basic D).

(** What the invariant reads of the controller. *)
Definition basic_config c : bool * list Schedule * VacationMode * Mutex.t :=
  (ctl_initialized c, ctl_schedules c, ctl_vacationMode c, ctl_mutex c).

Lemma basic_inv_config b b' :
  basic_config (basic_rtc b') = basic_config (basic_rtc b) -> basic_inv b -> basic_inv b'.
Proof. unfold basic_config, basic_inv. intros [= -> -> -> ->]. auto. Qed.

Lemma basic_config_setTime c dt : basic_config (snd (setTime me c dt)) = basic_config c.
Proof.
  unfold setTime. destruct (ctl_initialized c) eqn:Hi, (isValid dt), (hasLock me c);
    try reflexivity. cbv zeta. destruct (ctl_timeChangeCallback _); reflexivity.
Qed.

Lemma basic_config_planned c :
  basic_config (snd (setAlarmForNextSchedule me c)) = basic_config c.
Proof.
  destruct (setAlarmForNextSchedule_frame me c) as ((Hs & Hv & _ & Hm) & _ & _ & Hi & _).
  unfold basic_config. rewrite Hs, Hv, Hm, Hi. reflexivity.
Qed.

Lemma rtc_report b input : basic_rtc (report me b input) = basic_rtc b.
Proof.
  unfold report. destruct (_ <? _); [|reflexivity]. cbv zeta. cbn [basic_rtc].
  destruct (isWithinAnySchedule _ _); [reflexivity|]. destruct (isValid _); reflexivity.
Qed.

Lemma basic_config_command b cmd :
  basic_config (basic_rtc (command compileTime me b cmd)) = basic_config (basic_rtc b).
Proof.
  unfold command. cbv zeta. destruct (Ascii.eqb cmd "s"); [reflexivity|].
  destruct (Ascii.eqb cmd "t"); [|reflexivity].
  pose proof (basic_config_setTime (basic_rtc b) compileTime) as Hc.
  destruct (setTime me (basic_rtc b) compileTime) as [st c]. cbn [snd] in Hc.
  destruct (succeeded st); exact Hc.
Qed.

Lemma basic_loop_inv b input :
  basic_inv b -> basic_inv (basic_loop delay compileTime me b input).
Proof.
  apply basic_inv_config. unfold basic_loop. cbv zeta. cbn [basic_rtc set_basic_rtc].
  change (basic_config (set_rtc ?c _)) with (basic_config c).
  destruct (serial_read input); rewrite ?basic_config_command, rtc_report; reflexivity.
Qed.

Lemma basic_setup_inv chip uninit id b :
  basic_setup delay compileTime me chip uninit id = Some b -> basic_inv b.
Proof.
  unfold basic_setup, begin. cbv zeta. cbn [new_controller ctl_initialized negb ctl_rtc].
  change (hasLock me (new_controller ?r ?u)) with true. cbv iota.
  destruct (rtc_begin (delay 1000 chip)); [|discriminate]. cbn [succeeded].
  set (c0 := set_begun _ _).
  assert (Hc0 : basic_config c0
                = (true, [], mkVacationMode false DateTime_default DateTime_default uninit,
                   Mutex.free)) by reflexivity.
  clearbody c0. apply (f_equal (fun x => fst (fst (fst x)))) in Hc0 as Hi.
  pose proof (addSchedule_replans me c0 (dailySchedule id)) as Ha.
  assert (Hnil : ctl_schedules c0 = []) by (injection Hc0; auto).
  rewrite Hnil in Ha. specialize (Ha ltac:(reflexivity)).
  destruct (addSchedule me c0 (dailySchedule id)) as [st c1]. cbn [snd] in Ha. subst c1.
  intros [= <-]. unfold basic_inv. cbv zeta. cbn [basic_rtc].
  pose proof (basic_config_planned
                (snd (setAlarmForNextSchedule me
                        (set_schedules c0 ([] ++ [stored c0 (dailySchedule id)]))))) as E2.
  pose proof (basic_config_planned
                (set_schedules c0 ([] ++ [stored c0 (dailySchedule id)]))) as E1.
  rewrite E1 in E2. unfold basic_config in E2, Hc0.
  cbn [set_schedules ctl_initialized ctl_schedules ctl_vacationMode ctl_mutex] in E2.
  injection E2 as -> -> -> ->. injection Hc0 as -> _ -> ->.
  repeat split. unfold stored. cbn. destruct (id =? 0); eexists; reflexivity.
Qed.

Lemma basic_reachable_inv init b :
  basic_inv init -> basic_reachable delay compileTime me init b -> basic_inv b.
Proof.
  intros Hi Hr. induction Hr as [|b b' _ IH Hstep]; [exact Hi|].
  destruct Hstep. apply basic_loop_inv, IH.
Qed.

(** Under the invariant the answer is the test of the clock. *)
Lemma basic_inv_within b :
  basic_inv b -> calendar_ok (rtc_now (ctl_rtc (basic_rtc b))) ->
  isWithinAnySchedule me (basic_rtc b)
  = bool_decide (in_window 540 1020 (minute_of_day (rtc_now (ctl_rtc (basic_rtc b))))).
Proof.
  intros (Hi & (id & Hs) & Hv & Hm) Hc. unfold isWithinAnySchedule.
  assert (Hl : hasLock me (basic_rtc b) = true) by (unfold hasLock; rewrite Hm; reflexivity).
  rewrite Hi, Hl, Hv, Hs. cbn [andb negb existsb sched_id dailySchedule].
  rewrite isWithinSchedule_spec, Hi, Hl, Hs. cbn [negb find sched_id dailySchedule].
  rewrite Z.eqb_refl, orb_false_r. apply (daily_active id), Hc.
Qed.

Lemma setTime_succeeds c dt :
  ctl_initialized c = true -> ctl_mutex c = Mutex.free -> isValid dt = true ->
  fst (setTime me c dt) = OK.
Proof.
  intros Hi Hm Hv. unfold setTime, hasLock. rewrite Hi, Hv, Hm. reflexivity.
Qed.

(** The command [t] in a reachable state: the clock then reads the compile
    time and the sketch says so. *)
Theorem command_t_sets_clock b :
  basic_inv b -> isValid compileTime = true ->
  let b' := command compileTime me b "t" in
  now me (basic_rtc b') = compileTime
  /\ printed b' = printed b ++ [Line ("Time set to: " +:+ timestamp_FULL compileTime)].
Proof.
  intros (Hi & _ & _ & Hm) Hv. unfold command. cbv zeta.
  change (Ascii.eqb "t" "s") with false. change (Ascii.eqb "t" "t") with true. cbv iota.
  pose proof (setTime_succeeds (basic_rtc b) compileTime Hi Hm Hv) as Hok.
  pose proof (now_setTime me (basic_rtc b) compileTime) as Hn.
  destruct (setTime me (basic_rtc b) compileTime) as [st c']. cbn [fst] in Hok. subst st.
  cbn [succeeded print set_basic_rtc basic_rtc printed]. split; [apply (Hn c'); reflexivity|].
  reflexivity.
Qed.

(** Office hours.  In every state the basic sketch reaches after
    [setup], whatever it read and whatever the uninitialised id of its
    schedule was, [isWithinAnySchedule] is true exactly when the clock,
    holding a time of day, reads 09:00 or later and earlier than 17:00,
    on every day of the week. *)
Theorem basic_within_office_hours chip uninit id init b :
  basic_setup delay compileTime me chip uninit id = Some init ->
  basic_reachable delay compileTime me init b ->
  let now := rtc_now (ctl_rtc (basic_rtc b)) in
  calendar_ok now ->
  isWithinAnySchedule me (basic_rtc b) = true <-> 540 <= minute_of_day now < 1020.
Proof.
  intros Hs Hr now Hc. rewrite (basic_inv_within b), bool_decide_eq_true;
    [reflexivity | | exact Hc].
  apply (basic_reachable_inv init); [apply (basic_setup_inv chip uninit id), Hs | exact Hr].
Qed.

End BasicTheory.

Lemma basic_within_office_hours_witness :
  match basic_setup sim_delay DateTime_default 0%nat sample_rtc false 0 with
  | Some init => isWithinAnySchedule 0%nat (basic_rtc init) = false
  | None => False
  end.
Proof.
  pose proof (basic_within_office_hours sim_delay DateTime_default 0%nat sample_rtc false 0) as P.
  assert (Em : option_map (fun b => minute_of_day (rtc_now (ctl_rtc (basic_rtc b))))
                 (basic_setup sim_delay DateTime_default 0%nat sample_rtc false 0)
               = Some 420) by (vm_compute; reflexivity).
  assert (Ec : option_map (fun b => bool_decide (calendar_ok (rtc_now (ctl_rtc (basic_rtc b)))))
                 (basic_setup sim_delay DateTime_default 0%nat sample_rtc false 0)
               = Some true) by (vm_compute; reflexivity).
  destruct (basic_setup sim_delay DateTime_default 0%nat sample_rtc false 0) as [init|];
    [|discriminate Em].
  injection Em as Em. injection Ec as Ec. apply bool_decide_eq_true in Ec.
  specialize (P init init eq_refl (basic_reach_init _ _ _ _) Ec). cbv zeta in P.
  apply not_true_iff_false. intros Hw. apply P in Hw.
  change (540 <= minute_of_day (sim_time (ctl_rtc (basic_rtc init))) < 1020) in Hw. lia.
Defined.
