(* ===== verification/Uptime.v ===== *)
(** * The millisecond counter of the sketches

    Both sketches time their periodic report with [millis()], an
    [unsigned long] that counts the milliseconds since boot and starts
    again from zero after 2^32 of them, 49.7 days:
    [if (millis() - lastStatusPrint > STATUS_INTERVAL)] in
    [hot_water_timer.ino], [if (millis() - lastCheck > 10000)] in
    [basic.ino].  [HotWater] and [Basic] take the readings of the counter
    as the input of an iteration; this file relates them to the time that
    really passed.

    An iteration is a [Tick]: the uptime at the test, the uptime at the
    assignment, the character read.  [stamp] makes it the input the loop
    sees, the two uptimes reduced to 32 bits.  [last_report] is the
    uptime of the last report as a clock that does not wrap would give
    it.  [paced gap] says that the iterations follow each other within
    [gap] milliseconds, which [delay(100)] and the pump exercise of at
    most 65535 seconds make true for a [gap] far below the 2^31 that the
    theorems need.

    The theorems: after any run the variable holds the wrapped uptime of the last
    report of the unwrapped clock, and the report is never overdue by
    more than the interval and one gap, however often the counter has
    wrapped. *)

From Stdlib Require Import Ascii.
From stdpp Require Import strings.
From S2P Require Import Prelude DateTime Schedule Hardware State Window Alarm ScheduleSet.
From S2P Require Import Policy Temperature HotWater HotWaterRun Basic.

(** ** Uptime *)

(** [millis()] at an uptime in milliseconds. *)
Definition millis (uptime : Z) : Z := u32 uptime.

(** An iteration of [loop()], at the time that really passed. *)
Record Tick : Type := mkTick {
  tested : Z;                 (* uptime when the interval is tested *)
  stored : Z;                 (* uptime when the variable is assigned *)
  key : option ascii          (* what Serial.read() gives *)
}.

(** What the iteration sees. *)
Definition stamp (k : Tick) : LoopInput :=
  mkLoopInput (millis (tested k)) (millis (stored k)) (key k).

(** The uptime of the last report after an iteration, on a clock that
    does not wrap. *)
Definition report_at (interval : Z) (t0 : Z) (k : Tick) : Z :=
  if interval <? tested k - t0 then stored k else t0.

Definition last_report (interval : Z) (t0 : Z) (ticks : list Tick) : Z :=
  fold_left (report_at interval) ticks t0.

(** The iterations follow the uptime [s] and each other within [gap]
    milliseconds, the test of each before its assignment. *)
Fixpoint paced (gap s : Z) (ticks : list Tick) : bool :=
  match ticks with
  | [] => true
  | k :: ticks' =>
      (s <=? tested k) && (tested k <=? stored k) && (stored k - s <=? gap)
      && paced gap (stored k) ticks'
  end.

(** The uptime when the last iteration assigned. *)
Definition finished (s : Z) (ticks : list Tick) : Z :=
  fold_left (fun _ k => stored k) ticks s.

(** ** A loop with a periodic report *)

(** What the two sketches share: a state with a variable [last] that an
    iteration sets to the counter when the interval has passed on the
    counter, and otherwise leaves. *)
Section Periodic.

Context {St : Type}.

Variable interval : Z.
Variable last : St -> Z.
Variable iterate : St -> LoopInput -> St.

Hypothesis iterate_last : forall st input,
  last (iterate st input)
  = if interval <? u32 (millis_tested input - last st)
    then u32 (millis_stored input) else last st.

Variable gap : Z.

Hypothesis one_turn : interval + 2 * gap < 4294967296.

(** The iteration decides by the elapsed time. *)
Lemma iterate_report_at st t0 k :
  last st = millis t0 -> 0 <= tested k - t0 < 4294967296 ->
  last (iterate st (stamp k)) = millis (report_at interval t0 k).
Proof.
  intros Hl Hd. rewrite iterate_last, Hl. cbn [stamp millis_tested millis_stored].
  unfold millis, report_at. rewrite (u32_elapsed _ _ Hd), u32_u32.
  destruct (interval <? _); reflexivity.
Qed.

(** The invariant of a paced run: the last report is behind the uptime
    by the interval and a gap at most. *)
Lemma report_at_close t0 s k :
  t0 <= s <= t0 + interval + gap ->
  s <= tested k <= stored k -> stored k - s <= gap ->
  0 <= tested k - t0 < 4294967296
  /\ report_at interval t0 k <= stored k <= report_at interval t0 k + interval + gap.
Proof.
  intros Hs Hk Hg. split; [lia|]. unfold report_at.
  destruct (Z.ltb_spec interval (tested k - t0)); lia.
Qed.

Lemma run_last_report ticks : forall st t0 s,
  0 <= interval -> 0 <= gap ->
  last st = millis t0 -> t0 <= s <= t0 + interval + gap -> paced gap s ticks = true ->
  last (fold_left iterate (map stamp ticks) st) = millis (last_report interval t0 ticks)
  /\ 0 <= finished s ticks - last_report interval t0 ticks <= interval + gap.
Proof.
  induction ticks as [|k ticks IH]; intros st t0 s Hi Hg Hl Hs Hp.
  - cbn [map fold_left last_report finished]. split; [exact Hl | lia].
  - cbn [paced] in Hp. repeat (apply andb_prop in Hp as [Hp ?]).
    destruct (report_at_close t0 s k) as [Hd Hc]; [lia..|].
    cbn [map fold_left last_report finished].
    apply (IH _ (report_at interval t0 k) (stored k)); try assumption.
    apply iterate_report_at; assumption.
Qed.

End Periodic.

(** ** The hot water timer *)

Section HotWaterUptime.

Context {D : Type} `{RtcDevice D} `{Thermometer D}.

Variable delay : Z -> D -> D.
Variable me : Mutex.TaskId.

Implicit Types (app : App D) (k : Tick).

(** Only [periodic] assigns [lastStatusPrint]. *)
Lemma lastStatusPrint_say app out : lastStatusPrint (say app out) = lastStatusPrint app.
Proof. reflexivity. Qed.

Lemma lastStatusPrint_activateHeater app :
  lastStatusPrint (activateHeater me app) = lastStatusPrint app.
Proof. unfold activateHeater. destruct (negb _); reflexivity. Qed.

Lemma lastStatusPrint_deactivateHeater app :
  lastStatusPrint (deactivateHeater app) = lastStatusPrint app.
Proof. unfold deactivateHeater. destruct (heaterState _); reflexivity. Qed.

Lemma lastStatusPrint_exercise app :
  lastStatusPrint (exercise delay me app) = lastStatusPrint app.
Proof.
  unfold exercise. destruct (isPumpExerciseTime _ _); [|reflexivity]. cbv zeta.
  cbn [lastStatusPrint with_rtc sleep]. rewrite lastStatusPrint_deactivateHeater.
  cbn [lastStatusPrint with_rtc sleep]. rewrite lastStatusPrint_activateHeater. reflexivity.
Qed.

Lemma lastStatusPrint_follow shouldBeOn app :
  lastStatusPrint (follow me shouldBeOn app) = lastStatusPrint app.
Proof.
  unfold follow. destruct (negb _); [|reflexivity].
  destruct shouldBeOn; [apply lastStatusPrint_activateHeater
                       | apply lastStatusPrint_deactivateHeater].
Qed.

Lemma lastStatusPrint_rearm app : lastStatusPrint (rearm me app) = lastStatusPrint app.
Proof.
  unfold rearm. destruct (isAlarmFired _ _ _); [|reflexivity]. cbv zeta.
  destruct (ctl_alarmCallback _); reflexivity.
Qed.

Lemma lastStatusPrint_printStatus app :
  lastStatusPrint (printStatus me app) = lastStatusPrint app.
Proof.
  unfold printStatus. cbv zeta. destruct (isValid _); destruct (isVacationMode _ _); reflexivity.
Qed.

Lemma lastStatusPrint_handleSerialCommands app input :
  lastStatusPrint (handleSerialCommands me app input) = lastStatusPrint app.
Proof.
  destruct input as [cmd|]; [|reflexivity]. unfold handleSerialCommands.
  repeat match goal with |- context [if ?b then _ else _] => destruct b end;
    try reflexivity; try apply lastStatusPrint_printStatus.
  - unfold toggleVacation. cbv zeta. destruct (negb _); reflexivity.
  - unfold toggleSchedule. cbv zeta. destruct (getSchedule _ _); reflexivity.
Qed.

Lemma lastStatusPrint_periodic app input :
  lastStatusPrint (periodic me app input)
  = if STATUS_INTERVAL <? u32 (millis_tested input - lastStatusPrint app)
    then u32 (millis_stored input) else lastStatusPrint app.
Proof. unfold periodic. destruct (_ <? _); reflexivity. Qed.

Lemma lastStatusPrint_loop app input :
  lastStatusPrint (loop delay me app input)
  = if STATUS_INTERVAL <? u32 (millis_tested input - lastStatusPrint app)
    then u32 (millis_stored input) else lastStatusPrint app.
Proof.
  unfold loop. cbv zeta. cbn [sleep with_rtc lastStatusPrint].
  rewrite lastStatusPrint_handleSerialCommands, lastStatusPrint_periodic,
    lastStatusPrint_rearm, lastStatusPrint_follow, lastStatusPrint_exercise.
  reflexivity.
Qed.

(** C34: the status is never overdue, however long the sketch runs.  Over
    any run whose iterations follow each other within [gap] milliseconds,
    [lastStatusPrint] is the counter at the last report of a clock that
    does not wrap, and that report is at most [STATUS_INTERVAL + gap]
    milliseconds before the end of the run. *)
Theorem status_never_overdue gap app ticks :
  0 <= gap -> STATUS_INTERVAL + 2 * gap < 4294967296 ->
  lastStatusPrint app = 0 -> paced gap 0 ticks = true ->
  lastStatusPrint (run delay me app (map stamp ticks))
  = millis (last_report STATUS_INTERVAL 0 ticks)
  /\ 0 <= finished 0 ticks - last_report STATUS_INTERVAL 0 ticks <= STATUS_INTERVAL + gap.
Proof.
  intros Hg Hturn Hl Hp. unfold run.
  apply (run_last_report STATUS_INTERVAL _ _ lastStatusPrint_loop gap Hturn ticks app 0 0);
    try assumption; unfold STATUS_INTERVAL in *; lia.
Qed.

End HotWaterUptime.

(** ** The basic sketch *)

Section BasicUptime.

Context {D : Type} `{RtcDevice D} `{Thermometer D}.

Variable delay : Z -> D -> D.
Variable compileTime : DateTime.
Variable me : Mutex.TaskId.

Implicit Types (b : Basic D).

Lemma lastCheck_report b input :
  lastCheck (report me b input)
  = if CHECK_INTERVAL <? u32 (millis_tested input - lastCheck b)
    then u32 (millis_stored input) else lastCheck b.
Proof.
  unfold report. destruct (_ <? _); [|reflexivity]. cbv zeta. cbn [basic_rtc].
  destruct (isWithinAnySchedule _ _); [reflexivity|]. destruct (isValid _); reflexivity.
Qed.

Lemma lastCheck_command b cmd : lastCheck (command compileTime me b cmd) = lastCheck b.
Proof.
  unfold command. cbv zeta.
  repeat match goal with |- context [if ?b then _ else _] => destruct b end; try reflexivity.
  destruct (setTime _ _ _) as [st c]. destruct (succeeded st); reflexivity.
Qed.

Lemma lastCheck_basic_loop b input :
  lastCheck (basic_loop delay compileTime me b input)
  = if CHECK_INTERVAL <? u32 (millis_tested input - lastCheck b)
    then u32 (millis_stored input) else lastCheck b.
Proof.
  unfold basic_loop. cbv zeta. cbn [lastCheck set_basic_rtc].
  destruct (serial_read input); rewrite ?lastCheck_command; apply lastCheck_report.
Qed.

(** The same for the check of the basic sketch, every ten seconds. *)
Theorem check_never_overdue gap b ticks :
  0 <= gap -> CHECK_INTERVAL + 2 * gap < 4294967296 ->
  lastCheck b = 0 -> paced gap 0 ticks = true ->
  lastCheck (fold_left (basic_loop delay compileTime me) (map stamp ticks) b)
  = millis (last_report CHECK_INTERVAL 0 ticks)
  /\ 0 <= finished 0 ticks - last_report CHECK_INTERVAL 0 ticks <= CHECK_INTERVAL + gap.
Proof.
  intros Hg Hturn Hl Hp.
  apply (run_last_report CHECK_INTERVAL _ _ lastCheck_basic_loop gap Hturn ticks b 0 0);
    try assumption; unfold CHECK_INTERVAL in *; lia.
Qed.

End BasicUptime.

(** ** The theorems at the samples *)

(** Three iterations, two thousand million milliseconds apart: the
    counter wraps before the third, whose test reads 705 032 703. *)
Definition long_run : list Tick :=
  [mkTick 1999999999 2000000000 None; mkTick 3999999999 4000000000 None;
   mkTick 4999999999 5000000000 None].

Example long_run_wraps :
  map millis_tested (map stamp long_run) = [1999999999; 3999999999; 705032703]
  /\ last_report STATUS_INTERVAL 0 long_run = 5000000000.
Proof. split; reflexivity. Qed.

(** The pace is needed: an iteration that comes a whole turn of the
    counter and ten seconds after the last report reads ten seconds, and
    does not report. *)
Example a_turn_later_is_not_due :
  let late := mkTick 4294977296 4294977296 None in
  (report_at STATUS_INTERVAL 0 late,
   lastStatusPrint (periodic 0%nat sample_init (stamp late)))
  = (4294977296, 0).
Proof. vm_compute. reflexivity. Qed.

Lemma status_never_overdue_witness :
  lastStatusPrint (run sim_delay 0%nat sample_init (map stamp long_run))
  = millis (last_report STATUS_INTERVAL 0 long_run)
  /\ 0 <= finished 0 long_run - last_report STATUS_INTERVAL 0 long_run
     <= STATUS_INTERVAL + 2000000000.
Proof.
  apply (status_never_overdue sim_delay 0%nat 2000000000 sample_init long_run);
    [discriminate | reflexivity | vm_compute; reflexivity | reflexivity].
Defined.
