(* ===== verification/Tasks.v ===== *)
(** * Concurrent callers

    The controller is meant to be called from several FreeRTOS tasks.  A
    task can be preempted between any two statements of a method, so a
    method is a sequence of atomic steps here, with a program counter per
    task ([Pc]) that also holds the locals of the call, and a system is
    the controller with the counters of its tasks ([System]).  Which task
    moves next is not determined ([sys_step]); [run] replays a given order.

    Three methods are cut into their steps:

    - [markPumpExerciseComplete], which works inside a
      [RecursiveMutexGuard]: taking the lock, the guarded block, and the
      guard's destructor that gives the lock back;
    - [addSchedule], which takes no lock: the capacity test, the copy and
      the id assignment, the [push_back], and the planning call (which is
      guarded, and is one step here);
    - [setVacationMode], which takes no lock either: its three
      assignments.  Its reader [isVacationMode] works inside a guard and
      is one step.

    A task that finds the lock held either waits, which is not being
    scheduled, or gives up, which is its step while the lock is held.

    The theorems: alone, the steps of a call compose to the method of
    [ScheduleSet] and [Policy]; in every reachable state at most one task
    is inside the guarded block, and it is the holder of the lock; and
    two tasks that add a schedule with id 0 at the same time can be given
    the same id, and can fill the set beyond [MAX_SCHEDULES]; a reader
    scheduled between the assignments of [setVacationMode] sees a
    vacation that was never set; and every call returns within its own
    steps, after which the lock is free. *)

From S2P Require Import Prelude DateTime Schedule Hardware State Window Occurrence.
From S2P Require Import Alarm ScheduleSet Policy.

(** ** Program counters *)

Inductive Pc : Type :=
  | Idle                                  (* no call in progress *)
  | Add_called (schedule : Schedule)      (* addSchedule(schedule) entered *)
  | Add_copied (newSchedule : Schedule)   (* past the capacity test *)
  | Add_assigned (newSchedule : Schedule) (* newSchedule.id decided *)
  | Add_pushed                            (* push_back done *)
  | Mark_called                           (* markPumpExerciseComplete() entered *)
  | Mark_guarded                          (* inside the guard, lock taken *)
  | Vac_called (enabled : bool) (start end_ : DateTime)
                                          (* setVacationMode(...) entered *)
  | Vac_enabled (start end_ : DateTime)   (* _vacationMode.enabled written *)
  | Vac_start (end_ : DateTime)           (* _vacationMode.startDate written *)
  | Ask_vacation                          (* isVacationMode() entered *)
  | Answered (b : bool)                   (* the query has returned [b] *)
  | Returned (st : Status).               (* the call has returned *)

#[export] Instance Pc_eq_dec : EqDecision Pc.
Proof. solve_decision. Defined.

Section Tasks.

Context {D : Type} `{RtcDevice D}.

Implicit Types (c : Controller D) (me : Mutex.TaskId) (i j : nat) (pcs : list Pc).

(** [_pumpExercise.lastRun = _rtc.now()]. *)
Definition mark_lastRun c : Controller D :=
  let p := ctl_pumpExercise c in
  set_pumpExercise c
    (mkPumpExercise (pump_enabled p) (pump_dayOfMonth p) (pump_hour p) (pump_minute p)
                    (pump_durationSeconds p) (rtc_now (ctl_rtc c))).

(** [addSchedule(schedule)], statement by statement. *)
Definition add_step me (pc : Pc) c : Pc * Controller D :=
  match pc with
  | Add_called schedule =>
      if Z.of_nat (length (ctl_schedules c)) <? MAX_SCHEDULES
      then (Add_copied schedule, c)
      else (Returned (Failed CapacityExceeded), c)
  | Add_copied newSchedule => (Add_assigned (stored c newSchedule), c)
  | Add_assigned newSchedule =>
      (Add_pushed, set_schedules c (ctl_schedules c ++ [newSchedule]))
  | Add_pushed => (Returned OK, snd (setAlarmForNextSchedule me c))
  | _ => (pc, c)
  end.

(** [markPumpExerciseComplete()]: the tests and the guard's constructor,
    then the guarded block and the guard's destructor. *)
Definition mark_step me (pc : Pc) c : Pc * Controller D :=
  match pc with
  | Mark_called =>
      if ctl_initialized c
      then match Mutex.take me (ctl_mutex c) with
           | Some mx => (Mark_guarded, set_mutex c mx)
           | None => (Returned (Failed LockUnavailable), c)
           end
      else (Returned (Failed NotInitialized), c)
  | Mark_guarded =>
      let c := mark_lastRun c in
      (Returned OK, set_mutex c (Mutex.give (ctl_mutex c)))
  | _ => (pc, c)
  end.

(** [setVacationMode(enabled, start, end)]: three assignments, and no
    guard. *)
Definition vac_step (pc : Pc) c : Pc * Controller D :=
  let v := ctl_vacationMode c in
  match pc with
  | Vac_called enabled start end_ =>
      (Vac_enabled start end_,
       set_vacationMode c
         (mkVacationMode enabled (vac_startDate v) (vac_endDate v) (vac_runPumpExercise v)))
  | Vac_enabled start end_ =>
      (Vac_start end_,
       set_vacationMode c
         (mkVacationMode (vac_enabled v) start (vac_endDate v) (vac_runPumpExercise v)))
  | Vac_start end_ =>
      (Returned OK,
       set_vacationMode c
         (mkVacationMode (vac_enabled v) (vac_startDate v) end_ (vac_runPumpExercise v)))
  | _ => (pc, c)
  end.

(** [isVacationMode()], which reads inside its guard: one step. *)
Definition ask_step me (pc : Pc) c : Pc * Controller D :=
  match pc with
  | Ask_vacation => (Answered (isVacationMode me c), c)
  | _ => (pc, c)
  end.

(** One atomic step of task [me] at [pc]. *)
Definition task_step me (pc : Pc) c : Pc * Controller D :=
  match pc with
  | Idle | Returned _ | Answered _ => (pc, c)
  | Add_called _ | Add_copied _ | Add_assigned _ | Add_pushed => add_step me pc c
  | Mark_called | Mark_guarded => mark_step me pc c
  | Vac_called _ _ _ | Vac_enabled _ _ | Vac_start _ => vac_step pc c
  | Ask_vacation => ask_step me pc c
  end.

(** ** The system *)

Record System : Type := mkSystem {
  sys_ctl : Controller D;   (* the one object the tasks share *)
  sys_pcs : list Pc         (* the counter of task 0, 1, ... *)
}.

(** Task [i] is scheduled for one step. *)
Definition schedule_task i (s : System) : System :=
  match sys_pcs s !! i with
  | Some pc => let '(pc', c') := task_step i pc (sys_ctl s) in
               mkSystem c' (<[i := pc']> (sys_pcs s))
  | None => s
  end.

(** The tasks scheduled in the given order. *)
Definition run (order : list nat) (s : System) : System :=
  fold_left (fun s i => schedule_task i s) order s.

Inductive sys_step : System -> System -> Prop :=
  | sys_step_task i s : (i < length (sys_pcs s))%nat -> sys_step s (schedule_task i s).

Inductive sys_reachable (init : System) : System -> Prop :=
  | sys_reach_init : sys_reachable init init
  | sys_reach_step s s' : sys_reachable init s -> sys_step s s' -> sys_reachable init s'.

(** ** Mutual exclusion *)

(** Task [i] is inside the guarded block. *)
Definition guarded pcs i : Prop := pcs !! i = Some Mark_guarded.

(** The lock and the counters agree: a free lock means nobody is inside;
    a held lock is held once, by the one task that is inside. *)
Definition excl (s : System) : Prop :=
  match Mutex.holder (ctl_mutex (sys_ctl s)) with
  | None => Mutex.depth (ctl_mutex (sys_ctl s)) = 0%nat /\ forall i, ~ guarded (sys_pcs s) i
  | Some h => Mutex.depth (ctl_mutex (sys_ctl s)) = 1%nat /\ guarded (sys_pcs s) h
              /\ forall i, guarded (sys_pcs s) i -> i = h
  end.

(** ** Progress *)

(** The steps a call has left, at most: the statements between the
    counter and the return. *)
Definition remaining (pc : Pc) : nat :=
  match pc with
  | Idle | Returned _ | Answered _ => 0
  | Vac_called _ _ _ => 3
  | Vac_enabled _ _ => 2
  | Vac_start _ => 1
  | Ask_vacation => 1
  | Add_called _ => 4
  | Add_copied _ => 3
  | Add_assigned _ => 2
  | Add_pushed => 1
  | Mark_called => 2
  | Mark_guarded => 1
  end.

(** No call in progress. *)
Definition at_rest (pc : Pc) : bool :=
  match pc with
  | Idle | Returned _ | Answered _ => true
  | _ => false
  end.

End Tasks.

Arguments System D : clear implicits.

(** ** Examples *)

(** Two tasks add a schedule to the empty set of the sample controller,
    each preempted after every step: both schedules get id 1. *)
Example two_adds_sample :
  map sched_id (ctl_schedules (sys_ctl
    (run [0; 1; 0; 1; 0; 1; 0; 1]%nat
       (mkSystem (sample []) [Add_called (set_id weekday_morning 0);
                              Add_called (set_id night_owl 0)]))))
  = [1; 1].
Proof. vm_compute. reflexivity. Qed.

(** One after the other they get ids 1 and 2. *)
Example two_adds_in_turn :
  map sched_id (ctl_schedules (sys_ctl
    (run [0; 0; 0; 0; 1; 1; 1; 1]%nat
       (mkSystem (sample []) [Add_called (set_id weekday_morning 0);
                              Add_called (set_id night_owl 0)]))))
  = [1; 2].
Proof. vm_compute. reflexivity. Qed.

(** Task 1 cannot enter the guarded block while task 0 is inside, and can
    once task 0 has left. *)
Example mark_contended :
  map (fun order => sys_pcs (run order (mkSystem (sample []) [Mark_called; Mark_called])))
      [[0; 1]; [0; 0; 1]]%nat
  = [[Mark_guarded; Returned (Failed LockUnavailable)];
     [Returned OK; Mark_guarded]].
Proof. vm_compute. reflexivity. Qed.

(** ** Theory *)

Section TasksTheory.

Context {D : Type} `{RtcDevice D}.

Implicit Types (c : Controller D) (i j : nat) (pcs : list Pc) (s : System D).

Lemma schedule_task_at i c pcs pc :
  pcs !! i = Some pc ->
  schedule_task i (mkSystem c pcs)
  = mkSystem (snd (task_step i pc c)) (<[i := fst (task_step i pc c)]> pcs).
Proof.
  intros E. unfold schedule_task. cbn [sys_pcs sys_ctl]. rewrite E.
  destruct (task_step i pc c). reflexivity.
Qed.

Lemma run_cons i order c pcs pc :
  pcs !! i = Some pc ->
  run (i :: order) (mkSystem c pcs)
  = run order (mkSystem (snd (task_step i pc c)) (<[i := fst (task_step i pc c)]> pcs)).
Proof. intros E. unfold run. cbn [fold_left]. rewrite (schedule_task_at i c pcs pc E). reflexivity. Qed.

Lemma lookup_updated i pcs pc pc' : pcs !! i = Some pc -> <[i := pc']> pcs !! i = Some pc'.
Proof. intros E. apply list_lookup_insert_eq, (lookup_lt_Some _ _ _ E). Qed.

(** One more step of the task that moved last. *)
Lemma run_again i order c pcs pc pc' :
  pcs !! i = Some pc ->
  run (i :: order) (mkSystem c (<[i := pc']> pcs))
  = run order (mkSystem (snd (task_step i pc' c)) (<[i := fst (task_step i pc' c)]> pcs)).
Proof.
  intros E. rewrite (run_cons i order c _ pc' (lookup_updated i pcs pc pc' E)).
  rewrite list_insert_insert_eq. reflexivity.
Qed.

(** *** A call that is not interrupted *)

Lemma add_alone_run i c pcs schedule :
  pcs !! i = Some (Add_called schedule) ->
  run [i; i; i; i] (mkSystem c pcs)
  = mkSystem (snd (addSchedule i c schedule))
             (<[i := Returned (fst (addSchedule i c schedule))]> pcs).
Proof.
  intros E. rewrite (run_cons i _ c pcs _ E). unfold addSchedule. cbn [task_step add_step mark_step].
  destruct (_ <? _); cbn [fst snd];
    repeat (rewrite (run_again i _ _ pcs _ _ E); cbn [task_step add_step mark_step fst snd]); reflexivity.
Qed.

Lemma mark_lastRun_guarded c mx :
  set_mutex (mark_lastRun (set_mutex c mx)) (ctl_mutex c) = mark_lastRun c.
Proof. destruct c. reflexivity. Qed.

Lemma mark_alone_run i c pcs :
  Mutex.ok (ctl_mutex c) -> pcs !! i = Some Mark_called ->
  sys_ctl (run [i; i] (mkSystem c pcs)) = markPumpExerciseComplete i c.
Proof.
  intros Hok E. rewrite (run_cons i _ c pcs _ E).
  unfold markPumpExerciseComplete, hasLock, Mutex.lockable. cbn [task_step add_step mark_step].
  destruct (ctl_initialized c); cbn [fst snd];
    [destruct (Mutex.take i (ctl_mutex c)) as [mx|] eqn:Ht; cbn [fst snd]|];
    rewrite (run_again i _ _ pcs _ _ E); cbn [task_step add_step mark_step fst snd run fold_left sys_ctl];
    try reflexivity.
  cbn [ctl_mutex set_mutex mark_lastRun set_pumpExercise].
  rewrite (Mutex.give_take i (ctl_mutex c) mx Hok Ht). apply (mark_lastRun_guarded c mx).
Qed.

(** *** The guard *)

Lemma guarded_insert pcs i pc j :
  guarded (<[i := pc]> pcs) j
  <-> (i = j /\ pc = Mark_guarded /\ (j < length pcs)%nat) \/ (i <> j /\ guarded pcs j).
Proof. unfold guarded. rewrite list_lookup_insert_Some. reflexivity. Qed.

(** A step outside the guard, which leaves the lock alone. *)
Lemma excl_frame c c' pcs i pc pc' :
  pcs !! i = Some pc -> ctl_mutex c' = ctl_mutex c ->
  pc <> Mark_guarded -> pc' <> Mark_guarded ->
  excl (mkSystem c pcs) -> excl (mkSystem c' (<[i := pc']> pcs)).
Proof.
  intros E Hm Hpc Hpc'. unfold excl. cbn [sys_ctl sys_pcs]. rewrite Hm.
  assert (Hg : forall j, guarded (<[i := pc']> pcs) j <-> guarded pcs j).
  { intros j. rewrite guarded_insert. unfold guarded. split; [intros [(_ & ? & _)|[_ ?]]|];
      [contradiction | assumption |]. intros Hj. right. split; [congruence | exact Hj]. }
  destruct (Mutex.holder (ctl_mutex c)); setoid_rewrite Hg; auto.
Qed.

(** A task enters: the lock was free, and nobody was inside. *)
Lemma excl_enter c pcs i mx :
  pcs !! i = Some Mark_called -> Mutex.take i (ctl_mutex c) = Some mx ->
  excl (mkSystem c pcs) -> excl (mkSystem (set_mutex c mx) (<[i := Mark_guarded]> pcs)).
Proof.
  intros E Ht. unfold excl, Mutex.take in *. cbn [sys_ctl sys_pcs ctl_mutex set_mutex] in *.
  destruct (Mutex.holder (ctl_mutex c)) as [h|].
  - intros (_ & Hh & _). destruct (decide (h = i)) as [->|]; [|discriminate].
    unfold guarded in Hh. congruence.
  - intros (_ & Hnone). injection Ht as <-. cbn [Mutex.holder Mutex.depth].
    split; [reflexivity|]. setoid_rewrite guarded_insert. split.
    + left. repeat split. apply (lookup_lt_Some _ _ _ E).
    + intros j [(-> & _)|(_ & Hj)]; [reflexivity | destruct (Hnone j Hj)].
Qed.

(** The task that is inside leaves: the lock is free again. *)
Lemma excl_leave c c' pcs i :
  pcs !! i = Some Mark_guarded -> ctl_mutex c' = ctl_mutex c ->
  excl (mkSystem c pcs)
  -> excl (mkSystem (set_mutex c' (Mutex.give (ctl_mutex c'))) (<[i := Returned OK]> pcs)).
Proof.
  intros E Hm. unfold excl. cbn [sys_ctl sys_pcs ctl_mutex set_mutex]. rewrite Hm.
  destruct (Mutex.holder (ctl_mutex c)) as [h|] eqn:Hh.
  - intros (Hd & _ & Hone). unfold Mutex.give. rewrite Hd. cbn [Mutex.free Mutex.holder Mutex.depth].
    split; [reflexivity|]. intros j. rewrite guarded_insert.
    intros [(_ & ? & _)|(Hne & Hj)]; [discriminate|].
    apply Hne. rewrite (Hone i E), (Hone j Hj). reflexivity.
  - intros (_ & Hnone). destruct (Hnone i E).
Qed.

Lemma excl_schedule_task i s : excl s -> excl (schedule_task i s).
Proof.
  destruct s as [c pcs]. destruct (pcs !! i) as [pc|] eqn:E;
    [|unfold schedule_task; cbn [sys_pcs]; rewrite E; auto].
  rewrite (schedule_task_at i c pcs pc E). intros Hx.
  destruct pc; cbn [task_step add_step mark_step vac_step ask_step fst snd];
    try (apply (excl_frame c _ pcs i _ _ E); [reflexivity | discriminate | discriminate | exact Hx]).
  - destruct (_ <? _); cbn [fst snd];
      (apply (excl_frame c c pcs i _ _ E); [reflexivity | discriminate | discriminate | exact Hx]).
  - apply (excl_frame c _ pcs i _ _ E); [| discriminate | discriminate | exact Hx].
    apply (setAlarmForNextSchedule_frame i c).
  - destruct (ctl_initialized c); [destruct (Mutex.take i (ctl_mutex c)) eqn:Ht|]; cbn [fst snd];
      [apply (excl_enter c pcs i _ E Ht Hx) | |];
      (apply (excl_frame c c pcs i _ _ E); [reflexivity | discriminate | discriminate | exact Hx]).
  - apply (excl_leave c (mark_lastRun c) pcs i E); [reflexivity | exact Hx].
Qed.

Lemma excl_reachable init s : excl init -> sys_reachable init s -> excl s.
Proof.
  intros Hi Hr. induction Hr as [|s s' _ IH Hstep]; [exact Hi|].
  destruct Hstep. apply excl_schedule_task, IH.
Qed.

Lemma excl_start c pcs :
  ctl_mutex c = Mutex.free -> (forall i, ~ guarded pcs i) -> excl (mkSystem c pcs).
Proof. intros Hm Hn. unfold excl. cbn [sys_ctl sys_pcs]. rewrite Hm. split; [reflexivity | exact Hn]. Qed.

Lemma run_snoc order i s : run (order ++ [i]) s = schedule_task i (run order s).
Proof. unfold run. apply fold_left_app. Qed.

Lemma run_reachable init order : sys_reachable init (run order init).
Proof.
  induction order as [|i order IH] using rev_ind; [constructor|].
  rewrite run_snoc. revert IH. generalize (run order init). intros s IH.
  destruct (lt_dec i (length (sys_pcs s))) as [Hlt|Hge].
  - apply (sys_reach_step init s); [exact IH | constructor; exact Hlt].
  - unfold schedule_task. rewrite (proj2 (lookup_ge_None (sys_pcs s) i)) by lia. exact IH.
Qed.

(** *** Two adds at once *)

(** Both tasks pass the capacity test and decide their id before either
    stores its schedule. *)
Definition interleaved : list nat := [0; 1; 0; 1; 0; 1; 0; 1]%nat.

Lemma interleaved_adds c (s1 s2 : Schedule) :
  Z.of_nat (length (ctl_schedules c)) < MAX_SCHEDULES ->
  let s' := run interleaved (mkSystem c [Add_called s1; Add_called s2]) in
  sys_pcs s' = [Returned OK; Returned OK]
  /\ ctl_schedules (sys_ctl s') = ctl_schedules c ++ [stored c s1; stored c s2].
Proof.
  intros Hlt. apply Z.ltb_lt in Hlt. cbv zeta. unfold interleaved, run.
  cbn [fold_left]. unfold schedule_task.
  repeat (cbn [sys_pcs sys_ctl lookup list_lookup insert list_insert task_step add_step mark_step
               set_schedules ctl_schedules]; rewrite ?Hlt).
  split; [reflexivity|]. rewrite !planned_schedules. cbn [ctl_schedules set_schedules].
  rewrite <- app_assoc. reflexivity.
Qed.

Lemma twice_not_unique l (a b : Schedule) :
  sched_id a = sched_id b -> ~ unique_ids (l ++ [a; b]).
Proof.
  unfold unique_ids. rewrite map_app. cbn [map]. intros -> Hnd.
  apply NoDup_app_remove_l, NoDup_cons_iff in Hnd. apply (proj1 Hnd). left. reflexivity.
Qed.

(** *** A vacation written while it is read *)

Lemma vacation_alone_run i c pcs enabled start end_ :
  pcs !! i = Some (Vac_called enabled start end_) ->
  sys_ctl (run [i; i; i] (mkSystem c pcs)) = setVacationMode c enabled start end_.
Proof.
  intros E. rewrite (run_cons i _ c pcs _ E). cbn [task_step vac_step fst snd].
  do 2 (rewrite (run_again i _ _ pcs _ _ E); cbn [task_step vac_step fst snd]).
  destruct c. reflexivity.
Qed.

(** The writer's first step, then the reader, then the rest of the
    writer. *)
Definition read_in_between : list nat := [0; 1; 0; 0]%nat.

Lemma read_in_between_run c enabled start end_ :
  let v := ctl_vacationMode c in
  let torn := set_vacationMode c
                (mkVacationMode enabled (vac_startDate v) (vac_endDate v)
                   (vac_runPumpExercise v)) in
  run read_in_between (mkSystem c [Vac_called enabled start end_; Ask_vacation])
  = mkSystem (setVacationMode c enabled start end_)
             [Returned OK; Answered (isVacationMode 1%nat torn)].
Proof. destruct c. reflexivity. Qed.

(** The two adds, alone and in turn, as [addSchedule] makes them. *)
Theorem add_alone i c pcs schedule :
  pcs !! i = Some (Add_called schedule) ->
  run [i; i; i; i] (mkSystem c pcs)
  = mkSystem (snd (addSchedule i c schedule))
             (<[i := Returned (fst (addSchedule i c schedule))]> pcs).
Proof. apply add_alone_run. Qed.

(** A guarded call, alone, is [markPumpExerciseComplete], and the lock is
    as it was. *)
Theorem mark_alone i c pcs :
  Mutex.ok (ctl_mutex c) -> pcs !! i = Some Mark_called ->
  sys_ctl (run [i; i] (mkSystem c pcs)) = markPumpExerciseComplete i c.
Proof. apply mark_alone_run. Qed.

(** C14: mutual exclusion.  From a start with a free lock and no task
    inside the guarded block, however the tasks are scheduled and whatever
    they call (guarded or not): two tasks that are inside the guarded
    block of [markPumpExerciseComplete] are one task, that task holds the
    lock, and it holds it once. *)
Theorem mutual_exclusion init s i j :
  ctl_mutex (sys_ctl init) = Mutex.free -> (forall k, ~ guarded (sys_pcs init) k) ->
  sys_reachable init s ->
  guarded (sys_pcs s) i -> guarded (sys_pcs s) j ->
  i = j /\ ctl_mutex (sys_ctl s) = Mutex.mk (Some i) 1.
Proof.
  intros Hm Hn Hr Hi Hj.
  assert (Hx : excl s).
  { apply (excl_reachable init); [|exact Hr]. destruct init. apply excl_start; assumption. }
  unfold excl in Hx. destruct (ctl_mutex (sys_ctl s)) as [[h|] d]; cbn [Mutex.holder Mutex.depth] in Hx.
  - destruct Hx as (-> & _ & Hone). rewrite (Hone i Hi), (Hone j Hj). auto.
  - destruct (proj2 Hx i Hi).
Qed.

(** C15: two tasks adding at once.  [addSchedule] takes no lock.  When two
    tasks call it on a set with room, each with a schedule of id 0, and
    each is preempted after the capacity test and after the choice of the
    id, both calls return [true] and both schedules are stored with the
    same id, the one [getNextFreeScheduleId] gives on the set as it was:
    the ids of the set are no longer pairwise different. *)
Theorem concurrent_adds_share_an_id c (s1 s2 : Schedule) :
  Z.of_nat (length (ctl_schedules c)) < MAX_SCHEDULES ->
  sched_id s1 = 0 -> sched_id s2 = 0 ->
  let s' := run interleaved (mkSystem c [Add_called s1; Add_called s2]) in
  let id := getNextFreeScheduleId c in
  sys_pcs s' = [Returned OK; Returned OK]
  /\ ctl_schedules (sys_ctl s') = ctl_schedules c ++ [set_id s1 id; set_id s2 id]
  /\ ~ unique_ids (ctl_schedules (sys_ctl s')).
Proof.
  intros Hlt H1 H2. destruct (interleaved_adds c s1 s2 Hlt) as (Hp & Hs). cbv zeta.
  unfold stored in Hs. rewrite H1, H2 in Hs. cbn [Z.eqb] in Hs.
  split; [exact Hp|]. split; [exact Hs|]. rewrite Hs. apply twice_not_unique. reflexivity.
Qed.

(** [setVacationMode] alone is its three assignments. *)
Theorem vacation_alone i c pcs enabled start end_ :
  pcs !! i = Some (Vac_called enabled start end_) ->
  sys_ctl (run [i; i; i] (mkSystem c pcs)) = setVacationMode c enabled start end_.
Proof. apply vacation_alone_run. Qed.

(** C16: a vacation read while it is written.  [setVacationMode] takes no
    lock.  On a ready object without vacation whose old range covers the
    clock's time, a task enables a vacation for a range that does not
    cover it; a reader scheduled after the writer's first assignment is
    told that vacation holds, which is true neither before the call nor
    after it. *)
Theorem vacation_read_torn c start end_ :
  ready 1%nat c -> vac_enabled (ctl_vacationMode c) = false ->
  in_vacation_range (ctl_vacationMode c) (rtc_now (ctl_rtc c)) = true ->
  dt_geb (rtc_now (ctl_rtc c)) start && dt_leb (rtc_now (ctl_rtc c)) end_ = false ->
  let s' := run read_in_between (mkSystem c [Vac_called true start end_; Ask_vacation]) in
  sys_pcs s' = [Returned OK; Answered true]
  /\ isVacationMode 1%nat c = false
  /\ isVacationMode 1%nat (sys_ctl s') = false.
Proof.
  intros [Hi Hl] Hoff Hold Hnew. cbv zeta. rewrite read_in_between_run. cbn [sys_pcs sys_ctl].
  rewrite !isVacationMode_eq. unfold hasLock, in_vacation_range, setVacationMode in *.
  cbn [ctl_vacationMode ctl_initialized ctl_mutex ctl_rtc set_vacationMode vac_enabled
       vac_startDate vac_endDate].
  rewrite Hi, Hl, Hoff, Hold, Hnew. auto.
Qed.

(** With one place left, the same two calls both succeed and the set holds
    one schedule more than [MAX_SCHEDULES]. *)
Theorem concurrent_adds_exceed_capacity c (s1 s2 : Schedule) :
  Z.of_nat (length (ctl_schedules c)) = MAX_SCHEDULES - 1 ->
  let s' := run interleaved (mkSystem c [Add_called s1; Add_called s2]) in
  sys_pcs s' = [Returned OK; Returned OK]
  /\ Z.of_nat (length (ctl_schedules (sys_ctl s'))) = MAX_SCHEDULES + 1.
Proof.
  intros Hlen. destruct (interleaved_adds c s1 s2 ltac:(lia)) as (Hp & Hs). cbv zeta.
  split; [exact Hp|]. rewrite Hs, length_app. cbn [length]. lia.
Qed.

End TasksTheory.

Lemma mutual_exclusion_witness :
  let s := run [1; 0]%nat (mkSystem (sample []) [Mark_called; Mark_called]) in
  ctl_mutex (sys_ctl s) = Mutex.mk (Some 1%nat) 1.
Proof.
  cbv zeta.
  refine (proj2 (mutual_exclusion (mkSystem (sample []) [Mark_called; Mark_called]) _ 1%nat 1%nat
                   eq_refl _ (run_reachable _ _) _ _)).
  - intros [|[|k]]; discriminate.
  - vm_compute. reflexivity.
  - vm_compute. reflexivity.
Defined.

Lemma concurrent_adds_share_an_id_witness :
  map sched_id (ctl_schedules (sys_ctl
    (run interleaved (mkSystem (sample [weekday_morning])
                        [Add_called (set_id weekday_morning 0);
                         Add_called (set_id night_owl 0)]))))
  = [1; 2; 2].
Proof.
  pose proof (concurrent_adds_share_an_id (sample [weekday_morning])
                (set_id weekday_morning 0) (set_id night_owl 0)) as P.
  cbv zeta in P. destruct P as (_ & -> & _); [vm_compute; reflexivity | reflexivity ..|].
  vm_compute. reflexivity.
Defined.

(** ** Every call returns *)

Section Progress.

Context {D : Type} `{RtcDevice D}.

Implicit Types (c : Controller D) (i j : nat) (pcs : list Pc) (s : System D).

Lemma at_rest_remaining pc : at_rest pc = true <-> remaining pc = 0%nat.
Proof. destruct pc; cbn; split; congruence. Qed.

(** A step of a call in progress brings it nearer to its return; a task
    at rest stays at rest. *)
Lemma task_step_progress i pc c :
  (remaining (fst (task_step i pc c)) <= pred (remaining pc))%nat.
Proof.
  destruct pc; cbn [task_step add_step mark_step vac_step ask_step];
    repeat match goal with
           | |- context [if ?b then _ else _] => destruct b
           | |- context [match ?o with Some _ => _ | None => _ end] => destruct o
           end; cbn; lia.
Qed.

Lemma schedule_task_progress i j s pc :
  sys_pcs s !! j = Some pc ->
  exists pc', sys_pcs (schedule_task i s) !! j = Some pc'
    /\ (remaining pc' <= remaining pc - (if decide (i = j) then 1 else 0))%nat.
Proof.
  destruct s as [c pcs]. cbn [sys_pcs]. intros Ej.
  destruct (pcs !! i) as [pci|] eqn:Ei.
  - rewrite (schedule_task_at i c pcs pci Ei). cbn [sys_pcs].
    destruct (decide (i = j)) as [->|Hne].
    + rewrite Ej in Ei. injection Ei as <-. eexists. split; [apply (lookup_updated _ _ pc), Ej|].
      pose proof (task_step_progress j pc c). lia.
    + exists pc. rewrite list_lookup_insert_ne by exact Hne. split; [exact Ej | lia].
  - unfold schedule_task. cbn [sys_pcs]. rewrite Ei. exists pc. split; [exact Ej | ].
    destruct (decide (i = j)) as [->|]; [congruence | lia].
Qed.

Lemma run_progress order : forall s j pc,
  sys_pcs s !! j = Some pc ->
  exists pc', sys_pcs (run order s) !! j = Some pc'
    /\ (remaining pc' <= remaining pc - count_occ Nat.eq_dec order j)%nat.
Proof.
  induction order as [|i order IH]; intros s j pc Ej; [exists pc; split; [exact Ej | cbn; lia]|].
  destruct (schedule_task_progress i j s pc Ej) as (pc1 & E1 & H1).
  destruct (IH (schedule_task i s) j pc1 E1) as (pc2 & E2 & H2).
  exists pc2. split; [exact E2|]. cbn [count_occ].
  destruct (Nat.eq_dec i j), (decide (i = j)); try contradiction; lia.
Qed.

(** When every task is at rest nobody is inside the guard. *)
Lemma excl_at_rest s :
  excl s -> Forall (fun pc => at_rest pc = true) (sys_pcs s) ->
  ctl_mutex (sys_ctl s) = Mutex.free.
Proof.
  unfold excl. intros Hx Hall. destruct (ctl_mutex (sys_ctl s)) as [[h|] d];
    cbn [Mutex.holder Mutex.depth] in Hx.
  - destruct Hx as (_ & Hg & _). unfold guarded in Hg.
    apply (proj1 (Forall_lookup _ _) Hall h) in Hg. discriminate.
  - destruct Hx as (-> & _). reflexivity.
Qed.

Lemma run_length order s : length (sys_pcs (run order s)) = length (sys_pcs s).
Proof.
  revert s. induction order as [|i order IH]; intros s; [reflexivity|].
  change (run (i :: order) s) with (run order (schedule_task i s)). rewrite IH.
  unfold schedule_task. destruct (sys_pcs s !! i); [|reflexivity].
  destruct (task_step _ _ _). cbn [sys_pcs]. apply length_insert.
Qed.


(** The lock is given back.  From a start with the lock free, under
    any schedule that gives every task four steps, all calls have
    returned and the lock is free again. *)
Theorem lock_is_released order init :
  ctl_mutex (sys_ctl init) = Mutex.free -> (forall k, ~ guarded (sys_pcs init) k) ->
  (forall i, (i < length (sys_pcs init))%nat -> (4 <= count_occ Nat.eq_dec order i)%nat) ->
  Forall (fun pc => at_rest pc = true) (sys_pcs (run order init))
  /\ ctl_mutex (sys_ctl (run order init)) = Mutex.free.
Proof.
  intros Hm Hn Hfair.
  assert (Hall : Forall (fun pc => at_rest pc = true) (sys_pcs (run order init))).
  { apply Forall_lookup. intros i pc' E'.
    assert (Hi : (i < length (sys_pcs init))%nat)
      by (rewrite <- (run_length order); apply (lookup_lt_Some _ _ _ E')).
    destruct (lookup_lt_is_Some_2 _ _ Hi) as (pc & Ei).
    destruct (run_progress order init i pc Ei) as (pc1 & E1 & Hr).
    rewrite E1 in E'. injection E' as <-. apply at_rest_remaining.
    specialize (Hfair i Hi). destruct pc; cbn [remaining] in Hr; lia. }
  split; [exact Hall|]. apply excl_at_rest; [|exact Hall].
  apply (excl_reachable init); [destruct init; apply excl_start; assumption|].
  apply run_reachable.
Qed.

End Progress.


Lemma lock_is_released_witness :
  let s := run [0; 1; 0; 1; 1; 0; 1; 0]%nat (mkSystem (sample []) [Mark_called; Mark_called]) in
  Forall (fun pc => at_rest pc = true) (sys_pcs s) /\ ctl_mutex (sys_ctl s) = Mutex.free.
Proof.
  apply (lock_is_released [0; 1; 0; 1; 1; 0; 1; 0]%nat
           (mkSystem (sample []) [Mark_called; Mark_called]));
    [reflexivity | intros [|[|k]]; discriminate |].
  intros [|[|i]] Hi; cbn in Hi; [vm_compute; lia | vm_compute; lia | lia].
Defined.

Lemma vacation_read_torn_witness :
  let c := setVacationMode (sample []) false (DateTime_of_fields 2024 1 1 0 0 0)
             (DateTime_of_fields 2024 1 31 0 0 0) in
  let s' := run read_in_between
              (mkSystem c [Vac_called true (DateTime_of_fields 2024 7 1 0 0 0)
                                      (DateTime_of_fields 2024 7 14 0 0 0);
                           Ask_vacation]) in
  sys_pcs s' = [Returned OK; Answered true]
  /\ isVacationMode 1%nat c = false
  /\ isVacationMode 1%nat (sys_ctl s') = false.
Proof.
  apply (vacation_read_torn
           (setVacationMode (sample []) false (DateTime_of_fields 2024 1 1 0 0 0)
              (DateTime_of_fields 2024 1 31 0 0 0))
           (DateTime_of_fields 2024 7 1 0 0 0) (DateTime_of_fields 2024 7 14 0 0 0));
    [split; reflexivity | reflexivity | vm_compute; reflexivity | vm_compute; reflexivity].
Defined.
