(* ===== verification/UnitTests.v ===== *)
(** * The unit tests

    The test program [test_ds3231controller.cpp], run on the model.  A
    test is the list of the results of its assertions, in order; Unity
    ends a test at the first assertion that fails, so a test passes when
    all of them hold.  [RUN_TEST] counts the test and its failure in the
    record [Unity], and [runAllTests] runs the twenty-five tests in the
    order of the runner.

    The tests declare their structs without initialising them and then
    assign some fields.  The struct as the memory holds it is an argument
    of the test here, so what is proved of a test holds whatever the
    fields it does not assign contain.

    The theorem: every test passes, for every content of the
    uninitialised memory.  The tests exercise [isDayEnabled], [setDay],
    [dayOfWeekStr], [dayOfWeekFromStr] and [formatDayMask]; none of them
    constructs a controller. *)

From Stdlib Require Import Floats.SpecFloat.
From stdpp Require Import strings.
From S2P Require Import Prelude DateTime Schedule DayNames Temperature.

(** ** Unity *)

(** The counters of [struct UNITY_STORAGE_T] the program reads. *)
Record Unity : Type := mkUnity {
  NumberOfTests : nat;
  TestFailures : nat
}.

#[export] Instance Unity_eq_dec : EqDecision Unity.
Proof. solve_decision. Defined.

(** The assertions of a test, in the order they are made. *)
Definition Test : Type := list bool.

Definition passes (t : Test) : bool := forallb id t.

Definition UNITY_BEGIN : Unity := mkUnity 0 0.

Definition RUN_TEST (u : Unity) (t : Test) : Unity :=
  mkUnity (S (NumberOfTests u))
          (if passes t then TestFailures u else S (TestFailures u)).

Definition UNITY_END (u : Unity) : nat := TestFailures u.

(** *** Assertions *)

Definition TEST_ASSERT_TRUE (condition : bool) : bool := condition.
Definition TEST_ASSERT_FALSE (condition : bool) : bool := negb condition.
Definition TEST_ASSERT_EQUAL_UINT8 (expected actual : Z) : bool := u8 expected =? u8 actual.
Definition TEST_ASSERT_EQUAL_UINT16 (expected actual : Z) : bool := u16 expected =? u16 actual.
Definition TEST_ASSERT_EQUAL_STRING (expected actual : string) : bool :=
  String.eqb expected actual.
Definition TEST_ASSERT_LESS_THAN (threshold actual : Z) : bool := actual <? threshold.
Definition TEST_ASSERT_LESS_OR_EQUAL (threshold actual : Z) : bool := actual <=? threshold.

(** [TEST_ASSERT_FLOAT_WITHIN(delta, expected, actual)]: the difference,
    computed in [float], is a number and not above [delta]. *)
Definition TEST_ASSERT_FLOAT_WITHIN (delta expected actual : float32) : bool :=
  match SFabs (SFsub 24 128 actual expected) with
  | S754_nan | S754_infinity _ => false
  | diff => negb (SFltb (SFabs delta) diff)
  end.

(** ** What the tests use of the target *)

(** A decimal constant [num / den] of type [float]. *)
Definition f32_decimal (num den : Z) : float32 := SFdiv 24 128 (f32 num 0) (f32 den 0).

(** [String::indexOf(str)]: the first position of [str], or -1. *)
Definition indexOf (s str : string) : Z :=
  match String.index 0 str s with
  | Some n => Z.of_nat n
  | None => -1
  end.

(** ** Schedule structure tests *)

Definition test_schedule_default_values (sched : Schedule) : Test :=
  let sched := mkSchedule 0 0 8 0 9 0 true "Test" in
  [TEST_ASSERT_EQUAL_UINT8 0 (sched_id sched);
   TEST_ASSERT_EQUAL_UINT8 0 (sched_dayMask sched);
   TEST_ASSERT_TRUE (sched_enabled sched)].

Definition test_schedule_day_enabled_check (sched : Schedule) : Test :=
  let sched := set_dayMask sched 97 in
  [TEST_ASSERT_TRUE (isDayEnabled sched 0);
   TEST_ASSERT_FALSE (isDayEnabled sched 1);
   TEST_ASSERT_FALSE (isDayEnabled sched 2);
   TEST_ASSERT_FALSE (isDayEnabled sched 3);
   TEST_ASSERT_FALSE (isDayEnabled sched 4);
   TEST_ASSERT_TRUE (isDayEnabled sched 5);
   TEST_ASSERT_TRUE (isDayEnabled sched 6)].

Definition test_schedule_set_day_enable (sched : Schedule) : Test :=
  let sched0 := set_dayMask sched 0 in
  let sched1 := setDay sched0 1 true in
  let sched2 := setDay sched1 3 true in
  let sched3 := setDay sched2 1 false in
  [TEST_ASSERT_EQUAL_UINT8 2 (sched_dayMask sched1);
   TEST_ASSERT_TRUE (isDayEnabled sched1 1);
   TEST_ASSERT_EQUAL_UINT8 10 (sched_dayMask sched2);
   TEST_ASSERT_TRUE (isDayEnabled sched2 3);
   TEST_ASSERT_EQUAL_UINT8 8 (sched_dayMask sched3);
   TEST_ASSERT_FALSE (isDayEnabled sched3 1)].

Definition test_schedule_set_all_weekdays (sched : Schedule) : Test :=
  let sched := fold_left (fun sched d => setDay sched d true) [1; 2; 3; 4; 5]
                         (set_dayMask sched 0) in
  [TEST_ASSERT_EQUAL_UINT8 62 (sched_dayMask sched);
   TEST_ASSERT_FALSE (isDayEnabled sched 0);
   TEST_ASSERT_TRUE (isDayEnabled sched 1);
   TEST_ASSERT_TRUE (isDayEnabled sched 2);
   TEST_ASSERT_TRUE (isDayEnabled sched 3);
   TEST_ASSERT_TRUE (isDayEnabled sched 4);
   TEST_ASSERT_TRUE (isDayEnabled sched 5);
   TEST_ASSERT_FALSE (isDayEnabled sched 6)].

Definition test_schedule_set_weekend (sched : Schedule) : Test :=
  let sched := setDay (setDay (set_dayMask sched 0) 0 true) 6 true in
  [TEST_ASSERT_EQUAL_UINT8 65 (sched_dayMask sched)].

(** ** Other structure tests *)

Definition test_pump_exercise_structure (pump : PumpExercise) : Test :=
  let pump := mkPumpExercise true 15 3 30 600 (pump_lastRun pump) in
  [TEST_ASSERT_TRUE (pump_enabled pump);
   TEST_ASSERT_EQUAL_UINT8 15 (pump_dayOfMonth pump);
   TEST_ASSERT_EQUAL_UINT8 3 (pump_hour pump);
   TEST_ASSERT_EQUAL_UINT8 30 (pump_minute pump);
   TEST_ASSERT_EQUAL_UINT16 600 (pump_durationSeconds pump)].

Definition test_vacation_mode_structure (vacation : VacationMode) : Test :=
  let vacation := mkVacationMode true (vac_startDate vacation) (vac_endDate vacation) true in
  [TEST_ASSERT_TRUE (vac_enabled vacation);
   TEST_ASSERT_TRUE (vac_runPumpExercise vacation)].

Definition test_temperature_data_structure (temp : TemperatureData) : Test :=
  let temp := mkTemperatureData (f32 51 (-1)) (f32_decimal 779 10) (timestamp temp) in
  [TEST_ASSERT_FLOAT_WITHIN (f32_decimal 1 10) (f32 51 (-1)) (celsius temp);
   TEST_ASSERT_FLOAT_WITHIN (f32_decimal 1 10) (f32_decimal 779 10) (fahrenheit temp)].

(** [(celsius * 9.0f / 5.0f) + 32.0f]: all in [float], unlike the
    conversion of [getTemperature]. *)
Definition test_temperature_conversion : Test :=
  let celsius := f32 25 0 in
  let expectedFahrenheit :=
    SFadd 24 128 (SFdiv 24 128 (SFmul 24 128 celsius (f32 9 0)) (f32 5 0)) (f32 32 0) in
  [TEST_ASSERT_FLOAT_WITHIN (f32_decimal 1 10) (f32 77 0) expectedFahrenheit].

(** ** Static utility tests *)

Definition test_day_of_week_str_sunday : Test :=
  [TEST_ASSERT_EQUAL_STRING "Sun" (dayOfWeekStr 0)].

Definition test_day_of_week_str_all_days : Test :=
  let expected := ["Sun"; "Mon"; "Tue"; "Wed"; "Thu"; "Fri"; "Sat"] in
  map (fun i => TEST_ASSERT_EQUAL_STRING (nth i expected "") (dayOfWeekStr (Z.of_nat i)))
      (seq 0 7).

Definition test_day_of_week_str_invalid : Test :=
  [TEST_ASSERT_EQUAL_STRING "???" (dayOfWeekStr 7)].

Definition test_day_of_week_from_str : Test :=
  [TEST_ASSERT_EQUAL_UINT8 0 (dayOfWeekFromStr "Sun");
   TEST_ASSERT_EQUAL_UINT8 1 (dayOfWeekFromStr "Mon");
   TEST_ASSERT_EQUAL_UINT8 2 (dayOfWeekFromStr "Tue");
   TEST_ASSERT_EQUAL_UINT8 3 (dayOfWeekFromStr "Wed");
   TEST_ASSERT_EQUAL_UINT8 4 (dayOfWeekFromStr "Thu");
   TEST_ASSERT_EQUAL_UINT8 5 (dayOfWeekFromStr "Fri");
   TEST_ASSERT_EQUAL_UINT8 6 (dayOfWeekFromStr "Sat")].

Definition test_day_of_week_from_str_invalid : Test :=
  [TEST_ASSERT_EQUAL_UINT8 255 (dayOfWeekFromStr "Invalid")].

Definition test_day_of_week_from_str_long_names : Test :=
  [TEST_ASSERT_EQUAL_UINT8 0 (dayOfWeekFromStr "Sunday");
   TEST_ASSERT_EQUAL_UINT8 1 (dayOfWeekFromStr "Monday");
   TEST_ASSERT_EQUAL_UINT8 2 (dayOfWeekFromStr "Tuesday");
   TEST_ASSERT_EQUAL_UINT8 3 (dayOfWeekFromStr "Wednesday");
   TEST_ASSERT_EQUAL_UINT8 4 (dayOfWeekFromStr "Thursday");
   TEST_ASSERT_EQUAL_UINT8 5 (dayOfWeekFromStr "Friday");
   TEST_ASSERT_EQUAL_UINT8 6 (dayOfWeekFromStr "Saturday")].

Definition test_format_day_mask_empty : Test :=
  [TEST_ASSERT_EQUAL_STRING "None" (formatDayMask 0)].

Definition test_format_day_mask_weekdays : Test :=
  let result := formatDayMask 62 in
  [TEST_ASSERT_TRUE (0 <=? indexOf result "Mo");
   TEST_ASSERT_TRUE (0 <=? indexOf result "Fr");
   TEST_ASSERT_TRUE (indexOf result "Su" <? 0);
   TEST_ASSERT_TRUE (indexOf result "Sa" <? 0)].

Definition test_format_day_mask_all_days : Test :=
  let result := formatDayMask 127 in
  [TEST_ASSERT_TRUE (0 <=? indexOf result "Su");
   TEST_ASSERT_TRUE (0 <=? indexOf result "Sa")].

(** ** Constants and validation tests *)

(** [TEST_PASS()]: the test ends, passed. *)
Definition test_max_schedules_reasonable : Test := [].

Definition test_schedule_time_range_validity (sched : Schedule) : Test :=
  let sched := mkSchedule (sched_id sched) (sched_dayMask sched) 23 (sched_startMinute sched)
                          0 (sched_endMinute sched) (sched_enabled sched) (sched_name sched) in
  [TEST_ASSERT_LESS_OR_EQUAL 23 (sched_startHour sched);
   TEST_ASSERT_LESS_OR_EQUAL 23 (sched_endHour sched)].

Definition test_schedule_minute_range_validity (sched : Schedule) : Test :=
  let sched := mkSchedule (sched_id sched) (sched_dayMask sched) (sched_startHour sched) 59
                          (sched_endHour sched) 0 (sched_enabled sched) (sched_name sched) in
  [TEST_ASSERT_LESS_OR_EQUAL 59 (sched_startMinute sched);
   TEST_ASSERT_LESS_OR_EQUAL 59 (sched_endMinute sched)].

(** ** Day mask edge cases *)

Definition test_day_mask_all_bits (sched : Schedule) : Test :=
  let sched := set_dayMask sched 127 in
  map (fun d => TEST_ASSERT_TRUE (isDayEnabled sched (Z.of_nat d))) (seq 0 7).

Definition test_day_mask_no_bits (sched : Schedule) : Test :=
  let sched := set_dayMask sched 0 in
  map (fun d => TEST_ASSERT_FALSE (isDayEnabled sched (Z.of_nat d))) (seq 0 7).

Definition test_day_mask_toggle (sched : Schedule) : Test :=
  let sched0 := setDay (set_dayMask sched 1) 0 false in
  let sched1 := setDay sched0 0 true in
  [TEST_ASSERT_FALSE (isDayEnabled sched0 0);
   TEST_ASSERT_TRUE (isDayEnabled sched1 0)].

Definition test_schedule_can_span_midnight (sched : Schedule) : Test :=
  let sched := mkSchedule (sched_id sched) (sched_dayMask sched) 23 0 1 0
                          (sched_enabled sched) (sched_name sched) in
  [TEST_ASSERT_LESS_THAN (sched_startHour sched) (sched_endHour sched)].

(** ** Test runner *)

(** The uninitialised memory of a run: what the local [Schedule] of the
    test with the given number holds, and the other three structs. *)
Record Memory : Type := mkMemory {
  mem_sched : nat -> Schedule;
  mem_pump : PumpExercise;
  mem_vacation : VacationMode;
  mem_temp : TemperatureData
}.

(** The tests in the order of [runAllTests]. *)
Definition all_tests (m : Memory) : list Test :=
  [test_schedule_default_values (mem_sched m 0);
   test_schedule_day_enabled_check (mem_sched m 1);
   test_schedule_set_day_enable (mem_sched m 2);
   test_schedule_set_all_weekdays (mem_sched m 3);
   test_schedule_set_weekend (mem_sched m 4);
   test_pump_exercise_structure (mem_pump m);
   test_vacation_mode_structure (mem_vacation m);
   test_temperature_data_structure (mem_temp m);
   test_temperature_conversion;
   test_day_of_week_str_sunday;
   test_day_of_week_str_all_days;
   test_day_of_week_str_invalid;
   test_day_of_week_from_str;
   test_day_of_week_from_str_invalid;
   test_day_of_week_from_str_long_names;
   test_format_day_mask_empty;
   test_format_day_mask_weekdays;
   test_format_day_mask_all_days;
   test_max_schedules_reasonable;
   test_schedule_time_range_validity (mem_sched m 19);
   test_schedule_minute_range_validity (mem_sched m 20);
   test_day_mask_all_bits (mem_sched m 21);
   test_day_mask_no_bits (mem_sched m 22);
   test_day_mask_toggle (mem_sched m 23);
   test_schedule_can_span_midnight (mem_sched m 24)].

(** [runAllTests()]: [UNITY_BEGIN], the tests, [UNITY_END]. *)
Definition runAllTests (m : Memory) : Unity := fold_left RUN_TEST (all_tests m) UNITY_BEGIN.

(** [main()] without [ARDUINO]: it runs the tests and returns 0, not
    the number of failures. *)
Definition main (m : Memory) : Z := let _ := UNITY_END (runAllTests m) in 0.

(** ** Theory *)

(** A run counts every test, and fails as many as do not pass. *)
Lemma run_tests_count (l : list Test) (u : Unity) :
  fold_left RUN_TEST l u
  = mkUnity (NumberOfTests u + length l)
            (TestFailures u + length (List.filter (fun t => negb (passes t)) l)).
Proof.
  revert u. induction l as [|t l IH]; intros [n f]; simpl.
  - f_equal; lia.
  - rewrite IH. unfold RUN_TEST. simpl. destruct (passes t); simpl; f_equal; lia.
Qed.

(** Every test passes, whatever the uninitialised fields hold. *)
Lemma all_tests_pass m : forallb passes (all_tests m) = true.
Proof. destruct m as [sched pump vacation temp]. vm_compute. reflexivity. Qed.

Lemma none_fails (l : list Test) :
  forallb passes l = true -> List.filter (fun t => negb (passes t)) l = [].
Proof.
  induction l as [|t l IH]; simpl; [reflexivity|].
  intros [Ht Hl]%andb_true_iff. rewrite Ht. exact (IH Hl).
Qed.

(** The unit tests.  Run on the model, whatever the uninitialised
    fields of the structs the tests declare hold, [runAllTests] counts
    twenty-five tests and no failure: the model of [isDayEnabled],
    [setDay], [dayOfWeekStr], [dayOfWeekFromStr] and [formatDayMask]
    answers every assertion of the test program as the test expects. *)
Theorem runAllTests_passes m : runAllTests m = mkUnity 25 0.
Proof.
  unfold runAllTests. rewrite run_tests_count, (none_fails _ (all_tests_pass m)).
  reflexivity.
Qed.

(** [getTemperature] converts in [double] and rounds to [float]; the
    test converts in [float].  On every reading of the chip the two give
    the same [float]. *)
Theorem to_fahrenheit_single_precision quarters :
  0 <= quarters < 1024 ->
  to_fahrenheit (reading quarters)
  = SFadd 24 128 (SFdiv 24 128 (SFmul 24 128 (reading quarters) (f32 9 0)) (f32 5 0))
          (f32 32 0).
Proof.
  apply (forall_below
           (fun q => to_fahrenheit (reading q)
                     = SFadd 24 128 (SFdiv 24 128 (SFmul 24 128 (reading q) (f32 9 0)) (f32 5 0))
                             (f32 32 0)) 1024).
  by_compute.
Qed.
